(** * PacMan: entity movement, ghost state machine, pellets and game mode

    A shallow embedding of the simulation core of the game (maze.cpp,
    entities.cpp, game.cpp) together with the properties of its
    specification.

    Conventions of the embedding:
    - a C++ [double] is an IEEE binary64 value, Rocq's primitive [float];
      every arithmetic operation and comparison of the source is the
      corresponding primitive operation, so the definitions compute exactly
      what the program computes;
    - a C++ [int] is a [Z]; the source never relies on overflow (which is
      undefined for signed integers), and the counters and cell indices
      stay far below 2^31.  The one [int] without a bound is the score of
      endless mode: the model holds the sum of the points, the machine
      holds that sum wrapped to 32 bits ([TickSpec.as_int]), and the
      property on the score of a whole tick is stated for that value;
    - an object is a record, a method is a function taking the object and
      returning its new value; audio and display calls are recorded in an
      event trace. *)

From Stdlib Require Import ZArith List Bool Lia Floats String.
From Stdlib Require Import Sorted.
Import ListNotations.

Set Warnings "-inexact-float".

Local Open Scope Z_scope.

(* ================================================================== *)
(** ** C++ [double] operations that are not primitive                  *)
(* ================================================================== *)

Module Double.

Local Open Scope float_scope.

Definition INT_MIN : Z := (-2147483648)%Z.
Definition INT_MAX : Z := 2147483647%Z.

(** [static_cast<int>(d)]: truncation toward zero.  For a NaN, an
    infinity or a value outside the range of [int] the conversion is
    undefined in C++; the model returns what the x86-64 conversion
    instruction returns there, [INT_MIN]. *)
Definition static_cast_int (d : float) : Z :=
  match Prim2SF d with
  | S754_zero _ => 0%Z
  | S754_finite s m e =>
      let mag := match e with
                 | Z0 => Zpos m
                 | Zpos p => Z.shiftl (Zpos m) (Zpos p)
                 | Zneg p => Z.shiftr (Zpos m) (Zpos p)
                 end in
      let v := if s then Z.opp mag else mag in
      if (Z.leb INT_MIN v && Z.leb v INT_MAX)%bool then v else INT_MIN
  | S754_infinity _ | S754_nan => INT_MIN
  end.

(** Conversion of an [int] to [double] (exact: |z| < 2^31). *)
Definition of_int (z : Z) : float :=
  if Z.ltb z 0 then - of_uint63 (Uint63.of_Z (Z.opp z))
  else of_uint63 (Uint63.of_Z z).

(** [fabs] and [std::abs] on doubles. *)
Definition fabs (d : float) : float := abs d.

(** [floor(d)] followed by [static_cast<int>]. *)
Definition floor_int (d : float) : Z :=
  match Prim2SF d with
  | S754_zero _ => 0%Z
  | S754_finite s m e =>
      let v := match e with
               | Z0 => if s then Zneg m else Zpos m
               | Zpos p => Z.shiftl (if s then Zneg m else Zpos m) (Zpos p)
               | Zneg p => Z.shiftr (if s then Zneg m else Zpos m) (Zpos p)
               end in
      if (Z.leb INT_MIN v && Z.leb v INT_MAX)%bool then v else INT_MIN
  | S754_infinity _ | S754_nan => INT_MIN
  end.

(** [fmod(x, y)]: the exact remainder of x / y truncated toward zero,
    with the sign of x.  Both operands are m * 2^e; the remainder is
    computed on integers at the smaller exponent and is exactly
    representable. *)
Definition fmod (x y : float) : float :=
  match Prim2SF x, Prim2SF y with
  | S754_nan, _ | _, S754_nan => nan
  | S754_infinity _, _ => nan
  | _, S754_zero _ => nan
  | _, S754_infinity _ => x
  | S754_zero _, _ => x
  | S754_finite sx mx ex, S754_finite _ my ey =>
      let e := Z.min ex ey in
      let X := Z.shiftl (Zpos mx) (ex - e) in
      let Y := Z.shiftl (Zpos my) (ey - e) in
      let R := Z.rem X Y in
      match R with
      | Zpos r => SF2Prim (S754_finite sx r e)
      | _ => if sx then neg_zero else zero
      end
  end.

End Double.

(* ================================================================== *)
(** ** Enumerations (direction.h, entities.h, sound_manager.h, menu.h) *)
(* ================================================================== *)

Inductive direction_t : Type :=
| DIR_NONE | DIR_LEFT | DIR_RIGHT | DIR_UP | DIR_DOWN.

Definition direction_eqb (a b : direction_t) : bool :=
  match a, b with
  | DIR_NONE, DIR_NONE | DIR_LEFT, DIR_LEFT | DIR_RIGHT, DIR_RIGHT
  | DIR_UP, DIR_UP | DIR_DOWN, DIR_DOWN => true
  | _, _ => false
  end.

Inductive GhostState : Type := CHASING | SCARED | CAUGHT | COOLDOWN.

Definition GhostState_eqb (a b : GhostState) : bool :=
  match a, b with
  | CHASING, CHASING | SCARED, SCARED | CAUGHT, CAUGHT | COOLDOWN, COOLDOWN => true
  | _, _ => false
  end.

Inductive GhostAIType : Type := RANDOM_PATROL | AMBUSHER.

Inductive GameMode : Type := STARTING | NORMAL | POWER_MODE | GAME_OVER | VICTORY.

Definition GameMode_eqb (a b : GameMode) : bool :=
  match a, b with
  | STARTING, STARTING | NORMAL, NORMAL | POWER_MODE, POWER_MODE
  | GAME_OVER, GAME_OVER | VICTORY, VICTORY => true
  | _, _ => false
  end.

Inductive MenuState : Type :=
| MAIN_MENU | LEVEL_SELECT | DIFFICULTY | HIGH_SCORES | SETTINGS | NAME_ENTRY | IN_GAME.

Inductive DifficultyLevel : Type := EASY | MEDIUM | HARD | CRAZY.

(** Calls to the external collaborators (audio, display), in program order. *)
Inductive Event : Type :=
| UpdateBackgroundAudio (game_mode : GameMode) (pellet_percentage : float)
| PlayDotCollectionSound
| PlayGhostEatSound
| PlayGhostRetreatSound
| StopAllBackgroundSounds
| PlaySoundEffect (name : string)
| PlayDyingAnimation
| DrawText (text : string)
| RefreshScreen (fps : Z)
| Delay (ms : Z).

(* ================================================================== *)
(** ** Constants (maze.h, game_config.h)                               *)
(* ================================================================== *)

Module MazeConfig.
Definition MAZE_ROWS : Z := 13.
Definition MAZE_COLS : Z := 25.
Definition CELL_SIZE : Z := 40.
Definition SPEED : float := 120.0%float.
Definition PACMAN_RADIUS_OFFSET : Z := 2.
Definition ALIGNMENT_TOLERANCE : float := 4.0%float.
Definition SPRITE_SCALE : float := 1.584%float.
Definition TOKEN_POINTS : Z := 10.
Definition COLLECTION_DISTANCE : float := 15.0%float.
Definition POWER_PELLET_POINTS : Z := 50.
End MazeConfig.

Module GameConfig.
Definition TARGET_FPS : Z := 60.
Definition COLLISION_DISTANCE : float := 20.0%float.
Definition GHOST_CATCH_POINTS : Z := 200.
Definition GAME_OVER_DISPLAY_TIME : Z := 3000.
End GameConfig.

Module SoundConfig.
Definition DIE_SOUND_NAME : string := "die"%string.
End SoundConfig.

(* ================================================================== *)
(** ** Maze (maze.cpp)                                                 *)
(* ================================================================== *)

Module Maze.
Import MazeConfig.

(** [maze_layout_] is a vector of rows; 1 is a wall, 0 an open cell. *)
Record t : Type := mk { maze_layout_ : list (list Z); level_ : Z }.

Definition is_valid_position (m : t) (row col : Z) : bool :=
  (0 <=? row) && (row <? MAZE_ROWS) && (0 <=? col) && (col <? MAZE_COLS).

(** [maze_layout_[row][col]], read only after the bounds test. *)
Definition layout_at (m : t) (row col : Z) : option Z :=
  match nth_error (maze_layout_ m) (Z.to_nat row) with
  | Some r => nth_error r (Z.to_nat col)
  | None => None
  end.

(** [is_valid_position(row, col) && maze_layout_[row][col] == 0]; the
    layout is 13 x 25 by construction (validated on load, or the built-in
    fallback), so the lookup succeeds whenever the bounds test does. *)
Definition is_empty (m : t) (row col : Z) : bool :=
  is_valid_position m row col &&
  match layout_at m row col with
  | Some v => v =? 0
  | None => false
  end.

Definition is_empty_or_tunnel (m : t) (row col : Z) : bool :=
  if (row =? 6) && ((col <? 0) || (col >=? MAZE_COLS)) then true
  else is_empty m row col.

Definition get_cell_center_x (col : Z) : float :=
  (Double.of_int (col * CELL_SIZE) + Double.of_int CELL_SIZE / 2.0)%float.

Definition get_cell_center_y (row : Z) : float :=
  (Double.of_int (row * CELL_SIZE) + Double.of_int CELL_SIZE / 2.0)%float.

Definition can_move_to (m : t) (x y : float) : bool :=
  let radius := (Double.of_int CELL_SIZE / 2.0 - Double.of_int PACMAN_RADIUS_OFFSET)%float in
  let left_col := Double.static_cast_int ((x - radius) / Double.of_int CELL_SIZE)%float in
  let right_col := Double.static_cast_int ((x + radius) / Double.of_int CELL_SIZE)%float in
  let top_row := Double.static_cast_int ((y - radius) / Double.of_int CELL_SIZE)%float in
  let bottom_row := Double.static_cast_int ((y + radius) / Double.of_int CELL_SIZE)%float in
  is_empty_or_tunnel m top_row left_col &&
  is_empty_or_tunnel m top_row right_col &&
  is_empty_or_tunnel m bottom_row left_col &&
  is_empty_or_tunnel m bottom_row right_col.

(** The built-in layout used when a level file cannot be loaded. *)
Definition fallback_layout : list (list Z) :=
  [ [1;1;1;1;1;1;1;1;1;1;1;1;1;1;1;1;1;1;1;1;1;1;1;1;1];
    [1;0;0;0;0;0;0;0;0;0;0;0;1;0;0;0;0;0;0;0;0;0;0;0;1];
    [1;0;1;1;0;1;1;1;0;1;1;0;1;0;1;1;0;1;1;1;0;1;1;0;1];
    [1;0;1;0;0;0;0;0;0;0;1;0;1;0;1;0;0;0;0;0;0;0;1;0;1];
    [1;0;0;0;1;0;1;0;1;0;0;0;1;0;0;0;1;0;1;0;1;0;0;0;1];
    [1;0;1;1;1;0;1;0;1;1;1;0;0;0;1;1;1;0;1;0;1;1;1;0;1];
    [0;0;0;0;0;0;0;0;0;0;0;0;0;0;0;0;0;0;0;0;0;0;0;0;0];
    [1;0;1;1;1;0;1;0;1;1;1;0;0;0;1;1;1;0;1;0;1;1;1;0;1];
    [1;0;0;0;1;0;1;0;1;0;0;0;1;0;0;0;1;0;1;0;1;0;0;0;1];
    [1;0;1;0;0;0;0;0;0;0;1;0;1;0;1;0;0;0;0;0;0;0;1;0;1];
    [1;0;1;1;0;1;1;1;0;1;1;0;1;0;1;1;0;1;1;1;0;1;1;0;1];
    [1;0;0;0;0;0;0;0;0;0;0;0;1;0;0;0;0;0;0;0;0;0;0;0;1];
    [1;1;1;1;1;1;1;1;1;1;1;1;1;1;1;1;1;1;1;1;1;1;1;1;1] ].

Definition fallback (level : Z) : t := mk fallback_layout level.

(** What the constructor guarantees: 13 rows of 25 cells. *)
Definition well_formed (m : t) : Prop :=
  List.length (maze_layout_ m) = Z.to_nat MAZE_ROWS /\
  Forall (fun r => List.length r = Z.to_nat MAZE_COLS) (maze_layout_ m).

End Maze.

(* ================================================================== *)
(** ** Pellets and score (maze.cpp: Token, PowerPellet, GameState)     *)
(* ================================================================== *)

Module Token.
Record t : Type := mk { row_ : Z; col_ : Z; collected_ : bool }.
Definition new (row col : Z) : t := mk row col false.
Definition is_collected (k : t) : bool := collected_ k.
Definition get_x (k : t) : float := Maze.get_cell_center_x (col_ k).
Definition get_y (k : t) : float := Maze.get_cell_center_y (row_ k).
Definition collect (k : t) : t := mk (row_ k) (col_ k) true.
End Token.

Module PowerPellet.
Record t : Type := mk { row_ : Z; col_ : Z; collected_ : bool }.
Definition new (row col : Z) : t := mk row col false.
Definition is_collected (k : t) : bool := collected_ k.
Definition get_x (k : t) : float := Maze.get_cell_center_x (col_ k).
Definition get_y (k : t) : float := Maze.get_cell_center_y (row_ k).
Definition collect (k : t) : t := mk (row_ k) (col_ k) true.
End PowerPellet.

Module GameState.
Import MazeConfig.

Record t : Type := mk {
  score_ : Z;
  tokens_collected_ : Z;
  total_tokens_ : Z;
  tokens_ : list Token.t;
  power_pellets_ : list PowerPellet.t;
  token_just_collected_ : bool
}.

Definition new : t := mk 0 0 0 [] [] false.

Definition get_score (s : t) : Z := score_ s.
Definition get_tokens_collected (s : t) : Z := tokens_collected_ s.
Definition get_total_tokens (s : t) : Z := total_tokens_ s.

Definition add_score (points : Z) (s : t) : t :=
  mk (score_ s + points) (tokens_collected_ s) (total_tokens_ s)
     (tokens_ s) (power_pellets_ s) (token_just_collected_ s).

Definition all_tokens_collected (s : t) : bool :=
  tokens_collected_ s >=? total_tokens_ s.

Definition add_token (row col : Z) (s : t) : t :=
  mk (score_ s) (tokens_collected_ s) (total_tokens_ s + 1)
     (tokens_ s ++ [Token.new row col]) (power_pellets_ s)
     (token_just_collected_ s).

Definition add_power_pellet (row col : Z) (s : t) : t :=
  mk (score_ s) (tokens_collected_ s) (total_tokens_ s)
     (tokens_ s) (power_pellets_ s ++ [PowerPellet.new row col])
     (token_just_collected_ s).

Definition count_collected_power_pellets (s : t) : Z :=
  fold_left (fun count p => if PowerPellet.is_collected p then count + 1 else count)
            (power_pellets_ s) 0.

Definition was_token_just_collected (s : t) : bool := token_just_collected_ s.

Definition reset_token_collection_flag (s : t) : t :=
  mk (score_ s) (tokens_collected_ s) (total_tokens_ s)
     (tokens_ s) (power_pellets_ s) false.

(** The distance test of both collection loops. *)
Definition within_collection_distance (pacman_x pacman_y x y : float) : bool :=
  let dx := (pacman_x - x)%float in
  let dy := (pacman_y - y)%float in
  let distance := PrimFloat.sqrt (dx * dx + dy * dy)%float in
  (distance <=? COLLECTION_DISTANCE)%float.

(** The loop of [check_token_collection] over the remaining tokens: the
    score, the collected count and the two flags are threaded through. *)
Fixpoint token_loop (pacman_x pacman_y : float) (ts : list Token.t)
         (score collected : Z) (collected_any just : bool)
  : list Token.t * (Z * Z * (bool * bool)) :=
  match ts with
  | [] => ([], (score, collected, (collected_any, just)))
  | token :: rest =>
      if negb (Token.is_collected token) &&
         within_collection_distance pacman_x pacman_y (Token.get_x token) (Token.get_y token)
      then
        let '(rest', r) := token_loop pacman_x pacman_y rest
                                      (score + TOKEN_POINTS) (collected + 1) true true in
        (Token.collect token :: rest', r)
      else
        let '(rest', r) := token_loop pacman_x pacman_y rest
                                      score collected collected_any just in
        (token :: rest', r)
  end.

Definition check_token_collection (pacman_x pacman_y : float) (s : t) : t * bool :=
  let '(ts, (score, collected, (collected_any, just))) :=
    token_loop pacman_x pacman_y (tokens_ s) (score_ s) (tokens_collected_ s)
               false (token_just_collected_ s) in
  (mk score collected (total_tokens_ s) ts (power_pellets_ s) just, collected_any).

Fixpoint power_pellet_loop (pacman_x pacman_y : float) (ps : list PowerPellet.t)
         (score : Z) (collected_any : bool)
  : list PowerPellet.t * (Z * bool) :=
  match ps with
  | [] => ([], (score, collected_any))
  | p :: rest =>
      if negb (PowerPellet.is_collected p) &&
         within_collection_distance pacman_x pacman_y (PowerPellet.get_x p) (PowerPellet.get_y p)
      then
        let '(rest', r) := power_pellet_loop pacman_x pacman_y rest
                                             (score + POWER_PELLET_POINTS) true in
        (PowerPellet.collect p :: rest', r)
      else
        let '(rest', r) := power_pellet_loop pacman_x pacman_y rest score collected_any in
        (p :: rest', r)
  end.

Definition check_power_pellet_collection (pacman_x pacman_y : float) (s : t) : t * bool :=
  let '(ps, (score, collected_any)) :=
    power_pellet_loop pacman_x pacman_y (power_pellets_ s) (score_ s) false in
  (mk score (tokens_collected_ s) (total_tokens_ s) (tokens_ s) ps
      (token_just_collected_ s), collected_any).

End GameState.

(** [Maze::initialize_tokens] and [Maze::initialize_power_pellets]: the
    level initialisation of the pellets. *)
Module MazeInit.
Import MazeConfig.

Definition rows : list Z := map Z.of_nat (seq 0 (Z.to_nat MAZE_ROWS)).
Definition cols : list Z := map Z.of_nat (seq 0 (Z.to_nat MAZE_COLS)).

Definition initialize_tokens (m : Maze.t) (spawn_row spawn_col : Z)
           (game_state : GameState.t) : GameState.t :=
  fold_left
    (fun gs r =>
       fold_left
         (fun gs c =>
            if Maze.is_empty m r c then
              let dr := Z.abs (r - spawn_row) in
              let dc := Z.abs (c - spawn_col) in
              if (dr <=? 1) && (dc <=? 1) then gs
              else GameState.add_token r c gs
            else gs)
         cols gs)
    rows game_state.

Definition power_pellet_positions : list (Z * Z) :=
  [ (1, 1); (1, MAZE_COLS - 2); (MAZE_ROWS - 2, 1); (MAZE_ROWS - 2, MAZE_COLS - 2) ].

Definition initialize_power_pellets (m : Maze.t) (game_state : GameState.t)
  : GameState.t :=
  fold_left
    (fun gs pos =>
       let r := fst pos in
       let c := snd pos in
       if Maze.is_empty m r c then GameState.add_power_pellet r c gs else gs)
    power_pellet_positions game_state.

End MazeInit.

(* ================================================================== *)
(** ** Moving entity (entities.cpp: Entity)                            *)
(* ================================================================== *)

Module Entity.
Import MazeConfig.
Local Open Scope float_scope.

Record t : Type := mk {
  x_ : float;
  y_ : float;
  dir_ : direction_t;
  desired_dir_ : direction_t;
  palette_ : string;
  speed_multiplier_ : float
}.

Definition new (start_x start_y : float) (palette : string) : t :=
  mk start_x start_y DIR_NONE DIR_NONE palette 1.0.

Definition get_x (e : t) : float := x_ e.
Definition get_y (e : t) : float := y_ e.
Definition get_direction (e : t) : direction_t := dir_ e.
Definition get_desired_direction (e : t) : direction_t := desired_dir_ e.
Definition get_palette (e : t) : string := palette_ e.

Definition set_position (x y : float) (e : t) : t :=
  mk x y (dir_ e) (desired_dir_ e) (palette_ e) (speed_multiplier_ e).

Definition set_desired_direction (d : direction_t) (e : t) : t :=
  mk (x_ e) (y_ e) (dir_ e) d (palette_ e) (speed_multiplier_ e).

Definition set_speed_multiplier (multiplier : float) (e : t) : t :=
  mk (x_ e) (y_ e) (dir_ e) (desired_dir_ e) (palette_ e) multiplier.

(** Assignment to the protected member [dir_]. *)
Definition set_dir_ (d : direction_t) (e : t) : t :=
  mk (x_ e) (y_ e) d (desired_dir_ e) (palette_ e) (speed_multiplier_ e).

(** The base implementation of the virtual [get_current_speed]. *)
Definition get_current_speed (e : t) : float := SPEED * speed_multiplier_ e.

Definition get_next_cell (direction : direction_t) (row col : Z) : Z * Z :=
  match direction with
  | DIR_LEFT => (row, (col - 1)%Z)
  | DIR_RIGHT => (row, (col + 1)%Z)
  | DIR_UP => ((row - 1)%Z, col)
  | DIR_DOWN => ((row + 1)%Z, col)
  | DIR_NONE => (row, col)
  end.

Definition is_aligned_for_direction (e : t) (direction : direction_t)
           (center_x center_y : float) : bool :=
  match direction with
  | DIR_LEFT | DIR_RIGHT => Double.fabs (y_ e - center_y) <? ALIGNMENT_TOLERANCE
  | DIR_UP | DIR_DOWN => Double.fabs (x_ e - center_x) <? ALIGNMENT_TOLERANCE
  | DIR_NONE => false
  end.

Definition align_to_grid (direction : direction_t) (center_x center_y : float)
           (e : t) : t :=
  match direction with
  | DIR_LEFT | DIR_RIGHT => set_position (x_ e) center_y e
  | DIR_UP | DIR_DOWN => set_position center_x (y_ e) e
  | DIR_NONE => e
  end.

(** [current_speed] is the value of the virtual [get_current_speed()] of
    the object the entity is the base of (Entity, Pacman or Ghost); the
    movement code does not change it. *)
Definition get_next_position (current_speed : float) (e : t)
           (direction : direction_t) (delta_time : float) : float * float :=
  let movement := current_speed * delta_time in
  match direction with
  | DIR_LEFT => (x_ e - movement, y_ e)
  | DIR_RIGHT => (x_ e + movement, y_ e)
  | DIR_UP => (x_ e, y_ e - movement)
  | DIR_DOWN => (x_ e, y_ e + movement)
  | DIR_NONE => (x_ e, y_ e)
  end.

Definition is_horizontal (d : direction_t) : bool :=
  match d with DIR_LEFT | DIR_RIGHT => true | _ => false end.

Definition is_vertical (d : direction_t) : bool :=
  match d with DIR_UP | DIR_DOWN => true | _ => false end.

Definition snap_to_grid_if_close (center_x center_y : float) (e : t) : t :=
  let e1 :=
    if is_horizontal (dir_ e) && (Double.fabs (y_ e - center_y) <? ALIGNMENT_TOLERANCE)
    then set_position (x_ e) center_y e else e in
  if is_vertical (dir_ e1) && (Double.fabs (x_ e1 - center_x) <? ALIGNMENT_TOLERANCE)
  then set_position center_x (y_ e1) e1 else e1.

Definition attempt_direction_change (maze : Maze.t) (row col : Z)
           (center_x center_y : float) (e : t) : t :=
  let '(next_row, next_col) := get_next_cell (desired_dir_ e) row col in
  let aligned := is_aligned_for_direction e (desired_dir_ e) center_x center_y in
  if aligned && Maze.is_empty maze next_row next_col
  then set_dir_ (desired_dir_ e) (align_to_grid (desired_dir_ e) center_x center_y e)
  else e.

Definition attempt_movement (current_speed : float) (maze : Maze.t)
           (center_x center_y delta_time : float) (e : t) : t :=
  if direction_eqb (dir_ e) DIR_NONE then e
  else
    let '(test_x, test_y) := get_next_position current_speed e (dir_ e) delta_time in
    if Maze.can_move_to maze test_x test_y
    then snap_to_grid_if_close center_x center_y (set_position test_x test_y e)
    else set_dir_ DIR_NONE e.

(** The cell the entity is in: [static_cast<int>(x_ / CELL_SIZE)]. *)
Definition current_col (e : t) : Z :=
  Double.static_cast_int (x_ e / Double.of_int CELL_SIZE).
Definition current_row (e : t) : Z :=
  Double.static_cast_int (y_ e / Double.of_int CELL_SIZE).

Definition move_in_direction (current_speed : float) (maze : Maze.t)
           (delta_time : float) (e : t) : t :=
  let col := current_col e in
  let row := current_row e in
  let center_x := Maze.get_cell_center_x col in
  let center_y := Maze.get_cell_center_y row in
  let e1 :=
    if negb (direction_eqb (desired_dir_ e) DIR_NONE) &&
       negb (direction_eqb (desired_dir_ e) (dir_ e))
    then attempt_direction_change maze row col center_x center_y e
    else e in
  attempt_movement current_speed maze center_x center_y delta_time e1.

(** [Entity::update]. *)
Definition update (current_speed : float) (maze : Maze.t) (delta_time : float)
           (e : t) : t :=
  move_in_direction current_speed maze delta_time e.

End Entity.

(* ================================================================== *)
(** ** Player (entities.cpp: Pacman)                                   *)
(* ================================================================== *)

Module Pacman.
Import MazeConfig.
Local Open Scope float_scope.

Inductive AnimationState : Type := OPEN | CLOSING | CLOSED.

Record t : Type := mk {
  base : Entity.t;
  sheet_ : bool;               (* the sprite sheet pointer is not null *)
  anim_state_ : AnimationState;
  anim_timer_ : float;
  is_in_power_mode_ : bool
}.

Definition ANIMATION_DURATION : float := 0.1.

Definition new (start_x start_y : float) (sheet : bool) (palette : string) : t :=
  mk (Entity.new start_x start_y palette) sheet OPEN 0 false.

Definition get_x (p : t) : float := Entity.get_x (base p).
Definition get_y (p : t) : float := Entity.get_y (base p).
Definition get_direction (p : t) : direction_t := Entity.get_direction (base p).

Definition set_base (e : Entity.t) (p : t) : t :=
  mk e (sheet_ p) (anim_state_ p) (anim_timer_ p) (is_in_power_mode_ p).

Definition set_power_mode (is_power_mode : bool) (p : t) : t :=
  mk (base p) (sheet_ p) (anim_state_ p) (anim_timer_ p) is_power_mode.

Definition set_speed_multiplier (multiplier : float) (p : t) : t :=
  set_base (Entity.set_speed_multiplier multiplier (base p)) p.

Definition get_current_speed (p : t) : float :=
  let base_speed := SPEED * Entity.speed_multiplier_ (base p) in
  if is_in_power_mode_ p then base_speed * 1.1 else base_speed.

Definition handle_tunnel_wrapping (maze : Maze.t) (p : t) : t :=
  let row := Double.floor_int (get_y p / Double.of_int CELL_SIZE) in
  let col := Double.floor_int (get_x p / Double.of_int CELL_SIZE) in
  if (col <? 0)%Z then
    let new_x :=
      if (row >=? 0)%Z && (row <? MAZE_ROWS)%Z && Maze.is_empty maze row (MAZE_COLS - 1)
      then Maze.get_cell_center_x (MAZE_COLS - 1) else Maze.get_cell_center_x 0 in
    set_base (Entity.set_position new_x (get_y p) (base p)) p
  else if (col >=? MAZE_COLS)%Z then
    let new_x :=
      if (row >=? 0)%Z && (row <? MAZE_ROWS)%Z && Maze.is_empty maze row 0
      then Maze.get_cell_center_x 0 else Maze.get_cell_center_x (MAZE_COLS - 1) in
    set_base (Entity.set_position new_x (get_y p) (base p)) p
  else p.

Definition next_anim_state (a : AnimationState) : AnimationState :=
  match a with OPEN => CLOSING | CLOSING => CLOSED | CLOSED => OPEN end.

Definition update_animation (delta_time : float) (p : t) : t :=
  let timer := anim_timer_ p + delta_time in
  if ANIMATION_DURATION <? timer
  then mk (base p) (sheet_ p) (next_anim_state (anim_state_ p)) 0.0 (is_in_power_mode_ p)
  else mk (base p) (sheet_ p) (anim_state_ p) timer (is_in_power_mode_ p).

(** [Pacman::update(maze, game_state, delta_time)]. *)
Definition update (maze : Maze.t) (game_state : GameState.t) (delta_time : float)
           (p : t) : t * GameState.t :=
  let p1 := set_base (Entity.update (get_current_speed p) maze delta_time (base p)) p in
  let p2 := handle_tunnel_wrapping maze p1 in
  let p3 := update_animation delta_time p2 in
  let gs1 := fst (GameState.check_token_collection (get_x p3) (get_y p3) game_state) in
  let gs2 := fst (GameState.check_power_pellet_collection (get_x p3) (get_y p3) gs1) in
  (p3, gs2).

End Pacman.

(* ================================================================== *)
(** ** Ghost (entities.cpp: Ghost)                                     *)
(* ================================================================== *)

(** One call of [SpriteSheet::draw_sprite_at_pixel]. *)
Record DrawCall : Type := mkDrawCall {
  palette_name : string;
  local_col : Z;
  local_row : Z;
  at_x : float;
  at_y : float;
  scale : float;
  flip_x : bool;
  flip_y : bool;
  trim : bool
}.

Module GhostSprites.
Definition SCARED_1_COL : Z := 5.
Definition SCARED_1_ROW : Z := 0.
Definition SCARED_2_COL : Z := 5.
Definition SCARED_2_ROW : Z := 1.
End GhostSprites.

Module Ghost.
Import MazeConfig.
Local Open Scope float_scope.

Inductive AnimationState : Type := FRAME_1 | FRAME_2.

Record t : Type := mk {
  base : Entity.t;
  sheet_ : bool;               (* the sprite sheet pointer is not null *)
  anim_state_ : AnimationState;
  anim_timer_ : float;
  target_x_ : float;
  target_y_ : float;
  escape_target_x_ : float;
  escape_target_y_ : float;
  current_state_ : GhostState;
  scared_timer_ : float;
  scared_duration_actual_ : float;
  home_x_ : float;
  home_y_ : float;
  flash_timer_ : float;
  cooldown_timer_ : float;
  ai_type_ : GhostAIType;
  random_target_dir_ : direction_t;
  random_dir_timer_ : float;
  show_score_popup_ : bool;
  popup_timer_ : float;
  popup_x_ : float;
  popup_y_ : float
}.

Definition ANIMATION_DURATION : float := 0.2.
Definition SCARED_DURATION : float := 15.0.
Definition WARNING_TIME : float := 3.0.
Definition COOLDOWN_DURATION : float := 3.0.
Definition POPUP_DURATION : float := 1.0.

(** The constructor; it leaves [scared_duration_actual_] uninitialised,
    [uninit] stands for whatever value the member holds. *)
Definition new (start_x start_y : float) (sheet : bool) (palette : string)
           (ai_type : GhostAIType) (uninit : float) : t :=
  mk (Entity.new start_x start_y palette) sheet FRAME_1 0 0 0 0 0
     CHASING 0.0 uninit
     (Maze.get_cell_center_x (MAZE_COLS / 2)) (Maze.get_cell_center_y (MAZE_ROWS / 2))
     0.0 0.0 ai_type DIR_RIGHT 0.0 false 0.0 0.0 0.0.

Definition get_x (g : t) : float := Entity.get_x (base g).
Definition get_y (g : t) : float := Entity.get_y (base g).
Definition get_direction (g : t) : direction_t := Entity.get_direction (base g).
Definition get_palette (g : t) : string := Entity.get_palette (base g).

Definition set_base (e : Entity.t) (g : t) : t :=
  mk e (sheet_ g) (anim_state_ g) (anim_timer_ g) (target_x_ g) (target_y_ g)
     (escape_target_x_ g) (escape_target_y_ g) (current_state_ g) (scared_timer_ g)
     (scared_duration_actual_ g) (home_x_ g) (home_y_ g) (flash_timer_ g)
     (cooldown_timer_ g) (ai_type_ g) (random_target_dir_ g) (random_dir_timer_ g)
     (show_score_popup_ g) (popup_timer_ g) (popup_x_ g) (popup_y_ g).

(** Assignment to the state and its three timers and the duration. *)
Definition set_state_and_timers (st : GhostState)
           (scared_timer scared_duration flash_timer cooldown_timer : float) (g : t) : t :=
  mk (base g) (sheet_ g) (anim_state_ g) (anim_timer_ g) (target_x_ g) (target_y_ g)
     (escape_target_x_ g) (escape_target_y_ g) st scared_timer
     scared_duration (home_x_ g) (home_y_ g) flash_timer
     cooldown_timer (ai_type_ g) (random_target_dir_ g) (random_dir_timer_ g)
     (show_score_popup_ g) (popup_timer_ g) (popup_x_ g) (popup_y_ g).

(** Assignment to the score popup members. *)
Definition set_popup (show : bool) (timer x y : float) (g : t) : t :=
  mk (base g) (sheet_ g) (anim_state_ g) (anim_timer_ g) (target_x_ g) (target_y_ g)
     (escape_target_x_ g) (escape_target_y_ g) (current_state_ g) (scared_timer_ g)
     (scared_duration_actual_ g) (home_x_ g) (home_y_ g) (flash_timer_ g)
     (cooldown_timer_ g) (ai_type_ g) (random_target_dir_ g) (random_dir_timer_ g)
     show timer x y.

Definition set_speed_multiplier (multiplier : float) (g : t) : t :=
  set_base (Entity.set_speed_multiplier multiplier (base g)) g.

Definition set_position (x y : float) (g : t) : t :=
  set_base (Entity.set_position x y (base g)) g.

Definition set_desired_direction (d : direction_t) (g : t) : t :=
  set_base (Entity.set_desired_direction d (base g)) g.

Definition get_current_speed (g : t) : float :=
  if GhostState_eqb (current_state_ g) CAUGHT
  then SPEED * Entity.speed_multiplier_ (base g) * 1.5
  else SPEED * Entity.speed_multiplier_ (base g).

Definition set_scared_mode (g : t) : t :=
  set_state_and_timers SCARED 0.0
    (SCARED_DURATION / Entity.speed_multiplier_ (base g)) 0.0 (cooldown_timer_ g) g.

Definition set_caught_mode (g : t) : t :=
  set_state_and_timers CAUGHT (scared_timer_ g) (scared_duration_actual_ g)
    (flash_timer_ g) (cooldown_timer_ g) g.

Definition set_chasing_mode (g : t) : t :=
  set_state_and_timers CHASING 0.0 (scared_duration_actual_ g) 0.0 0.0 g.

Definition is_scared (g : t) : bool := GhostState_eqb (current_state_ g) SCARED.
Definition is_caught (g : t) : bool := GhostState_eqb (current_state_ g) CAUGHT.
Definition can_interact (g : t) : bool := negb (GhostState_eqb (current_state_ g) COOLDOWN).
Definition get_state (g : t) : GhostState := current_state_ g.

Definition update_score_popup (delta_time : float) (g : t) : t :=
  if show_score_popup_ g then
    let timer := popup_timer_ g + delta_time in
    if POPUP_DURATION <=? timer
    then set_popup false 0.0 (popup_x_ g) (popup_y_ g) g
    else set_popup true timer (popup_x_ g) (popup_y_ g) g
  else g.

Definition trigger_score_popup (x y : float) (g : t) : t :=
  set_popup true 0.0 x y g.

(** The first block of [Ghost::update]: the scared and flash timers. *)
Definition update_scared_timer (delta_time : float) (g : t) : t :=
  if GhostState_eqb (current_state_ g) SCARED then
    let timer := scared_timer_ g + delta_time in
    if scared_duration_actual_ g <=? timer
    then set_state_and_timers CHASING 0.0 (scared_duration_actual_ g)
           (0.0 + delta_time) (cooldown_timer_ g) g
    else set_state_and_timers SCARED timer (scared_duration_actual_ g)
           (flash_timer_ g + delta_time) (cooldown_timer_ g) g
  else g.

Definition get_sprite_info (g : t) : Z * Z * bool * bool :=
  let is_frame_2 := match anim_state_ g with FRAME_2 => true | FRAME_1 => false end in
  if GhostState_eqb (current_state_ g) SCARED then
    if is_frame_2
    then (GhostSprites.SCARED_2_COL, GhostSprites.SCARED_2_ROW, false, false)
    else (GhostSprites.SCARED_1_COL, GhostSprites.SCARED_1_ROW, false, false)
  else
    match get_direction g with
    | DIR_RIGHT => if is_frame_2 then (0, 1, false, false)%Z else (0, 0, false, false)%Z
    | DIR_LEFT => if is_frame_2 then (0, 5, false, false)%Z else (0, 4, false, false)%Z
    | DIR_DOWN => if is_frame_2 then (0, 3, false, false)%Z else (0, 2, false, false)%Z
    | DIR_UP => if is_frame_2 then (0, 7, false, false)%Z else (0, 6, false, false)%Z
    | DIR_NONE => (0, 0, false, false)%Z
    end.

(** The palette [Ghost::draw] selects for the ghost's own sprite. *)
Definition palette_to_use (g : t) : string :=
  if GhostState_eqb (current_state_ g) CAUGHT || GhostState_eqb (current_state_ g) COOLDOWN
  then "BLACK_BLUE_WHITE"%string
  else if GhostState_eqb (current_state_ g) SCARED then
    let time_remaining := SCARED_DURATION - scared_timer_ g in
    if time_remaining <=? WARNING_TIME then
      let should_flash := 0.167 <=? Double.fmod (flash_timer_ g) 0.33 in
      if should_flash then "RED_WHITE_GREEN"%string else get_palette g
    else get_palette g
  else get_palette g.

(** [Ghost::draw]: the sprite draw calls it issues, in order. *)
Definition draw (g : t) : list DrawCall :=
  if negb (sheet_ g) then []
  else
    let '(sprite_col, sprite_row, fx, fy) := get_sprite_info g in
    mkDrawCall (palette_to_use g) sprite_col sprite_row (get_x g) (get_y g)
               SPRITE_SCALE fx fy true
    :: (if show_score_popup_ g
        then [mkDrawCall "WHITE_GREEN_RED"%string 5 3 (popup_x_ g) (popup_y_ g)
                         1.0 false false false]
        else []).

Definition move_towards_home (maze : Maze.t) (g : t) : t :=
  let dx := home_x_ g - get_x g in
  let dy := home_y_ g - get_y g in
  let distance := PrimFloat.sqrt (dx * dx + dy * dy) in
  if distance <? 5.0 then
    set_state_and_timers COOLDOWN (scared_timer_ g) (scared_duration_actual_ g)
      (flash_timer_ g) 0.0 (set_position (home_x_ g) (home_y_ g) g)
  else
    let speed := get_current_speed g in
    let move_distance := speed / 60.0 in
    let move_x := (dx / distance) * move_distance in
    let move_y := (dy / distance) * move_distance in
    let g1 := set_position (get_x g + move_x) (get_y g + move_y) g in
    let sprite_dir :=
      if Double.fabs dy <? Double.fabs dx
      then (if 0 <? dx then DIR_RIGHT else DIR_LEFT)
      else (if 0 <? dy then DIR_DOWN else DIR_UP) in
    set_base (Entity.set_dir_ sprite_dir (base (set_desired_direction sprite_dir g1))) g1.

End Ghost.

(* ================================================================== *)
(** ** Menu (menu.h, menu.cpp): the members the game controller uses   *)
(* ================================================================== *)

Module Menu.

Record t : Type := mk {
  current_state_ : MenuState;
  selected_option_ : Z;
  should_start_game_ : bool;
  difficulty_level_ : DifficultyLevel;
  endless_mode_ : bool;
  selected_level_ : Z;
  name_entry_complete_ : bool;
  pending_score_ : Z;
  name_letters_ : string;
  name_cursor_position_ : Z
}.

Definition get_state (m : t) : MenuState := current_state_ m.
Definition is_endless_mode (m : t) : bool := endless_mode_ m.

Definition set_state (state : MenuState) (m : t) : t :=
  mk state (selected_option_ m) (should_start_game_ m) (difficulty_level_ m)
     (endless_mode_ m) (selected_level_ m) (name_entry_complete_ m)
     (pending_score_ m) (name_letters_ m) (name_cursor_position_ m).

Definition reset_game_start_flag (m : t) : t :=
  mk (current_state_ m) (selected_option_ m) false (difficulty_level_ m)
     (endless_mode_ m) (selected_level_ m) (name_entry_complete_ m)
     (pending_score_ m) (name_letters_ m) (name_cursor_position_ m).

Definition start_name_entry (score : Z) (m : t) : t :=
  mk NAME_ENTRY 0 (should_start_game_ m) (difficulty_level_ m)
     (endless_mode_ m) (selected_level_ m) false
     score "AAA"%string 0.

Definition get_difficulty_speed_multiplier (m : t) : float :=
  match difficulty_level_ m with
  | EASY => 0.75%float
  | MEDIUM => 1.0%float
  | HARD => 1.25%float
  | CRAZY => 2.0%float
  end.

End Menu.

(* ================================================================== *)
(** ** Game mode controller (game.cpp: Game)                           *)
(* ================================================================== *)

Module Game.
Import GameConfig.
Local Open Scope float_scope.

(** The members of [Game] the simulation uses.  [previous_power_pellets]
    is the function-local static of [Game::update]; [trace] collects the
    audio and display calls, oldest first. *)
Record t : Type := mk {
  maze_ : Maze.t;
  pacman_ : Pacman.t;
  ghost1_ : Ghost.t;
  ghost2_ : Ghost.t;
  game_state_ : GameState.t;
  menu_ : Menu.t;
  running_ : bool;
  game_initialized_ : bool;
  current_game_mode_ : GameMode;
  previous_game_mode_ : GameMode;
  current_level_ : Z;
  previous_power_pellets : Z;
  trace : list Event
}.

Definition set_pacman (p : Pacman.t) (g : t) : t :=
  mk (maze_ g) p (ghost1_ g) (ghost2_ g) (game_state_ g) (menu_ g) (running_ g)
     (game_initialized_ g) (current_game_mode_ g) (previous_game_mode_ g)
     (current_level_ g) (previous_power_pellets g) (trace g).

Definition set_ghost1 (gh : Ghost.t) (g : t) : t :=
  mk (maze_ g) (pacman_ g) gh (ghost2_ g) (game_state_ g) (menu_ g) (running_ g)
     (game_initialized_ g) (current_game_mode_ g) (previous_game_mode_ g)
     (current_level_ g) (previous_power_pellets g) (trace g).

Definition set_ghost2 (gh : Ghost.t) (g : t) : t :=
  mk (maze_ g) (pacman_ g) (ghost1_ g) gh (game_state_ g) (menu_ g) (running_ g)
     (game_initialized_ g) (current_game_mode_ g) (previous_game_mode_ g)
     (current_level_ g) (previous_power_pellets g) (trace g).

Definition set_game_state (gs : GameState.t) (g : t) : t :=
  mk (maze_ g) (pacman_ g) (ghost1_ g) (ghost2_ g) gs (menu_ g) (running_ g)
     (game_initialized_ g) (current_game_mode_ g) (previous_game_mode_ g)
     (current_level_ g) (previous_power_pellets g) (trace g).

Definition set_menu (m : Menu.t) (g : t) : t :=
  mk (maze_ g) (pacman_ g) (ghost1_ g) (ghost2_ g) (game_state_ g) m (running_ g)
     (game_initialized_ g) (current_game_mode_ g) (previous_game_mode_ g)
     (current_level_ g) (previous_power_pellets g) (trace g).

Definition set_game_initialized (b : bool) (g : t) : t :=
  mk (maze_ g) (pacman_ g) (ghost1_ g) (ghost2_ g) (game_state_ g) (menu_ g) (running_ g)
     b (current_game_mode_ g) (previous_game_mode_ g)
     (current_level_ g) (previous_power_pellets g) (trace g).

Definition set_modes (current previous : GameMode) (g : t) : t :=
  mk (maze_ g) (pacman_ g) (ghost1_ g) (ghost2_ g) (game_state_ g) (menu_ g) (running_ g)
     (game_initialized_ g) current previous
     (current_level_ g) (previous_power_pellets g) (trace g).

Definition set_previous_power_pellets (n : Z) (g : t) : t :=
  mk (maze_ g) (pacman_ g) (ghost1_ g) (ghost2_ g) (game_state_ g) (menu_ g) (running_ g)
     (game_initialized_ g) (current_game_mode_ g) (previous_game_mode_ g)
     (current_level_ g) n (trace g).

Definition emit (evs : list Event) (g : t) : t :=
  mk (maze_ g) (pacman_ g) (ghost1_ g) (ghost2_ g) (game_state_ g) (menu_ g) (running_ g)
     (game_initialized_ g) (current_game_mode_ g) (previous_game_mode_ g)
     (current_level_ g) (previous_power_pellets g) (trace g ++ evs).

(** The distance [handle_ghost_collisions] computes from the player to a
    ghost. *)
Definition distance_to (p : Pacman.t) (gh : Ghost.t) : float :=
  let dx := Pacman.get_x p - Ghost.get_x gh in
  let dy := Pacman.get_y p - Ghost.get_y gh in
  PrimFloat.sqrt (dx * dx + dy * dy).

(** The outer test of each ghost's block. *)
Definition collides (p : Pacman.t) (gh : Ghost.t) : bool :=
  (distance_to p gh <=? COLLISION_DISTANCE) && Ghost.can_interact gh.

(** The capture branch, as written for each ghost. *)
Definition catch_ghost (gh : Ghost.t) : Ghost.t :=
  let gh1 := Ghost.set_caught_mode gh in
  Ghost.trigger_score_popup (Ghost.get_x gh1) (Ghost.get_y gh1) gh1.

(** The fatal branch, which the source repeats for each ghost, up to its
    [return]. *)
Definition game_over_sequence (g : t) : t :=
  let g1 := set_modes GAME_OVER (previous_game_mode_ g) g in
  let g2 := emit [ StopAllBackgroundSounds;
                   PlaySoundEffect SoundConfig.DIE_SOUND_NAME;
                   PlayDyingAnimation;
                   DrawText "GAME OVER!";
                   RefreshScreen TARGET_FPS;
                   Delay GAME_OVER_DISPLAY_TIME ] g1 in
  if Menu.is_endless_mode (menu_ g2) then
    let final_score := GameState.get_score (game_state_ g2) in
    set_game_initialized false (set_menu (Menu.start_name_entry final_score (menu_ g2)) g2)
  else
    set_game_initialized false
      (set_menu (Menu.set_state MAIN_MENU (Menu.reset_game_start_flag (menu_ g2))) g2).

(** The second half of [handle_ghost_collisions]: ghost2. *)
Definition handle_ghost2_collision (g : t) : t :=
  if collides (pacman_ g) (ghost2_ g) then
    if Ghost.is_scared (ghost2_ g) then
      emit [PlayGhostEatSound; PlayGhostRetreatSound]
        (set_ghost2 (catch_ghost (ghost2_ g))
           (set_game_state (GameState.add_score 400 (game_state_ g)) g))
    else if negb (Ghost.is_caught (ghost2_ g)) then game_over_sequence g
    else g
  else g.

Definition handle_ghost_collisions (g : t) : t :=
  if collides (pacman_ g) (ghost1_ g) then
    if Ghost.is_scared (ghost1_ g) then
      handle_ghost2_collision
        (emit [PlayGhostEatSound; PlayGhostRetreatSound]
           (set_ghost1 (catch_ghost (ghost1_ g))
              (set_game_state (GameState.add_score 400 (game_state_ g)) g)))
    else if negb (Ghost.is_caught (ghost1_ g)) then game_over_sequence g
    else handle_ghost2_collision g
  else handle_ghost2_collision g.

Definition check_win_condition (g : t) : bool :=
  GameState.all_tokens_collected (game_state_ g).

Definition calculate_pellet_percentage (g : t) : float :=
  let total := GameState.get_total_tokens (game_state_ g) in
  let collected := GameState.get_tokens_collected (game_state_ g) in
  if (total >? 0)%Z
  then 100.0 * Double.of_int (total - collected) / Double.of_int total
  else 100.0.

Definition determine_current_game_mode (g : t) : GameMode :=
  if negb (running_ g) then GAME_OVER
  else if GameState.all_tokens_collected (game_state_ g) then VICTORY
  else if Ghost.is_scared (ghost1_ g) || Ghost.is_scared (ghost2_ g) then POWER_MODE
  else NORMAL.

(** [start_sound_playing] is the answer of the audio system to
    [sound_effect_playing(START_SOUND_NAME)]. *)
Definition update_game_mode (start_sound_playing : bool) (g : t) : t :=
  let g1 := set_modes (current_game_mode_ g) (current_game_mode_ g) g in
  let g2 :=
    if GameMode_eqb (current_game_mode_ g1) STARTING then
      if negb start_sound_playing
      then set_modes NORMAL (previous_game_mode_ g1) g1 else g1
    else set_modes (determine_current_game_mode g1) (previous_game_mode_ g1) g1 in
  set_pacman (Pacman.set_power_mode (GameMode_eqb (current_game_mode_ g2) POWER_MODE)
                                    (pacman_ g2)) g2.

(** The power-pellet block of [Game::update]: the test on the two samples
    of the collected count and the update of the static. *)
Definition scare_ghosts_on_power_pellet (current_power_pellets : Z) (g : t) : t :=
  let g1 :=
    if negb (previous_power_pellets g =? -1)%Z &&
       (current_power_pellets >? previous_power_pellets g)%Z
    then
      let ga := if negb (Ghost.is_caught (ghost1_ g))
                then set_ghost1 (Ghost.set_scared_mode (ghost1_ g)) g else g in
      if negb (Ghost.is_caught (ghost2_ ga))
      then set_ghost2 (Ghost.set_scared_mode (ghost2_ ga)) ga else ga
    else g in
  set_previous_power_pellets current_power_pellets g1.

(** [Game::update] from the sample of the collected power pellets to the
    update of the static: the player moves and collects, the dot sound is
    requested, the ghosts are scared when the sampled count went up. *)
Definition update_player_and_power_pellets (delta_time : float) (g : t) : t :=
  let current_power_pellets :=
    GameState.count_collected_power_pellets (game_state_ g) in
  let '(p, gs) := Pacman.update (maze_ g) (game_state_ g) delta_time (pacman_ g) in
  let g1 := set_game_state gs (set_pacman p g) in
  let g2 :=
    if GameState.was_token_just_collected (game_state_ g1)
    then set_game_state (GameState.reset_token_collection_flag (game_state_ g1))
           (emit [PlayDotCollectionSound] g1)
    else g1 in
  scare_ghosts_on_power_pellet current_power_pellets g2.

(** [Game::update] from its first statement to the update of the static
    (the ghost, fruit and collision phases follow): the audio update, the
    game mode, the return while STARTING, then the player and the
    power-pellet block. *)
Definition update_until_ghosts (start_sound_playing : bool) (delta_time : float)
           (g : t) : t :=
  let g0 := emit [UpdateBackgroundAudio (current_game_mode_ g)
                                        (calculate_pellet_percentage g)] g in
  let g1 := update_game_mode start_sound_playing g0 in
  if GameMode_eqb (current_game_mode_ g1) STARTING then g1
  else update_player_and_power_pellets delta_time g1.

End Game.

(* ================================================================== *)
(** ** Reachable pellet states                                         *)
(* ================================================================== *)

Module Pellets.
Import GameState.

(** Level initialisation only adds pellets to a fresh [GameState]. *)
Inductive initialized : GameState.t -> Prop :=
| init_new : initialized GameState.new
| init_token s row col :
    initialized s -> initialized (add_token row col s)
| init_power_pellet s row col :
    initialized s -> initialized (add_power_pellet row col s).

(** What the game does to the [GameState] once the level runs. *)
Inductive play_op : GameState.t -> GameState.t -> Prop :=
| op_check_token s x y : play_op s (fst (check_token_collection x y s))
| op_check_power_pellet s x y : play_op s (fst (check_power_pellet_collection x y s))
| op_add_score s points : play_op s (add_score points s)
| op_reset_flag s : play_op s (reset_token_collection_flag s).

(** [playing s0 s]: [s] is reached from the initialised state [s0]. *)
Inductive playing (s0 : GameState.t) : GameState.t -> Prop :=
| play_start : playing s0 s0
| play_next s s' : playing s0 s -> play_op s s' -> playing s0 s'.

(** Number of collected tokens in a token list. *)
Definition collected_count (ts : list Token.t) : Z :=
  Z.of_nat (List.length (filter Token.is_collected ts)).

(** The bookkeeping invariant of [GameState]. *)
Definition counts_ok (s : GameState.t) : Prop :=
  tokens_collected_ s = collected_count (tokens_ s) /\
  total_tokens_ s = Z.of_nat (List.length (tokens_ s)).

(** Pointwise: same pellet, and a collected flag never goes back. *)
Definition token_kept (a b : Token.t) : Prop :=
  Token.row_ b = Token.row_ a /\ Token.col_ b = Token.col_ a /\
  (Token.collected_ a = true -> Token.collected_ b = true).

Definition flags_monotone (s s' : GameState.t) : Prop :=
  Forall2 token_kept (tokens_ s) (tokens_ s').

(** The same for the power pellets. *)
Definition power_pellet_kept (a b : PowerPellet.t) : Prop :=
  PowerPellet.row_ b = PowerPellet.row_ a /\ PowerPellet.col_ b = PowerPellet.col_ a /\
  (PowerPellet.collected_ a = true -> PowerPellet.collected_ b = true).

Definition power_flags_monotone (s s' : GameState.t) : Prop :=
  Forall2 power_pellet_kept (power_pellets_ s) (power_pellets_ s').

End Pellets.

(* ================================================================== *)
(** ** Vocabulary of the properties                                    *)
(* ================================================================== *)

Module EntitySpec.
Import Entity.

(** The cell next to the entity's current cell in its desired direction. *)
Definition desired_cell (e : Entity.t) : Z * Z :=
  get_next_cell (desired_dir_ e) (current_row e) (current_col e).

(** The desired direction points into a cell that is not open. *)
Definition desired_into_wall (maze : Maze.t) (e : Entity.t) : bool :=
  negb (Maze.is_empty maze (fst (desired_cell e)) (snd (desired_cell e))).

(** The alignment test of the turn, at the centre of the current cell. *)
Definition aligned_for_desired (e : Entity.t) : bool :=
  is_aligned_for_direction e (desired_dir_ e)
    (Maze.get_cell_center_x (current_col e)) (Maze.get_cell_center_y (current_row e)).

(** The coordinate across direction [d] is the given cell centre. *)
Definition perpendicular_snapped (d : direction_t) (center_x center_y : float)
           (e : Entity.t) : Prop :=
  match d with
  | DIR_LEFT | DIR_RIGHT => y_ e = center_y
  | DIR_UP | DIR_DOWN => x_ e = center_x
  | DIR_NONE => True
  end.

(** Repeated updates; each step gives the current speed and the frame
    time of that update. *)
Fixpoint updates (maze : Maze.t) (steps : list (float * float)) (e : Entity.t)
  : Entity.t :=
  match steps with
  | [] => e
  | (current_speed, delta_time) :: rest =>
      updates maze rest (update current_speed maze delta_time e)
  end.

(** The desired direction points into a wall at the start of every step. *)
Fixpoint wall_ahead_throughout (maze : Maze.t) (steps : list (float * float))
         (e : Entity.t) : bool :=
  match steps with
  | [] => true
  | (current_speed, delta_time) :: rest =>
      desired_into_wall maze e &&
      wall_ahead_throughout maze rest (update current_speed maze delta_time e)
  end.

End EntitySpec.

Module GameSpec.
Import Game.

(** The ghost is touched while SCARED: the capture branch is taken. *)
Definition captures (p : Pacman.t) (gh : Ghost.t) : bool :=
  collides p gh && Ghost.is_scared gh.

(** The ghost is touched while neither SCARED nor CAUGHT: fatal. *)
Definition fatal (p : Pacman.t) (gh : Ghost.t) : bool :=
  collides p gh && negb (Ghost.is_scared gh) && negb (Ghost.is_caught gh).

(** [after] is [before] captured: CAUGHT, popup started at the position
    [before] had, nothing else moved. *)
Definition captured (before after : Ghost.t) : Prop :=
  Ghost.current_state_ after = CAUGHT /\
  Ghost.show_score_popup_ after = true /\
  Ghost.popup_timer_ after = 0%float /\
  Ghost.popup_x_ after = Ghost.get_x before /\
  Ghost.popup_y_ after = Ghost.get_y before /\
  Ghost.base after = Ghost.base before.

Definition capture_points (p : Pacman.t) (gh : Ghost.t) : Z :=
  if captures p gh then 400 else 0.

(** [after] is [before] freshly scared. *)
Definition freshly_scared (before after : Ghost.t) : Prop :=
  Ghost.current_state_ after = SCARED /\
  Ghost.scared_timer_ after = 0%float /\
  Ghost.flash_timer_ after = 0%float /\
  Ghost.scared_duration_actual_ after
  = (Ghost.SCARED_DURATION / Entity.speed_multiplier_ (Ghost.base before))%float /\
  Ghost.base after = Ghost.base before.

(** The outcome of a fatal collision, in terms of the game before it. *)
Definition game_over_outcome (g g' : Game.t) : Prop :=
  current_game_mode_ g' = GAME_OVER /\
  running_ g' = running_ g /\
  game_initialized_ g' = false /\
  Menu.get_state (menu_ g')
  = (if Menu.is_endless_mode (menu_ g) then NAME_ENTRY else MAIN_MENU).

End GameSpec.

(* ================================================================== *)
(** ** Concrete situations on the built-in maze                        *)
(* ================================================================== *)

Module Scenario.
Local Open Scope float_scope.

Definition maze : Maze.t := Maze.fallback 1.

(** One frame at 60 frames per second. *)
Definition frame : float := 1 / 60.

(** In cell (1,1), heading left toward the border wall and asking to go
    up, where row 0 is wall. *)
Definition heading_into_corner : Entity.t :=
  Entity.mk 60 60 DIR_LEFT DIR_UP "YELLOW_PINK_SKY" 1.

(** In cell (1,1), two pixels below the centre line, heading left and
    asking to go right, where cell (1,2) is open. *)
Definition turning_right : Entity.t :=
  Entity.mk 60 62 DIR_LEFT DIR_RIGHT "YELLOW_PINK_SKY" 1.

Definition two_frames : list (float * float) := [(120, frame); (120, frame)].

(** The pellets of the built-in maze with the player spawned at (8,11). *)
Definition level_start : GameState.t :=
  MazeInit.initialize_power_pellets maze
    (MazeInit.initialize_tokens maze 8 11 GameState.new).

(** The player stands on cell (1,1). *)
Definition after_first_pellet : GameState.t :=
  fst (GameState.check_token_collection 60 60 level_start).

End Scenario.

Module GhostScenario.
Local Open Scope float_scope.

(** The first ghost as the game creates it on the built-in maze. *)
Definition first_ghost : Ghost.t := Ghost.new 460 100 true "RED_BLUE_WHITE" RANDOM_PATROL 0.

(** CRAZY difficulty, chasing. *)
Definition crazy_chaser : Ghost.t := Ghost.set_speed_multiplier 2.0 first_ghost.

(** CRAZY difficulty, caught on the tunnel row 60 pixels left of home. *)
Definition crazy_caught : Ghost.t :=
  Ghost.set_caught_mode (Ghost.set_position 440 260 crazy_chaser).

(** CRAZY difficulty, scared for 168 updates of 1/32 s (5.25 s). *)
Definition crazy_scared_late : Ghost.t :=
  Nat.iter 168 (Ghost.update_scared_timer 0.03125) (Ghost.set_scared_mode crazy_chaser).

(** EASY difficulty, scared for 400 updates of 1/32 s (12.5 s). *)
Definition easy_scared_mid : Ghost.t :=
  Nat.iter 400 (Ghost.update_scared_timer 0.03125)
           (Ghost.set_scared_mode (Ghost.set_speed_multiplier 0.75 first_ghost)).

(** Two adjacent doubles used as speed multipliers. *)
Definition mult_a : float := 3.5.
Definition mult_b : float := 0x1.c000000000001p+1.

Definition menu_at (d : DifficultyLevel) : Menu.t :=
  Menu.mk IN_GAME 0 false d true 1 false 0 "AAA" 0.

End GhostScenario.

Module GameScenario.
Local Open Scope float_scope.

(** The player on cell (1,1), standing still. *)
Definition player : Pacman.t := Pacman.new 60 60 true "YELLOW_PINK_SKY".

Definition chasing_near : Ghost.t :=
  Ghost.new 70 60 true "RED_BLUE_WHITE" RANDOM_PATROL 0.
Definition scared_near : Ghost.t :=
  Ghost.set_scared_mode (Ghost.new 60 50 true "PINK_BLUE_WHTE" AMBUSHER 0).
Definition scared_near_too : Ghost.t :=
  Ghost.set_scared_mode chasing_near.
Definition chasing_far : Ghost.t :=
  Ghost.new 460 100 true "RED_BLUE_WHITE" RANDOM_PATROL 0.
Definition cooling_far : Ghost.t :=
  Ghost.move_towards_home Scenario.maze
    (Ghost.set_caught_mode (Ghost.new 500 260 true "PINK_BLUE_WHTE" AMBUSHER 0)).

Definition menu : Menu.t := GhostScenario.menu_at MEDIUM.

(** A running level in NORMAL mode with the given ghosts and pellets. *)
Definition level (g1 g2 : Ghost.t) (gs : GameState.t) (previous : Z) : Game.t :=
  Game.mk Scenario.maze player g1 g2 gs menu true true NORMAL NORMAL 1 previous [].

(** A chasing ghost and a scared ghost both within reach. *)
Definition both_near : Game.t := level chasing_near scared_near Scenario.level_start 0.

(** Two scared ghosts within reach. *)
Definition two_scared : Game.t := level scared_near_too scared_near Scenario.level_start 0.

(** The game object as constructed, before [initialize]. *)
Definition constructed : Game.t :=
  Game.mk Scenario.maze player chasing_far chasing_far GameState.new menu
          false false STARTING STARTING 1 (-1) [].

(** The player comes along row 1 from cell (1,2) toward the power pellet
    of cell (1,1): at x = 76 it is 16 pixels away, one more frame brings
    it within reach. *)
Definition approaching : Pacman.t :=
  Pacman.set_base (Entity.mk 76 60 DIR_LEFT DIR_LEFT "YELLOW_PINK_SKY" 1) player.

Definition pellets_on_approach : GameState.t :=
  fst (GameState.check_token_collection 100 60 Scenario.level_start).

(** The level on that tick: neither ghost caught, one sample of the
    collected count (0) already taken. *)
Definition on_power_pellet : Game.t :=
  Game.mk Scenario.maze approaching chasing_far cooling_far pellets_on_approach menu
          true true NORMAL NORMAL 1 0 [].

(** The pellets once the power pellet of cell (1,1) has been eaten. *)
Definition pellet_eaten : GameState.t :=
  fst (GameState.check_power_pellet_collection 60 60 Scenario.level_start).

(** A ghost scared 5.25 s ago (168 updates of 1/32 s). *)
Definition scared_for_a_while : Ghost.t :=
  Nat.iter 168 (Ghost.update_scared_timer 0.03125) (Ghost.set_scared_mode chasing_far).

(** The tick after: the sample of the previous tick was 0; the first
    ghost has been scared for 5.25 s, the second is cooling down. *)
Definition tick_after_pellet : Game.t :=
  level scared_for_a_while cooling_far pellet_eaten 0.

End GameScenario.

(* ================================================================== *)
(** ** Spawn search (maze.cpp: Maze::find_spawn_position)              *)
(* ================================================================== *)

Module MazeSpawn.
Import MazeConfig.

(** The values of [for (int i = lo; ...; i++)] over [n] iterations. *)
Fixpoint count_up (lo : Z) (n : nat) : list Z :=
  match n with
  | O => []
  | S n' => lo :: count_up (lo + 1) n'
  end.

(** [for (int i = lo; i <= hi; i++)]. *)
Definition from_to (lo hi : Z) : list Z := count_up lo (Z.to_nat (hi - lo + 1)).

(** The offsets the two inner loops visit for one radius, in loop order:
    those on the perimeter of the square of that radius. *)
Definition ring (radius : Z) : list (Z * Z) :=
  flat_map
    (fun dr =>
       flat_map
         (fun dc =>
            if negb (Z.abs dr =? radius) && negb (Z.abs dc =? radius)
            then [] else [(dr, dc)])
         (from_to (- radius) radius))
    (from_to (- radius) radius).

(** The test of the innermost [if]. *)
Definition spawn_candidate (maze : Maze.t) (target_row target_col : Z)
           (offset : Z * Z) : bool :=
  let row := target_row + fst offset in
  let col := target_col + snd offset in
  (row >=? 0) && (row <? MAZE_ROWS) && (col >=? 0) && (col <? MAZE_COLS) &&
  Maze.is_empty maze row col.

(** The outer loop over the radii; the first candidate found returns. *)
Fixpoint search_rings (maze : Maze.t) (target_row target_col : Z)
         (radii : list Z) : option (Z * Z) :=
  match radii with
  | [] => None
  | radius :: rest =>
      match find (spawn_candidate maze target_row target_col) (ring radius) with
      | Some offset => Some (target_row + fst offset, target_col + snd offset)
      | None => search_rings maze target_row target_col rest
      end
  end.

Definition max_radius : Z := Z.max MAZE_ROWS MAZE_COLS.

Definition find_spawn_position (maze : Maze.t) (target_row target_col : Z) : Z * Z :=
  if Maze.is_empty maze target_row target_col then (target_row, target_col)
  else
    match search_rings maze target_row target_col (from_to 1 max_radius) with
    | Some cell => cell
    | None => (MAZE_ROWS / 2, MAZE_COLS / 2)
    end.

(** Distance in rings: the larger of the row and column distances. *)
Definition ring_distance (target_row target_col row col : Z) : Z :=
  Z.max (Z.abs (row - target_row)) (Z.abs (col - target_col)).

End MazeSpawn.

(* ================================================================== *)
(** ** Ghost behaviour (entities.cpp: Ghost::update and the AI)        *)
(* ================================================================== *)

Module GhostAI.
Import MazeConfig Ghost.
Local Open Scope float_scope.

Definition LOCK_ON_DISTANCE : float := 150.0.
Definition AMBUSH_DISTANCE : float := 200.0.
Definition ESCAPE_DISTANCE : float := 100.0.
Definition RANDOM_DIR_CHANGE_TIME : float := 2.0.

(** Assignment to [target_x_] and [target_y_]. *)
Definition set_target (x y : float) (g : t) : t :=
  mk (base g) (sheet_ g) (anim_state_ g) (anim_timer_ g) x y
     (escape_target_x_ g) (escape_target_y_ g) (current_state_ g) (scared_timer_ g)
     (scared_duration_actual_ g) (home_x_ g) (home_y_ g) (flash_timer_ g)
     (cooldown_timer_ g) (ai_type_ g) (random_target_dir_ g) (random_dir_timer_ g)
     (show_score_popup_ g) (popup_timer_ g) (popup_x_ g) (popup_y_ g).

(** Assignment to [escape_target_x_] and [escape_target_y_]. *)
Definition set_escape_target (x y : float) (g : t) : t :=
  mk (base g) (sheet_ g) (anim_state_ g) (anim_timer_ g) (target_x_ g) (target_y_ g)
     x y (current_state_ g) (scared_timer_ g)
     (scared_duration_actual_ g) (home_x_ g) (home_y_ g) (flash_timer_ g)
     (cooldown_timer_ g) (ai_type_ g) (random_target_dir_ g) (random_dir_timer_ g)
     (show_score_popup_ g) (popup_timer_ g) (popup_x_ g) (popup_y_ g).

(** Assignment to [random_target_dir_] and [random_dir_timer_]. *)
Definition set_random (d : direction_t) (timer : float) (g : t) : t :=
  mk (base g) (sheet_ g) (anim_state_ g) (anim_timer_ g) (target_x_ g) (target_y_ g)
     (escape_target_x_ g) (escape_target_y_ g) (current_state_ g) (scared_timer_ g)
     (scared_duration_actual_ g) (home_x_ g) (home_y_ g) (flash_timer_ g)
     (cooldown_timer_ g) (ai_type_ g) d timer
     (show_score_popup_ g) (popup_timer_ g) (popup_x_ g) (popup_y_ g).

(** Assignment to [anim_state_] and [anim_timer_]. *)
Definition set_anim (a : AnimationState) (timer : float) (g : t) : t :=
  mk (base g) (sheet_ g) a timer (target_x_ g) (target_y_ g)
     (escape_target_x_ g) (escape_target_y_ g) (current_state_ g) (scared_timer_ g)
     (scared_duration_actual_ g) (home_x_ g) (home_y_ g) (flash_timer_ g)
     (cooldown_timer_ g) (ai_type_ g) (random_target_dir_ g) (random_dir_timer_ g)
     (show_score_popup_ g) (popup_timer_ g) (popup_x_ g) (popup_y_ g).

Definition get_desired_direction (g : t) : direction_t :=
  Entity.get_desired_direction (base g).

Definition get_opposite_direction (dir : direction_t) : direction_t :=
  match dir with
  | DIR_LEFT => DIR_RIGHT
  | DIR_RIGHT => DIR_LEFT
  | DIR_UP => DIR_DOWN
  | DIR_DOWN => DIR_UP
  | DIR_NONE => DIR_NONE
  end.

Definition can_move_in_direction (maze : Maze.t) (g : t) (dir : direction_t) : bool :=
  let current_row := Entity.current_row (base g) in
  let current_col := Entity.current_col (base g) in
  match dir with
  | DIR_LEFT => Maze.is_empty_or_tunnel maze current_row (current_col - 1)%Z
  | DIR_RIGHT => Maze.is_empty_or_tunnel maze current_row (current_col + 1)%Z
  | DIR_UP => Maze.is_empty_or_tunnel maze (current_row - 1)%Z current_col
  | DIR_DOWN => Maze.is_empty_or_tunnel maze (current_row + 1)%Z current_col
  | DIR_NONE => false
  end.

Definition get_non_portal_distance (g : t) (target_x target_y : float) : float * float :=
  let dx := target_x - get_x g in
  let dy := target_y - get_y g in
  let maze_width := Double.of_int (MAZE_COLS * CELL_SIZE) in
  if maze_width / 2.0 <? Double.fabs dx then
    if 0 <? dx then (maze_width - dx, dy) else (- (maze_width + dx), dy)
  else (dx, dy).

(** The vector of candidate directions with their priorities, in the
    order of the four [push_back]s. *)
Definition candidate_directions (dx dy : float) : list (direction_t * float) :=
  (if 0 <? dx then [(DIR_RIGHT, Double.fabs dx)] else []) ++
  (if dx <? 0 then [(DIR_LEFT, Double.fabs dx)] else []) ++
  (if 0 <? dy then [(DIR_DOWN, Double.fabs dy)] else []) ++
  (if dy <? 0 then [(DIR_UP, Double.fabs dy)] else []).

(** [std::sort] with the comparator [a.second > b.second].  The vector
    holds at most two entries (one horizontal, one vertical); on such a
    range the library sorts by insertion: an entry moves in front of those
    the comparator puts it before. *)
Fixpoint insert_by_priority (a : direction_t * float) (l : list (direction_t * float))
  : list (direction_t * float) :=
  match l with
  | [] => [a]
  | b :: rest =>
      if snd b <? snd a then a :: l else b :: insert_by_priority a rest
  end.

Definition sort_by_priority (l : list (direction_t * float)) : list (direction_t * float) :=
  fold_left (fun sorted a => insert_by_priority a sorted) l [].

(** [all_dirs] of the two direction choosers. *)
Definition all_dirs : list direction_t := [DIR_RIGHT; DIR_LEFT; DIR_DOWN; DIR_UP].

(** The three loops shared by the choosers: the first candidate that is
    not a reversal and is open, else the first open candidate. *)
Definition first_forward (maze : Maze.t) (g : t) (opposite_dir : direction_t)
           (directions : list direction_t) : option direction_t :=
  find (fun dir => negb (direction_eqb dir opposite_dir) && can_move_in_direction maze g dir)
       directions.

Definition first_open (maze : Maze.t) (g : t) (directions : list direction_t)
  : option direction_t :=
  find (can_move_in_direction maze g) directions.

Definition choose_direction_towards_target (maze : Maze.t) (g : t) : t :=
  let '(dx, dy) := get_non_portal_distance g (target_x_ g) (target_y_ g) in
  let current_dir := get_direction g in
  let opposite_dir := get_opposite_direction current_dir in
  let directions := map fst (sort_by_priority (candidate_directions dx dy)) in
  match first_forward maze g opposite_dir directions with
  | Some dir => set_desired_direction dir g
  | None =>
      match first_open maze g directions with
      | Some dir => set_desired_direction dir g
      | None =>
          match first_open maze g all_dirs with
          | Some dir => set_desired_direction dir g
          | None => g
          end
      end
  end.

(** [rand] is the value the call of [rand()] returns (between 0 and
    RAND_MAX); it is read only when a new direction is drawn. *)
Definition choose_direction_random_patrol (rand : Z) (maze : Maze.t) (g : t) : t :=
  let timer := random_dir_timer_ g + 1.0 / 60.0 in
  let current_dir := get_direction g in
  let opposite_dir := get_opposite_direction current_dir in
  let g1 := set_random (random_target_dir_ g) timer g in
  let g2 :=
    if (RANDOM_DIR_CHANGE_TIME <=? timer) || direction_eqb current_dir DIR_NONE ||
       negb (can_move_in_direction maze g current_dir)
    then
      let forward :=
        filter (fun dir => negb (direction_eqb dir opposite_dir) &&
                           can_move_in_direction maze g dir) all_dirs in
      let valid_dirs :=
        match forward with
        | [] => filter (can_move_in_direction maze g) all_dirs
        | _ => forward
        end in
      match valid_dirs with
      | [] => set_random (random_target_dir_ g) 0.0 g1
      | _ =>
          let random_index := (rand mod Z.of_nat (List.length valid_dirs))%Z in
          set_random (nth (Z.to_nat random_index) valid_dirs DIR_NONE) 0.0 g1
      end
    else g1 in
  set_desired_direction (random_target_dir_ g2) g2.

Definition choose_direction_ambush (maze : Maze.t) (pacman_dir : direction_t) (g : t) : t :=
  let ambush_x :=
    match pacman_dir with
    | DIR_RIGHT => target_x_ g + AMBUSH_DISTANCE
    | DIR_LEFT => target_x_ g - AMBUSH_DISTANCE
    | _ => target_x_ g
    end in
  let ambush_y :=
    match pacman_dir with
    | DIR_DOWN => target_y_ g + AMBUSH_DISTANCE
    | DIR_UP => target_y_ g - AMBUSH_DISTANCE
    | _ => target_y_ g
    end in
  let original_x := target_x_ g in
  let original_y := target_y_ g in
  let g1 := set_target ambush_x ambush_y g in
  let g2 := choose_direction_towards_target maze g1 in
  set_target original_x original_y g2.

(** [all_dirs] of [is_at_intersection]. *)
Definition intersection_dirs : list direction_t := [DIR_UP; DIR_DOWN; DIR_LEFT; DIR_RIGHT].

Definition is_at_intersection (maze : Maze.t) (g : t) : bool :=
  let cell_center_x := Maze.get_cell_center_x (Entity.current_col (base g)) in
  let cell_center_y := Maze.get_cell_center_y (Entity.current_row (base g)) in
  let dx := Double.fabs (get_x g - cell_center_x) in
  let dy := Double.fabs (get_y g - cell_center_y) in
  if (3.0 <? dx) || (3.0 <? dy) then false
  else
    let current := get_direction g in
    let opposite := get_opposite_direction current in
    let available_directions :=
      Z.of_nat (List.length
                  (filter (fun dir => negb (direction_eqb dir opposite) &&
                                      can_move_in_direction maze g dir)
                          intersection_dirs)) in
    (available_directions >=? 2)%Z.

Definition should_recalculate_direction (maze : Maze.t) (g : t) : bool :=
  let current := get_direction g in
  if direction_eqb current DIR_NONE || negb (can_move_in_direction maze g current)
  then true
  else is_at_intersection maze g.

Definition update_animation (delta_time : float) (g : t) : t :=
  let timer := anim_timer_ g + delta_time in
  if ANIMATION_DURATION <? timer
  then set_anim (match anim_state_ g with FRAME_1 => FRAME_2 | FRAME_2 => FRAME_1 end) 0.0 g
  else set_anim (anim_state_ g) timer g.

Definition handle_tunnel_wrapping (maze : Maze.t) (g : t) : t :=
  let row := Double.floor_int (get_y g / Double.of_int CELL_SIZE) in
  let col := Double.floor_int (get_x g / Double.of_int CELL_SIZE) in
  if (col <? 0)%Z then
    let new_x :=
      if (row >=? 0)%Z && (row <? MAZE_ROWS)%Z && Maze.is_empty maze row (MAZE_COLS - 1)
      then Maze.get_cell_center_x (MAZE_COLS - 1) else Maze.get_cell_center_x 0 in
    set_position new_x (get_y g) g
  else if (col >=? MAZE_COLS)%Z then
    let new_x :=
      if (row >=? 0)%Z && (row <? MAZE_ROWS)%Z && Maze.is_empty maze row 0
      then Maze.get_cell_center_x 0 else Maze.get_cell_center_x (MAZE_COLS - 1) in
    set_position new_x (get_y g) g
  else g.

(** The cells [find_escape_target] samples: every second row and column. *)
Definition sample_rows : list Z := [0; 2; 4; 6; 8; 10; 12]%Z.
Definition sample_cols : list Z := [0; 2; 4; 6; 8; 10; 12; 14; 16; 18; 20; 22; 24]%Z.

(** The body of the inner loop, on [(max_distance, best_x, best_y)]. *)
Definition escape_step (maze : Maze.t) (g : t) (row : Z)
           (best : float * float * float) (col : Z) : float * float * float :=
  if Maze.is_empty maze row col then
    let test_x := Maze.get_cell_center_x col in
    let test_y := Maze.get_cell_center_y row in
    let dx := target_x_ g - test_x in
    let dy := target_y_ g - test_y in
    let distance := PrimFloat.sqrt (dx * dx + dy * dy) in
    let '(max_distance, _, _) := best in
    if max_distance <? distance then (distance, test_x, test_y) else best
  else best.

Definition find_escape_target (maze : Maze.t) (g : t) : t :=
  let '(_, best_x, best_y) :=
    fold_left
      (fun best row => fold_left (escape_step maze g row) sample_cols best)
      sample_rows (0.0, get_x g, get_y g) in
  set_escape_target best_x best_y g.

Definition choose_direction_away_from_target (maze : Maze.t) (g : t) : t :=
  let g1 := find_escape_target maze g in
  let dx := escape_target_x_ g1 - get_x g1 in
  let dy := escape_target_y_ g1 - get_y g1 in
  let current_dir := get_direction g1 in
  let opposite_dir := get_opposite_direction current_dir in
  let directions := map fst (sort_by_priority (candidate_directions dx dy)) in
  match first_forward maze g1 opposite_dir directions with
  | Some dir => set_desired_direction dir g1
  | None =>
      match first_open maze g1 directions with
      | Some dir => set_desired_direction dir g1
      | None => g1
      end
  end.

(** [sqrt(pow(target_x_ - get_x(), 2) + pow(target_y_ - get_y(), 2))],
    with the square written as the product.  A [pow] that rounds the
    square differently changes the comparisons of this distance with
    [LOCK_ON_DISTANCE], [ESCAPE_DISTANCE] and 25.0 only at their
    boundary; the properties of [update] are proved for every branch
    these comparisons select. *)
Definition distance_to_target (g : t) : float :=
  let dx := target_x_ g - get_x g in
  let dy := target_y_ g - get_y g in
  PrimFloat.sqrt (dx * dx + dy * dy).

(** [Entity::update] on the ghost: the virtual [get_current_speed] is the
    ghost's. *)
Definition entity_update (maze : Maze.t) (delta_time : float) (g : t) : t :=
  set_base (Entity.update (get_current_speed g) maze delta_time (base g)) g.

(** The forced step of a stopped ghost next to the player. *)
Definition force_movement (distance_to_pacman delta_time : float) (g : t) : t :=
  if (distance_to_pacman <? 25.0) && direction_eqb (get_direction g) DIR_NONE then
    let dx := target_x_ g - get_x g in
    let dy := target_y_ g - get_y g in
    let movement := get_current_speed g * delta_time in
    if (Double.fabs dy <? Double.fabs dx) && (1.0 <? Double.fabs dx)
    then set_position (get_x g + (if 0 <? dx then movement else - movement)) (get_y g) g
    else if 1.0 <? Double.fabs dy
    then set_position (get_x g) (get_y g + (if 0 <? dy then movement else - movement)) g
    else g
  else g.

Definition update_chasing (rand : Z) (maze : Maze.t) (pacman_dir : direction_t)
           (delta_time : float) (g : t) : t :=
  let distance_to_pacman := distance_to_target g in
  let g1 :=
    if should_recalculate_direction maze g then
      match ai_type_ g with
      | RANDOM_PATROL =>
          if distance_to_pacman <? LOCK_ON_DISTANCE
          then choose_direction_towards_target maze g
          else choose_direction_random_patrol rand maze g
      | AMBUSHER =>
          if distance_to_pacman <? LOCK_ON_DISTANCE
          then choose_direction_towards_target maze g
          else choose_direction_ambush maze pacman_dir g
      end
    else g in
  let g2 := entity_update maze delta_time g1 in
  let g3 := force_movement distance_to_pacman delta_time g2 in
  handle_tunnel_wrapping maze g3.

Definition update_scared (rand : Z) (maze : Maze.t) (delta_time : float) (g : t) : t :=
  let g1 :=
    if should_recalculate_direction maze g then
      let distance_to_pacman := distance_to_target g in
      if distance_to_pacman <? ESCAPE_DISTANCE
      then choose_direction_away_from_target maze g
      else choose_direction_random_patrol rand maze g
    else g in
  let g2 := entity_update maze delta_time g1 in
  handle_tunnel_wrapping maze g2.

Definition update_cooldown (delta_time : float) (g : t) : t :=
  let timer := cooldown_timer_ g + delta_time in
  let g1 := set_state_and_timers (current_state_ g) (scared_timer_ g)
              (scared_duration_actual_ g) (flash_timer_ g) timer g in
  if COOLDOWN_DURATION <=? timer then set_chasing_mode g1 else g1.

(** [Ghost::update(maze, pacman_x, pacman_y, pacman_dir, delta_time)]. *)
Definition update (rand : Z) (maze : Maze.t) (pacman_x pacman_y : float)
           (pacman_dir : direction_t) (delta_time : float) (g : t) : t :=
  let g0 := set_target pacman_x pacman_y g in
  let g1 := update_scared_timer delta_time g0 in
  let g2 :=
    match current_state_ g1 with
    | CHASING => update_chasing rand maze pacman_dir delta_time g1
    | SCARED => update_scared rand maze delta_time g1
    | CAUGHT => move_towards_home maze g1
    | COOLDOWN => update_cooldown delta_time g1
    end in
  update_animation delta_time g2.

End GhostAI.

(* ================================================================== *)
(** ** Bonus fruit (entities.cpp: Fruit)                               *)
(* ================================================================== *)

Module Fruit.
Import MazeConfig.
Local Open Scope float_scope.

Record t : Type := mk {
  sheet_ : bool;               (* the sprite sheet pointer is not null *)
  x_ : float;
  y_ : float;
  fruit_type_ : Z;
  is_active_ : bool;
  spawn_timer_ : float;
  visible_timer_ : float;
  show_score_popup_ : bool;
  popup_timer_ : float;
  popup_x_ : float;
  popup_y_ : float
}.

Definition SPAWN_INTERVAL : float := 30.0.
Definition VISIBLE_DURATION : float := 20.0.
Definition POPUP_DURATION : float := 1.0.
Definition FRUIT_POINTS : Z := 200.
Definition COLLISION_DISTANCE : float := 15.0.

Definition new (sheet : bool) : t :=
  mk sheet 0 0 0 false SPAWN_INTERVAL 0.0 false 0.0 0 0.

Definition is_active (f : t) : bool := is_active_ f.
Definition is_showing_score_popup (f : t) : bool := show_score_popup_ f.
Definition get_points (f : t) : Z := FRUIT_POINTS.

(** Assignment to the popup flag and timer. *)
Definition set_popup (show : bool) (timer : float) (f : t) : t :=
  mk (sheet_ f) (x_ f) (y_ f) (fruit_type_ f) (is_active_ f) (spawn_timer_ f)
     (visible_timer_ f) show timer (popup_x_ f) (popup_y_ f).

(** Assignment to [is_active_], [spawn_timer_] and [visible_timer_]. *)
Definition set_timers (active : bool) (spawn_timer visible_timer : float) (f : t) : t :=
  mk (sheet_ f) (x_ f) (y_ f) (fruit_type_ f) active spawn_timer
     visible_timer (show_score_popup_ f) (popup_timer_ f) (popup_x_ f) (popup_y_ f).

(** [empty_cells] of [spawn_fruit]: the open cells, row by row. *)
Definition empty_cells (maze : Maze.t) : list (Z * Z) :=
  filter (fun cell => Maze.is_empty maze (fst cell) (snd cell))
         (list_prod MazeInit.rows MazeInit.cols).

(** [rand_type] and [rand_cell] are the values of the two calls of
    [rand()] (between 0 and RAND_MAX). *)
Definition spawn_fruit (rand_type rand_cell : Z) (maze : Maze.t) (f : t) : t :=
  let fruit_type := Z.rem rand_type 4 in
  let cells := empty_cells maze in
  match cells with
  | [] =>
      mk (sheet_ f) (x_ f) (y_ f) fruit_type (is_active_ f) (spawn_timer_ f)
         (visible_timer_ f) (show_score_popup_ f) (popup_timer_ f) (popup_x_ f) (popup_y_ f)
  | _ =>
      let random_index := (rand_cell mod Z.of_nat (List.length cells))%Z in
      let cell := nth (Z.to_nat random_index) cells (0, 0)%Z in
      let spawn_row := fst cell in
      let spawn_col := snd cell in
      mk (sheet_ f) (Maze.get_cell_center_x spawn_col) (Maze.get_cell_center_y spawn_row)
         fruit_type true (spawn_timer_ f) 0.0
         (show_score_popup_ f) (popup_timer_ f) (popup_x_ f) (popup_y_ f)
  end.

Definition update (rand_type rand_cell : Z) (delta_time : float) (maze : Maze.t)
           (f : t) : t :=
  let f1 :=
    if show_score_popup_ f then
      let timer := popup_timer_ f + delta_time in
      if POPUP_DURATION <=? timer then set_popup false 0.0 f else set_popup true timer f
    else f in
  if is_active_ f1 then
    let timer := visible_timer_ f1 + delta_time in
    if VISIBLE_DURATION <=? timer
    then set_timers false SPAWN_INTERVAL timer f1
    else set_timers true (spawn_timer_ f1) timer f1
  else if negb (show_score_popup_ f1) then
    let timer := spawn_timer_ f1 - delta_time in
    let f2 := set_timers (is_active_ f1) timer (visible_timer_ f1) f1 in
    if timer <=? 0.0 then
      let f3 := spawn_fruit rand_type rand_cell maze f2 in
      set_timers (is_active_ f3) SPAWN_INTERVAL (visible_timer_ f3) f3
    else f2
  else f1.

Definition draw (f : t) : list DrawCall :=
  if negb (sheet_ f) then []
  else
    (if is_active_ f
     then [mkDrawCall "WHITE_GREEN_RED"%string 2 (fruit_type_ f) (x_ f) (y_ f)
                      1.0 false false false]
     else []) ++
    (if show_score_popup_ f
     then [mkDrawCall "WHITE_GREEN_RED"%string 5 2 (popup_x_ f) (popup_y_ f)
                      1.0 false false false]
     else []).

Definition check_collision (pacman_x pacman_y : float) (f : t) : t * bool :=
  if negb (is_active_ f) then (f, false)
  else
    let dx := pacman_x - x_ f in
    let dy := pacman_y - y_ f in
    let distance := PrimFloat.sqrt (dx * dx + dy * dy) in
    if distance <=? COLLISION_DISTANCE then
      (mk (sheet_ f) (x_ f) (y_ f) (fruit_type_ f) false SPAWN_INTERVAL
          (visible_timer_ f) true 0.0 (x_ f) (y_ f), true)
    else (f, false).

End Fruit.

(* ================================================================== *)
(** ** Sound manager (sound_manager.h, sound_manager.cpp)              *)
(* ================================================================== *)

(** Calls to the audio library, in program order. *)
Inductive AudioCall : Type :=
| LoadSoundEffect (name file : string)
| PlayOnce (name : string)            (* play_sound_effect(name) *)
| PlayLoop (name : string)            (* play_sound_effect(name, -1) *)
| StopSoundEffect (name : string)
| FreeSoundEffect (name : string).

Module SoundManager.
Local Open Scope string_scope.

Definition BASE_SOUND_PATH : string := "Resources/Sounds/Normal/".
Definition GHOST_CHASE_SOUND_NAME : string := "ghost_chase".
Definition GHOST_CHASE_SOUND_FILE : string := "ghost1.wav".
Definition GHOST_CHASE_SOUND2_NAME : string := "ghost_chase2".
Definition GHOST_CHASE_SOUND2_FILE : string := "ghost2.wav".
Definition GHOST_CHASE_SOUND3_NAME : string := "ghost_chase3".
Definition GHOST_CHASE_SOUND3_FILE : string := "ghost3.wav".
Definition GHOST_CHASE_SOUND4_NAME : string := "ghost_chase4".
Definition GHOST_CHASE_SOUND4_FILE : string := "ghost4.wav".
Definition GHOST_CHASE_SOUND5_NAME : string := "ghost_chase5".
Definition GHOST_CHASE_SOUND5_FILE : string := "ghost5.wav".
Definition DOT1_SOUND_NAME : string := "dot1".
Definition DOT1_SOUND_FILE : string := "dot1.wav".
Definition DOT2_SOUND_NAME : string := "dot2".
Definition DOT2_SOUND_FILE : string := "dot2.wav".
Definition GHOST_BLUE_SOUND_NAME : string := "ghost_blue".
Definition GHOST_BLUE_SOUND_FILE : string := "ghostblue.wav".
Definition GHOST_EAT_SOUND_NAME : string := "ghost_eat".
Definition GHOST_EAT_SOUND_FILE : string := "ghosteat.wav".
Definition GHOST_RETREAT_SOUND_NAME : string := "ghost_retreat".
Definition GHOST_RETREAT_SOUND_FILE : string := "ghostretreat.wav".
Definition START_SOUND_NAME : string := "start".
Definition START_SOUND_FILE : string := "start.wav".
Definition DIE_SOUND_NAME : string := SoundConfig.DIE_SOUND_NAME.
Definition DIE_SOUND_FILE : string := "die.wav".
Definition CUTSCENE_SOUND_NAME : string := "cutscene".
Definition CUTSCENE_SOUND_FILE : string := "cutscene.wav".
Definition FRUIT_SOUND_NAME : string := "fruit".
Definition FRUIT_SOUND_FILE : string := "fruit.wav".

(** [current_ghost_chase_sound_] points to one of the name constants or
    is null ([None]); two such pointers are equal when the names are. *)
Record t : Type := mk {
  ghost_chase_sound_playing_ : bool;
  current_ghost_chase_sound_ : option string;
  ghost_blue_sound_playing_ : bool;
  start_sound_playing_ : bool;
  use_dot1_sound_ : bool;
  sound_base_path_ : string
}.

Definition new : t := mk false None false false true BASE_SOUND_PATH.

Definition set_chase (playing : bool) (current : option string) (s : t) : t :=
  mk playing current (ghost_blue_sound_playing_ s) (start_sound_playing_ s)
     (use_dot1_sound_ s) (sound_base_path_ s).

Definition set_blue (playing : bool) (s : t) : t :=
  mk (ghost_chase_sound_playing_ s) (current_ghost_chase_sound_ s) playing
     (start_sound_playing_ s) (use_dot1_sound_ s) (sound_base_path_ s).

Definition set_start (playing : bool) (s : t) : t :=
  mk (ghost_chase_sound_playing_ s) (current_ghost_chase_sound_ s)
     (ghost_blue_sound_playing_ s) playing (use_dot1_sound_ s) (sound_base_path_ s).

(** Every member function returns the new state and the calls it made. *)
Definition initialize (s : t) : t * list AudioCall * bool :=
  let load name file := LoadSoundEffect name (sound_base_path_ s ++ file) in
  (s,
   [ load GHOST_CHASE_SOUND_NAME GHOST_CHASE_SOUND_FILE;
     load GHOST_CHASE_SOUND2_NAME GHOST_CHASE_SOUND2_FILE;
     load GHOST_CHASE_SOUND3_NAME GHOST_CHASE_SOUND3_FILE;
     load GHOST_CHASE_SOUND4_NAME GHOST_CHASE_SOUND4_FILE;
     load GHOST_CHASE_SOUND5_NAME GHOST_CHASE_SOUND5_FILE;
     load DOT1_SOUND_NAME DOT1_SOUND_FILE;
     load DOT2_SOUND_NAME DOT2_SOUND_FILE;
     load GHOST_BLUE_SOUND_NAME GHOST_BLUE_SOUND_FILE;
     load GHOST_EAT_SOUND_NAME GHOST_EAT_SOUND_FILE;
     load GHOST_RETREAT_SOUND_NAME GHOST_RETREAT_SOUND_FILE;
     load START_SOUND_NAME START_SOUND_FILE;
     load DIE_SOUND_NAME DIE_SOUND_FILE;
     load CUTSCENE_SOUND_NAME CUTSCENE_SOUND_FILE;
     load FRUIT_SOUND_NAME FRUIT_SOUND_FILE ],
   true).

Definition get_chase_sound_for_percentage (pellet_percentage : float) : string :=
  if (75.0 <? pellet_percentage)%float then GHOST_CHASE_SOUND_NAME
  else if (50.0 <? pellet_percentage)%float then GHOST_CHASE_SOUND2_NAME
  else if (25.0 <? pellet_percentage)%float then GHOST_CHASE_SOUND3_NAME
  else if (10.0 <? pellet_percentage)%float then GHOST_CHASE_SOUND4_NAME
  else GHOST_CHASE_SOUND5_NAME.

Definition stop_current_chase_sound (s : t) : t * list AudioCall :=
  match ghost_chase_sound_playing_ s, current_ghost_chase_sound_ s with
  | true, Some name => (set_chase false None s, [StopSoundEffect name])
  | _, _ => (s, [])
  end.

(** The two tests that follow the chase sound in
    [stop_all_background_sounds], and close [update_background_audio]
    for the modes they apply to. *)
Definition stop_blue_if_playing (s : t) : t * list AudioCall :=
  if ghost_blue_sound_playing_ s
  then (set_blue false s, [StopSoundEffect GHOST_BLUE_SOUND_NAME])
  else (s, []).

Definition stop_start_if_playing (s : t) : t * list AudioCall :=
  if start_sound_playing_ s
  then (set_start false s, [StopSoundEffect START_SOUND_NAME])
  else (s, []).

(** Sequencing of two calls: the second runs in the state the first
    leaves, the calls are concatenated. *)
Definition andthen (r : t * list AudioCall) (f : t -> t * list AudioCall)
  : t * list AudioCall :=
  let '(s1, calls1) := r in
  let '(s2, calls2) := f s1 in
  (s2, (calls1 ++ calls2)%list).

Definition stop_all_background_sounds (s : t) : t * list AudioCall :=
  andthen (andthen (stop_current_chase_sound s) stop_blue_if_playing)
          stop_start_if_playing.

Definition stop_all_sounds (s : t) : t * list AudioCall :=
  stop_all_background_sounds s.

Definition option_string_eqb (a : option string) (b : string) : bool :=
  match a with
  | Some x => String.eqb x b
  | None => false
  end.

(** The [switch] of [update_background_audio]. *)
Definition update_for_mode (game_mode : GameMode) (pellet_percentage : float) (s : t)
  : t * list AudioCall :=
  match game_mode with
  | STARTING =>
      if negb (start_sound_playing_ s)
      then (set_start true s, [PlayOnce START_SOUND_NAME])
      else (s, [])
  | NORMAL =>
      let required_chase_sound := get_chase_sound_for_percentage pellet_percentage in
      if negb (ghost_chase_sound_playing_ s) ||
         negb (option_string_eqb (current_ghost_chase_sound_ s) required_chase_sound)
      then
        andthen (stop_current_chase_sound s)
                (fun s1 => (set_chase true (Some required_chase_sound) s1,
                            [PlayLoop required_chase_sound]))
      else (s, [])
  | POWER_MODE =>
      andthen (stop_current_chase_sound s)
              (fun s1 =>
                 if negb (ghost_blue_sound_playing_ s1)
                 then (set_blue true s1, [PlayLoop GHOST_BLUE_SOUND_NAME])
                 else (s1, []))
  | GAME_OVER | VICTORY => stop_all_background_sounds s
  end.

Definition update_background_audio (game_mode : GameMode) (pellet_percentage : float)
           (s : t) : t * list AudioCall :=
  andthen
    (andthen (update_for_mode game_mode pellet_percentage s)
             (fun s1 =>
                if negb (GameMode_eqb game_mode POWER_MODE) then stop_blue_if_playing s1
                else (s1, [])))
    (fun s2 =>
       if negb (GameMode_eqb game_mode STARTING) then stop_start_if_playing s2
       else (s2, [])).

Definition play_dot_collection_sound (s : t) : t * list AudioCall :=
  (mk (ghost_chase_sound_playing_ s) (current_ghost_chase_sound_ s)
      (ghost_blue_sound_playing_ s) (start_sound_playing_ s)
      (negb (use_dot1_sound_ s)) (sound_base_path_ s),
   [PlayOnce (if use_dot1_sound_ s then DOT1_SOUND_NAME else DOT2_SOUND_NAME)]).

Definition play_ghost_eat_sound (s : t) : t * list AudioCall :=
  (s, [PlayOnce GHOST_EAT_SOUND_NAME]).

Definition play_ghost_retreat_sound (s : t) : t * list AudioCall :=
  (s, [PlayOnce GHOST_RETREAT_SOUND_NAME]).

Definition play_cutscene_sound (s : t) : t * list AudioCall :=
  (s, [PlayOnce CUTSCENE_SOUND_NAME]).

(** The character '/' (code 47). *)
Definition slash : Ascii.ascii := Ascii.Ascii true true true true false true false false.

(** [std::string::back]: the last character of a non-empty string. *)
Fixpoint back (p : string) : option Ascii.ascii :=
  match p with
  | EmptyString => None
  | String c EmptyString => Some c
  | String _ rest => back rest
  end.

Definition set_sound_base_path (base_path : string) (s : t) : t :=
  let path :=
    match back base_path with
    | Some c => if Ascii.eqb c slash then base_path else base_path ++ "/"
    | None => base_path
    end in
  mk (ghost_chase_sound_playing_ s) (current_ghost_chase_sound_ s)
     (ghost_blue_sound_playing_ s) (start_sound_playing_ s) (use_dot1_sound_ s) path.

(** The names [unload_all_sounds] tests and frees, in order. *)
Definition unloaded_names : list string :=
  [ GHOST_CHASE_SOUND_NAME; GHOST_CHASE_SOUND2_NAME; GHOST_CHASE_SOUND3_NAME;
    GHOST_CHASE_SOUND4_NAME; GHOST_CHASE_SOUND5_NAME; DOT1_SOUND_NAME; DOT2_SOUND_NAME;
    GHOST_BLUE_SOUND_NAME; GHOST_EAT_SOUND_NAME; GHOST_RETREAT_SOUND_NAME;
    START_SOUND_NAME; DIE_SOUND_NAME; CUTSCENE_SOUND_NAME ].

(** [has_sound_effect] is the answer of the audio library. *)
Definition unload_all_sounds (has_sound_effect : string -> bool) (s : t)
  : t * list AudioCall :=
  andthen (stop_all_sounds s)
          (fun s1 =>
             (s1, flat_map (fun name => if has_sound_effect name
                                        then [FreeSoundEffect name] else [])
                           unloaded_names)).

End SoundManager.

(* ================================================================== *)
(** ** The whole tick (game.cpp: Game::update, advance_to_next_level)  *)
(* ================================================================== *)

Module GameTick.
Import MazeConfig GameConfig Game.
Local Open Scope float_scope.

(** The game with its fruit, which [Game.t] leaves out. *)
Record t : Type := mk {
  game : Game.t;
  fruit_ : Fruit.t
}.

(** What one tick reads from outside the game: the audio library's answer
    for the start sound, the values of the calls of [rand()] (one for each
    ghost, two for the fruit), and what the constructor [Maze(level)]
    builds for a level from the level files. *)
Record Inputs : Type := mkInputs {
  start_sound_playing : bool;
  rand_ghost1 : Z;
  rand_ghost2 : Z;
  rand_fruit_type : Z;
  rand_fruit_cell : Z;
  load_maze : Z -> Maze.t
}.

Definition pacman_target : Z * Z := (MAZE_ROWS / 2 + 3, MAZE_COLS / 2)%Z.
Definition ghost1_target : Z * Z := (MAZE_ROWS / 2 - 3, MAZE_COLS / 2)%Z.
Definition ghost2_target : Z * Z := (MAZE_ROWS / 2 + 1, MAZE_COLS / 2 + 5)%Z.

Definition spawn_of (maze : Maze.t) (target : Z * Z) : Z * Z :=
  MazeSpawn.find_spawn_position maze (fst target) (snd target).

(** [Pacman::set_position], inherited from [Entity]. *)
Definition pacman_set_position (x y : float) (p : Pacman.t) : Pacman.t :=
  Pacman.set_base (Entity.set_position x y (Pacman.base p)) p.

Definition advance_to_next_level (load : Z -> Maze.t) (w : t) : t :=
  let g := game w in
  let current_score := GameState.get_score (game_state_ g) in
  if negb (Menu.is_endless_mode (menu_ g)) then
    let g1 := set_modes VICTORY (previous_game_mode_ g) g in
    let g2 := emit [ StopAllBackgroundSounds;
                     DrawText "LEVEL COMPLETE!";
                     RefreshScreen TARGET_FPS;
                     Delay 2000 ] g1 in
    mk (set_game_initialized false (set_menu (Menu.set_state MAIN_MENU (menu_ g2)) g2))
       (fruit_ w)
  else
    let next := (current_level_ g + 1)%Z in
    let level := if (next >? 5)%Z then 1%Z else next in
    let maze := load level in
    let pacman_spawn := spawn_of maze pacman_target in
    let ghost1_spawn := spawn_of maze ghost1_target in
    let ghost2_spawn := spawn_of maze ghost2_target in
    let pacman :=
      pacman_set_position (Maze.get_cell_center_x (snd pacman_spawn))
                          (Maze.get_cell_center_y (fst pacman_spawn)) (pacman_ g) in
    let ghost1 :=
      Ghost.set_chasing_mode
        (Ghost.set_position (Maze.get_cell_center_x (snd ghost1_spawn))
                            (Maze.get_cell_center_y (fst ghost1_spawn)) (ghost1_ g)) in
    let ghost2 :=
      Ghost.set_chasing_mode
        (Ghost.set_position (Maze.get_cell_center_x (snd ghost2_spawn))
                            (Maze.get_cell_center_y (fst ghost2_spawn)) (ghost2_ g)) in
    let game_state :=
      GameState.add_score current_score
        (MazeInit.initialize_power_pellets maze
           (MazeInit.initialize_tokens maze (fst pacman_spawn) (snd pacman_spawn)
                                       GameState.new)) in
    mk (Game.mk maze pacman ghost1 ghost2 game_state (menu_ g) (running_ g)
                (game_initialized_ g) STARTING STARTING level
                (previous_power_pellets g) (trace g))
       (Fruit.new true).

(** The ghost phase of [Game::update]: both ghosts are updated with the
    player's new position and direction, then their score popups. *)
Definition update_ghosts (inp : Inputs) (delta_time : float) (g : Game.t) : Game.t :=
  let px := Pacman.get_x (pacman_ g) in
  let py := Pacman.get_y (pacman_ g) in
  let pdir := Pacman.get_direction (pacman_ g) in
  let ghost1 := GhostAI.update (rand_ghost1 inp) (maze_ g) px py pdir delta_time
                               (ghost1_ g) in
  let ghost2 := GhostAI.update (rand_ghost2 inp) (maze_ g) px py pdir delta_time
                               (ghost2_ g) in
  set_ghost2 (Ghost.update_score_popup delta_time ghost2)
    (set_ghost1 (Ghost.update_score_popup delta_time ghost1) g).

(** The fruit phase: the fruit is updated and checked against the
    player. *)
Definition update_fruit (inp : Inputs) (delta_time : float) (w : t) : t :=
  let g := game w in
  let f1 := Fruit.update (rand_fruit_type inp) (rand_fruit_cell inp) delta_time
                         (maze_ g) (fruit_ w) in
  let '(f2, hit) := Fruit.check_collision (Pacman.get_x (pacman_ g))
                                          (Pacman.get_y (pacman_ g)) f1 in
  if hit then
    mk (emit [PlaySoundEffect SoundManager.FRUIT_SOUND_NAME]
          (set_game_state (GameState.add_score (Fruit.get_points f2) (game_state_ g)) g))
       f2
  else mk g f2.

(** The end of the tick: the win test and what follows it.
    [play_cutscene_sound] is the library call on the cutscene sound. *)
Definition finish_tick (inp : Inputs) (w : t) : t :=
  let g := game w in
  if check_win_condition g then
    let g1 := set_modes VICTORY (previous_game_mode_ g) g in
    let g2 := emit [ StopAllBackgroundSounds;
                     PlaySoundEffect SoundManager.CUTSCENE_SOUND_NAME;
                     Delay 4300 ] g1 in
    advance_to_next_level (load_maze inp) (mk g2 (fruit_ w))
  else w.

(** [Game::update]. *)
Definition update (inp : Inputs) (delta_time : float) (w : t) : t :=
  let g := game w in
  let g0 := emit [UpdateBackgroundAudio (current_game_mode_ g)
                                        (calculate_pellet_percentage g)] g in
  let g1 := update_game_mode (start_sound_playing inp) g0 in
  if GameMode_eqb (current_game_mode_ g1) STARTING then mk g1 (fruit_ w)
  else
    let g2 := update_player_and_power_pellets delta_time g1 in
    let g3 := update_ghosts inp delta_time g2 in
    let w4 := update_fruit inp delta_time (mk g3 (fruit_ w)) in
    let w5 := mk (handle_ghost_collisions (game w4)) (fruit_ w4) in
    finish_tick inp w5.

(** The test of the early return of [Game::update]: the mode that the
    tick's [update_game_mode] leaves is STARTING. *)
Definition skips_entities (inp : Inputs) (w : t) : bool :=
  let g := game w in
  let g0 := emit [UpdateBackgroundAudio (current_game_mode_ g)
                                        (calculate_pellet_percentage g)] g in
  GameMode_eqb (current_game_mode_ (update_game_mode (start_sound_playing inp) g0))
               STARTING.

(** [Game::update] of a tick that gets past the early return, up to the
    call of [handle_ghost_collisions]: the player, the ghosts and the
    fruit are updated, the collisions are still to be resolved. *)
Definition update_until_collisions (inp : Inputs) (delta_time : float) (w : t) : t :=
  let g := game w in
  let g0 := emit [UpdateBackgroundAudio (current_game_mode_ g)
                                        (calculate_pellet_percentage g)] g in
  let g1 := update_game_mode (start_sound_playing inp) g0 in
  let g2 := update_player_and_power_pellets delta_time g1 in
  let g3 := update_ghosts inp delta_time g2 in
  update_fruit inp delta_time (mk g3 (fruit_ w)).

End GameTick.

(* ================================================================== *)
(** ** Sprite sheet layout (spritesheet.h, spritesheet.cpp)            *)
(* ================================================================== *)

Module SpriteSheet.
Local Open Scope Z_scope.

(** One entry of [PALETTE_CELL_MAP]: row, column and name (null in the
    last entry). *)
Record PaletteCellInfo : Type := mkCell {
  row : Z;
  col : Z;
  name : option string
}.

Definition PALETTE_CELL_MAP : list PaletteCellInfo :=
  [ mkCell 0 0 (Some "RED_BLUE_WHITE"%string);
    mkCell 1 0 (Some "RED_WHITE_GREEN"%string);
    mkCell 2 0 (Some "RED_PEACH_WHITE"%string);
    mkCell 3 0 (Some "WHITE_GREEN_TEAL"%string);
    mkCell 0 1 (Some "PINK_BLUE_WHTE"%string);
    mkCell 1 1 (Some "BLACK_BLUE_WHITE"%string);
    mkCell 2 1 (Some "PINK_BLUE_WHITE"%string);
    mkCell 3 1 (Some "YELLOW_RED_BLUE"%string);
    mkCell 0 2 (Some "SKY_BLUE_WHITE"%string);
    mkCell 1 2 (Some "YELLOW_PINK_SKY"%string);
    mkCell 2 2 (Some "WHITE_ORANGE_RED"%string);
    mkCell 3 2 (Some "WHITE_BLUE_YELLOW"%string);
    mkCell 0 3 (Some "ORANGE_BLUE_WHITE"%string);
    mkCell 1 3 (Some "BLUE_BLACK_PEACH"%string);
    mkCell 2 3 (Some "WHITE_GREEN_RED"%string);
    mkCell 3 3 (Some "PEACH_BLACK_WHITE"%string);
    mkCell 0 4 (Some "PEACH_BLUE_GREEN"%string);
    mkCell 1 4 (Some "WHITE_BLACK_PEACH"%string);
    mkCell 2 4 (Some "TAN_GREEN_ORANGE"%string);
    mkCell 3 4 None ].

(** The test of the two lookup loops. *)
Definition entry_named (palette_name : string) (entry : PaletteCellInfo) : bool :=
  match name entry with
  | Some n => String.eqb n palette_name
  | None => false
  end.

Definition get_palette_cell_col (palette_name : string) : Z :=
  match find (entry_named palette_name) PALETTE_CELL_MAP with
  | Some entry => col entry
  | None => 0
  end.

Definition get_palette_cell_row (palette_name : string) : Z :=
  match find (entry_named palette_name) PALETTE_CELL_MAP with
  | Some entry => row entry
  | None => 0
  end.

Definition SPRITE_W : Z := 16.
Definition SPRITE_H : Z := 16.
Definition SPRITES_X : Z := 10.
Definition SPRITES_Y : Z := 6.
Definition TILES_X : Z := 22.
Definition TILES_Y : Z := 9.
Definition TILE_W : Z := 8.
Definition TILE_H : Z := 8.
Definition BORDER_Y : Z := 2.
Definition PALETTE_CELL_W : Z := TILES_X * TILE_W.
Definition PALETTE_CELL_H : Z :=
  TILES_Y * TILE_H + BORDER_Y + SPRITES_Y * SPRITE_H + (SPRITES_Y - 1) * 1 + 11.
Definition SPRITE_OFFSET_X : Z := 0.
Definition SPRITE_OFFSET_Y : Z := TILES_Y * TILE_H + BORDER_Y.
Definition PALETTE_CELL_GAP_X : Z := 24.

Definition cell_origin_x (palette_name : string) : Z :=
  get_palette_cell_col palette_name * (PALETTE_CELL_W + PALETTE_CELL_GAP_X).

Definition cell_origin_y (palette_name : string) : Z :=
  get_palette_cell_row palette_name * PALETTE_CELL_H.

(** [(px, py)]: the top-left pixel of the sprite in the sheet. *)
Definition get_sprite_pixel_coords (palette_name : string) (local_col local_row : Z)
  : Z * Z :=
  (cell_origin_x palette_name + SPRITE_OFFSET_X + local_row * (SPRITE_W + 1) + 1,
   cell_origin_y palette_name + SPRITE_OFFSET_Y + local_col * (SPRITE_H + 1) + 9).

End SpriteSheet.

(** [Pacman::get_sprite_info] and [Pacman::draw] (entities.cpp). *)
Module PacmanSprite.
Import MazeConfig Pacman.
Local Open Scope Z_scope.

Definition anim_frame (a : AnimationState) : Z :=
  match a with OPEN => 0 | CLOSING => 1 | CLOSED => 2 end.

Definition get_sprite_info (p : Pacman.t) : Z * Z * bool * bool :=
  let sprite_col := 3 + anim_frame (anim_state_ p) in
  let closed := match anim_state_ p with CLOSED => true | _ => false end in
  match get_direction p with
  | DIR_RIGHT => (sprite_col, 6, false, false)
  | DIR_LEFT => (sprite_col, 6, true, false)
  | DIR_DOWN => (sprite_col, if closed then 6 else 7, false, false)
  | DIR_UP => (sprite_col, if closed then 6 else 7, false, true)
  | DIR_NONE => (5, 6, false, false)
  end.

Definition draw (p : Pacman.t) : list DrawCall :=
  if negb (sheet_ p) then []
  else
    let '(sprite_col, sprite_row, fx, fy) := get_sprite_info p in
    [mkDrawCall (Entity.get_palette (base p)) sprite_col sprite_row (get_x p) (get_y p)
                SPRITE_SCALE fx fy true].

End PacmanSprite.

(* ================================================================== *)
(** ** Menu screens (menu.h, menu.cpp: the input handlers)             *)
(* ================================================================== *)

Record HighScoreEntry : Type := mkEntry {
  entry_name : string;
  entry_score : Z
}.

(** What the menu does outside itself: a sound effect it plays, the
    high-score file it writes. *)
Inductive MenuCall : Type :=
| MenuSound (name : string)
| SaveHighScores (entries : list HighScoreEntry).

(** The answers of [key_typed] during one call of [handle_input]. *)
Record Keys : Type := mkKeys {
  up_key : bool;
  down_key : bool;
  left_key : bool;
  right_key : bool;
  space_key : bool;
  return_key : bool;
  escape_key : bool
}.

Module MenuInput.
Local Open Scope Z_scope.

(** All members of [Menu]. *)
Record t : Type := mk {
  current_state_ : MenuState;
  selected_option_ : Z;
  should_start_game_ : bool;
  last_input_time_ : float;
  selected_palette_index_ : Z;
  sprite_sheet_ : bool;   (* the pointer is not null *)
  sound_manager_ : bool;   (* the pointer is not null *)
  velentina_mode_ : bool;
  difficulty_level_ : Z;   (* the enum's underlying value *)
  selected_difficulty_option_ : Z;
  endless_mode_ : bool;
  selected_level_ : Z;
  name_entry_complete_ : bool;
  pending_score_ : Z;
  name_letters_ : list Z;   (* char[3], as character codes *)
  name_cursor_position_ : Z;
  high_scores_ : list HighScoreEntry
}.

Definition set_current_state (v : MenuState) (m : t) : t :=
  mk v (selected_option_ m) (should_start_game_ m) (last_input_time_ m)
     (selected_palette_index_ m) (sprite_sheet_ m) (sound_manager_ m)
     (velentina_mode_ m) (difficulty_level_ m) (selected_difficulty_option_ m)
     (endless_mode_ m) (selected_level_ m) (name_entry_complete_ m) (pending_score_ m)
     (name_letters_ m) (name_cursor_position_ m) (high_scores_ m).

Definition set_selected_option (v : Z) (m : t) : t :=
  mk (current_state_ m) v (should_start_game_ m) (last_input_time_ m)
     (selected_palette_index_ m) (sprite_sheet_ m) (sound_manager_ m)
     (velentina_mode_ m) (difficulty_level_ m) (selected_difficulty_option_ m)
     (endless_mode_ m) (selected_level_ m) (name_entry_complete_ m) (pending_score_ m)
     (name_letters_ m) (name_cursor_position_ m) (high_scores_ m).

Definition set_should_start_game (v : bool) (m : t) : t :=
  mk (current_state_ m) (selected_option_ m) v (last_input_time_ m)
     (selected_palette_index_ m) (sprite_sheet_ m) (sound_manager_ m)
     (velentina_mode_ m) (difficulty_level_ m) (selected_difficulty_option_ m)
     (endless_mode_ m) (selected_level_ m) (name_entry_complete_ m) (pending_score_ m)
     (name_letters_ m) (name_cursor_position_ m) (high_scores_ m).

Definition set_last_input_time (v : float) (m : t) : t :=
  mk (current_state_ m) (selected_option_ m) (should_start_game_ m) v
     (selected_palette_index_ m) (sprite_sheet_ m) (sound_manager_ m)
     (velentina_mode_ m) (difficulty_level_ m) (selected_difficulty_option_ m)
     (endless_mode_ m) (selected_level_ m) (name_entry_complete_ m) (pending_score_ m)
     (name_letters_ m) (name_cursor_position_ m) (high_scores_ m).

Definition set_selected_palette_index (v : Z) (m : t) : t :=
  mk (current_state_ m) (selected_option_ m) (should_start_game_ m) (last_input_time_ m)
     v (sprite_sheet_ m) (sound_manager_ m) (velentina_mode_ m) (difficulty_level_ m)
     (selected_difficulty_option_ m) (endless_mode_ m) (selected_level_ m)
     (name_entry_complete_ m) (pending_score_ m) (name_letters_ m)
     (name_cursor_position_ m) (high_scores_ m).

Definition set_velentina_mode (v : bool) (m : t) : t :=
  mk (current_state_ m) (selected_option_ m) (should_start_game_ m) (last_input_time_ m)
     (selected_palette_index_ m) (sprite_sheet_ m) (sound_manager_ m) v
     (difficulty_level_ m) (selected_difficulty_option_ m) (endless_mode_ m)
     (selected_level_ m) (name_entry_complete_ m) (pending_score_ m) (name_letters_ m)
     (name_cursor_position_ m) (high_scores_ m).

Definition set_difficulty_level (v : Z) (m : t) : t :=
  mk (current_state_ m) (selected_option_ m) (should_start_game_ m) (last_input_time_ m)
     (selected_palette_index_ m) (sprite_sheet_ m) (sound_manager_ m)
     (velentina_mode_ m) v (selected_difficulty_option_ m) (endless_mode_ m)
     (selected_level_ m) (name_entry_complete_ m) (pending_score_ m) (name_letters_ m)
     (name_cursor_position_ m) (high_scores_ m).

Definition set_selected_difficulty_option (v : Z) (m : t) : t :=
  mk (current_state_ m) (selected_option_ m) (should_start_game_ m) (last_input_time_ m)
     (selected_palette_index_ m) (sprite_sheet_ m) (sound_manager_ m)
     (velentina_mode_ m) (difficulty_level_ m) v (endless_mode_ m) (selected_level_ m)
     (name_entry_complete_ m) (pending_score_ m) (name_letters_ m)
     (name_cursor_position_ m) (high_scores_ m).

Definition set_endless_mode (v : bool) (m : t) : t :=
  mk (current_state_ m) (selected_option_ m) (should_start_game_ m) (last_input_time_ m)
     (selected_palette_index_ m) (sprite_sheet_ m) (sound_manager_ m)
     (velentina_mode_ m) (difficulty_level_ m) (selected_difficulty_option_ m) v
     (selected_level_ m) (name_entry_complete_ m) (pending_score_ m) (name_letters_ m)
     (name_cursor_position_ m) (high_scores_ m).

Definition set_selected_level (v : Z) (m : t) : t :=
  mk (current_state_ m) (selected_option_ m) (should_start_game_ m) (last_input_time_ m)
     (selected_palette_index_ m) (sprite_sheet_ m) (sound_manager_ m)
     (velentina_mode_ m) (difficulty_level_ m) (selected_difficulty_option_ m)
     (endless_mode_ m) v (name_entry_complete_ m) (pending_score_ m) (name_letters_ m)
     (name_cursor_position_ m) (high_scores_ m).

Definition set_name_entry_complete (v : bool) (m : t) : t :=
  mk (current_state_ m) (selected_option_ m) (should_start_game_ m) (last_input_time_ m)
     (selected_palette_index_ m) (sprite_sheet_ m) (sound_manager_ m)
     (velentina_mode_ m) (difficulty_level_ m) (selected_difficulty_option_ m)
     (endless_mode_ m) (selected_level_ m) v (pending_score_ m) (name_letters_ m)
     (name_cursor_position_ m) (high_scores_ m).

Definition set_pending_score (v : Z) (m : t) : t :=
  mk (current_state_ m) (selected_option_ m) (should_start_game_ m) (last_input_time_ m)
     (selected_palette_index_ m) (sprite_sheet_ m) (sound_manager_ m)
     (velentina_mode_ m) (difficulty_level_ m) (selected_difficulty_option_ m)
     (endless_mode_ m) (selected_level_ m) (name_entry_complete_ m) v (name_letters_ m)
     (name_cursor_position_ m) (high_scores_ m).

Definition set_name_letters (v : list Z) (m : t) : t :=
  mk (current_state_ m) (selected_option_ m) (should_start_game_ m) (last_input_time_ m)
     (selected_palette_index_ m) (sprite_sheet_ m) (sound_manager_ m)
     (velentina_mode_ m) (difficulty_level_ m) (selected_difficulty_option_ m)
     (endless_mode_ m) (selected_level_ m) (name_entry_complete_ m) (pending_score_ m) v
     (name_cursor_position_ m) (high_scores_ m).

Definition set_name_cursor_position (v : Z) (m : t) : t :=
  mk (current_state_ m) (selected_option_ m) (should_start_game_ m) (last_input_time_ m)
     (selected_palette_index_ m) (sprite_sheet_ m) (sound_manager_ m)
     (velentina_mode_ m) (difficulty_level_ m) (selected_difficulty_option_ m)
     (endless_mode_ m) (selected_level_ m) (name_entry_complete_ m) (pending_score_ m)
     (name_letters_ m) v (high_scores_ m).

Definition set_high_scores (v : list HighScoreEntry) (m : t) : t :=
  mk (current_state_ m) (selected_option_ m) (should_start_game_ m) (last_input_time_ m)
     (selected_palette_index_ m) (sprite_sheet_ m) (sound_manager_ m)
     (velentina_mode_ m) (difficulty_level_ m) (selected_difficulty_option_ m)
     (endless_mode_ m) (selected_level_ m) (name_entry_complete_ m) (pending_score_ m)
     (name_letters_ m) (name_cursor_position_ m) v.

Definition INPUT_COOLDOWN : float := 0.15.
Definition DOT1_SOUND_NAME : string := SoundManager.DOT1_SOUND_NAME.
Definition DOT2_SOUND_NAME : string := SoundManager.DOT2_SOUND_NAME.

(** [MainMenuOption] and [DifficultyLevel::COUNT]. *)
Definition PLAY_ENDLESS : Z := 0.
Definition PLAY_LEVEL_SELECT : Z := 1.
Definition OPTION_DIFFICULTY : Z := 2.
Definition OPTION_HIGH_SCORES : Z := 3.
Definition OPTION_SETTINGS : Z := 4.
Definition MAIN_MENU_COUNT : Z := 5.
Definition DIFFICULTY_COUNT : Z := 4.

Definition pacman_palettes : list string :=
  [ "YELLOW_PINK_SKY"; "RED_BLUE_WHITE"; "PINK_BLUE_WHITE"; "ORANGE_BLUE_WHITE";
    "SKY_BLUE_WHITE"; "PEACH_BLUE_GREEN"; "WHITE_ORANGE_RED"; "WHITE_GREEN_RED";
    "TAN_GREEN_ORANGE" ]%string.
Definition num_palettes : Z := 9.

(** [std::sort] with the comparator [a.score > b.score].  The order it
    gives to entries of equal score is the library's; the model keeps
    them in their order of arrival. *)
Fixpoint insert_by_score (e : HighScoreEntry) (l : list HighScoreEntry)
  : list HighScoreEntry :=
  match l with
  | [] => [e]
  | b :: rest =>
      if entry_score b <? entry_score e then e :: l else b :: insert_by_score e rest
  end.

Definition sort_by_score (l : list HighScoreEntry) : list HighScoreEntry :=
  fold_left (fun sorted e => insert_by_score e sorted) l [].

(** [load_high_scores]: [parsed] are the entries read from the file, none
    if it does not exist. *)
Definition load_high_scores (parsed : list HighScoreEntry) (m : t) : t :=
  set_high_scores (sort_by_score parsed) m.

(** The constructor. *)
Definition new (parsed : list HighScoreEntry) : t :=
  load_high_scores parsed
    (mk MAIN_MENU 0 false 0.0%float 0 false false false 1 1 true 1 false 0
        [65; 65; 65] 0 []).

Definition set_sprite_sheet (sheet : bool) (m : t) : t :=
  mk (current_state_ m) (selected_option_ m) (should_start_game_ m) (last_input_time_ m)
     (selected_palette_index_ m) sheet (sound_manager_ m) (velentina_mode_ m)
     (difficulty_level_ m) (selected_difficulty_option_ m) (endless_mode_ m)
     (selected_level_ m) (name_entry_complete_ m) (pending_score_ m) (name_letters_ m)
     (name_cursor_position_ m) (high_scores_ m).

Definition set_sound_manager (sound_manager : bool) (m : t) : t :=
  mk (current_state_ m) (selected_option_ m) (should_start_game_ m) (last_input_time_ m)
     (selected_palette_index_ m) (sprite_sheet_ m) sound_manager (velentina_mode_ m)
     (difficulty_level_ m) (selected_difficulty_option_ m) (endless_mode_ m)
     (selected_level_ m) (name_entry_complete_ m) (pending_score_ m) (name_letters_ m)
     (name_cursor_position_ m) (high_scores_ m).

Definition set_state (state : MenuState) (m : t) : t := set_current_state state m.
Definition reset_game_start_flag (m : t) : t := set_should_start_game false m.
Definition reset_name_entry_flag (m : t) : t := set_name_entry_complete false m.

Definition get_selected_pacman_palette (m : t) : option string :=
  if (0 <=? selected_palette_index_ m) && (selected_palette_index_ m <? num_palettes)
  then nth_error pacman_palettes (Z.to_nat (selected_palette_index_ m))
  else None.

Definition get_difficulty_speed_multiplier (m : t) : float :=
  match difficulty_level_ m with
  | 0 => 0.75%float
  | 1 => 1.0%float
  | 2 => 1.25%float
  | 3 => 2.0%float
  | _ => 1.0%float
  end.

(** [if (sound_manager_) play_sound_effect(name)]. *)
Definition menu_sound (name : string) (m : t) : list MenuCall :=
  if sound_manager_ m then [MenuSound name] else [].

Definition save_high_scores (m : t) : list MenuCall := [SaveHighScores (high_scores_ m)].

Definition add_high_score (name : string) (score : Z) (m : t) : t * list MenuCall :=
  let sorted := sort_by_score (high_scores_ m ++ [mkEntry name score]) in
  let kept := if (Z.of_nat (List.length sorted) >? 10) then firstn 10 sorted else sorted in
  let m1 := set_high_scores kept m in
  (m1, save_high_scores m1).

Definition start_name_entry (score : Z) (m : t) : t :=
  set_selected_option 0
    (set_current_state NAME_ENTRY
       (set_name_entry_complete false
          (set_name_cursor_position 0
             (set_name_letters [65; 65; 65] (set_pending_score score m))))).

(** [input_time] is the clock read when an input has been handled. *)
Definition handled (input_time : float) (r : t * list MenuCall) : t * list MenuCall :=
  (set_last_input_time input_time (fst r), snd r).

Definition handle_main_menu_input (keys : Keys) (input_time : float) (m : t)
  : t * list MenuCall :=
  if up_key keys then
    let option := selected_option_ m - 1 in
    let option := if option <? 0 then MAIN_MENU_COUNT - 1 else option in
    handled input_time (set_selected_option option m, menu_sound DOT2_SOUND_NAME m)
  else if down_key keys then
    let option := selected_option_ m + 1 in
    let option := if option >=? MAIN_MENU_COUNT then 0 else option in
    handled input_time (set_selected_option option m, menu_sound DOT2_SOUND_NAME m)
  else if space_key keys then
    let m1 :=
      match selected_option_ m with
      | 0 =>
          set_current_state IN_GAME
            (set_should_start_game true (set_selected_level 1 (set_endless_mode true m)))
      | 1 =>
          set_selected_option 0 (set_current_state LEVEL_SELECT (set_endless_mode false m))
      | 2 => set_current_state DIFFICULTY m
      | 3 => set_current_state HIGH_SCORES m
      | 4 => set_current_state SETTINGS m
      | _ => m
      end in
    handled input_time (m1, menu_sound DOT1_SOUND_NAME m)
  else (m, []).

Definition handle_difficulty_input (keys : Keys) (input_time : float) (m : t)
  : t * list MenuCall :=
  if up_key keys then
    let option := selected_difficulty_option_ m - 1 in
    let option := if option <? 0 then DIFFICULTY_COUNT - 1 else option in
    handled input_time
      (set_selected_difficulty_option option m, menu_sound DOT2_SOUND_NAME m)
  else if down_key keys then
    let option := selected_difficulty_option_ m + 1 in
    let option := if option >=? DIFFICULTY_COUNT then 0 else option in
    handled input_time
      (set_selected_difficulty_option option m, menu_sound DOT2_SOUND_NAME m)
  else if space_key keys then
    handled input_time
      (set_selected_option OPTION_DIFFICULTY
         (set_current_state MAIN_MENU
            (set_difficulty_level (selected_difficulty_option_ m) m)),
       menu_sound DOT1_SOUND_NAME m)
  else if escape_key keys then
    handled input_time
      (set_selected_option OPTION_DIFFICULTY (set_current_state MAIN_MENU m), [])
  else (m, []).

Definition handle_high_scores_input (keys : Keys) (input_time : float) (m : t)
  : t * list MenuCall :=
  if space_key keys || escape_key keys then
    handled input_time
      (set_selected_option OPTION_HIGH_SCORES (set_current_state MAIN_MENU m),
       menu_sound DOT1_SOUND_NAME m)
  else (m, []).

Definition handle_level_select_input (keys : Keys) (input_time : float) (m : t)
  : t * list MenuCall :=
  if up_key keys then
    let option := selected_option_ m - 1 in
    let option := if option <? 0 then 4 else option in
    handled input_time (set_selected_option option m, menu_sound DOT2_SOUND_NAME m)
  else if down_key keys then
    let option := selected_option_ m + 1 in
    let option := if option >=? 5 then 0 else option in
    handled input_time (set_selected_option option m, menu_sound DOT2_SOUND_NAME m)
  else if space_key keys then
    handled input_time
      (set_current_state IN_GAME
         (set_should_start_game true (set_selected_level (selected_option_ m + 1) m)),
       menu_sound DOT1_SOUND_NAME m)
  else if escape_key keys then
    handled input_time
      (set_selected_option PLAY_LEVEL_SELECT (set_current_state MAIN_MENU m), [])
  else (m, []).

Definition handle_settings_input (keys : Keys) (input_time : float) (m : t)
  : t * list MenuCall :=
  if left_key keys then
    let index := selected_palette_index_ m - 1 in
    let index := if index <? 0 then num_palettes - 1 else index in
    handled input_time (set_selected_palette_index index m, menu_sound DOT2_SOUND_NAME m)
  else if right_key keys then
    let index := selected_palette_index_ m + 1 in
    let index := if index >=? num_palettes then 0 else index in
    handled input_time (set_selected_palette_index index m, menu_sound DOT2_SOUND_NAME m)
  else if up_key keys || down_key keys then
    handled input_time
      (set_velentina_mode (negb (velentina_mode_ m)) m, menu_sound DOT2_SOUND_NAME m)
  else if space_key keys || escape_key keys then
    handled input_time
      (set_selected_option OPTION_SETTINGS (set_current_state MAIN_MENU m),
       menu_sound DOT1_SOUND_NAME m)
  else (m, []).

(** [name_letters_[i]] and the assignment to it; the index is 0, 1 or 2. *)
Definition letter_at (i : Z) (letters : list Z) : Z := nth (Z.to_nat i) letters 0.

Fixpoint set_nth (n : nat) (v : Z) (letters : list Z) : list Z :=
  match letters, n with
  | [], _ => []
  | _ :: rest, O => v :: rest
  | c :: rest, S n' => c :: set_nth n' v rest
  end.

Definition set_letter_at (i v : Z) (letters : list Z) : list Z :=
  if (0 <=? i) then set_nth (Z.to_nat i) v letters else letters.

(** The codes of 'A' and 'Z'. *)
Definition letter_A : Z := 65.
Definition letter_Z : Z := 90.

(** The string made of three character codes. *)
Definition player_name (letters : list Z) : string :=
  string_of_list_ascii
    (map (fun c => Ascii.ascii_of_nat (Z.to_nat c))
         [letter_at 0 letters; letter_at 1 letters; letter_at 2 letters]).

Definition handle_name_entry_input (keys : Keys) (input_time : float) (m : t)
  : t * list MenuCall :=
  let cursor := name_cursor_position_ m in
  if up_key keys then
    let letter := letter_at cursor (name_letters_ m) + 1 in
    let letter := if letter >? letter_Z then letter_A else letter in
    handled input_time
      (set_name_letters (set_letter_at cursor letter (name_letters_ m)) m,
       menu_sound DOT2_SOUND_NAME m)
  else if down_key keys then
    let letter := letter_at cursor (name_letters_ m) - 1 in
    let letter := if letter <? letter_A then letter_Z else letter in
    handled input_time
      (set_name_letters (set_letter_at cursor letter (name_letters_ m)) m,
       menu_sound DOT2_SOUND_NAME m)
  else if right_key keys then
    let position := cursor + 1 in
    let position := if position >? 2 then 0 else position in
    handled input_time (set_name_cursor_position position m, menu_sound DOT2_SOUND_NAME m)
  else if left_key keys then
    let position := cursor - 1 in
    let position := if position <? 0 then 2 else position in
    handled input_time (set_name_cursor_position position m, menu_sound DOT2_SOUND_NAME m)
  else if space_key keys || return_key keys then
    let '(m1, saved) :=
      add_high_score (player_name (name_letters_ m)) (pending_score_ m) m in
    handled input_time
      (set_current_state HIGH_SCORES (set_name_entry_complete true m1),
       (menu_sound DOT1_SOUND_NAME m ++ saved)%list)
  else (m, []).

(** [current_time] is the clock read on entry. *)
Definition handle_input (keys : Keys) (current_time input_time : float) (m : t)
  : t * list MenuCall :=
  if (current_time - last_input_time_ m <? INPUT_COOLDOWN)%float then (m, [])
  else
    match current_state_ m with
    | MAIN_MENU => handle_main_menu_input keys input_time m
    | LEVEL_SELECT => handle_level_select_input keys input_time m
    | DIFFICULTY => handle_difficulty_input keys input_time m
    | HIGH_SCORES => handle_high_scores_input keys input_time m
    | SETTINGS => handle_settings_input keys input_time m
    | NAME_ENTRY => handle_name_entry_input keys input_time m
    | IN_GAME => (m, [])
    end.

End MenuInput.

(* ================================================================== *)
(** ** Ghost scenarios on the built-in maze                            *)
(* ================================================================== *)

Module GhostAIScenario.
Import Ghost GhostAI.
Local Open Scope float_scope.

(** A caught ghost two pixels right of its home (500, 260). *)
Definition caught_near_home : Ghost.t :=
  Ghost.set_caught_mode (Ghost.new 502 260 true "PINK_BLUE_WHTE" AMBUSHER 0).

(** One update of 1/64 s with the player at (460, 340) heading left. *)
Definition frame (rand : Z) (g : Ghost.t) : Ghost.t :=
  update rand Scenario.maze 460 340 DIR_LEFT 0.015625 g.

(** CRAZY difficulty, running to the right along row 1 of the built-in
    maze. *)
Definition crazy_runner : Ghost.t :=
  Ghost.set_base (Entity.mk 100 60 DIR_RIGHT DIR_RIGHT "RED_BLUE_WHITE" 2.0)
                 GhostScenario.first_ghost.

(** What the examples observe of a ghost. *)
Definition observe (g : Ghost.t)
  : float * float * direction_t * direction_t * GhostState :=
  (get_x g, get_y g, get_direction g, get_desired_direction g, current_state_ g).

End GhostAIScenario.

(* ================================================================== *)
(** ** Vocabulary of the further properties                            *)
(* ================================================================== *)

Module PelletSpec.

(** The cells of the pellets of a state, in order. *)
Definition token_cells (gs : GameState.t) : list (Z * Z) :=
  map (fun t => (Token.row_ t, Token.col_ t)) (GameState.tokens_ gs).

(** Number of collected power pellets in a list. *)
Definition power_count (ps : list PowerPellet.t) : Z :=
  Z.of_nat (List.length (filter PowerPellet.is_collected ps)).

(** The cells of the power pellets of a state, in order. *)
Definition power_cells (gs : GameState.t) : list (Z * Z) :=
  map (fun p => (PowerPellet.row_ p, PowerPellet.col_ p)) (GameState.power_pellets_ gs).

End PelletSpec.

Module GhostSpec.
Import Ghost GhostAI.

(** A direction that brings the ghost nearer to a point at offset
    [(dx, dy)]: the candidates the choosers collect. *)
Definition towards (dx dy : float) (d : direction_t) : bool :=
  match d with
  | DIR_RIGHT => (0 <? dx)%float
  | DIR_LEFT => (dx <? 0)%float
  | DIR_DOWN => (0 <? dy)%float
  | DIR_UP => (dy <? 0)%float
  | DIR_NONE => false
  end.

(** The rule of the first two loops of the choosers, for the candidates
    toward an offset [(dx, dy)]. *)
Definition steers_toward (maze : Maze.t) (g : Ghost.t) (dx dy : float)
           (d : direction_t) : bool :=
  towards dx dy d &&
  negb (direction_eqb d (get_opposite_direction (get_direction g))) &&
  can_move_in_direction maze g d.

Definition open_toward (maze : Maze.t) (g : Ghost.t) (dx dy : float)
           (d : direction_t) : bool :=
  towards dx dy d && can_move_in_direction maze g d.

(** The outcome of the chase chooser for a target at offset [(dx, dy)]:
    a non-reversing open direction toward the target if there is one,
    else an open direction toward the target, else any open direction,
    else no change. *)
Definition chase_outcome (maze : Maze.t) (g g' : Ghost.t) (dx dy : float) : Prop :=
  g' = set_desired_direction (get_desired_direction g') g /\
  if existsb (steers_toward maze g dx dy) all_dirs
  then steers_toward maze g dx dy (get_desired_direction g') = true
  else if existsb (open_toward maze g dx dy) all_dirs
  then open_toward maze g dx dy (get_desired_direction g') = true
  else if existsb (can_move_in_direction maze g) all_dirs
  then can_move_in_direction maze g (get_desired_direction g') = true
  else g' = g.

(** The point the ambusher aims at: 200 pixels ahead of the player. *)
Definition ambush_point (pacman_dir : direction_t) (x y : float) : float * float :=
  match pacman_dir with
  | DIR_RIGHT => ((x + AMBUSH_DISTANCE)%float, y)
  | DIR_LEFT => ((x - AMBUSH_DISTANCE)%float, y)
  | DIR_DOWN => (x, (y + AMBUSH_DISTANCE)%float)
  | DIR_UP => (x, (y - AMBUSH_DISTANCE)%float)
  | DIR_NONE => (x, y)
  end.

(** The outcome of the flight chooser, which has no last resort: [g1] is
    the ghost once the escape target is chosen. *)
Definition flee_outcome (maze : Maze.t) (g1 g' : Ghost.t) (dx dy : float) : Prop :=
  g' = set_desired_direction (get_desired_direction g') g1 /\
  if existsb (steers_toward maze g1 dx dy) all_dirs
  then steers_toward maze g1 dx dy (get_desired_direction g') = true
  else if existsb (open_toward maze g1 dx dy) all_dirs
  then open_toward maze g1 dx dy (get_desired_direction g') = true
  else g' = g1.

(** An open direction that is not a reversal. *)
Definition forward_open (maze : Maze.t) (g : Ghost.t) (d : direction_t) : bool :=
  negb (direction_eqb d (get_opposite_direction (get_direction g))) &&
  can_move_in_direction maze g d.

(** The cell a position lies in, by [floor]. *)
Definition floor_col (x : float) : Z := Double.floor_int (x / Double.of_int MazeConfig.CELL_SIZE)%float.

(** Distance of a caught ghost to its home, as [move_towards_home]
    computes it. *)
Definition home_distance (g : Ghost.t) : float :=
  let dx := (home_x_ g - get_x g)%float in
  let dy := (home_y_ g - get_y g)%float in
  PrimFloat.sqrt (dx * dx + dy * dy)%float.

(** Where a ghost is, which way it goes and how fast. *)
Definition motion (g : Ghost.t) :=
  (get_x g, get_y g, get_direction g, get_current_speed g).

(** [g'] is [step] pixels further than [g] along the direction [g'] goes.
    A horizontal step is stated for a position on the columns of the
    maze, where the tunnel does not wrap it. *)
Definition advanced_by (step : float) (g g' : Ghost.t) : Prop :=
  match get_direction g' with
  | DIR_LEFT =>
      (0 <= floor_col (get_x g - step) < MazeConfig.MAZE_COLS)%Z ->
      get_x g' = (get_x g - step)%float
  | DIR_RIGHT =>
      (0 <= floor_col (get_x g + step) < MazeConfig.MAZE_COLS)%Z ->
      get_x g' = (get_x g + step)%float
  | DIR_UP => get_y g' = (get_y g - step)%float
  | DIR_DOWN => get_y g' = (get_y g + step)%float
  | DIR_NONE => True
  end.

(** The members of a ghost that steering and movement leave alone. *)
Definition controls (g : Ghost.t) :=
  (sheet_ g, anim_state_ g, anim_timer_ g, target_x_ g, target_y_ g,
   current_state_ g, scared_timer_ g, scared_duration_actual_ g,
   home_x_ g, home_y_ g, flash_timer_ g, cooldown_timer_ g, ai_type_ g,
   show_score_popup_ g, popup_timer_ g, popup_x_ g, popup_y_ g,
   Entity.palette_ (base g), Entity.speed_multiplier_ (base g)).

(** What identifies a ghost for the rest of the game: no update writes
    these members. *)
Definition identity (g : Ghost.t) :=
  (sheet_ g, home_x_ g, home_y_ g, ai_type_ g, scared_duration_actual_ g,
   show_score_popup_ g, popup_timer_ g, popup_x_ g, popup_y_ g,
   Entity.palette_ (base g), Entity.speed_multiplier_ (base g)).

End GhostSpec.

Module FruitSpec.
Import Fruit.

(** The fruit states a level can be in: the constructor's, then any
    sequence of updates and collision checks; [rand()] is not negative. *)
Inductive reachable (maze : Maze.t) : Fruit.t -> Prop :=
| reach_new (sheet : bool) : reachable maze (Fruit.new sheet)
| reach_update (rand_type rand_cell : Z) (delta_time : float) (f : Fruit.t) :
    0 <= rand_type -> 0 <= rand_cell ->
    reachable maze f ->
    reachable maze (Fruit.update rand_type rand_cell delta_time maze f)
| reach_check (pacman_x pacman_y : float) (f : Fruit.t) :
    reachable maze f ->
    reachable maze (fst (Fruit.check_collision pacman_x pacman_y f)).

(** The fruit lies on the center of an open cell. *)
Definition on_open_cell (maze : Maze.t) (f : Fruit.t) : Prop :=
  exists row col,
    Maze.is_empty maze row col = true /\
    x_ f = Maze.get_cell_center_x col /\ y_ f = Maze.get_cell_center_y row.

(** What holds of every fruit of a level. *)
Definition fruit_ok (maze : Maze.t) (f : Fruit.t) : Prop :=
  0 <= fruit_type_ f <= 3 /\
  (is_active_ f = true -> show_score_popup_ f = false /\ on_open_cell maze f).

(** The first fruit of a level on the built-in maze: 30 s after the
    start, with [rand()] returning 2 and then 7. *)
Definition first_fruit : Fruit.t :=
  Fruit.update 2 7 30.0 Scenario.maze (Fruit.new true).

End FruitSpec.

Module SoundSpec.
Import SoundManager.

(** The chase flag agrees with the chase pointer. *)
Definition consistent (s : SoundManager.t) : Prop :=
  ghost_chase_sound_playing_ s = true <-> current_ghost_chase_sound_ s <> None.

(** The names a list of calls loads and frees. *)
Definition loaded_names (calls : list AudioCall) : list string :=
  flat_map (fun c => match c with LoadSoundEffect name _ => [name] | _ => [] end) calls.

Definition freed_names (calls : list AudioCall) : list string :=
  flat_map (fun c => match c with FreeSoundEffect name => [name] | _ => [] end) calls.

End SoundSpec.

Module TickSpec.
Import GameTick.

(** The score of the running game. *)
Definition score_of (w : GameTick.t) : Z :=
  GameState.score_ (Game.game_state_ (game w)).

(** [b] is [a] plus a non-negative multiple of ten. *)
Definition tens_above (a b : Z) : Prop := exists k, 0 <= k /\ b = a + 10 * k.

(** The C++ [int] that holds the score: its range, and the value such an
    [int] holds for an integer result on the machine, where its
    arithmetic wraps modulo 2^32.  The model adds the points without
    bound; [as_int] of the model's score is what the member [score_]
    holds, because wrapping after every addition and wrapping the sum are
    the same. *)
Definition INT_MIN : Z := - 2 ^ 31.
Definition INT_MAX : Z := 2 ^ 31 - 1.
Definition as_int (z : Z) : Z := (z + 2 ^ 31) mod 2 ^ 32 - 2 ^ 31.
Definition int_score_of (w : GameTick.t) : Z := as_int (score_of w).

(** The members of the player, of a ghost and of the game that
    [advance_to_next_level] does not assign in endless mode. *)
Definition player_carried (p : Pacman.t) :=
  (Entity.dir_ (Pacman.base p), Entity.desired_dir_ (Pacman.base p),
   Entity.palette_ (Pacman.base p), Entity.speed_multiplier_ (Pacman.base p),
   Pacman.sheet_ p, Pacman.anim_state_ p, Pacman.anim_timer_ p,
   Pacman.is_in_power_mode_ p).

Definition ghost_carried (g : Ghost.t) :=
  (Entity.dir_ (Ghost.base g), Entity.desired_dir_ (Ghost.base g),
   Entity.palette_ (Ghost.base g), Entity.speed_multiplier_ (Ghost.base g),
   Ghost.sheet_ g, Ghost.anim_state_ g, Ghost.anim_timer_ g,
   Ghost.target_x_ g, Ghost.target_y_ g,
   Ghost.escape_target_x_ g, Ghost.escape_target_y_ g,
   Ghost.scared_duration_actual_ g, Ghost.home_x_ g, Ghost.home_y_ g,
   Ghost.ai_type_ g, Ghost.random_target_dir_ g, Ghost.random_dir_timer_ g,
   Ghost.show_score_popup_ g, Ghost.popup_timer_ g, Ghost.popup_x_ g, Ghost.popup_y_ g).

Definition game_carried (g : Game.t) :=
  (Game.menu_ g, Game.running_ g, Game.game_initialized_ g,
   Game.previous_power_pellets g, Game.trace g).

(** A ghost as [set_chasing_mode] leaves it. *)
Definition chasing_afresh (g : Ghost.t) : Prop :=
  Ghost.current_state_ g = CHASING /\
  Ghost.scared_timer_ g = 0%float /\
  Ghost.flash_timer_ g = 0%float /\
  Ghost.cooldown_timer_ g = 0%float.

(** The position [(x, y)] is the centre of the cell [(row, col)]. *)
Definition centre_of (cell : Z * Z) (x y : float) : Prop :=
  x = Maze.get_cell_center_x (snd cell) /\ y = Maze.get_cell_center_y (fst cell).

(** A level of the built-in maze that is starting: the game as
    constructed, with a fresh fruit. *)
Definition starting_level : GameTick.t :=
  GameTick.mk GameScenario.constructed (Fruit.new true).

(** Inputs of a tick during which the start sound still plays. *)
Definition sound_still_playing : Inputs :=
  mkInputs true 0 0 0 0 Maze.fallback.

(** A level in endless mode that has just been won with 1230 points on
    level 5, and the same in single-level mode: the player heads left in
    power mode and wants to go up, the first ghost has just been captured
    and shows its score popup, the second is in cooldown at home, and the
    last sample of the collected power pellets is 2. *)
Definition endless_menu : Menu.t :=
  Menu.mk IN_GAME 0 false MEDIUM true 5 false 0 "AAA" 0.

Definition single_level_menu : Menu.t :=
  Menu.mk IN_GAME 0 false MEDIUM false 5 false 0 "AAA" 0.

Definition won_level (menu : Menu.t) : GameTick.t :=
  GameTick.mk
    (Game.mk Scenario.maze
             (Pacman.set_power_mode true
                (Pacman.set_base (Entity.mk 60 60 DIR_LEFT DIR_UP "YELLOW_PINK_SKY" 1)
                                 GameScenario.player))
             (Game.catch_ghost GameScenario.scared_near)
             GameScenario.cooling_far
             (GameState.add_score 1230 Scenario.level_start) menu
             true true VICTORY NORMAL 5 2 [])
    (Fruit.new true).

(** Inputs of a tick of the running level: the start sound is over. *)
Definition start_sound_over : Inputs :=
  mkInputs false 0 0 0 0 Maze.fallback.

(** A running level in endless mode with a chasing ghost 10 pixels from
    the standing player, and the same level with a single pellet left,
    under the player. *)
Definition ghost_in_reach : GameTick.t :=
  GameTick.mk
    (GameScenario.level GameScenario.chasing_near GameScenario.chasing_far
                        Scenario.level_start 0)
    (Fruit.new true).

Definition ghost_in_reach_on_last_pellet : GameTick.t :=
  GameTick.mk
    (GameScenario.level GameScenario.chasing_near GameScenario.chasing_far
                        (GameState.add_token 1 1 GameState.new) 0)
    (Fruit.new true).

(** A running level with two pellets left, one of them under the player,
    and 2147483640 points: ten below the largest multiple of ten an [int]
    holds. *)
Definition near_int_max : GameTick.t :=
  GameTick.mk
    (GameScenario.level GameScenario.chasing_far GameScenario.chasing_far
       (GameState.add_score 2147483640
          (GameState.add_token 1 2 (GameState.add_token 1 1 GameState.new))) 0)
    (Fruit.new true).

(** A ghost on its way home or waiting there. *)
Definition retreating (gh : Ghost.t) : Prop :=
  Ghost.current_state_ gh = CAUGHT \/ Ghost.current_state_ gh = COOLDOWN.

(** The player of [GameScenario] with a caught ghost 10 pixels away and a
    ghost in cooldown on the very same spot. *)
Definition among_retreating_ghosts : Game.t :=
  GameScenario.level
    (Ghost.set_caught_mode GameScenario.chasing_near)
    (Ghost.set_state_and_timers COOLDOWN 0 0 0 0
       (Ghost.new 60 60 true "PINK_BLUE_WHTE" AMBUSHER 0))
    Scenario.level_start 0.

End TickSpec.

Module SpriteSpec.
Import SpriteSheet.

(** The sprite indices of a draw call address a sprite of the palette
    cell: six sprites down, ten across. *)
Definition in_sheet (c : DrawCall) : Prop :=
  0 <= local_col c < SPRITES_Y /\ 0 <= local_row c < SPRITES_X.

End SpriteSpec.

Module MenuSpec.
Import MenuInput.

(** Every index of the menu is inside its table and the name being
    entered is three capital letters. *)
Definition menu_ok (m : MenuInput.t) : Prop :=
  0 <= selected_option_ m <= 4 /\
  0 <= selected_palette_index_ m <= 8 /\
  0 <= difficulty_level_ m <= 3 /\
  0 <= selected_difficulty_option_ m <= 3 /\
  1 <= selected_level_ m <= 5 /\
  0 <= name_cursor_position_ m <= 2 /\
  List.length (name_letters_ m) = 3%nat /\
  Forall (fun c => letter_A <= c <= letter_Z) (name_letters_ m).

(** The menus the program can be in: the constructor's, then any input
    and any of the calls the game makes. *)
Inductive reachable : MenuInput.t -> Prop :=
| reach_new parsed : reachable (MenuInput.new parsed)
| reach_input keys current_time input_time m :
    reachable m -> reachable (fst (handle_input keys current_time input_time m))
| reach_start_name_entry score m :
    reachable m -> reachable (start_name_entry score m)
| reach_set_state state m : reachable m -> reachable (set_state state m)
| reach_reset_game_start_flag m : reachable m -> reachable (reset_game_start_flag m)
| reach_reset_name_entry_flag m : reachable m -> reachable (reset_name_entry_flag m)
| reach_set_sprite_sheet sheet m : reachable m -> reachable (set_sprite_sheet sheet m)
| reach_set_sound_manager sm m : reachable m -> reachable (set_sound_manager sm m).

(** Highest score first. *)
Definition best_first (a b : HighScoreEntry) : Prop := entry_score a >= entry_score b.

(** One key at a time. *)
Definition no_key : Keys := mkKeys false false false false false false false.
Definition press_up : Keys := mkKeys true false false false false false false.
Definition press_down : Keys := mkKeys false true false false false false false.
Definition press_left : Keys := mkKeys false false true false false false false.
Definition press_right : Keys := mkKeys false false false true false false false.
Definition press_space : Keys := mkKeys false false false false true false false.

(** A game over in endless mode with 1230 points: the name entry opens on
    a menu that holds two scores. *)
Definition entering_name : MenuInput.t :=
  start_name_entry 1230
    (MenuInput.new [mkEntry "BOB" 500; mkEntry "AMY" 2000]).

End MenuSpec.

(* ================================================================== *)
(** * Properties                                                       *)
(* ================================================================== *)

(** ** The double operations on known values *)

Example static_cast_int_truncates :
  Double.static_cast_int 99.9%float = 99 /\
  Double.static_cast_int (-0.5)%float = 0 /\
  Double.static_cast_int (-41.5)%float = -41 /\
  Double.static_cast_int (38 / 40)%float = 0.
Proof. vm_compute. repeat split. Qed.

Example floor_int_rounds_down :
  Double.floor_int (-0.5)%float = -1 /\ Double.floor_int 1019.99%float = 1019.
Proof. vm_compute. repeat split. Qed.

Example of_int_exact :
  Double.of_int (-40) = (-40)%float /\ Double.of_int 1000 = 1000%float.
Proof. vm_compute. repeat split. Qed.

Example fmod_known_values :
  Double.fmod 5.25 0.33 = 0x1.333333333332fp-2%float /\
  Double.fmod 13 0.33 = 0x1.0a3d70a3d708ep-3%float /\
  Double.fmod (-7.5) 2 = (-1.5)%float /\
  Double.fmod 1e300 0.33 = 0x1.506705f4a0688p-3%float.
Proof. vm_compute. repeat split. Qed.

Example cell_centres :
  Maze.get_cell_center_x 1 = 60%float /\ Maze.get_cell_center_y 6 = 260%float /\
  Maze.can_move_to Scenario.maze 58 60 = true /\
  Maze.can_move_to Scenario.maze 56 60 = false /\
  Maze.can_move_to Scenario.maze (-10) 260 = true.
Proof. vm_compute. repeat split. Qed.

(** ** Maze queries *)

Lemma fallback_well_formed (level : Z) : Maze.well_formed (Maze.fallback level).
Proof.
  split; [reflexivity|].
  unfold Maze.fallback, Maze.fallback_layout; cbn [Maze.maze_layout_].
  repeat constructor.
Qed.

(** In a well-formed maze the layout is defined at every valid position,
    so [is_empty] never reads outside the vectors. *)
Lemma layout_at_defined (m : Maze.t) (row col : Z) :
  Maze.well_formed m -> Maze.is_valid_position m row col = true ->
  exists v, Maze.layout_at m row col = Some v.
Proof.
  intros [Hr Hc] Hv. unfold Maze.is_valid_position in Hv.
  repeat (apply andb_prop in Hv as [Hv ?]).
  unfold Maze.layout_at.
  destruct (nth_error (Maze.maze_layout_ m) (Z.to_nat row)) as [r|] eqn:E.
  - assert (Hlen : List.length r = Z.to_nat MazeConfig.MAZE_COLS).
    { apply nth_error_In in E. rewrite Forall_forall in Hc. apply Hc, E. }
    destruct (nth_error r (Z.to_nat col)) as [v|] eqn:E2; [eauto|].
    apply nth_error_None in E2. unfold MazeConfig.MAZE_COLS in *. lia.
  - apply nth_error_None in E. unfold MazeConfig.MAZE_ROWS in *. lia.
Qed.


Lemma is_empty_inside (m : Maze.t) (row col : Z) :
  Maze.is_empty m row col = true ->
  0 <= row < MazeConfig.MAZE_ROWS /\ 0 <= col < MazeConfig.MAZE_COLS.
Proof.
  unfold Maze.is_empty, Maze.is_valid_position.
  intros H. apply andb_prop in H as [H _].
  repeat (apply andb_prop in H as [H ?]). lia.
Qed.

(** C8. Cell queries are total functions of any integer (row, col); for a
    cell outside the 13 x 25 grid [is_empty] answers false (a wall), and
    [is_empty_or_tunnel] answers true exactly on the tunnel row 6, where
    the column is the coordinate out of range. *)
Theorem maze_queries_outside_grid (m : Maze.t) (row col : Z) :
  ~ (0 <= row < MazeConfig.MAZE_ROWS /\ 0 <= col < MazeConfig.MAZE_COLS) ->
  Maze.is_empty m row col = false /\
  (Maze.is_empty_or_tunnel m row col = true <->
   row = 6 /\ (col < 0 \/ col >= MazeConfig.MAZE_COLS)).
Proof.
  intros Hout.
  assert (He : Maze.is_empty m row col = false).
  { destruct (Maze.is_empty m row col) eqn:E; [|reflexivity].
    apply is_empty_inside in E. contradiction. }
  split; [exact He|].
  unfold Maze.is_empty_or_tunnel. rewrite He.
  unfold MazeConfig.MAZE_ROWS, MazeConfig.MAZE_COLS in *.
  destruct (row =? 6) eqn:Er; destruct (col <? 0) eqn:Ec;
    destruct (col >=? 25) eqn:Ec'; simpl; split; intros H;
    try discriminate; try reflexivity; lia.
Qed.

Lemma maze_queries_outside_grid_witness :
  ~ (0 <= 6 < MazeConfig.MAZE_ROWS /\ 0 <= -1 < MazeConfig.MAZE_COLS) /\
  Maze.is_empty (Maze.fallback 1) 6 (-1) = false /\
  (Maze.is_empty_or_tunnel (Maze.fallback 1) 6 (-1) = true <->
   6 = 6 /\ (-1 < 0 \/ -1 >= MazeConfig.MAZE_COLS)).
Proof.
  assert (H : ~ (0 <= 6 < MazeConfig.MAZE_ROWS /\ 0 <= -1 < MazeConfig.MAZE_COLS))
    by (unfold MazeConfig.MAZE_ROWS, MazeConfig.MAZE_COLS; lia).
  split; [exact H|].
  exact (maze_queries_outside_grid (Maze.fallback 1) 6 (-1) H).
Defined.

(** ** Pellet bookkeeping *)

Section TokenLoop.
Import GameState Pellets.
Variables pacman_x pacman_y : float.

Lemma token_kept_refl (a : Token.t) : token_kept a a.
Proof. unfold token_kept; auto. Qed.

Lemma token_kept_collect (a : Token.t) : token_kept a (Token.collect a).
Proof. unfold token_kept; destruct a; simpl; auto. Qed.

Lemma flags_refl (ts : list Token.t) : Forall2 token_kept ts ts.
Proof. induction ts; constructor; auto using token_kept_refl. Qed.

Lemma flags_trans (xs ys zs : list Token.t) :
  Forall2 token_kept xs ys -> Forall2 token_kept ys zs -> Forall2 token_kept xs zs.
Proof.
  intros H; revert zs.
  induction H as [|a b xs ys Hab _ IH]; intros zs Hz; inversion Hz; subst; constructor.
  - unfold token_kept in *. intuition congruence.
  - apply IH; assumption.
Qed.

Lemma collected_count_cons (a : Token.t) (ts : list Token.t) :
  collected_count (a :: ts) =
  (if Token.is_collected a then 1 else 0) + collected_count ts.
Proof.
  unfold collected_count; simpl.
  destruct (Token.is_collected a); simpl List.length; lia.
Qed.

Lemma collected_count_bounds (ts : list Token.t) :
  0 <= collected_count ts <= Z.of_nat (List.length ts).
Proof.
  induction ts as [|a ts IH].
  - unfold collected_count; simpl; lia.
  - rewrite collected_count_cons. simpl List.length.
    destruct (Token.is_collected a); lia.
Qed.

Lemma collected_count_app (xs ys : list Token.t) :
  collected_count (xs ++ ys) = collected_count xs + collected_count ys.
Proof.
  unfold collected_count. rewrite filter_app, length_app. lia.
Qed.

(** The loop keeps every pellet, only raises flags, and adds to the score
    and to the count once per flag it raises. *)
Lemma token_loop_spec (ts : list Token.t) :
  forall score collected any just ts' score' collected' any' just',
    token_loop pacman_x pacman_y ts score collected any just
    = (ts', (score', collected', (any', just'))) ->
    Forall2 token_kept ts ts' /\
    collected' - collected = collected_count ts' - collected_count ts /\
    score' = score + MazeConfig.TOKEN_POINTS * (collected' - collected).
Proof.
  unfold MazeConfig.TOKEN_POINTS.
  induction ts as [|a ts IH];
    intros score collected any just ts' score' collected' any' just' H;
    cbn [token_loop] in H; unfold MazeConfig.TOKEN_POINTS in H.
  - inversion H; subst. split; [constructor|]. lia.
  - destruct (negb (Token.is_collected a) &&
              within_collection_distance pacman_x pacman_y (Token.get_x a) (Token.get_y a)) eqn:E.
    + destruct (token_loop pacman_x pacman_y ts (score + 10)
                           (collected + 1) true true) as [rest' r] eqn:L.
      destruct r as [[sc co] [an ju]]. inversion H; subst.
      apply IH in L as (F & C & S).
      apply andb_prop in E as [Ea _]. apply negb_true_iff in Ea.
      split; [constructor; auto using token_kept_collect|].
      rewrite !collected_count_cons. rewrite Ea.
      change (Token.is_collected (Token.collect a)) with true. cbv iota. lia.
    + destruct (token_loop pacman_x pacman_y ts score collected any just) as [rest' r] eqn:L.
      destruct r as [[sc co] [an ju]]. inversion H; subst.
      apply IH in L as (F & C & S).
      split; [constructor; auto using token_kept_refl|].
      rewrite !collected_count_cons. lia.
Qed.

(** After one pass, a second pass from the same position finds nothing. *)
Lemma token_loop_idempotent (ts : list Token.t) :
  forall score collected any just ts' r,
    token_loop pacman_x pacman_y ts score collected any just = (ts', r) ->
    forall score2 collected2 any2 just2,
      token_loop pacman_x pacman_y ts' score2 collected2 any2 just2
      = (ts', (score2, collected2, (any2, just2))).
Proof.
  induction ts as [|a ts IH]; simpl; intros score collected any just ts' r H score2 collected2 any2 just2.
  - inversion H; subst. reflexivity.
  - destruct (negb (Token.is_collected a) &&
              within_collection_distance pacman_x pacman_y (Token.get_x a) (Token.get_y a)) eqn:E.
    + destruct (token_loop pacman_x pacman_y ts (score + MazeConfig.TOKEN_POINTS)
                           (collected + 1) true true) as [rest' r'] eqn:L.
      inversion H; subst. simpl.
      rewrite (IH _ _ _ _ _ _ L). reflexivity.
    + destruct (token_loop pacman_x pacman_y ts score collected any just) as [rest' r'] eqn:L.
      inversion H; subst. simpl. rewrite E.
      rewrite (IH _ _ _ _ _ _ L). reflexivity.
Qed.

Lemma power_flags_refl (ps : list PowerPellet.t) : Forall2 power_pellet_kept ps ps.
Proof. induction ps; constructor; unfold power_pellet_kept; auto. Qed.

Lemma power_flags_trans (xs ys zs : list PowerPellet.t) :
  Forall2 power_pellet_kept xs ys -> Forall2 power_pellet_kept ys zs ->
  Forall2 power_pellet_kept xs zs.
Proof.
  intros H; revert zs.
  induction H as [|a b xs ys Hab _ IH]; intros zs Hz; inversion Hz; subst; constructor.
  - unfold power_pellet_kept in *. intuition congruence.
  - apply IH; assumption.
Qed.

Lemma power_pellet_loop_kept (ps : list PowerPellet.t) :
  forall score any,
    Forall2 power_pellet_kept ps
            (fst (power_pellet_loop pacman_x pacman_y ps score any)).
Proof.
  induction ps as [|a ps IH]; intros score any; cbn [power_pellet_loop].
  - constructor.
  - destruct (negb (PowerPellet.is_collected a) &&
              within_collection_distance pacman_x pacman_y
                (PowerPellet.get_x a) (PowerPellet.get_y a)).
    + specialize (IH (score + MazeConfig.POWER_PELLET_POINTS) true).
      destruct (power_pellet_loop pacman_x pacman_y ps
                  (score + MazeConfig.POWER_PELLET_POINTS) true) as [rest' r].
      cbn [fst] in *. constructor; [|exact IH].
      unfold power_pellet_kept; destruct a; simpl; auto.
    + specialize (IH score any).
      destruct (power_pellet_loop pacman_x pacman_y ps score any) as [rest' r].
      cbn [fst] in *. constructor; [|exact IH].
      unfold power_pellet_kept; auto.
Qed.

End TokenLoop.

Section PelletInvariant.
Import GameState Pellets.

Lemma Forall2_token_kept_length (xs ys : list Token.t) :
  Forall2 token_kept xs ys -> List.length ys = List.length xs.
Proof. induction 1; simpl; congruence. Qed.

Lemma initialized_counts_ok (s : GameState.t) : initialized s -> counts_ok s.
Proof.
  induction 1 as [|s row col _ [IHc IHt]|s row col _ [IHc IHt]]; unfold counts_ok; simpl.
  - split; reflexivity.
  - rewrite collected_count_app, length_app. simpl List.length.
    change (collected_count [Token.new row col]) with 0. lia.
  - auto.
Qed.

Lemma check_token_collection_spec (x y : float) (s : GameState.t) :
  counts_ok s ->
  counts_ok (fst (check_token_collection x y s)) /\
  total_tokens_ (fst (check_token_collection x y s)) = total_tokens_ s /\
  flags_monotone s (fst (check_token_collection x y s)).
Proof.
  intros [Hc Ht]. unfold check_token_collection.
  destruct (token_loop x y (tokens_ s) (score_ s) (tokens_collected_ s) false
                       (token_just_collected_ s)) as [ts' [[sc co] [an ju]]] eqn:L.
  apply token_loop_spec in L as (F & C & S).
  unfold counts_ok, flags_monotone; simpl.
  rewrite (Forall2_token_kept_length _ _ F).
  repeat split; try assumption; lia.
Qed.

Lemma check_token_collection_twice (x y : float) (s : GameState.t) :
  check_token_collection x y (fst (check_token_collection x y s))
  = (fst (check_token_collection x y s), false).
Proof.
  unfold check_token_collection.
  destruct (token_loop x y (tokens_ s) (score_ s) (tokens_collected_ s) false
                       (token_just_collected_ s)) as [ts' [[sc co] [an ju]]] eqn:L.
  simpl. rewrite (token_loop_idempotent _ _ _ _ _ _ _ _ _ L). reflexivity.
Qed.

Lemma check_token_collection_power_pellets (x y : float) (s : GameState.t) :
  power_pellets_ (fst (check_token_collection x y s)) = power_pellets_ s.
Proof.
  unfold check_token_collection.
  destruct (token_loop x y (tokens_ s) (score_ s) (tokens_collected_ s) false
                       (token_just_collected_ s)) as [ts' [[sc co] [an ju]]].
  reflexivity.
Qed.

Lemma check_power_pellet_collection_tokens (x y : float) (s : GameState.t) :
  tokens_ (fst (check_power_pellet_collection x y s)) = tokens_ s /\
  tokens_collected_ (fst (check_power_pellet_collection x y s)) = tokens_collected_ s /\
  total_tokens_ (fst (check_power_pellet_collection x y s)) = total_tokens_ s /\
  power_flags_monotone s (fst (check_power_pellet_collection x y s)).
Proof.
  unfold check_power_pellet_collection, power_flags_monotone.
  pose proof (power_pellet_loop_kept x y (power_pellets_ s) (score_ s) false) as K.
  destruct (power_pellet_loop x y (power_pellets_ s) (score_ s) false) as [ps [sc an]].
  simpl. auto.
Qed.

Lemma play_op_spec (s s' : GameState.t) :
  play_op s s' -> counts_ok s ->
  counts_ok s' /\ total_tokens_ s' = total_tokens_ s /\
  flags_monotone s s' /\ power_flags_monotone s s'.
Proof.
  intros Hop Hok. destruct Hop as [s x y|s x y|s points|s].
  - destruct (check_token_collection_spec x y s Hok) as (A & B & C).
    repeat split; try assumption; try apply A.
    unfold power_flags_monotone. rewrite check_token_collection_power_pellets.
    apply power_flags_refl.
  - destruct (check_power_pellet_collection_tokens x y s) as (E1 & E2 & E3 & E4).
    unfold counts_ok, flags_monotone. rewrite E1, E2, E3.
    destruct Hok. repeat split; auto using flags_refl.
  - unfold counts_ok, flags_monotone, power_flags_monotone; simpl. destruct Hok.
    repeat split; auto using flags_refl, power_flags_refl.
  - unfold counts_ok, flags_monotone, power_flags_monotone; simpl. destruct Hok.
    repeat split; auto using flags_refl, power_flags_refl.
Qed.

Lemma playing_spec (s0 s : GameState.t) :
  playing s0 s -> counts_ok s0 ->
  counts_ok s /\ total_tokens_ s = total_tokens_ s0 /\
  flags_monotone s0 s /\ power_flags_monotone s0 s.
Proof.
  induction 1 as [|s s' _ IH Hop]; intros Hok.
  - unfold flags_monotone, power_flags_monotone.
    auto using flags_refl, power_flags_refl.
  - destruct (IH Hok) as (Hs & Ht & Hf & Hp).
    destruct (play_op_spec _ _ Hop Hs) as (Hs' & Ht' & Hf' & Hp').
    unfold flags_monotone, power_flags_monotone in *.
    repeat split; try apply Hs';
      [congruence|eauto using flags_trans|eauto using power_flags_trans].
Qed.

Lemma counts_ok_le (s : GameState.t) :
  counts_ok s -> 0 <= tokens_collected_ s <= total_tokens_ s.
Proof.
  intros [Hc Ht]. rewrite Hc, Ht. apply collected_count_bounds.
Qed.

End PelletInvariant.

(** C7. Pellet collection is monotonic and idempotent.  In every state [s]
    of a level that runs from the initialised pellet state [s0]: no
    collected flag, of a pellet or of a power pellet, went back since
    initialisation, and none goes back in a collection check; a second
    check at the same position changes nothing (no score, no count, no
    flag) and reports no collection; [total_tokens] is what
    initialisation left; and the collected count never exceeds it. *)
Theorem pellet_collection_monotonic_idempotent
        (s0 s : GameState.t) (pacman_x pacman_y : float) :
  Pellets.initialized s0 -> Pellets.playing s0 s ->
  Pellets.flags_monotone s0 s /\
  Pellets.power_flags_monotone s0 s /\
  Pellets.flags_monotone s (fst (GameState.check_token_collection pacman_x pacman_y s)) /\
  Pellets.power_flags_monotone s
    (fst (GameState.check_power_pellet_collection pacman_x pacman_y s)) /\
  GameState.check_token_collection pacman_x pacman_y
    (fst (GameState.check_token_collection pacman_x pacman_y s))
  = (fst (GameState.check_token_collection pacman_x pacman_y s), false) /\
  GameState.total_tokens_ s = GameState.total_tokens_ s0 /\
  GameState.total_tokens_ (fst (GameState.check_token_collection pacman_x pacman_y s))
  = GameState.total_tokens_ s0 /\
  0 <= GameState.tokens_collected_ s <= GameState.total_tokens_ s /\
  GameState.tokens_collected_ (fst (GameState.check_token_collection pacman_x pacman_y s))
  <= GameState.total_tokens_ (fst (GameState.check_token_collection pacman_x pacman_y s)).
Proof.
  intros Hinit Hplay.
  pose proof (initialized_counts_ok _ Hinit) as Hok0.
  destruct (playing_spec _ _ Hplay Hok0) as (Hok & Htot & Hmono & Hpmono).
  destruct (check_token_collection_spec pacman_x pacman_y s Hok) as (Hok1 & Htot1 & Hmono1).
  destruct (check_power_pellet_collection_tokens pacman_x pacman_y s) as (_ & _ & _ & Hp1).
  repeat match goal with |- _ /\ _ => split end;
    try assumption.
  - apply check_token_collection_twice.
  - congruence.
  - apply counts_ok_le; assumption.
  - apply counts_ok_le; assumption.
  - apply counts_ok_le; assumption.
Qed.

(** ** Entity movement *)

Section EntityLemmas.
Import Entity EntitySpec.
Variable maze : Maze.t.

Lemma direction_eqb_eq (a b : direction_t) : direction_eqb a b = true <-> a = b.
Proof. destruct a, b; simpl; split; intros H; try reflexivity; discriminate. Qed.

Lemma direction_eqb_neq (a b : direction_t) : direction_eqb a b = false <-> a <> b.
Proof. destruct a, b; simpl; split; intros H; try discriminate; try congruence. Qed.

(** A turn is committed only when aligned and the next cell is open; the
    commit snaps the coordinate across the new direction. *)
Lemma attempt_direction_change_cases (row col : Z) (center_x center_y : float)
      (e : Entity.t) :
  attempt_direction_change maze row col center_x center_y e = e \/
  (is_aligned_for_direction e (desired_dir_ e) center_x center_y = true /\
   Maze.is_empty maze (fst (get_next_cell (desired_dir_ e) row col))
                      (snd (get_next_cell (desired_dir_ e) row col)) = true /\
   dir_ (attempt_direction_change maze row col center_x center_y e) = desired_dir_ e /\
   desired_dir_ (attempt_direction_change maze row col center_x center_y e) = desired_dir_ e /\
   perpendicular_snapped (desired_dir_ e) center_x center_y
     (attempt_direction_change maze row col center_x center_y e)).
Proof.
  unfold attempt_direction_change.
  destruct (get_next_cell (desired_dir_ e) row col) as [next_row next_col]; cbn [fst snd].
  destruct (is_aligned_for_direction e (desired_dir_ e) center_x center_y) eqn:Ea;
    [|left; reflexivity].
  destruct (Maze.is_empty maze next_row next_col) eqn:Eo; [|left; reflexivity].
  right. cbn [andb].
  destruct e as [x y d dd p sm]; cbn [desired_dir_] in *.
  destruct dd; cbn in Ea; try discriminate Ea; repeat split; reflexivity.
Qed.

(** The movement step leaves the direction or stops; it never touches the
    desired direction. *)
Lemma attempt_movement_dir (current_speed center_x center_y delta_time : float)
      (e : Entity.t) :
  (dir_ (attempt_movement current_speed maze center_x center_y delta_time e) = dir_ e \/
   dir_ (attempt_movement current_speed maze center_x center_y delta_time e) = DIR_NONE) /\
  desired_dir_ (attempt_movement current_speed maze center_x center_y delta_time e)
  = desired_dir_ e.
Proof.
  unfold attempt_movement.
  destruct (direction_eqb (dir_ e) DIR_NONE); [auto|].
  destruct (get_next_position current_speed e (dir_ e) delta_time) as [test_x test_y].
  destruct (Maze.can_move_to maze test_x test_y); [|simpl; auto].
  unfold snap_to_grid_if_close.
  repeat match goal with |- context [if ?c then _ else _] => destruct c end;
    simpl; auto.
Qed.

(** Moving along a direction keeps a snapped coordinate across it. *)
Lemma attempt_movement_keeps_snap (current_speed center_x center_y delta_time : float)
      (e : Entity.t) :
  perpendicular_snapped (dir_ e) center_x center_y e ->
  perpendicular_snapped (dir_ e) center_x center_y
    (attempt_movement current_speed maze center_x center_y delta_time e).
Proof.
  unfold attempt_movement.
  destruct e as [x y d dd p sm]; cbn [dir_].
  destruct d; cbn [direction_eqb]; try (intros; assumption);
    cbn [get_next_position x_ y_ perpendicular_snapped]; intros Hs; subst;
    match goal with |- context [Maze.can_move_to ?m ?a ?b] =>
      destruct (Maze.can_move_to m a b) end;
    try reflexivity;
    unfold snap_to_grid_if_close; cbn [set_position dir_ x_ y_ is_horizontal is_vertical andb];
    repeat match goal with |- context [if ?c then _ else _] => destruct c end;
    reflexivity.
Qed.

End EntityLemmas.

Section EntityTheorems.
Import Entity EntitySpec.

Lemma update_dir_cases (current_speed : float) (maze : Maze.t) (delta_time : float)
      (e : Entity.t) :
  desired_into_wall maze e = true ->
  (dir_ (update current_speed maze delta_time e) = dir_ e \/
   dir_ (update current_speed maze delta_time e) = DIR_NONE) /\
  desired_dir_ (update current_speed maze delta_time e) = desired_dir_ e.
Proof.
  intros Hw. unfold update, move_in_direction.
  set (cx := Maze.get_cell_center_x (current_col e)).
  set (cy := Maze.get_cell_center_y (current_row e)).
  assert (He1 : (if negb (direction_eqb (desired_dir_ e) DIR_NONE) &&
                    negb (direction_eqb (desired_dir_ e) (dir_ e))
                 then attempt_direction_change maze (current_row e) (current_col e) cx cy e
                 else e) = e).
  { destruct (negb (direction_eqb (desired_dir_ e) DIR_NONE) &&
              negb (direction_eqb (desired_dir_ e) (dir_ e))); [|reflexivity].
    destruct (attempt_direction_change_cases maze (current_row e) (current_col e) cx cy e)
      as [H|(_ & Ho & _)]; [exact H|].
    unfold desired_into_wall, desired_cell in Hw. rewrite Ho in Hw. discriminate. }
  rewrite He1. apply attempt_movement_dir.
Qed.

Lemma turn_commit_rule (maze : Maze.t) (current_speed delta_time : float)
      (e : Entity.t) :
  desired_dir_ e <> DIR_NONE -> dir_ e <> desired_dir_ e ->
  dir_ (update current_speed maze delta_time e) = desired_dir_ e ->
  aligned_for_desired e = true /\
  Maze.is_empty maze (fst (desired_cell e)) (snd (desired_cell e)) = true /\
  perpendicular_snapped (desired_dir_ e)
    (Maze.get_cell_center_x (current_col e)) (Maze.get_cell_center_y (current_row e))
    (update current_speed maze delta_time e).
Proof.
  intros Hd Hne.
  unfold update, move_in_direction, aligned_for_desired, desired_cell.
  set (cx := Maze.get_cell_center_x (current_col e)).
  set (cy := Maze.get_cell_center_y (current_row e)).
  apply direction_eqb_neq in Hd. rewrite Hd.
  assert (Hne' : direction_eqb (desired_dir_ e) (dir_ e) = false)
    by (apply direction_eqb_neq; congruence).
  rewrite Hne'. cbn [negb andb].
  destruct (attempt_direction_change_cases maze (current_row e) (current_col e) cx cy e)
    as [H|(Ha & Ho & Hdir & Hdes & Hsnap)].
  - rewrite H. intros Hfinal.
    destruct (attempt_movement_dir maze current_speed cx cy delta_time e) as [[H1|H1] _].
    + congruence.
    + apply direction_eqb_neq in Hd. congruence.
  - intros _. rewrite Ha, Ho. repeat split.
    rewrite <- Hdir in Hsnap |- *.
    apply attempt_movement_keeps_snap. exact Hsnap.
Qed.

Lemma stopped_stays_stopped (maze : Maze.t) (steps : list (float * float)) :
  forall e, dir_ e = DIR_NONE ->
    wall_ahead_throughout maze steps e = true ->
    dir_ (updates maze steps e) = DIR_NONE /\
    desired_dir_ (updates maze steps e) = desired_dir_ e.
Proof.
  induction steps as [|[sp dt] rest IH]; intros e He Hw; cbn [updates].
  - auto.
  - cbn [wall_ahead_throughout] in Hw. apply andb_prop in Hw as [Hw1 Hw2].
    destruct (update_dir_cases sp maze dt e Hw1) as [Hc Hd].
    destruct (IH (update sp maze dt e)) as [G1 G2];
      [destruct Hc; congruence|exact Hw2|].
    split; congruence.
Qed.

Lemma wall_blocks_turn (maze : Maze.t) (steps : list (float * float)) :
  forall e, desired_dir_ e <> DIR_NONE -> dir_ e <> desired_dir_ e ->
    wall_ahead_throughout maze steps e = true ->
    (dir_ (updates maze steps e) = dir_ e \/ dir_ (updates maze steps e) = DIR_NONE) /\
    dir_ (updates maze steps e) <> desired_dir_ e /\
    desired_dir_ (updates maze steps e) = desired_dir_ e.
Proof.
  induction steps as [|[sp dt] rest IH]; intros e Hd Hne Hw; cbn [updates].
  - repeat split; auto.
  - cbn [wall_ahead_throughout] in Hw. apply andb_prop in Hw as [Hw1 Hw2].
    destruct (update_dir_cases sp maze dt e Hw1) as [[Hsame|Hnone] Hdes].
    + destruct (IH (update sp maze dt e)) as (H1 & H2 & H3);
        [congruence|congruence|exact Hw2|].
      rewrite Hsame, Hdes in *. auto.
    + destruct (stopped_stays_stopped maze rest _ Hnone Hw2) as [G1 G2].
      repeat split; [right; exact G1|congruence|congruence].
Qed.

(** C3 (amended). A turn commits only when aligned and open: when an
    update changes the current direction to the desired one, the entity
    was within the alignment tolerance of its cell centre across the new
    direction, the adjacent cell in that direction was open, and after the
    update the coordinate across the new direction is the cell centre.
    Toward a wall no turn commits: through any run of updates that each
    start with the desired direction pointing into a closed cell, the
    current direction stays what it was or has become NONE (movement
    blocked), so it never becomes the desired direction. *)
Theorem turn_commits_only_aligned_and_open (maze : Maze.t) :
  (forall current_speed delta_time e,
      desired_dir_ e <> DIR_NONE -> dir_ e <> desired_dir_ e ->
      dir_ (update current_speed maze delta_time e) = desired_dir_ e ->
      aligned_for_desired e = true /\
      Maze.is_empty maze (fst (desired_cell e)) (snd (desired_cell e)) = true /\
      perpendicular_snapped (desired_dir_ e)
        (Maze.get_cell_center_x (current_col e)) (Maze.get_cell_center_y (current_row e))
        (update current_speed maze delta_time e)) /\
  (forall steps e,
      desired_dir_ e <> DIR_NONE -> dir_ e <> desired_dir_ e ->
      wall_ahead_throughout maze steps e = true ->
      (dir_ (updates maze steps e) = dir_ e \/ dir_ (updates maze steps e) = DIR_NONE) /\
      dir_ (updates maze steps e) <> desired_dir_ e /\
      desired_dir_ (updates maze steps e) = desired_dir_ e).
Proof.
  split.
  - intros current_speed delta_time e. apply turn_commit_rule.
  - intros steps e. apply wall_blocks_turn.
Qed.

(** C4. When the candidate position of the movement step (the current
    position advanced by speed * dt along the current direction) fails
    [can_move_to], the step moves nothing: x and y are unchanged and the
    current direction is NONE afterwards. *)
Theorem blocked_movement_is_cancelled
        (current_speed : float) (maze : Maze.t)
        (center_x center_y delta_time : float) (e : Entity.t) :
  Maze.can_move_to maze
    (fst (get_next_position current_speed e (dir_ e) delta_time))
    (snd (get_next_position current_speed e (dir_ e) delta_time)) = false ->
  x_ (attempt_movement current_speed maze center_x center_y delta_time e) = x_ e /\
  y_ (attempt_movement current_speed maze center_x center_y delta_time e) = y_ e /\
  dir_ (attempt_movement current_speed maze center_x center_y delta_time e) = DIR_NONE /\
  desired_dir_ (attempt_movement current_speed maze center_x center_y delta_time e)
  = desired_dir_ e.
Proof.
  intros Hblocked. unfold attempt_movement.
  destruct (direction_eqb (dir_ e) DIR_NONE) eqn:Ed.
  - apply direction_eqb_eq in Ed. auto.
  - destruct (get_next_position current_speed e (dir_ e) delta_time) as [test_x test_y].
    cbn [fst snd] in Hblocked. rewrite Hblocked. cbn. auto.
Qed.

End EntityTheorems.

Example level_start_counts :
  GameState.total_tokens_ Scenario.level_start = 166 /\
  GameState.tokens_collected_ Scenario.level_start = 0 /\
  GameState.tokens_collected_ Scenario.after_first_pellet = 1 /\
  GameState.score_ Scenario.after_first_pellet = 10.
Proof. vm_compute. repeat split. Qed.

Lemma fold_left_preserves {A B : Type} (P : A -> Prop) (f : A -> B -> A) (l : list B) :
  (forall a b, P a -> P (f a b)) -> forall a, P a -> P (fold_left f l a).
Proof.
  intros Hf. induction l as [|b l IH]; simpl; intros a Ha; [exact Ha|].
  apply IH, Hf, Ha.
Qed.

Lemma level_initialisation_initialized
      (m : Maze.t) (spawn_row spawn_col : Z) (s : GameState.t) :
  Pellets.initialized s ->
  Pellets.initialized
    (MazeInit.initialize_power_pellets m
       (MazeInit.initialize_tokens m spawn_row spawn_col s)).
Proof.
  intros Hs. unfold MazeInit.initialize_power_pellets, MazeInit.initialize_tokens.
  apply fold_left_preserves.
  - intros a [r c] Ha. cbn [fst snd].
    destruct (Maze.is_empty m r c); [constructor|]; exact Ha.
  - apply fold_left_preserves; [|exact Hs].
    intros a r Ha. apply fold_left_preserves; [|exact Ha].
    intros a' c Ha'.
    destruct (Maze.is_empty m r c); [|exact Ha'].
    destruct ((Z.abs (r - spawn_row) <=? 1) && (Z.abs (c - spawn_col) <=? 1));
      [exact Ha'|constructor; exact Ha'].
Qed.

Lemma level_start_initialized : Pellets.initialized Scenario.level_start.
Proof. apply level_initialisation_initialized. constructor. Qed.

Lemma after_first_pellet_playing :
  Pellets.playing Scenario.level_start Scenario.after_first_pellet.
Proof. eapply Pellets.play_next; [apply Pellets.play_start|apply Pellets.op_check_token]. Qed.

Lemma pellet_collection_monotonic_idempotent_witness :
  Pellets.initialized Scenario.level_start /\
  Pellets.playing Scenario.level_start Scenario.after_first_pellet /\
  GameState.check_token_collection 60 60
    (fst (GameState.check_token_collection 60 60 Scenario.after_first_pellet))
  = (fst (GameState.check_token_collection 60 60 Scenario.after_first_pellet), false) /\
  0 <= GameState.tokens_collected_ Scenario.after_first_pellet
    <= GameState.total_tokens_ Scenario.after_first_pellet.
Proof.
  split; [exact level_start_initialized|].
  split; [exact after_first_pellet_playing|].
  pose proof (pellet_collection_monotonic_idempotent
                Scenario.level_start Scenario.after_first_pellet 60 60
                level_start_initialized after_first_pellet_playing)
    as (_ & _ & _ & _ & Hidem & _ & _ & Hle & _).
  split; [exact Hidem|exact Hle].
Defined.

Lemma turn_commits_only_aligned_and_open_witness :
  (EntitySpec.aligned_for_desired Scenario.turning_right = true /\
   Maze.is_empty Scenario.maze
     (fst (EntitySpec.desired_cell Scenario.turning_right))
     (snd (EntitySpec.desired_cell Scenario.turning_right)) = true /\
   Entity.y_ (Entity.update 120 Scenario.maze Scenario.frame Scenario.turning_right)
   = 60%float) /\
  (EntitySpec.wall_ahead_throughout Scenario.maze Scenario.two_frames
     Scenario.heading_into_corner = true /\
   Entity.dir_ (EntitySpec.updates Scenario.maze Scenario.two_frames
                  Scenario.heading_into_corner) <> DIR_UP).
Proof.
  split.
  - apply (proj1 (turn_commits_only_aligned_and_open Scenario.maze)
                 120%float Scenario.frame Scenario.turning_right).
    + discriminate.
    + discriminate.
    + vm_compute. reflexivity.
  - split; [vm_compute; reflexivity|].
    apply (proj2 (turn_commits_only_aligned_and_open Scenario.maze)
                 Scenario.two_frames Scenario.heading_into_corner).
    + discriminate.
    + discriminate.
    + vm_compute. reflexivity.
Defined.

(** C3 as stated fails: facing a wall in the desired direction throughout,
    two updates change the current direction from LEFT to NONE, because
    the movement itself runs into the border wall. *)
Lemma wall_run_changes_direction :
  EntitySpec.wall_ahead_throughout Scenario.maze Scenario.two_frames
    Scenario.heading_into_corner = true /\
  Entity.dir_ Scenario.heading_into_corner = DIR_LEFT /\
  Entity.dir_ (EntitySpec.updates Scenario.maze Scenario.two_frames
                 Scenario.heading_into_corner) = DIR_NONE.
Proof. vm_compute. repeat split. Qed.

Lemma blocked_movement_is_cancelled_witness :
  Maze.can_move_to Scenario.maze
    (fst (Entity.get_next_position 120 Scenario.heading_into_corner DIR_LEFT 0.0625))
    (snd (Entity.get_next_position 120 Scenario.heading_into_corner DIR_LEFT 0.0625))
  = false /\
  Entity.x_ (Entity.attempt_movement 120 Scenario.maze 60 60 0.0625
               Scenario.heading_into_corner) = 60%float /\
  Entity.y_ (Entity.attempt_movement 120 Scenario.maze 60 60 0.0625
               Scenario.heading_into_corner) = 60%float /\
  Entity.dir_ (Entity.attempt_movement 120 Scenario.maze 60 60 0.0625
                 Scenario.heading_into_corner) = DIR_NONE /\
  Entity.desired_dir_ (Entity.attempt_movement 120 Scenario.maze 60 60 0.0625
                         Scenario.heading_into_corner) = DIR_UP.
Proof.
  assert (H : Maze.can_move_to Scenario.maze
    (fst (Entity.get_next_position 120 Scenario.heading_into_corner
            (Entity.dir_ Scenario.heading_into_corner) 0.0625))
    (snd (Entity.get_next_position 120 Scenario.heading_into_corner
            (Entity.dir_ Scenario.heading_into_corner) 0.0625)) = false)
    by (vm_compute; reflexivity).
  split; [exact H|].
  exact (blocked_movement_is_cancelled 120 Scenario.maze 60 60 0.0625
           Scenario.heading_into_corner H).
Defined.

(** ** Ghost speed and scared time *)

Section GhostTheorems.
Import Ghost.
Local Open Scope float_scope.

Lemma GhostState_eqb_eq (a b : GhostState) : GhostState_eqb a b = true <-> a = b.
Proof. destruct a, b; simpl; split; intros H; try reflexivity; discriminate. Qed.

(** C5 (amended). Entering SCARED mode sets the actual scared duration to
    the double-precision quotient 15 / multiplier, whatever the
    multiplier.  For the multipliers the difficulty menu supplies this is
    20, 15, 12 and 7.5 seconds, strictly decreasing as the multiplier
    grows. *)
Theorem scared_duration_inverse_of_multiplier :
  (forall g : Ghost.t,
      current_state_ (set_scared_mode g) = SCARED /\
      scared_duration_actual_ (set_scared_mode g)
      = SCARED_DURATION / Entity.speed_multiplier_ (base g)) /\
  (forall (m : Menu.t) (g : Ghost.t),
      Entity.speed_multiplier_ (base g) = Menu.get_difficulty_speed_multiplier m ->
      scared_duration_actual_ (set_scared_mode g)
      = match Menu.difficulty_level_ m with
        | EASY => 20 | MEDIUM => 15 | HARD => 12 | CRAZY => 7.5
        end) /\
  (forall (m1 m2 : Menu.t) (g1 g2 : Ghost.t),
      Entity.speed_multiplier_ (base g1) = Menu.get_difficulty_speed_multiplier m1 ->
      Entity.speed_multiplier_ (base g2) = Menu.get_difficulty_speed_multiplier m2 ->
      (Menu.get_difficulty_speed_multiplier m1
       <? Menu.get_difficulty_speed_multiplier m2) = true ->
      (scared_duration_actual_ (set_scared_mode g2)
       <? scared_duration_actual_ (set_scared_mode g1)) = true).
Proof.
  split; [intros g; split; reflexivity|].
  split.
  - intros m g H. unfold set_scared_mode. cbn [scared_duration_actual_ set_state_and_timers].
    rewrite H. unfold Menu.get_difficulty_speed_multiplier.
    destruct (Menu.difficulty_level_ m); reflexivity.
  - intros m1 m2 g1 g2 H1 H2.
    unfold set_scared_mode. cbn [scared_duration_actual_ set_state_and_timers].
    rewrite H1, H2. unfold Menu.get_difficulty_speed_multiplier.
    destruct (Menu.difficulty_level_ m1), (Menu.difficulty_level_ m2);
      intros H; solve [reflexivity | discriminate H].
Qed.

Lemma scared_duration_inverse_of_multiplier_witness :
  scared_duration_actual_
    (set_scared_mode (Ghost.set_speed_multiplier 0.75 GhostScenario.first_ghost)) = 20 /\
  (Menu.get_difficulty_speed_multiplier (GhostScenario.menu_at EASY)
   <? Menu.get_difficulty_speed_multiplier (GhostScenario.menu_at CRAZY)) = true /\
  (scared_duration_actual_ (set_scared_mode GhostScenario.crazy_chaser)
   <? scared_duration_actual_
        (set_scared_mode (Ghost.set_speed_multiplier 0.75 GhostScenario.first_ghost))) = true.
Proof.
  assert (Hlt : (Menu.get_difficulty_speed_multiplier (GhostScenario.menu_at EASY)
                 <? Menu.get_difficulty_speed_multiplier (GhostScenario.menu_at CRAZY)) = true)
    by reflexivity.
  split; [|split; [exact Hlt|]].
  - exact (proj1 (proj2 scared_duration_inverse_of_multiplier)
                 (GhostScenario.menu_at EASY)
                 (Ghost.set_speed_multiplier 0.75 GhostScenario.first_ghost) eq_refl).
  - exact (proj2 (proj2 scared_duration_inverse_of_multiplier)
                 (GhostScenario.menu_at EASY) (GhostScenario.menu_at CRAZY)
                 (Ghost.set_speed_multiplier 0.75 GhostScenario.first_ghost)
                 GhostScenario.crazy_chaser eq_refl eq_refl Hlt).
Defined.

(** C5 as stated fails: the quotient is rounded, so the duration is not
    strictly decreasing over all positive doubles; 3.5 and the next
    double above it give the same duration. *)
Lemma adjacent_multipliers_same_duration :
  (0 <? GhostScenario.mult_a) = true /\
  (GhostScenario.mult_a <? GhostScenario.mult_b) = true /\
  scared_duration_actual_
    (set_scared_mode (Ghost.set_speed_multiplier GhostScenario.mult_b GhostScenario.first_ghost))
  = scared_duration_actual_
      (set_scared_mode (Ghost.set_speed_multiplier GhostScenario.mult_a GhostScenario.first_ghost)) /\
  (scared_duration_actual_
     (set_scared_mode (Ghost.set_speed_multiplier GhostScenario.mult_b GhostScenario.first_ghost))
   <? scared_duration_actual_
        (set_scared_mode (Ghost.set_speed_multiplier GhostScenario.mult_a GhostScenario.first_ghost)))
  = false.
Proof. vm_compute. repeat split. Qed.

(** C6 fails on the code: [draw] measures the remaining time against the
    base 15 s, not against the actual scared duration, which the palette
    does not depend on at all.  On CRAZY (7.5 s)
    a ghost scared for 5.25 s has 2.25 s left and is in the lit half of
    the blink period, yet it is drawn with its normal palette; on EASY
    (20 s) a ghost scared for 12.5 s has 7.5 s left, yet it is drawn with
    the warning palette. *)
Lemma warning_blink_ignores_actual_duration :
  (forall (g : Ghost.t) (duration : float),
      palette_to_use
        (set_state_and_timers (current_state_ g) (scared_timer_ g) duration
                              (flash_timer_ g) (cooldown_timer_ g) g)
      = palette_to_use g) /\
  (current_state_ GhostScenario.crazy_scared_late = SCARED /\
   scared_duration_actual_ GhostScenario.crazy_scared_late
   - scared_timer_ GhostScenario.crazy_scared_late = 2.25 /\
   (0.167 <=? Double.fmod (flash_timer_ GhostScenario.crazy_scared_late) 0.33) = true /\
   palette_to_use GhostScenario.crazy_scared_late = "RED_BLUE_WHITE"%string) /\
  (current_state_ GhostScenario.easy_scared_mid = SCARED /\
   scared_duration_actual_ GhostScenario.easy_scared_mid
   - scared_timer_ GhostScenario.easy_scared_mid = 7.5 /\
   palette_to_use GhostScenario.easy_scared_mid = "RED_WHITE_GREEN"%string).
Proof.
  split; [intros g duration; reflexivity|].
  vm_compute. repeat split.
Qed.

End GhostTheorems.

(** ** Collision resolution and game mode *)

Example game_scenario_states :
  Ghost.current_state_ GameScenario.cooling_far = COOLDOWN /\
  Game.collides GameScenario.player GameScenario.chasing_near = true /\
  Game.collides GameScenario.player GameScenario.scared_near = true /\
  Game.collides GameScenario.player GameScenario.chasing_far = false.
Proof. vm_compute. repeat split. Qed.

Section GameTheorems.
Import Game GameSpec.
Local Open Scope Z_scope.

(** Projections of a game rebuilt by the setters. *)
Ltac game_fields :=
  cbn [maze_ pacman_ ghost1_ ghost2_ game_state_ menu_ running_ game_initialized_
       current_game_mode_ previous_game_mode_ current_level_ previous_power_pellets trace
       emit set_pacman set_ghost1 set_ghost2 set_game_state set_menu
       set_game_initialized set_modes set_previous_power_pellets
       GameState.add_score GameState.score_] in *.

Lemma captures_intro (p : Pacman.t) (gh : Ghost.t) :
  (distance_to p gh <=? GameConfig.COLLISION_DISTANCE)%float = true ->
  Ghost.can_interact gh = true ->
  Ghost.current_state_ gh = SCARED ->
  collides p gh = true /\ Ghost.is_scared gh = true /\ captures p gh = true.
Proof.
  intros Hd Hi Hs. unfold captures, collides, Ghost.is_scared.
  rewrite Hd, Hi, Hs. auto.
Qed.

Lemma fatal_intro (p : Pacman.t) (gh : Ghost.t) :
  (distance_to p gh <=? GameConfig.COLLISION_DISTANCE)%float = true ->
  Ghost.can_interact gh = true ->
  Ghost.current_state_ gh <> SCARED ->
  Ghost.current_state_ gh <> CAUGHT ->
  collides p gh = true /\ Ghost.is_scared gh = false /\ Ghost.is_caught gh = false.
Proof.
  intros Hd Hi Hs Hc. unfold collides, Ghost.is_scared, Ghost.is_caught.
  rewrite Hd, Hi. destruct (Ghost.current_state_ gh); simpl; auto; congruence.
Qed.

Lemma catch_ghost_captured (gh : Ghost.t) : captured gh (catch_ghost gh).
Proof. unfold captured, catch_ghost. repeat split. Qed.

(** What the fatal branch leaves behind. *)
Lemma game_over_sequence_spec (g : Game.t) :
  current_game_mode_ (game_over_sequence g) = GAME_OVER /\
  running_ (game_over_sequence g) = running_ g /\
  game_initialized_ (game_over_sequence g) = false /\
  Menu.get_state (menu_ (game_over_sequence g))
  = (if Menu.is_endless_mode (menu_ g) then NAME_ENTRY else MAIN_MENU) /\
  ghost1_ (game_over_sequence g) = ghost1_ g /\
  ghost2_ (game_over_sequence g) = ghost2_ g /\
  game_state_ (game_over_sequence g) = game_state_ g.
Proof.
  unfold game_over_sequence. cbn [menu_ emit set_modes].
  destruct (Menu.is_endless_mode (menu_ g)); repeat split.
Qed.

(** C1 (amended). A SCARED ghost within 20 pixels that can interact is
    captured by that tick's collision resolution whenever the resolution
    reaches it: always for the first ghost, and for the second ghost
    unless the first ghost's fatal collision has ended the resolution.
    The captured ghost is CAUGHT, its popup is started at the position it
    had, and 400 is added to the score for it (800 in all when the other
    ghost is captured on the same tick). *)
Theorem scared_ghost_is_captured (g : Game.t) :
  ((distance_to (pacman_ g) (ghost1_ g) <=? GameConfig.COLLISION_DISTANCE)%float = true ->
   Ghost.can_interact (ghost1_ g) = true ->
   Ghost.current_state_ (ghost1_ g) = SCARED ->
   captured (ghost1_ g) (ghost1_ (handle_ghost_collisions g)) /\
   GameState.score_ (game_state_ (handle_ghost_collisions g))
   = GameState.score_ (game_state_ g) + 400 + capture_points (pacman_ g) (ghost2_ g)) /\
  ((distance_to (pacman_ g) (ghost2_ g) <=? GameConfig.COLLISION_DISTANCE)%float = true ->
   Ghost.can_interact (ghost2_ g) = true ->
   Ghost.current_state_ (ghost2_ g) = SCARED ->
   fatal (pacman_ g) (ghost1_ g) = false ->
   captured (ghost2_ g) (ghost2_ (handle_ghost_collisions g)) /\
   GameState.score_ (game_state_ (handle_ghost_collisions g))
   = GameState.score_ (game_state_ g) + capture_points (pacman_ g) (ghost1_ g) + 400).
Proof.
  split.
  - intros Hd Hi Hs.
    destruct (captures_intro _ _ Hd Hi Hs) as (Hc & Hsc & _).
    unfold handle_ghost_collisions. rewrite Hc, Hsc.
    unfold handle_ghost2_collision, capture_points, captures.
    game_fields.
    destruct (collides (pacman_ g) (ghost2_ g)); cbn [andb].
    + destruct (Ghost.is_scared (ghost2_ g)).
      * game_fields.
        split; [apply catch_ghost_captured|lia].
      * destruct (Ghost.is_caught (ghost2_ g)); cbn [negb].
        -- game_fields.
           split; [apply catch_ghost_captured|lia].
        -- destruct (game_over_sequence_spec
                       (emit [PlayGhostEatSound; PlayGhostRetreatSound]
                          (set_ghost1 (catch_ghost (ghost1_ g))
                             (set_game_state (GameState.add_score 400 (game_state_ g)) g))))
             as (_ & _ & _ & _ & E1 & _ & E3).
           rewrite E1, E3.
           game_fields.
           split; [apply catch_ghost_captured|lia].
    + game_fields.
      split; [apply catch_ghost_captured|lia].
  - intros Hd Hi Hs Hf.
    destruct (captures_intro _ _ Hd Hi Hs) as (Hc & Hsc & _).
    unfold handle_ghost_collisions, capture_points, captures.
    unfold fatal in Hf.
    destruct (collides (pacman_ g) (ghost1_ g)); cbn [andb] in *.
    + destruct (Ghost.is_scared (ghost1_ g)); cbn [negb andb] in *.
      * unfold handle_ghost2_collision.
        game_fields.
        rewrite Hc, Hsc.
        game_fields.
        split; [apply catch_ghost_captured|lia].
      * rewrite Hf. cbn [negb].
        unfold handle_ghost2_collision. rewrite Hc, Hsc.
        game_fields.
        split; [apply catch_ghost_captured|lia].
    + unfold handle_ghost2_collision. rewrite Hc, Hsc.
      game_fields.
      split; [apply catch_ghost_captured|lia].
Qed.

Lemma handle_ghost2_collision_fatal (g : Game.t) :
  collides (pacman_ g) (ghost2_ g) = true ->
  Ghost.is_scared (ghost2_ g) = false ->
  Ghost.is_caught (ghost2_ g) = false ->
  handle_ghost2_collision g = game_over_sequence g.
Proof.
  intros Hc Hs Hk. unfold handle_ghost2_collision. rewrite Hc, Hs, Hk. reflexivity.
Qed.

(** A fatal collision ends the resolution in the fatal branch, which is
    entered from the game as it was or, for the second ghost, from the
    game with the first ghost just captured. *)
Lemma fatal_collision_sequence (g : Game.t) (gh : Ghost.t) :
  gh = ghost1_ g \/ gh = ghost2_ g ->
  (distance_to (pacman_ g) gh <=? GameConfig.COLLISION_DISTANCE)%float = true ->
  Ghost.can_interact gh = true ->
  Ghost.current_state_ gh <> SCARED ->
  Ghost.current_state_ gh <> CAUGHT ->
  exists g0,
    handle_ghost_collisions g = game_over_sequence g0 /\
    menu_ g0 = menu_ g /\ running_ g0 = running_ g /\
    GameState.all_tokens_collected (game_state_ g0)
    = GameState.all_tokens_collected (game_state_ g).
Proof.
  intros Hgh Hd Hi Hs Hk.
  destruct (fatal_intro _ _ Hd Hi Hs Hk) as (Hc & Hsc & Hca).
  destruct Hgh as [-> | ->].
  - exists g. unfold handle_ghost_collisions. rewrite Hc, Hsc, Hca. cbn [negb].
    repeat split.
  - unfold handle_ghost_collisions.
    destruct (collides (pacman_ g) (ghost1_ g)).
    + destruct (Ghost.is_scared (ghost1_ g)).
      * eexists. split.
        -- apply handle_ghost2_collision_fatal; game_fields; assumption.
        -- repeat split.
      * destruct (Ghost.is_caught (ghost1_ g)); cbn [negb].
        -- exists g. split; [|repeat split].
           apply handle_ghost2_collision_fatal; assumption.
        -- exists g. repeat split.
    + exists g. split; [|repeat split].
      apply handle_ghost2_collision_fatal; assumption.
Qed.

(** What the resolution of a fatal collision leaves behind. *)
Lemma collision_resolution_game_over (g : Game.t) (gh : Ghost.t) :
  gh = ghost1_ g \/ gh = ghost2_ g ->
  (distance_to (pacman_ g) gh <=? GameConfig.COLLISION_DISTANCE)%float = true ->
  Ghost.can_interact gh = true ->
  Ghost.current_state_ gh <> SCARED ->
  Ghost.current_state_ gh <> CAUGHT ->
  game_over_outcome g (handle_ghost_collisions g).
Proof.
  intros Hgh Hd Hi Hs Hk.
  destruct (fatal_collision_sequence g gh Hgh Hd Hi Hs Hk) as (g0 & E & M & R & _).
  rewrite E. unfold game_over_outcome.
  destruct (game_over_sequence_spec g0) as (A & B & C & D & _).
  rewrite <- M, <- R. auto.
Qed.

Lemma power_pellet_block_scares_ghosts (delta_time : float) (g : Game.t) :
  previous_power_pellets g <> -1 ->
  GameState.count_collected_power_pellets (game_state_ g) > previous_power_pellets g ->
  (Ghost.current_state_ (ghost1_ g) <> CAUGHT ->
   freshly_scared (ghost1_ g) (ghost1_ (update_player_and_power_pellets delta_time g))) /\
  (Ghost.current_state_ (ghost2_ g) <> CAUGHT ->
   freshly_scared (ghost2_ g) (ghost2_ (update_player_and_power_pellets delta_time g))) /\
  (Ghost.current_state_ (ghost1_ g) = CAUGHT ->
   ghost1_ (update_player_and_power_pellets delta_time g) = ghost1_ g) /\
  (Ghost.current_state_ (ghost2_ g) = CAUGHT ->
   ghost2_ (update_player_and_power_pellets delta_time g) = ghost2_ g) /\
  previous_power_pellets (update_player_and_power_pellets delta_time g)
  = GameState.count_collected_power_pellets (game_state_ g).
Proof.
  intros Hprev Hgt. unfold update_player_and_power_pellets.
  destruct (Pacman.update (maze_ g) (game_state_ g) delta_time (pacman_ g)) as [p gs].
  set (g2 := if GameState.was_token_just_collected _ then _ else _).
  assert (E1 : ghost1_ g2 = ghost1_ g)
    by (subst g2; destruct (GameState.was_token_just_collected _); reflexivity).
  assert (E2 : ghost2_ g2 = ghost2_ g)
    by (subst g2; destruct (GameState.was_token_just_collected _); reflexivity).
  assert (E3 : previous_power_pellets g2 = previous_power_pellets g)
    by (subst g2; destruct (GameState.was_token_just_collected _); reflexivity).
  clearbody g2. unfold scare_ghosts_on_power_pellet. rewrite E3.
  assert (Hp : (previous_power_pellets g =? -1) = false) by (apply Z.eqb_neq; exact Hprev).
  assert (Hg : (GameState.count_collected_power_pellets (game_state_ g)
                >? previous_power_pellets g) = true) by (apply Z.gtb_lt; lia).
  rewrite Hp, Hg. cbn [negb andb]. unfold Ghost.is_caught. rewrite E1.
  destruct (GhostState_eqb (Ghost.current_state_ (ghost1_ g)) CAUGHT) eqn:K1;
    cbn [negb]; game_fields; rewrite E2;
    destruct (GhostState_eqb (Ghost.current_state_ (ghost2_ g)) CAUGHT) eqn:K2;
    cbn [negb]; game_fields; rewrite ?E1, ?E2;
    try apply GhostState_eqb_eq in K1; try apply GhostState_eqb_eq in K2;
    repeat split; try reflexivity; try congruence;
    intros H; try congruence;
    match goal with
    | K : GhostState_eqb ?s CAUGHT = false, H : ?s = CAUGHT |- _ =>
        rewrite H in K; discriminate K
    end.
Qed.

Lemma update_game_mode_keeps (start_sound_playing : bool) (g : Game.t) :
  ghost1_ (update_game_mode start_sound_playing g) = ghost1_ g /\
  ghost2_ (update_game_mode start_sound_playing g) = ghost2_ g /\
  game_state_ (update_game_mode start_sound_playing g) = game_state_ g /\
  previous_power_pellets (update_game_mode start_sound_playing g)
  = previous_power_pellets g.
Proof.
  unfold update_game_mode. game_fields.
  destruct (GameMode_eqb (current_game_mode_ g) STARTING);
    [destruct (negb start_sound_playing)|]; game_fields; auto.
Qed.

Lemma update_game_mode_leaves_starting (start_sound_playing : bool) (g : Game.t) :
  current_game_mode_ g <> STARTING \/ start_sound_playing = false ->
  GameMode_eqb (current_game_mode_ (update_game_mode start_sound_playing g)) STARTING
  = false.
Proof.
  intros H. unfold update_game_mode. game_fields.
  destruct (GameMode_eqb (current_game_mode_ g) STARTING) eqn:E.
  - destruct H as [H| ->].
    + destruct (current_game_mode_ g); try discriminate E. congruence.
    + reflexivity.
  - game_fields. unfold determine_current_game_mode. game_fields.
    repeat match goal with |- context [if ?c then _ else _] => destruct c end;
      reflexivity.
Qed.

(** C10 (amended). The collected power-pellet count is sampled at the
    start of the tick, before the player moves.  On a tick whose sample
    exceeds the sample of the previous tick, every ghost that is not
    CAUGHT is set to SCARED with its scared and flash timers at zero and
    its duration at 15 / multiplier, whatever its state was (CHASING,
    SCARED or COOLDOWN); a CAUGHT ghost is left as it is. *)
Theorem sampled_power_pellet_scares_ghosts
        (start_sound_playing : bool) (delta_time : float) (g : Game.t) :
  current_game_mode_ g <> STARTING \/ start_sound_playing = false ->
  previous_power_pellets g <> -1 ->
  GameState.count_collected_power_pellets (game_state_ g) > previous_power_pellets g ->
  (Ghost.current_state_ (ghost1_ g) <> CAUGHT ->
   freshly_scared (ghost1_ g)
     (ghost1_ (update_until_ghosts start_sound_playing delta_time g))) /\
  (Ghost.current_state_ (ghost2_ g) <> CAUGHT ->
   freshly_scared (ghost2_ g)
     (ghost2_ (update_until_ghosts start_sound_playing delta_time g))) /\
  (Ghost.current_state_ (ghost1_ g) = CAUGHT ->
   ghost1_ (update_until_ghosts start_sound_playing delta_time g) = ghost1_ g) /\
  (Ghost.current_state_ (ghost2_ g) = CAUGHT ->
   ghost2_ (update_until_ghosts start_sound_playing delta_time g) = ghost2_ g) /\
  previous_power_pellets (update_until_ghosts start_sound_playing delta_time g)
  = GameState.count_collected_power_pellets (game_state_ g).
Proof.
  intros Hmode Hprev Hgt. unfold update_until_ghosts.
  set (g0 := emit _ g).
  assert (Hmode0 : current_game_mode_ g0 <> STARTING \/ start_sound_playing = false)
    by exact Hmode.
  rewrite (update_game_mode_leaves_starting _ _ Hmode0).
  destruct (update_game_mode_keeps start_sound_playing g0) as (K1 & K2 & K3 & K4).
  change (ghost1_ g0) with (ghost1_ g) in K1.
  change (ghost2_ g0) with (ghost2_ g) in K2.
  change (game_state_ g0) with (game_state_ g) in K3.
  change (previous_power_pellets g0) with (previous_power_pellets g) in K4.
  rewrite <- K1, <- K2, <- K3.
  apply power_pellet_block_scares_ghosts; rewrite ?K3, ?K4; assumption.
Qed.

Lemma scared_ghost_is_captured_witness :
  (captured GameScenario.scared_near_too
     (ghost1_ (handle_ghost_collisions GameScenario.two_scared)) /\
   GameState.score_ (game_state_ (handle_ghost_collisions GameScenario.two_scared))
   = 0 + 400 + 400) /\
  (captured GameScenario.scared_near
     (ghost2_ (handle_ghost_collisions GameScenario.two_scared)) /\
   GameState.score_ (game_state_ (handle_ghost_collisions GameScenario.two_scared))
   = 0 + 400 + 400).
Proof.
  split.
  - apply (proj1 (scared_ghost_is_captured GameScenario.two_scared)); reflexivity.
  - apply (proj2 (scared_ghost_is_captured GameScenario.two_scared)); reflexivity.
Defined.

(** C1 as stated fails for the second ghost: it is SCARED, within 20
    pixels and can interact, but the first ghost's fatal collision returns
    first; the second ghost stays SCARED, no popup starts and the score
    does not move. *)
Lemma scared_ghost_skipped_after_fatal_collision :
  (distance_to (pacman_ GameScenario.both_near) (ghost2_ GameScenario.both_near)
   <=? GameConfig.COLLISION_DISTANCE)%float = true /\
  Ghost.can_interact (ghost2_ GameScenario.both_near) = true /\
  Ghost.current_state_ (ghost2_ GameScenario.both_near) = SCARED /\
  Ghost.current_state_ (ghost2_ (handle_ghost_collisions GameScenario.both_near)) = SCARED /\
  Ghost.show_score_popup_ (ghost2_ (handle_ghost_collisions GameScenario.both_near)) = false /\
  GameState.score_ (game_state_ (handle_ghost_collisions GameScenario.both_near))
  = GameState.score_ (game_state_ GameScenario.both_near).
Proof. vm_compute. repeat split. Qed.

(** C2 as stated fails: after the fatal collision the mode is GAME_OVER
    but the running flag is still true, in the collision resolution and
    at the end of the whole tick; and on a tick in which the player also
    collects the last pellet, the mode at the end of the tick is not
    GAME_OVER but STARTING, the next level being loaded. *)
Lemma running_flag_survives_fatal_collision :
  (distance_to (pacman_ GameScenario.both_near) (ghost1_ GameScenario.both_near)
   <=? GameConfig.COLLISION_DISTANCE)%float = true /\
  Ghost.can_interact (ghost1_ GameScenario.both_near) = true /\
  Ghost.current_state_ (ghost1_ GameScenario.both_near) = CHASING /\
  current_game_mode_ (handle_ghost_collisions GameScenario.both_near) = GAME_OVER /\
  running_ (handle_ghost_collisions GameScenario.both_near) = true /\
  GameSpec.fatal
    (pacman_ (GameTick.game
                (GameTick.update_until_collisions
                   TickSpec.start_sound_over Scenario.frame TickSpec.ghost_in_reach)))
    (ghost1_ (GameTick.game
                (GameTick.update_until_collisions
                   TickSpec.start_sound_over Scenario.frame TickSpec.ghost_in_reach)))
  = true /\
  current_game_mode_
    (GameTick.game (GameTick.update TickSpec.start_sound_over Scenario.frame
                                    TickSpec.ghost_in_reach)) = GAME_OVER /\
  running_
    (GameTick.game (GameTick.update TickSpec.start_sound_over Scenario.frame
                                    TickSpec.ghost_in_reach)) = true /\
  GameSpec.fatal
    (pacman_ (GameTick.game
                (GameTick.update_until_collisions
                   TickSpec.start_sound_over Scenario.frame
                   TickSpec.ghost_in_reach_on_last_pellet)))
    (ghost1_ (GameTick.game
                (GameTick.update_until_collisions
                   TickSpec.start_sound_over Scenario.frame
                   TickSpec.ghost_in_reach_on_last_pellet)))
  = true /\
  current_game_mode_
    (GameTick.game (GameTick.update TickSpec.start_sound_over Scenario.frame
                                    TickSpec.ghost_in_reach_on_last_pellet)) = STARTING /\
  running_
    (GameTick.game (GameTick.update TickSpec.start_sound_over Scenario.frame
                                    TickSpec.ghost_in_reach_on_last_pellet)) = true.
Proof. vm_compute. repeat split. Qed.

Lemma sampled_power_pellet_scares_ghosts_witness :
  Ghost.current_state_ (ghost1_ GameScenario.tick_after_pellet) = SCARED /\
  Ghost.scared_timer_ (ghost1_ GameScenario.tick_after_pellet) = 5.25%float /\
  Ghost.current_state_ (ghost2_ GameScenario.tick_after_pellet) = COOLDOWN /\
  freshly_scared (ghost1_ GameScenario.tick_after_pellet)
    (ghost1_ (update_until_ghosts false Scenario.frame GameScenario.tick_after_pellet)) /\
  freshly_scared (ghost2_ GameScenario.tick_after_pellet)
    (ghost2_ (update_until_ghosts false Scenario.frame GameScenario.tick_after_pellet)).
Proof.
  assert (Hp : previous_power_pellets GameScenario.tick_after_pellet <> -1)
    by (vm_compute; discriminate).
  assert (Hc : GameState.count_collected_power_pellets
                 (game_state_ GameScenario.tick_after_pellet)
               > previous_power_pellets GameScenario.tick_after_pellet)
    by (vm_compute; reflexivity).
  destruct (sampled_power_pellet_scares_ghosts false Scenario.frame
              GameScenario.tick_after_pellet (or_intror eq_refl) Hp Hc) as (H1 & H2 & _).
  split; [vm_compute; reflexivity|].
  split; [vm_compute; reflexivity|].
  split; [vm_compute; reflexivity|].
  split.
  - apply H1. vm_compute. discriminate.
  - apply H2. vm_compute. discriminate.
Defined.

(** C10 as stated fails: on the tick in which the player eats the power
    pellet the collected count goes from 0 to 1, but the count was sampled
    before the player moved, so neither ghost is scared on that tick; the
    next tick's sample triggers it. *)
Lemma pellet_tick_leaves_ghosts_unscared :
  previous_power_pellets GameScenario.on_power_pellet = 0 /\
  GameState.count_collected_power_pellets (game_state_ GameScenario.on_power_pellet) = 0 /\
  GameState.count_collected_power_pellets
    (game_state_ (update_until_ghosts false Scenario.frame
                    GameScenario.on_power_pellet)) = 1 /\
  Ghost.current_state_
    (ghost1_ (update_until_ghosts false Scenario.frame
                GameScenario.on_power_pellet)) = CHASING /\
  Ghost.current_state_
    (ghost2_ (update_until_ghosts false Scenario.frame
                GameScenario.on_power_pellet)) = COOLDOWN /\
  Ghost.current_state_
    (ghost1_ (update_until_ghosts false Scenario.frame
                (update_until_ghosts false Scenario.frame
                   GameScenario.on_power_pellet))) = SCARED.
Proof. vm_compute. repeat split. Qed.

End GameTheorems.

(* ================================================================== *)
(** * Further properties of the code                                   *)
(* ================================================================== *)

(** ** Spawn search *)

Section SpawnSearch.
Import MazeSpawn.

Lemma count_up_In (n : nat) : forall lo i,
  In i (count_up lo n) <-> lo <= i < lo + Z.of_nat n.
Proof.
  induction n as [|n IH]; intros lo i; cbn [count_up].
  - split; [intros []|lia].
  - cbn [In]. rewrite IH. lia.
Qed.

Lemma from_to_In (lo hi i : Z) : In i (from_to lo hi) <-> lo <= i <= hi.
Proof. unfold from_to. rewrite count_up_In. lia. Qed.

Lemma ring_In (radius dr dc : Z) :
  0 <= radius ->
  (In (dr, dc) (ring radius) <-> Z.max (Z.abs dr) (Z.abs dc) = radius).
Proof.
  intros Hr. unfold ring. rewrite in_flat_map. split.
  - intros (r & Hin & H). rewrite in_flat_map in H. destruct H as (c & Hin' & H).
    apply from_to_In in Hin. apply from_to_In in Hin'.
    destruct (negb (Z.abs r =? radius) && negb (Z.abs c =? radius)) eqn:E;
      [destruct H|].
    destruct H as [H|[]]. inversion H; subst.
    apply andb_false_iff in E.
    destruct E as [E|E]; apply negb_false_iff, Z.eqb_eq in E; lia.
  - intros H. exists dr. split; [apply from_to_In; lia|].
    rewrite in_flat_map. exists dc. split; [apply from_to_In; lia|].
    destruct (negb (Z.abs dr =? radius) && negb (Z.abs dc =? radius)) eqn:E.
    + apply andb_prop in E as [E1 E2].
      apply negb_true_iff, Z.eqb_neq in E1. apply negb_true_iff, Z.eqb_neq in E2. lia.
    + left. reflexivity.
Qed.

Lemma spawn_candidate_true (maze : Maze.t) (tr tc : Z) (offset : Z * Z) :
  spawn_candidate maze tr tc offset = true <->
  Maze.is_empty maze (tr + fst offset) (tc + snd offset) = true.
Proof.
  unfold spawn_candidate. split.
  - intros H. apply andb_prop in H as [_ H]. exact H.
  - intros H. rewrite H. apply is_empty_inside in H.
    unfold MazeConfig.MAZE_ROWS, MazeConfig.MAZE_COLS in *.
    repeat (apply andb_true_intro; split); try reflexivity;
      first [apply Z.geb_le | apply Z.ltb_lt]; lia.
Qed.

(** The outer loop over [lo .. lo + n - 1]: a hit lies on some ring and no
    earlier ring holds an open cell; a miss means no ring does. *)
Lemma search_rings_spec (maze : Maze.t) (tr tc : Z) (n : nat) : forall lo,
  0 <= lo ->
  match search_rings maze tr tc (count_up lo n) with
  | Some (row, col) =>
      Maze.is_empty maze row col = true /\
      lo <= ring_distance tr tc row col < lo + Z.of_nat n /\
      forall row' col', Maze.is_empty maze row' col' = true ->
                        lo <= ring_distance tr tc row' col' ->
                        ring_distance tr tc row col <= ring_distance tr tc row' col'
  | None =>
      forall row' col', Maze.is_empty maze row' col' = true ->
                        ~ (lo <= ring_distance tr tc row' col' < lo + Z.of_nat n)
  end.
Proof.
  induction n as [|n IH]; intros lo Hlo; cbn [count_up search_rings].
  - intros row' col' _. lia.
  - destruct (find (spawn_candidate maze tr tc) (ring lo)) as [[dr dc]|] eqn:F.
    + apply find_some in F as [Hin Hc]. apply ring_In in Hin; [|exact Hlo].
      apply spawn_candidate_true in Hc. cbn [fst snd] in *.
      assert (Hd : ring_distance tr tc (tr + dr) (tc + dc) = lo).
      { unfold ring_distance. replace (tr + dr - tr) with dr by lia.
        replace (tc + dc - tc) with dc by lia. exact Hin. }
      rewrite Hd. repeat split; [exact Hc|lia|lia|]. intros; assumption.
    + specialize (IH (lo + 1) ltac:(lia)).
      assert (Hnone : forall row' col', Maze.is_empty maze row' col' = true ->
                        ring_distance tr tc row' col' <> lo).
      { intros row' col' He Hd.
        pose proof (find_none _ _ F (row' - tr, col' - tc)) as Hn.
        assert (Hin : In (row' - tr, col' - tc) (ring lo))
          by (apply ring_In; [exact Hlo|exact Hd]).
        specialize (Hn Hin).
        assert (Ht : spawn_candidate maze tr tc (row' - tr, col' - tc) = true).
        { apply spawn_candidate_true. cbn [fst snd].
          replace (tr + (row' - tr)) with row' by lia.
          replace (tc + (col' - tc)) with col' by lia. exact He. }
        congruence. }
      destruct (search_rings maze tr tc (count_up (lo + 1) n)) as [[row col]|].
      * destruct IH as (He & Hrange & Hmin). repeat split; [exact He|lia|lia|].
        intros row' col' He' Hlo'. apply Hmin; [exact He'|].
        specialize (Hnone row' col' He'). lia.
      * intros row' col' He' Hr. specialize (Hnone row' col' He').
        apply (IH row' col' He'). lia.
Qed.

(** X1. [find_spawn_position] returns the target itself when it is open;
    otherwise an open cell nearest to the target in ring distance (the
    larger of the row and column distances), if there is an open cell
    within 25 rings; otherwise the centre cell (6, 12), open or not. *)
Theorem find_spawn_position_nearest_open (maze : Maze.t) (target_row target_col : Z) :
  (Maze.is_empty maze (fst (find_spawn_position maze target_row target_col))
                      (snd (find_spawn_position maze target_row target_col)) = true /\
   forall row col, Maze.is_empty maze row col = true ->
     ring_distance target_row target_col
       (fst (find_spawn_position maze target_row target_col))
       (snd (find_spawn_position maze target_row target_col))
     <= ring_distance target_row target_col row col) \/
  (find_spawn_position maze target_row target_col = (6, 12) /\
   forall row col, Maze.is_empty maze row col = true ->
     ring_distance target_row target_col row col > 25).
Proof.
  unfold find_spawn_position.
  destruct (Maze.is_empty maze target_row target_col) eqn:E.
  - left. cbn [fst snd]. split; [exact E|]. intros row col _.
    unfold ring_distance. rewrite !Z.sub_diag. cbn. lia.
  - pose proof (search_rings_spec maze target_row target_col
                  (Z.to_nat (max_radius - 1 + 1)) 1 ltac:(lia)) as H.
    unfold from_to.
    destruct (search_rings maze target_row target_col
                (count_up 1 (Z.to_nat (max_radius - 1 + 1)))) as [[row col]|].
    + left. cbn [fst snd]. destruct H as (He & Hrange & Hmin).
      split; [exact He|]. intros row' col' He'. apply Hmin; [exact He'|].
      assert (ring_distance target_row target_col row' col' <> 0).
      { unfold ring_distance. intros H0.
        assert (row' = target_row) by lia. assert (col' = target_col) by lia.
        subst. congruence. }
      unfold ring_distance in *. lia.
    + right. split; [reflexivity|]. intros row col He.
      specialize (H row col He).
      assert (ring_distance target_row target_col row col <> 0).
      { unfold ring_distance. intros H0.
        assert (row = target_row) by lia. assert (col = target_col) by lia.
        subst. congruence. }
      change (Z.of_nat (Z.to_nat (max_radius - 1 + 1))) with 25 in H.
      unfold ring_distance in *. lia.
Qed.

End SpawnSearch.

Example spawn_positions_on_fallback_maze :
  MazeSpawn.find_spawn_position Scenario.maze 9 12 = (8, 11) /\
  MazeSpawn.find_spawn_position Scenario.maze 3 12 = (2, 11) /\
  MazeSpawn.find_spawn_position Scenario.maze 7 17 = (7, 17).
Proof. vm_compute. repeat split. Qed.

(** ** Pellet placement *)

Section PelletPlacement.
Import GameState.
Local Open Scope Z_scope.

Variable m : Maze.t.
Variables spawn_row spawn_col : Z.

(** The cell receives a pellet: open and outside the 3 x 3 spawn area. *)
Definition gets_token (cell : Z * Z) : bool :=
  Maze.is_empty m (fst cell) (snd cell) &&
  negb ((Z.abs (fst cell - spawn_row) <=? 1) && (Z.abs (snd cell - spawn_col) <=? 1)).

Definition add_tokens (cells : list (Z * Z)) (gs : GameState.t) : GameState.t :=
  fold_left (fun gs cell => add_token (fst cell) (snd cell) gs) cells gs.

Lemma add_tokens_app (xs ys : list (Z * Z)) (gs : GameState.t) :
  add_tokens (xs ++ ys) gs = add_tokens ys (add_tokens xs gs).
Proof. unfold add_tokens. apply fold_left_app. Qed.

Lemma add_tokens_fields (cells : list (Z * Z)) : forall gs,
  tokens_ (add_tokens cells gs)
  = tokens_ gs ++ map (fun cell => Token.new (fst cell) (snd cell)) cells /\
  total_tokens_ (add_tokens cells gs) = total_tokens_ gs + Z.of_nat (List.length cells) /\
  tokens_collected_ (add_tokens cells gs) = tokens_collected_ gs /\
  score_ (add_tokens cells gs) = score_ gs /\
  power_pellets_ (add_tokens cells gs) = power_pellets_ gs.
Proof.
  induction cells as [|cell cells IH]; intros gs.
  - cbn. rewrite app_nil_r. repeat split; lia.
  - change (add_tokens (cell :: cells) gs)
      with (add_tokens cells (add_token (fst cell) (snd cell) gs)).
    destruct (IH (add_token (fst cell) (snd cell) gs)) as (A & B & C & D & E).
    rewrite A, B, C, D, E. cbn [add_token tokens_ total_tokens_ tokens_collected_
                                 score_ power_pellets_ map List.length].
    rewrite <- app_assoc. repeat split; try reflexivity. lia.
Qed.

Lemma inner_loop_is_filter (r : Z) (cs : list Z) : forall gs,
  fold_left
    (fun gs c =>
       if Maze.is_empty m r c then
         let dr := Z.abs (r - spawn_row) in
         let dc := Z.abs (c - spawn_col) in
         if (dr <=? 1) && (dc <=? 1) then gs else add_token r c gs
       else gs) cs gs
  = add_tokens (filter gets_token (map (pair r) cs)) gs.
Proof.
  induction cs as [|c cs IH]; intros gs; [reflexivity|].
  cbn [fold_left map filter]. rewrite IH. unfold gets_token at 2. cbn [fst snd].
  destruct (Maze.is_empty m r c); cbn [andb]; [|reflexivity].
  destruct ((Z.abs (r - spawn_row) <=? 1) && (Z.abs (c - spawn_col) <=? 1));
    reflexivity.
Qed.

Lemma outer_loop_is_filter (rs cs : list Z) : forall gs,
  fold_left
    (fun gs r =>
       fold_left
         (fun gs c =>
            if Maze.is_empty m r c then
              let dr := Z.abs (r - spawn_row) in
              let dc := Z.abs (c - spawn_col) in
              if (dr <=? 1) && (dc <=? 1) then gs else add_token r c gs
            else gs) cs gs) rs gs
  = add_tokens (filter gets_token (list_prod rs cs)) gs.
Proof.
  induction rs as [|r rs IH]; intros gs; [reflexivity|].
  cbn [fold_left list_prod]. rewrite IH, inner_loop_is_filter.
  rewrite filter_app, add_tokens_app. reflexivity.
Qed.

Lemma initialize_tokens_is_filter (gs : GameState.t) :
  MazeInit.initialize_tokens m spawn_row spawn_col gs
  = add_tokens (filter gets_token (list_prod MazeInit.rows MazeInit.cols)) gs.
Proof. apply outer_loop_is_filter. Qed.

End PelletPlacement.

Lemma NoDup_map_injective {A B : Type} (f : A -> B) (l : list A) :
  (forall a b, f a = f b -> a = b) -> NoDup l -> NoDup (map f l).
Proof.
  intros Hf H. induction H as [|x l Hnin _ IH]; cbn [map]; constructor; [|exact IH].
  intros Hin. apply in_map_iff in Hin as (y & E & Hy). apply Hf in E. subst. contradiction.
Qed.

Lemma NoDup_list_prod {A B : Type} (xs : list A) (ys : list B) :
  NoDup xs -> NoDup ys -> NoDup (list_prod xs ys).
Proof.
  intros Hx Hy. induction Hx as [|x xs Hnin _ IH]; cbn [list_prod]; [constructor|].
  apply NoDup_app.
  - apply NoDup_map_injective; [|exact Hy]. intros a b H. congruence.
  - exact IH.
  - intros [a b] H1 H2. apply in_map_iff in H1 as (b' & E & _). inversion E; subst.
    apply in_prod_iff in H2 as [H2 _]. contradiction.
Qed.

Lemma grid_rows_In (r : Z) : In r MazeInit.rows <-> 0 <= r < MazeConfig.MAZE_ROWS.
Proof.
  unfold MazeInit.rows. rewrite in_map_iff. split.
  - intros (n & E & H). apply in_seq in H. unfold MazeConfig.MAZE_ROWS in *. lia.
  - intros H. exists (Z.to_nat r). split; [lia|]. apply in_seq.
    unfold MazeConfig.MAZE_ROWS in *. lia.
Qed.

Lemma grid_cols_In (c : Z) : In c MazeInit.cols <-> 0 <= c < MazeConfig.MAZE_COLS.
Proof.
  unfold MazeInit.cols. rewrite in_map_iff. split.
  - intros (n & E & H). apply in_seq in H. unfold MazeConfig.MAZE_COLS in *. lia.
  - intros H. exists (Z.to_nat c). split; [lia|]. apply in_seq.
    unfold MazeConfig.MAZE_COLS in *. lia.
Qed.

Lemma grid_cells_NoDup : NoDup (list_prod MazeInit.rows MazeInit.cols).
Proof.
  apply NoDup_list_prod; unfold MazeInit.rows, MazeInit.cols;
    (apply NoDup_map_injective; [intros a b H; lia|apply seq_NoDup]).
Qed.

Import PelletSpec.

(** X2. [initialize_tokens] on a fresh [GameState] puts exactly one pellet
    on every open cell that is not in the 3 x 3 area around the spawn cell
    and nowhere else; every pellet starts uncollected; [total_tokens] is
    their number and nothing is collected or scored. *)
Theorem initialize_tokens_places_pellets (m : Maze.t) (spawn_row spawn_col : Z) :
  (forall row col,
      In (row, col) (token_cells (MazeInit.initialize_tokens m spawn_row spawn_col GameState.new))
      <-> Maze.is_empty m row col = true /\
          ~ (Z.abs (row - spawn_row) <= 1 /\ Z.abs (col - spawn_col) <= 1)) /\
  NoDup (token_cells (MazeInit.initialize_tokens m spawn_row spawn_col GameState.new)) /\
  Forall (fun t => Token.is_collected t = false)
         (GameState.tokens_ (MazeInit.initialize_tokens m spawn_row spawn_col GameState.new)) /\
  GameState.total_tokens_ (MazeInit.initialize_tokens m spawn_row spawn_col GameState.new)
  = Z.of_nat (List.length
                (GameState.tokens_
                   (MazeInit.initialize_tokens m spawn_row spawn_col GameState.new))) /\
  GameState.tokens_collected_ (MazeInit.initialize_tokens m spawn_row spawn_col GameState.new) = 0 /\
  GameState.score_ (MazeInit.initialize_tokens m spawn_row spawn_col GameState.new) = 0.
Proof.
  rewrite initialize_tokens_is_filter.
  set (cells := filter (gets_token m spawn_row spawn_col)
                       (list_prod MazeInit.rows MazeInit.cols)).
  destruct (add_tokens_fields cells GameState.new) as (A & B & C & D & _).
  assert (Hcells : token_cells (add_tokens cells GameState.new) = cells).
  { unfold token_cells. rewrite A. cbn [GameState.new GameState.tokens_ app].
    rewrite map_map. cbn [Token.new Token.row_ Token.col_].
    rewrite <- (map_id cells) at 2. apply map_ext. intros [r c]. reflexivity. }
  rewrite Hcells, A, B, C, D.
  cbn [GameState.new GameState.tokens_ GameState.total_tokens_
         GameState.tokens_collected_ GameState.score_ app].
  split; [|split; [|split; [|split; [|split]]]].
  - intros row col. subst cells. rewrite filter_In. unfold gets_token. cbn [fst snd].
    split.
    + intros [_ H]. apply andb_prop in H as [He H]. split; [exact He|].
      apply negb_true_iff, andb_false_iff in H.
      intros [H1 H2]. destruct H as [H|H]; apply Z.leb_gt in H; lia.
    + intros [He Hs]. split.
      * apply is_empty_inside in He. apply in_prod_iff.
        split; [apply grid_rows_In|apply grid_cols_In]; lia.
      * rewrite He. cbn [andb]. apply negb_true_iff, andb_false_iff.
        destruct (Z.abs (row - spawn_row) <=? 1) eqn:E1; [|left; reflexivity].
        destruct (Z.abs (col - spawn_col) <=? 1) eqn:E2; [|right; reflexivity].
        apply Z.leb_le in E1. apply Z.leb_le in E2. exfalso. apply Hs. lia.
  - subst cells. apply NoDup_filter, grid_cells_NoDup.
  - apply Forall_forall. intros t Ht. apply in_map_iff in Ht as (cell & E & _).
    subst t. reflexivity.
  - rewrite length_map. lia.
  - reflexivity.
  - reflexivity.
Qed.

(** ** Win condition and power-pellet scoring *)

Section WinAndPowerPellets.
Import GameState Pellets PelletSpec.
Local Open Scope Z_scope.

Lemma collected_count_all (ts : list Token.t) :
  collected_count ts = Z.of_nat (List.length ts) <->
  Forall (fun t => Token.is_collected t = true) ts.
Proof.
  unfold collected_count. split.
  - intros H. apply Nat2Z.inj in H. apply filter_length_forallb in H.
    rewrite forallb_forall in H. apply Forall_forall. exact H.
  - intros H. rewrite Forall_forall in H. rewrite forallb_filter_id; [reflexivity|].
    apply forallb_forall. exact H.
Qed.

(** X3. In every state of a running level the collected count is the
    number of pellets whose flag is set and [total_tokens] the number of
    pellets, so the win test [all_tokens_collected] is true exactly when
    every pellet is collected. *)
Theorem win_exactly_when_all_collected (s0 s : GameState.t) :
  initialized s0 -> playing s0 s ->
  tokens_collected_ s = collected_count (tokens_ s) /\
  total_tokens_ s = Z.of_nat (List.length (tokens_ s)) /\
  (all_tokens_collected s = true <->
   Forall (fun t => Token.is_collected t = true) (tokens_ s)).
Proof.
  intros Hinit Hplay.
  destruct (playing_spec _ _ Hplay (initialized_counts_ok _ Hinit)) as ([Hc Ht] & _).
  split; [exact Hc|]. split; [exact Ht|].
  rewrite <- collected_count_all. unfold all_tokens_collected. rewrite Hc, Ht.
  pose proof (collected_count_bounds (tokens_ s)).
  split; intros H0; [apply Z.geb_le in H0|apply Z.geb_le]; lia.
Qed.

Lemma win_exactly_when_all_collected_witness :
  initialized Scenario.level_start /\
  playing Scenario.level_start Scenario.after_first_pellet /\
  tokens_collected_ Scenario.after_first_pellet
  = collected_count (tokens_ Scenario.after_first_pellet) /\
  (all_tokens_collected Scenario.after_first_pellet = true <->
   Forall (fun t => Token.is_collected t = true) (tokens_ Scenario.after_first_pellet)).
Proof.
  split; [exact level_start_initialized|].
  split; [exact after_first_pellet_playing|].
  destruct (win_exactly_when_all_collected _ _ level_start_initialized
              after_first_pellet_playing) as (A & _ & C).
  split; [exact A|exact C].
Defined.

Lemma count_fold (ps : list PowerPellet.t) : forall acc,
  fold_left (fun count p => if PowerPellet.is_collected p then count + 1 else count) ps acc
  = acc + power_count ps.
Proof.
  unfold power_count.
  induction ps as [|p ps IH]; intros acc; cbn [fold_left filter].
  - cbn. lia.
  - rewrite IH. destruct (PowerPellet.is_collected p); cbn [List.length]; lia.
Qed.

Lemma count_collected_power_pellets_eq (s : GameState.t) :
  count_collected_power_pellets s = power_count (power_pellets_ s).
Proof. unfold count_collected_power_pellets. rewrite count_fold. lia. Qed.

Lemma power_count_cons (p : PowerPellet.t) (ps : list PowerPellet.t) :
  power_count (p :: ps) = (if PowerPellet.is_collected p then 1 else 0) + power_count ps.
Proof.
  unfold power_count. cbn [filter].
  destruct (PowerPellet.is_collected p); cbn [List.length]; lia.
Qed.

Lemma power_pellet_loop_spec (x y : float) (ps : list PowerPellet.t) :
  forall score any ps' score' any',
    power_pellet_loop x y ps score any = (ps', (score', any')) ->
    List.length ps' = List.length ps /\
    power_count ps <= power_count ps' /\
    score' = score + 50 * (power_count ps' - power_count ps) /\
    any' = any || (power_count ps <? power_count ps') /\
    forall score2 any2,
      power_pellet_loop x y ps' score2 any2 = (ps', (score2, any2)).
Proof.
  induction ps as [|p ps IH]; intros score any ps' score' any' H;
    cbn [power_pellet_loop] in H; unfold MazeConfig.POWER_PELLET_POINTS in H.
  - inversion H; subst. rewrite Z.ltb_irrefl, orb_false_r.
    repeat split; try reflexivity; lia.
  - destruct (negb (PowerPellet.is_collected p) &&
              within_collection_distance x y (PowerPellet.get_x p) (PowerPellet.get_y p)) eqn:E.
    + destruct (power_pellet_loop x y ps (score + 50) true) as [rest' [sc an]] eqn:L.
      inversion H; subst. apply IH in L as (A & B & C & D & I).
      apply andb_prop in E as [Ea _]. apply negb_true_iff in Ea.
      rewrite !power_count_cons, Ea.
      change (PowerPellet.is_collected (PowerPellet.collect p)) with true. cbv iota.
      cbn [List.length]. repeat split; try lia.
      * rewrite D. cbn [orb]. symmetry. apply orb_true_iff. right.
        apply Z.ltb_lt. lia.
      * intros score2 any2. cbn [power_pellet_loop].
        change (PowerPellet.is_collected (PowerPellet.collect p)) with true.
        cbn [negb andb]. rewrite I. reflexivity.
    + destruct (power_pellet_loop x y ps score any) as [rest' [sc an]] eqn:L.
      inversion H; subst. apply IH in L as (A & B & C & D & I).
      rewrite !power_count_cons. cbn [List.length].
      repeat split; try lia.
      * rewrite D. f_equal.
        destruct (power_count ps <? power_count rest') eqn:E1;
          [apply Z.ltb_lt in E1; symmetry; apply Z.ltb_lt|
           apply Z.ltb_ge in E1; symmetry; apply Z.ltb_ge]; lia.
      * intros score2 any2. cbn [power_pellet_loop]. rewrite E, I. reflexivity.
Qed.

(** X4. One [check_power_pellet_collection] adds exactly 50 points per
    power pellet it newly collects, never uncollects one, and returns true
    exactly when the collected count went up; checked again at the same
    position it changes nothing and returns false. *)
Theorem power_pellet_scored_once (pacman_x pacman_y : float) (s : GameState.t) :
  score_ (fst (check_power_pellet_collection pacman_x pacman_y s))
  = score_ s + 50 * (count_collected_power_pellets
                       (fst (check_power_pellet_collection pacman_x pacman_y s))
                     - count_collected_power_pellets s) /\
  count_collected_power_pellets s
  <= count_collected_power_pellets (fst (check_power_pellet_collection pacman_x pacman_y s))
  <= Z.of_nat (List.length (power_pellets_ s)) /\
  snd (check_power_pellet_collection pacman_x pacman_y s)
  = (count_collected_power_pellets s
     <? count_collected_power_pellets
          (fst (check_power_pellet_collection pacman_x pacman_y s))) /\
  check_power_pellet_collection pacman_x pacman_y
    (fst (check_power_pellet_collection pacman_x pacman_y s))
  = (fst (check_power_pellet_collection pacman_x pacman_y s), false).
Proof.
  rewrite !count_collected_power_pellets_eq.
  unfold check_power_pellet_collection.
  destruct (power_pellet_loop pacman_x pacman_y (power_pellets_ s) (score_ s) false)
    as [ps' [score' any']] eqn:L.
  apply power_pellet_loop_spec in L as (A & B & C & D & I).
  cbn [fst snd score_ power_pellets_ tokens_collected_ total_tokens_ tokens_
         token_just_collected_].
  rewrite I. repeat split; try assumption.
  rewrite <- A. unfold power_count.
  apply inj_le, filter_length_le.
Qed.

End WinAndPowerPellets.

(** ** Ghost steering and the ghost state machine *)

Section GhostBehaviour.
Import MazeConfig Ghost GhostAI GhostSpec.
Local Open Scope Z_scope.

Lemma find_none_existsb {A : Type} (f : A -> bool) (l : list A) :
  find f l = None -> existsb f l = false.
Proof.
  induction l as [|a l IH]; cbn; [reflexivity|].
  destruct (f a); [discriminate|exact IH].
Qed.

Lemma find_some_existsb {A : Type} (f : A -> bool) (l : list A) (x : A) :
  find f l = Some x -> f x = true /\ In x l /\ existsb f l = true.
Proof.
  intros H. destruct (find_some _ _ H) as [Hin Hf].
  repeat split; try assumption. apply existsb_exists. exists x. split; assumption.
Qed.

Lemma insert_by_priority_In (a x : direction_t * float) (l : list (direction_t * float)) :
  In x (insert_by_priority a l) <-> x = a \/ In x l.
Proof.
  induction l as [|b l IH]; cbn [insert_by_priority].
  - cbn. intuition.
  - destruct (snd b <? snd a)%float; cbn [In]; [intuition|].
    rewrite IH. intuition.
Qed.

Lemma sort_fold_In (x : direction_t * float) (l : list (direction_t * float)) :
  forall acc,
    In x (fold_left (fun sorted a => insert_by_priority a sorted) l acc)
    <-> In x l \/ In x acc.
Proof.
  induction l as [|a l IH]; intros acc; cbn [fold_left].
  - cbn. intuition.
  - rewrite IH, insert_by_priority_In. cbn [In]. intuition.
Qed.

Lemma sort_by_priority_In (x : direction_t * float) (l : list (direction_t * float)) :
  In x (sort_by_priority l) <-> In x l.
Proof. unfold sort_by_priority. rewrite sort_fold_In. cbn. intuition. Qed.

Lemma candidate_directions_In (dx dy : float) (d : direction_t) :
  In d (map fst (candidate_directions dx dy)) <-> towards dx dy d = true.
Proof.
  unfold candidate_directions, towards.
  destruct (0 <? dx)%float, (dx <? 0)%float, (0 <? dy)%float, (dy <? 0)%float;
    cbn; destruct d; intuition (try discriminate; try congruence).
Qed.

Lemma sorted_candidates_In (dx dy : float) (d : direction_t) :
  In d (map fst (sort_by_priority (candidate_directions dx dy)))
  <-> towards dx dy d = true.
Proof.
  rewrite <- candidate_directions_In, !in_map_iff.
  split; intros (x & Hx & Hin); exists x; (split; [exact Hx|]);
    apply sort_by_priority_In; exact Hin.
Qed.

Lemma existsb_all_dirs (f : direction_t -> bool) :
  f DIR_NONE = false ->
  forall d, f d = true -> existsb f all_dirs = true.
Proof.
  intros H0 d Hd. apply existsb_exists. exists d. split; [|exact Hd].
  unfold all_dirs. destruct d; cbn; try tauto. congruence.
Qed.

Lemma can_move_none (maze : Maze.t) (g : Ghost.t) :
  can_move_in_direction maze g DIR_NONE = false.
Proof. reflexivity. Qed.

Lemma desired_after_set (d : direction_t) (g : Ghost.t) :
  get_desired_direction (set_desired_direction d g) = d.
Proof. reflexivity. Qed.

Lemma set_desired_same (g : Ghost.t) :
  set_desired_direction (get_desired_direction g) g = g.
Proof. destruct g as [[x y dir ddir pal sp] ? ? ? ? ? ? ? ? ? ? ? ? ? ? ? ? ? ? ? ? ?]. reflexivity. Qed.

Lemma set_desired_twice (d d' : direction_t) (g : Ghost.t) :
  set_desired_direction d (set_desired_direction d' g) = set_desired_direction d g.
Proof. destruct g as [[x y dir ddir pal sp] ? ? ? ? ? ? ? ? ? ? ? ? ? ? ? ? ? ? ? ? ?]. reflexivity. Qed.

Lemma can_move_after_set_desired (maze : Maze.t) (d d' : direction_t) (g : Ghost.t) :
  can_move_in_direction maze (set_desired_direction d g) d'
  = can_move_in_direction maze g d'.
Proof. reflexivity. Qed.

Lemma first_forward_spec (maze : Maze.t) (g : Ghost.t) (dx dy : float) :
  match first_forward maze g (get_opposite_direction (get_direction g))
          (map fst (sort_by_priority (candidate_directions dx dy))) with
  | Some d => steers_toward maze g dx dy d = true
  | None => existsb (steers_toward maze g dx dy) all_dirs = false
  end.
Proof.
  unfold first_forward.
  destruct (find _ _) as [d|] eqn:F.
  - apply find_some in F as [Hin Hd]. apply sorted_candidates_In in Hin.
    unfold steers_toward. rewrite Hin. exact Hd.
  - destruct (existsb (steers_toward maze g dx dy) all_dirs) eqn:E; [|reflexivity].
    apply existsb_exists in E as (d & _ & Hd). unfold steers_toward in Hd.
    apply andb_prop in Hd as [Hd Hc]. apply andb_prop in Hd as [Ht Hn].
    apply sorted_candidates_In in Ht.
    pose proof (find_none _ _ F _ Ht) as Hf. cbv beta in Hf.
    rewrite Hn, Hc in Hf. discriminate.
Qed.

Lemma first_open_spec (maze : Maze.t) (g : Ghost.t) (dx dy : float) :
  match first_open maze g (map fst (sort_by_priority (candidate_directions dx dy))) with
  | Some d => open_toward maze g dx dy d = true
  | None => existsb (open_toward maze g dx dy) all_dirs = false
  end.
Proof.
  unfold first_open.
  destruct (find _ _) as [d|] eqn:F.
  - apply find_some in F as [Hin Hd]. apply sorted_candidates_In in Hin.
    unfold open_toward. rewrite Hin. exact Hd.
  - destruct (existsb (open_toward maze g dx dy) all_dirs) eqn:E; [|reflexivity].
    apply existsb_exists in E as (d & _ & Hd). unfold open_toward in Hd.
    apply andb_prop in Hd as [Ht Hc].
    apply sorted_candidates_In in Ht.
    pose proof (find_none _ _ F _ Ht) as Hf. cbv beta in Hf.
    rewrite Hc in Hf. discriminate.
Qed.

Lemma first_open_all_spec (maze : Maze.t) (g : Ghost.t) :
  match first_open maze g all_dirs with
  | Some d => can_move_in_direction maze g d = true
  | None => existsb (can_move_in_direction maze g) all_dirs = false
  end.
Proof.
  unfold first_open. destruct (find _ _) as [d|] eqn:F.
  - apply find_some in F as [_ Hd]. exact Hd.
  - apply find_none_existsb. exact F.
Qed.

Lemma steers_toward_open (maze : Maze.t) (g : Ghost.t) (dx dy : float) (d : direction_t) :
  steers_toward maze g dx dy d = true -> open_toward maze g dx dy d = true.
Proof.
  unfold steers_toward, open_toward. intros H.
  apply andb_prop in H as [H Hc]. apply andb_prop in H as [Ht _].
  rewrite Ht, Hc. reflexivity.
Qed.

Lemma open_toward_open (maze : Maze.t) (g : Ghost.t) (dx dy : float) (d : direction_t) :
  open_toward maze g dx dy d = true -> can_move_in_direction maze g d = true.
Proof. unfold open_toward. intros H. apply andb_prop in H as [_ Hc]. exact Hc. Qed.

Lemma steers_toward_none (maze : Maze.t) (g : Ghost.t) (dx dy : float) :
  steers_toward maze g dx dy DIR_NONE = false.
Proof. reflexivity. Qed.

Lemma open_toward_none (maze : Maze.t) (g : Ghost.t) (dx dy : float) :
  open_toward maze g dx dy DIR_NONE = false.
Proof. reflexivity. Qed.

Lemma chase_outcome_intro (maze : Maze.t) (g : Ghost.t) (dx dy : float) :
  chase_outcome maze g
    (match first_forward maze g (get_opposite_direction (get_direction g))
             (map fst (sort_by_priority (candidate_directions dx dy))) with
     | Some dir => set_desired_direction dir g
     | None =>
         match first_open maze g (map fst (sort_by_priority (candidate_directions dx dy))) with
         | Some dir => set_desired_direction dir g
         | None =>
             match first_open maze g all_dirs with
             | Some dir => set_desired_direction dir g
             | None => g
             end
         end
     end) dx dy.
Proof.
  unfold chase_outcome.
  pose proof (first_forward_spec maze g dx dy) as F.
  pose proof (first_open_spec maze g dx dy) as O.
  pose proof (first_open_all_spec maze g) as A.
  destruct (first_forward _ _ _ _) as [d|].
  - rewrite desired_after_set. split; [reflexivity|].
    rewrite (existsb_all_dirs _ (steers_toward_none maze g dx dy) d F). exact F.
  - rewrite F. destruct (first_open maze g (map fst _)) as [d|].
    + rewrite desired_after_set. split; [reflexivity|].
      rewrite (existsb_all_dirs _ (open_toward_none maze g dx dy) d O). exact O.
    + rewrite O. destruct (first_open maze g all_dirs) as [d|].
      * rewrite desired_after_set. split; [reflexivity|].
        rewrite (existsb_all_dirs _ (can_move_none maze g) d A). exact A.
      * rewrite A. split; [symmetry; apply set_desired_same|reflexivity].
Qed.

Lemma choose_direction_towards_target_outcome (maze : Maze.t) (g : Ghost.t) :
  chase_outcome maze g (choose_direction_towards_target maze g)
    (fst (get_non_portal_distance g (target_x_ g) (target_y_ g)))
    (snd (get_non_portal_distance g (target_x_ g) (target_y_ g))).
Proof.
  unfold choose_direction_towards_target.
  destruct (get_non_portal_distance g (target_x_ g) (target_y_ g)) as [dx dy].
  cbn [fst snd]. apply chase_outcome_intro.
Qed.

(** X5. [choose_direction_towards_target] changes nothing but the desired
    direction.  With (dx, dy) the non-portal offset of the target, it
    asks for an open direction toward the target that is not a reversal
    if one exists, else for an open direction toward the target, else for
    any open direction; with all four neighbours closed the ghost is left
    as it is. *)
Theorem chase_asks_for_open_direction (maze : Maze.t) (g : Ghost.t) :
  let dx := fst (get_non_portal_distance g (target_x_ g) (target_y_ g)) in
  let dy := snd (get_non_portal_distance g (target_x_ g) (target_y_ g)) in
  let g' := choose_direction_towards_target maze g in
  g' = set_desired_direction (get_desired_direction g') g /\
  if existsb (steers_toward maze g dx dy) all_dirs
  then steers_toward maze g dx dy (get_desired_direction g') = true
  else if existsb (open_toward maze g dx dy) all_dirs
  then open_toward maze g dx dy (get_desired_direction g') = true
  else if existsb (can_move_in_direction maze g) all_dirs
  then can_move_in_direction maze g (get_desired_direction g') = true
  else g' = g.
Proof.
  cbv zeta. unfold choose_direction_towards_target.
  destruct (get_non_portal_distance g (target_x_ g) (target_y_ g)) as [dx dy].
  cbn [fst snd]. exact (chase_outcome_intro maze g dx dy).
Qed.

Lemma chase_outcome_retarget (maze : Maze.t) (g g1' : Ghost.t) (ax ay dx dy : float) :
  chase_outcome maze (set_target ax ay g) g1' dx dy ->
  chase_outcome maze g (set_target (target_x_ g) (target_y_ g) g1') dx dy.
Proof.
  unfold chase_outcome. intros [Heq Hrule].
  change (steers_toward maze (set_target ax ay g) dx dy)
    with (steers_toward maze g dx dy) in Hrule.
  change (open_toward maze (set_target ax ay g) dx dy)
    with (open_toward maze g dx dy) in Hrule.
  change (can_move_in_direction maze (set_target ax ay g))
    with (can_move_in_direction maze g) in Hrule.
  change (get_desired_direction (set_target (target_x_ g) (target_y_ g) g1'))
    with (get_desired_direction g1').
  split.
  - rewrite Heq at 1.
    destruct g as [[x y dir ddir pal sp] ? ? ? ? ? ? ? ? ? ? ? ? ? ? ? ? ? ? ? ? ?].
    reflexivity.
  - destruct (existsb (steers_toward maze g dx dy) all_dirs); [exact Hrule|].
    destruct (existsb (open_toward maze g dx dy) all_dirs); [exact Hrule|].
    destruct (existsb (can_move_in_direction maze g) all_dirs); [exact Hrule|].
    rewrite Hrule.
    destruct g as [[x y dir ddir pal sp] ? ? ? ? ? ? ? ? ? ? ? ? ? ? ? ? ? ? ? ? ?].
    reflexivity.
Qed.

Lemma choose_direction_ambush_outcome
      (maze : Maze.t) (pacman_dir : direction_t) (g : Ghost.t) :
  chase_outcome maze g (choose_direction_ambush maze pacman_dir g)
    (fst (get_non_portal_distance g
            (fst (ambush_point pacman_dir (target_x_ g) (target_y_ g)))
            (snd (ambush_point pacman_dir (target_x_ g) (target_y_ g)))))
    (snd (get_non_portal_distance g
            (fst (ambush_point pacman_dir (target_x_ g) (target_y_ g)))
            (snd (ambush_point pacman_dir (target_x_ g) (target_y_ g))))).
Proof.
  unfold choose_direction_ambush. apply chase_outcome_retarget with
    (ax := fst (ambush_point pacman_dir (target_x_ g) (target_y_ g)))
    (ay := snd (ambush_point pacman_dir (target_x_ g) (target_y_ g))).
  pose proof (choose_direction_towards_target_outcome maze
                (set_target (fst (ambush_point pacman_dir (target_x_ g) (target_y_ g)))
                            (snd (ambush_point pacman_dir (target_x_ g) (target_y_ g))) g))
    as C.
  destruct pacman_dir; exact C.
Qed.

(** X6. [choose_direction_ambush] steers by the same rule as the chase,
    toward the point 200 pixels ahead of the player in the player's
    direction, and changes nothing but the desired direction: the target
    it overwrites for the search is restored. *)
Theorem ambush_steers_ahead_and_restores_target
        (maze : Maze.t) (pacman_dir : direction_t) (g : Ghost.t) :
  let ahead := ambush_point pacman_dir (target_x_ g) (target_y_ g) in
  let dx := fst (get_non_portal_distance g (fst ahead) (snd ahead)) in
  let dy := snd (get_non_portal_distance g (fst ahead) (snd ahead)) in
  let g' := choose_direction_ambush maze pacman_dir g in
  g' = set_desired_direction (get_desired_direction g') g /\
  target_x_ g' = target_x_ g /\ target_y_ g' = target_y_ g /\
  if existsb (steers_toward maze g dx dy) all_dirs
  then steers_toward maze g dx dy (get_desired_direction g') = true
  else if existsb (open_toward maze g dx dy) all_dirs
  then open_toward maze g dx dy (get_desired_direction g') = true
  else if existsb (can_move_in_direction maze g) all_dirs
  then can_move_in_direction maze g (get_desired_direction g') = true
  else g' = g.
Proof.
  cbv zeta. destruct (choose_direction_ambush_outcome maze pacman_dir g) as [Heq Hrule].
  split; [exact Heq|]. split; [rewrite Heq; reflexivity|].
  split; [rewrite Heq; reflexivity|exact Hrule].
Qed.

Lemma flee_outcome_intro (maze : Maze.t) (g : Ghost.t) (dx dy : float) :
  flee_outcome maze g
    (match first_forward maze g (get_opposite_direction (get_direction g))
             (map fst (sort_by_priority (candidate_directions dx dy))) with
     | Some dir => set_desired_direction dir g
     | None =>
         match first_open maze g (map fst (sort_by_priority (candidate_directions dx dy))) with
         | Some dir => set_desired_direction dir g
         | None => g
         end
     end) dx dy.
Proof.
  unfold flee_outcome.
  pose proof (first_forward_spec maze g dx dy) as F.
  pose proof (first_open_spec maze g dx dy) as O.
  destruct (first_forward _ _ _ _) as [d|].
  - rewrite desired_after_set. split; [reflexivity|].
    rewrite (existsb_all_dirs _ (steers_toward_none maze g dx dy) d F). exact F.
  - rewrite F. destruct (first_open maze g (map fst _)) as [d|].
    + rewrite desired_after_set. split; [reflexivity|].
      rewrite (existsb_all_dirs _ (open_toward_none maze g dx dy) d O). exact O.
    + rewrite O. split; [symmetry; apply set_desired_same|reflexivity].
Qed.

Lemma escape_step_invariant (maze : Maze.t) (g : Ghost.t) (row : Z)
      (P : float * float * float -> Prop) (cols : list Z) :
  (forall col distance,
      In col cols -> Maze.is_empty maze row col = true ->
      P (distance, Maze.get_cell_center_x col, Maze.get_cell_center_y row)) ->
  forall best, P best -> P (fold_left (escape_step maze g row) cols best).
Proof.
  induction cols as [|col cols IH]; intros Hnew best Hbest; [exact Hbest|].
  cbn [fold_left]. apply IH.
  - intros c distance Hc. apply Hnew. right. exact Hc.
  - unfold escape_step. destruct (Maze.is_empty maze row col) eqn:E; [|exact Hbest].
    destruct best as [[max_distance bx] by_].
    destruct (max_distance <? _)%float; [|exact Hbest].
    apply Hnew; [left; reflexivity|exact E].
Qed.

Lemma escape_search_invariant (maze : Maze.t) (g : Ghost.t)
      (P : float * float * float -> Prop) (rows cols : list Z) :
  (forall row col distance,
      In row rows -> In col cols -> Maze.is_empty maze row col = true ->
      P (distance, Maze.get_cell_center_x col, Maze.get_cell_center_y row)) ->
  forall best,
    P best ->
    P (fold_left (fun best row => fold_left (escape_step maze g row) cols best)
                 rows best).
Proof.
  induction rows as [|row rows IH]; intros Hnew best Hbest; [exact Hbest|].
  cbn [fold_left]. apply IH.
  - intros r c distance Hr. apply Hnew. right. exact Hr.
  - apply escape_step_invariant; [|exact Hbest].
    intros col distance Hc Ho. apply Hnew; [left; reflexivity|exact Hc|exact Ho].
Qed.

Lemma sample_rows_range (row : Z) : In row sample_rows -> 0 <= row < MAZE_ROWS.
Proof. unfold sample_rows, MAZE_ROWS. cbn [In]. lia. Qed.

Lemma sample_cols_range (col : Z) : In col sample_cols -> 0 <= col < MAZE_COLS.
Proof. unfold sample_cols, MAZE_COLS. cbn [In]. lia. Qed.

Lemma sample_rows_even (row : Z) : In row sample_rows -> Z.even row = true.
Proof. unfold sample_rows. cbn [In]. intuition (subst; reflexivity). Qed.

Lemma sample_cols_even (col : Z) : In col sample_cols -> Z.even col = true.
Proof. unfold sample_cols. cbn [In]. intuition (subst; reflexivity). Qed.

Lemma find_escape_target_frame (maze : Maze.t) (g : Ghost.t) :
  find_escape_target maze g
  = set_escape_target (escape_target_x_ (find_escape_target maze g))
                      (escape_target_y_ (find_escape_target maze g)) g.
Proof.
  unfold find_escape_target.
  destruct (fold_left _ sample_rows _) as [[max_distance best_x] best_y].
  reflexivity.
Qed.

(** X7. [find_escape_target] writes the escape target and nothing else,
    and the target is either the ghost's own position or the center of
    an open cell of the maze with even row and column. *)
Theorem escape_target_is_open_cell_or_self (maze : Maze.t) (g : Ghost.t) :
  find_escape_target maze g
  = set_escape_target (escape_target_x_ (find_escape_target maze g))
                      (escape_target_y_ (find_escape_target maze g)) g /\
  ((escape_target_x_ (find_escape_target maze g) = get_x g /\
    escape_target_y_ (find_escape_target maze g) = get_y g) \/
   exists row col,
     0 <= row < MAZE_ROWS /\ 0 <= col < MAZE_COLS /\
     Z.even row = true /\ Z.even col = true /\
     Maze.is_empty maze row col = true /\
     escape_target_x_ (find_escape_target maze g) = Maze.get_cell_center_x col /\
     escape_target_y_ (find_escape_target maze g) = Maze.get_cell_center_y row).
Proof.
  unfold find_escape_target.
  pose proof (escape_search_invariant maze g
    (fun best =>
       (snd (fst best) = get_x g /\ snd best = get_y g) \/
       exists row col,
         0 <= row < MAZE_ROWS /\ 0 <= col < MAZE_COLS /\
         Z.even row = true /\ Z.even col = true /\
         Maze.is_empty maze row col = true /\
         snd (fst best) = Maze.get_cell_center_x col /\
         snd best = Maze.get_cell_center_y row) sample_rows sample_cols) as Inv.
  cbv beta in Inv.
  specialize (Inv
    (fun row col distance Hr Hc Ho =>
       or_intror (ex_intro _ row (ex_intro _ col
         (conj (sample_rows_range row Hr)
            (conj (sample_cols_range col Hc)
               (conj (sample_rows_even row Hr)
                  (conj (sample_cols_even col Hc)
                     (conj Ho (conj eq_refl eq_refl)))))))))
    (0.0%float, get_x g, get_y g)
    (or_introl (conj eq_refl eq_refl))).
  destruct (fold_left _ sample_rows _) as [[max_distance best_x] best_y].
  cbn [fst snd] in Inv. cbn [escape_target_x_ escape_target_y_ set_escape_target].
  split; [reflexivity|exact Inv].
Qed.

(** X8. [choose_direction_away_from_target] first fixes the escape
    target, then asks for an open direction toward it that is not a
    reversal if one exists, else for an open direction toward it; unlike
    the chase it has no last resort, so with no open direction toward the
    escape target the desired direction is left as it was. *)
Theorem flight_steers_to_escape_target (maze : Maze.t) (g : Ghost.t) :
  let g1 := find_escape_target maze g in
  let dx := (escape_target_x_ g1 - get_x g)%float in
  let dy := (escape_target_y_ g1 - get_y g)%float in
  let g' := choose_direction_away_from_target maze g in
  g' = set_desired_direction (get_desired_direction g') g1 /\
  if existsb (steers_toward maze g1 dx dy) all_dirs
  then steers_toward maze g1 dx dy (get_desired_direction g') = true
  else if existsb (open_toward maze g1 dx dy) all_dirs
  then open_toward maze g1 dx dy (get_desired_direction g') = true
  else g' = g1.
Proof.
  cbv zeta. change (flee_outcome maze (find_escape_target maze g)
    (choose_direction_away_from_target maze g)
    (escape_target_x_ (find_escape_target maze g) - get_x g)%float
    (escape_target_y_ (find_escape_target maze g) - get_y g)%float).
  unfold choose_direction_away_from_target. cbv zeta.
  replace (get_x g) with (get_x (find_escape_target maze g)).
  2:{ rewrite (find_escape_target_frame maze g). reflexivity. }
  replace (get_y g) with (get_y (find_escape_target maze g)).
  2:{ rewrite (find_escape_target_frame maze g). reflexivity. }
  apply flee_outcome_intro.
Qed.

Lemma filter_nil_existsb {A : Type} (f : A -> bool) (l : list A) :
  filter f l = [] -> existsb f l = false.
Proof.
  induction l as [|a l IH]; cbn; [reflexivity|].
  destruct (f a); [discriminate|exact IH].
Qed.

Lemma filter_In_existsb {A : Type} (f : A -> bool) (l : list A) (x : A) :
  In x (filter f l) -> f x = true /\ existsb f l = true.
Proof.
  intros H. apply filter_In in H as [Hin Hf]. split; [exact Hf|].
  apply existsb_exists. exists x. split; assumption.
Qed.

Lemma drawn_direction_valid (rand : Z) (l : list direction_t) :
  l <> [] ->
  In (nth (Z.to_nat (rand mod Z.of_nat (List.length l))) l DIR_NONE) l.
Proof.
  intros Hl. apply nth_In. destruct l as [|d l]; [congruence|].
  pose proof (Z.mod_pos_bound rand (Z.of_nat (List.length (d :: l)))) as B.
  cbn [List.length] in *. lia.
Qed.

Lemma choose_direction_random_patrol_frame (rand : Z) (maze : Maze.t) (g : Ghost.t) :
  choose_direction_random_patrol rand maze g
  = set_desired_direction (random_target_dir_ (choose_direction_random_patrol rand maze g))
      (set_random (random_target_dir_ (choose_direction_random_patrol rand maze g))
                  (random_dir_timer_ (choose_direction_random_patrol rand maze g)) g).
Proof.
  unfold choose_direction_random_patrol. cbv zeta.
  destruct (_ || _ || _);
    [destruct (filter _ all_dirs); [destruct (filter _ all_dirs)|]|];
    destruct g as [[x y dir ddir pal sp] ? ? ? ? ? ? ? ? ? ? ? ? ? ? ? ? ? ? ? ? ?];
    reflexivity.
Qed.

(** X9. [choose_direction_random_patrol] moves nothing: it writes the
    patrol direction and its timer and asks for the patrol direction.  A
    new direction is drawn when the timer reaches 2 s, the ghost stands
    still or its way is closed; whatever [rand()] returns, the drawn
    direction is open and not a reversal if such a direction exists, else
    open if any direction is; otherwise the patrol direction is kept. *)
Theorem patrol_draws_open_direction (rand : Z) (maze : Maze.t) (g : Ghost.t) :
  let g' := choose_direction_random_patrol rand maze g in
  let timer := (random_dir_timer_ g + 1.0 / 60.0)%float in
  g' = set_desired_direction (random_target_dir_ g')
         (set_random (random_target_dir_ g') (random_dir_timer_ g') g) /\
  if (RANDOM_DIR_CHANGE_TIME <=? timer)%float
     || direction_eqb (get_direction g) DIR_NONE
     || negb (can_move_in_direction maze g (get_direction g))
  then random_dir_timer_ g' = 0.0%float /\
       (if existsb (forward_open maze g) all_dirs
        then forward_open maze g (random_target_dir_ g') = true
        else if existsb (can_move_in_direction maze g) all_dirs
        then can_move_in_direction maze g (random_target_dir_ g') = true
        else random_target_dir_ g' = random_target_dir_ g)
  else random_dir_timer_ g' = timer /\
       random_target_dir_ g' = random_target_dir_ g.
Proof.
  cbv zeta. unfold choose_direction_random_patrol. cbv zeta.
  fold (forward_open maze g).
  destruct ((RANDOM_DIR_CHANGE_TIME <=? random_dir_timer_ g + 1.0 / 60.0)%float
            || direction_eqb (get_direction g) DIR_NONE
            || negb (can_move_in_direction maze g (get_direction g))).
  - destruct (filter (forward_open maze g) all_dirs) as [|d l] eqn:EF.
    + rewrite (filter_nil_existsb _ _ EF).
      destruct (filter (can_move_in_direction maze g) all_dirs) as [|d l] eqn:EV.
      * rewrite (filter_nil_existsb _ _ EV).
        split; [|split; reflexivity].
        destruct g as [[x y dir ddir pal sp] ? ? ? ? ? ? ? ? ? ? ? ? ? ? ? ? ? ? ? ? ?].
        reflexivity.
      * assert (Hin : In (nth (Z.to_nat (rand mod Z.of_nat (List.length (d :: l))))
                              (d :: l) DIR_NONE)
                         (filter (can_move_in_direction maze g) all_dirs)).
        { rewrite EV. apply drawn_direction_valid. discriminate. }
        apply filter_In_existsb in Hin as [Hf He]. rewrite He.
        split; [|split; [reflexivity|exact Hf]].
        destruct g as [[x y dir ddir pal sp] ? ? ? ? ? ? ? ? ? ? ? ? ? ? ? ? ? ? ? ? ?].
        reflexivity.
    + assert (Hin : In (nth (Z.to_nat (rand mod Z.of_nat (List.length (d :: l))))
                            (d :: l) DIR_NONE)
                       (filter (forward_open maze g) all_dirs)).
      { rewrite EF. apply drawn_direction_valid. discriminate. }
      apply filter_In_existsb in Hin as [Hf He]. rewrite He.
      split; [|split; [reflexivity|exact Hf]].
      destruct g as [[x y dir ddir pal sp] ? ? ? ? ? ? ? ? ? ? ? ? ? ? ? ? ? ? ? ? ?].
      reflexivity.
  - split; [|split; reflexivity].
    destruct g as [[x y dir ddir pal sp] ? ? ? ? ? ? ? ? ? ? ? ? ? ? ? ? ? ? ? ? ?].
    reflexivity.
Qed.

Lemma far_edge_cells :
  floor_col (Maze.get_cell_center_x (MAZE_COLS - 1)) = 24 /\
  floor_col (Maze.get_cell_center_x 0) = 0.
Proof. vm_compute. split; reflexivity. Qed.

Lemma ghost_wrap_cases (maze : Maze.t) (g : Ghost.t) :
  (handle_tunnel_wrapping maze g = g /\ 0 <= floor_col (get_x g) < MAZE_COLS) \/
  handle_tunnel_wrapping maze g
  = set_position (Maze.get_cell_center_x (MAZE_COLS - 1)) (get_y g) g \/
  handle_tunnel_wrapping maze g
  = set_position (Maze.get_cell_center_x 0) (get_y g) g.
Proof.
  unfold handle_tunnel_wrapping. cbv zeta. fold (floor_col (get_x g)).
  destruct (floor_col (get_x g) <? 0) eqn:E1.
  - destruct (_ && _ && Maze.is_empty maze _ _); auto.
  - destruct (floor_col (get_x g) >=? MAZE_COLS) eqn:E2.
    + destruct (_ && _ && Maze.is_empty maze _ _); auto.
    + left. split; [reflexivity|]. apply Z.ltb_ge in E1.
      rewrite Z.geb_leb in E2. apply Z.leb_gt in E2. lia.
Qed.

Lemma ghost_wrap_inside (maze : Maze.t) (g : Ghost.t) :
  0 <= floor_col (get_x g) < MAZE_COLS -> handle_tunnel_wrapping maze g = g.
Proof.
  intros H. unfold handle_tunnel_wrapping. cbv zeta. fold (floor_col (get_x g)).
  destruct (floor_col (get_x g) <? 0) eqn:E1; [apply Z.ltb_lt in E1; lia|].
  destruct (floor_col (get_x g) >=? MAZE_COLS) eqn:E2; [|reflexivity].
  rewrite Z.geb_leb in E2. apply Z.leb_le in E2. lia.
Qed.

Lemma pacman_wrap_cases (maze : Maze.t) (p : Pacman.t) :
  (Pacman.handle_tunnel_wrapping maze p = p /\ 0 <= floor_col (Pacman.get_x p) < MAZE_COLS) \/
  Pacman.handle_tunnel_wrapping maze p
  = Pacman.set_base (Entity.set_position (Maze.get_cell_center_x (MAZE_COLS - 1))
                                         (Pacman.get_y p) (Pacman.base p)) p \/
  Pacman.handle_tunnel_wrapping maze p
  = Pacman.set_base (Entity.set_position (Maze.get_cell_center_x 0)
                                         (Pacman.get_y p) (Pacman.base p)) p.
Proof.
  unfold Pacman.handle_tunnel_wrapping. cbv zeta. fold (floor_col (Pacman.get_x p)).
  destruct (floor_col (Pacman.get_x p) <? 0) eqn:E1.
  - destruct (_ && _ && Maze.is_empty maze _ _); auto.
  - destruct (floor_col (Pacman.get_x p) >=? MAZE_COLS) eqn:E2.
    + destruct (_ && _ && Maze.is_empty maze _ _); auto.
    + left. split; [reflexivity|]. apply Z.ltb_ge in E1.
      rewrite Z.geb_leb in E2. apply Z.leb_gt in E2. lia.
Qed.

Lemma pacman_wrap_inside (maze : Maze.t) (p : Pacman.t) :
  0 <= floor_col (Pacman.get_x p) < MAZE_COLS -> Pacman.handle_tunnel_wrapping maze p = p.
Proof.
  intros H. unfold Pacman.handle_tunnel_wrapping. cbv zeta.
  fold (floor_col (Pacman.get_x p)).
  destruct (floor_col (Pacman.get_x p) <? 0) eqn:E1; [apply Z.ltb_lt in E1; lia|].
  destruct (floor_col (Pacman.get_x p) >=? MAZE_COLS) eqn:E2; [|reflexivity].
  rewrite Z.geb_leb in E2. apply Z.leb_le in E2. lia.
Qed.

(** X10. After [handle_tunnel_wrapping], of the ghost and of the player
    alike, the entity's column is inside the maze (0 .. 24); only the x
    coordinate may have changed, and wrapping again changes nothing. *)
Theorem tunnel_wrapping_lands_inside (maze : Maze.t) :
  (forall g : Ghost.t,
      0 <= floor_col (get_x (handle_tunnel_wrapping maze g)) < MAZE_COLS /\
      handle_tunnel_wrapping maze g
      = set_position (get_x (handle_tunnel_wrapping maze g)) (get_y g) g /\
      handle_tunnel_wrapping maze (handle_tunnel_wrapping maze g)
      = handle_tunnel_wrapping maze g) /\
  (forall p : Pacman.t,
      0 <= floor_col (Pacman.get_x (Pacman.handle_tunnel_wrapping maze p)) < MAZE_COLS /\
      Pacman.handle_tunnel_wrapping maze p
      = Pacman.set_base
          (Entity.set_position (Pacman.get_x (Pacman.handle_tunnel_wrapping maze p))
                               (Pacman.get_y p) (Pacman.base p)) p /\
      Pacman.handle_tunnel_wrapping maze (Pacman.handle_tunnel_wrapping maze p)
      = Pacman.handle_tunnel_wrapping maze p).
Proof.
  destruct far_edge_cells as [F24 F0].
  split.
  - intros g.
    assert (In1 : 0 <= floor_col (get_x (handle_tunnel_wrapping maze g)) < MAZE_COLS).
    { destruct (ghost_wrap_cases maze g) as [[E H]|[E|E]]; rewrite E.
      - exact H.
      - change (get_x (set_position ?x ?y g)) with x. rewrite F24.
        unfold MAZE_COLS. lia.
      - change (get_x (set_position ?x ?y g)) with x. rewrite F0.
        unfold MAZE_COLS. lia. }
    split; [exact In1|]. split; [|apply ghost_wrap_inside; exact In1].
    destruct (ghost_wrap_cases maze g) as [[E H]|[E|E]]; rewrite E;
      destruct g as [[x y dir ddir pal sp] ? ? ? ? ? ? ? ? ? ? ? ? ? ? ? ? ? ? ? ? ?];
      reflexivity.
  - intros p.
    assert (In1 : 0 <= floor_col (Pacman.get_x (Pacman.handle_tunnel_wrapping maze p))
                  < MAZE_COLS).
    { destruct (pacman_wrap_cases maze p) as [[E H]|[E|E]]; rewrite E.
      - exact H.
      - cbn [Pacman.get_x Pacman.set_base Pacman.base Entity.get_x Entity.set_position
             Entity.x_]. rewrite F24. unfold MAZE_COLS. lia.
      - cbn [Pacman.get_x Pacman.set_base Pacman.base Entity.get_x Entity.set_position
             Entity.x_]. rewrite F0. unfold MAZE_COLS. lia. }
    split; [exact In1|]. split; [|apply pacman_wrap_inside; exact In1].
    destruct (pacman_wrap_cases maze p) as [[E H]|[E|E]]; rewrite E;
      destruct p as [[x y dir ddir pal sp] ? ? ? ?]; reflexivity.
Qed.

(** *** What a ghost update leaves alone *)

Lemma entity_update_keeps (current_speed : float) (maze : Maze.t) (delta_time : float)
      (e : Entity.t) :
  Entity.palette_ (Entity.update current_speed maze delta_time e) = Entity.palette_ e /\
  Entity.speed_multiplier_ (Entity.update current_speed maze delta_time e)
  = Entity.speed_multiplier_ e.
Proof.
  unfold Entity.update, Entity.move_in_direction, Entity.attempt_movement,
    Entity.attempt_direction_change, Entity.snap_to_grid_if_close, Entity.align_to_grid,
    Entity.get_next_position, Entity.get_next_cell.
  destruct e as [x y dir ddir pal sp].
  cbn [Entity.dir_ Entity.desired_dir_ Entity.x_ Entity.y_ Entity.palette_
       Entity.speed_multiplier_ Entity.set_position Entity.set_dir_].
  repeat match goal with
         | |- context [if ?c then _ else _] => destruct c
         | |- context [match ?d with DIR_NONE => _ | _ => _ end] => destruct d
         | |- context [let '(_, _) := ?p in _] => destruct p
         end;
    cbn; split; reflexivity.
Qed.

Lemma controls_set_desired_direction (d : direction_t) (g : Ghost.t) :
  controls (set_desired_direction d g) = controls g.
Proof. reflexivity. Qed.

Lemma controls_set_position (x y : float) (g : Ghost.t) :
  controls (set_position x y g) = controls g.
Proof. reflexivity. Qed.

Lemma controls_towards (maze : Maze.t) (g : Ghost.t) :
  controls (choose_direction_towards_target maze g) = controls g.
Proof.
  destruct (choose_direction_towards_target_outcome maze g) as [E _].
  rewrite E. reflexivity.
Qed.

Lemma controls_ambush (maze : Maze.t) (pacman_dir : direction_t) (g : Ghost.t) :
  controls (choose_direction_ambush maze pacman_dir g) = controls g.
Proof.
  destruct (choose_direction_ambush_outcome maze pacman_dir g) as [E _].
  rewrite E. reflexivity.
Qed.

Lemma controls_patrol (rand : Z) (maze : Maze.t) (g : Ghost.t) :
  controls (choose_direction_random_patrol rand maze g) = controls g.
Proof.
  rewrite (choose_direction_random_patrol_frame rand maze g). reflexivity.
Qed.

Lemma choose_direction_away_from_target_outcome (maze : Maze.t) (g : Ghost.t) :
  flee_outcome maze (find_escape_target maze g)
    (choose_direction_away_from_target maze g)
    (escape_target_x_ (find_escape_target maze g) - get_x (find_escape_target maze g))%float
    (escape_target_y_ (find_escape_target maze g) - get_y (find_escape_target maze g))%float.
Proof. unfold choose_direction_away_from_target. cbv zeta. apply flee_outcome_intro. Qed.

Lemma controls_away (maze : Maze.t) (g : Ghost.t) :
  controls (choose_direction_away_from_target maze g) = controls g.
Proof.
  destruct (choose_direction_away_from_target_outcome maze g) as [E _].
  rewrite E, (find_escape_target_frame maze g). reflexivity.
Qed.

Lemma controls_entity_update (maze : Maze.t) (delta_time : float) (g : Ghost.t) :
  controls (entity_update maze delta_time g) = controls g.
Proof.
  unfold entity_update, controls.
  destruct (entity_update_keeps (get_current_speed g) maze delta_time (base g)) as [P S].
  cbn [set_base base sheet_ anim_state_ anim_timer_ target_x_ target_y_ current_state_
       scared_timer_ scared_duration_actual_ home_x_ home_y_ flash_timer_ cooldown_timer_
       ai_type_ show_score_popup_ popup_timer_ popup_x_ popup_y_].
  rewrite P, S. reflexivity.
Qed.

Lemma controls_force_movement (distance delta_time : float) (g : Ghost.t) :
  controls (force_movement distance delta_time g) = controls g.
Proof.
  unfold force_movement.
  repeat match goal with
         | |- context [if ?c then _ else _] => destruct c
         end; reflexivity.
Qed.

Lemma controls_tunnel (maze : Maze.t) (g : Ghost.t) :
  controls (handle_tunnel_wrapping maze g) = controls g.
Proof.
  destruct (ghost_wrap_cases maze g) as [[E _]|[E|E]]; rewrite E; reflexivity.
Qed.

Lemma controls_update_chasing (rand : Z) (maze : Maze.t) (pacman_dir : direction_t)
      (delta_time : float) (g : Ghost.t) :
  controls (update_chasing rand maze pacman_dir delta_time g) = controls g.
Proof.
  unfold update_chasing. cbv zeta.
  rewrite controls_tunnel, controls_force_movement, controls_entity_update.
  destruct (should_recalculate_direction maze g); [|reflexivity].
  destruct (ai_type_ g); destruct (distance_to_target g <? LOCK_ON_DISTANCE)%float;
    auto using controls_towards, controls_patrol, controls_ambush.
Qed.

Lemma controls_update_scared (rand : Z) (maze : Maze.t) (delta_time : float)
      (g : Ghost.t) :
  controls (update_scared rand maze delta_time g) = controls g.
Proof.
  unfold update_scared. cbv zeta.
  rewrite controls_tunnel, controls_entity_update.
  destruct (should_recalculate_direction maze g); [|reflexivity].
  destruct (distance_to_target g <? ESCAPE_DISTANCE)%float;
    auto using controls_away, controls_patrol.
Qed.

(** The state after the movement of one update, by the state the timer
    block leaves. *)
Lemma update_branch_state (rand : Z) (maze : Maze.t) (pacman_dir : direction_t)
      (delta_time : float) (h : Ghost.t) :
  current_state_
    (match current_state_ h with
     | CHASING => update_chasing rand maze pacman_dir delta_time h
     | SCARED => update_scared rand maze delta_time h
     | CAUGHT => move_towards_home maze h
     | COOLDOWN => update_cooldown delta_time h
     end)
  = match current_state_ h with
    | CHASING => CHASING
    | SCARED => SCARED
    | CAUGHT => if (home_distance h <? 5.0)%float then COOLDOWN else CAUGHT
    | COOLDOWN =>
        if (COOLDOWN_DURATION <=? cooldown_timer_ h + delta_time)%float
        then CHASING else COOLDOWN
    end.
Proof.
  destruct (current_state_ h) eqn:St.
  - pose proof (controls_update_chasing rand maze pacman_dir delta_time h) as C.
    unfold controls in C. injection C as _ _ _ _ _ C _ _ _ _ _ _ _ _ _ _ _ _ _.
    congruence.
  - pose proof (controls_update_scared rand maze delta_time h) as C.
    unfold controls in C. injection C as _ _ _ _ _ C _ _ _ _ _ _ _ _ _ _ _ _ _.
    congruence.
  - unfold move_towards_home. cbv zeta.
    change (PrimFloat.sqrt _) with (home_distance h).
    destruct (home_distance h <? 5.0)%float; [reflexivity|exact St].
  - unfold update_cooldown. cbv zeta.
    destruct (COOLDOWN_DURATION <=? cooldown_timer_ h + delta_time)%float;
      [reflexivity|exact St].
Qed.

Lemma update_animation_state (delta_time : float) (h : Ghost.t) :
  current_state_ (update_animation delta_time h) = current_state_ h.
Proof. unfold update_animation. destruct (ANIMATION_DURATION <? _)%float; reflexivity. Qed.

(** X11. The state machine of [Ghost::update], whatever the maze, the
    player and [rand()]: a chasing ghost stays chasing; a scared ghost
    returns to chasing exactly when its timer reaches the actual scared
    duration; a caught ghost enters cooldown exactly when it is within 5
    pixels of home; cooldown ends in chasing exactly when its timer
    reaches 3 s.  No update makes a ghost scared or caught. *)
Theorem ghost_update_state_machine
        (rand : Z) (maze : Maze.t) (pacman_x pacman_y : float)
        (pacman_dir : direction_t) (delta_time : float) (g : Ghost.t) :
  current_state_ (update rand maze pacman_x pacman_y pacman_dir delta_time g)
  = match current_state_ g with
    | CHASING => CHASING
    | SCARED =>
        if (scared_duration_actual_ g <=? scared_timer_ g + delta_time)%float
        then CHASING else SCARED
    | CAUGHT => if (home_distance g <? 5.0)%float then COOLDOWN else CAUGHT
    | COOLDOWN =>
        if (COOLDOWN_DURATION <=? cooldown_timer_ g + delta_time)%float
        then CHASING else COOLDOWN
    end.
Proof.
  unfold update. cbv zeta.
  rewrite update_animation_state, update_branch_state.
  unfold update_scared_timer.
  change (current_state_ (set_target pacman_x pacman_y g)) with (current_state_ g).
  destruct (current_state_ g) eqn:St; cbn [GhostState_eqb];
    try (change (current_state_ (set_target pacman_x pacman_y g)) with (current_state_ g);
         rewrite St; reflexivity).
  change (scared_timer_ (set_target pacman_x pacman_y g)) with (scared_timer_ g).
  change (scared_duration_actual_ (set_target pacman_x pacman_y g))
    with (scared_duration_actual_ g).
  destruct (scared_duration_actual_ g <=? scared_timer_ g + delta_time)%float;
    reflexivity.
Qed.

Lemma controls_identity (g h : Ghost.t) :
  controls g = controls h ->
  identity g = identity h /\ target_x_ g = target_x_ h /\ target_y_ g = target_y_ h.
Proof.
  unfold controls, identity. intros C.
  injection C as C1 C2 C3 C4 C5 C6 C7 C8 C9 C10 C11 C12 C13 C14 C15 C16 C17 C18 C19.
  repeat split; congruence.
Qed.

Lemma update_branch_identity (rand : Z) (maze : Maze.t) (pacman_dir : direction_t)
      (delta_time : float) (h : Ghost.t) :
  let h' := match current_state_ h with
            | CHASING => update_chasing rand maze pacman_dir delta_time h
            | SCARED => update_scared rand maze delta_time h
            | CAUGHT => move_towards_home maze h
            | COOLDOWN => update_cooldown delta_time h
            end in
  identity h' = identity h /\ target_x_ h' = target_x_ h /\ target_y_ h' = target_y_ h.
Proof.
  cbv zeta. destruct (current_state_ h).
  - apply controls_identity, controls_update_chasing.
  - apply controls_identity, controls_update_scared.
  - unfold move_towards_home. cbv zeta.
    destruct (_ <? 5.0)%float; repeat split; reflexivity.
  - unfold update_cooldown. cbv zeta.
    destruct (_ <=? _)%float; repeat split; reflexivity.
Qed.

Lemma update_identity (rand : Z) (maze : Maze.t) (pacman_x pacman_y : float)
      (pacman_dir : direction_t) (delta_time : float) (g : Ghost.t) :
  identity (update rand maze pacman_x pacman_y pacman_dir delta_time g) = identity g /\
  target_x_ (update rand maze pacman_x pacman_y pacman_dir delta_time g) = pacman_x /\
  target_y_ (update rand maze pacman_x pacman_y pacman_dir delta_time g) = pacman_y.
Proof.
  unfold update. cbv zeta.
  assert (A : forall dt h,
             identity (update_animation dt h) = identity h /\
             target_x_ (update_animation dt h) = target_x_ h /\
             target_y_ (update_animation dt h) = target_y_ h).
  { intros dt h. unfold update_animation.
    destruct (_ <? _)%float; repeat split; reflexivity. }
  assert (B : identity (update_scared_timer delta_time (set_target pacman_x pacman_y g))
              = identity g /\
              target_x_ (update_scared_timer delta_time (set_target pacman_x pacman_y g))
              = pacman_x /\
              target_y_ (update_scared_timer delta_time (set_target pacman_x pacman_y g))
              = pacman_y).
  { unfold update_scared_timer.
    destruct (GhostState_eqb _ _); [destruct (_ <=? _)%float|]; repeat split; reflexivity. }
  destruct B as (B1 & B2 & B3).
  match goal with
  | |- identity (update_animation _ ?h) = _ /\ _ =>
      destruct (A delta_time h) as (A1 & A2 & A3); rewrite A1, A2, A3; clear A1 A2 A3
  end.
  destruct (update_branch_identity rand maze pacman_dir delta_time
              (update_scared_timer delta_time (set_target pacman_x pacman_y g)))
    as (C1 & C2 & C3).
  rewrite C1, C2, C3. repeat split; assumption.
Qed.

(** X12. Every [Ghost::update] leaves the ghost with the player's position
    as its target (the ambusher's temporary target is undone) and never
    writes the ghost's home, AI type, sprite sheet, palette, speed
    multiplier, actual scared duration or score popup. *)
Theorem ghost_update_tracks_player_keeps_identity
        (rand : Z) (maze : Maze.t) (pacman_x pacman_y : float)
        (pacman_dir : direction_t) (delta_time : float) (g : Ghost.t) :
  target_x_ (update rand maze pacman_x pacman_y pacman_dir delta_time g) = pacman_x /\
  target_y_ (update rand maze pacman_x pacman_y pacman_dir delta_time g) = pacman_y /\
  identity (update rand maze pacman_x pacman_y pacman_dir delta_time g) = identity g.
Proof.
  destruct (update_identity rand maze pacman_x pacman_y pacman_dir delta_time g)
    as (I & X & Y).
  repeat split; assumption.
Qed.

Lemma caught_arrival (rand : Z) (maze : Maze.t) (pacman_x pacman_y : float)
      (pacman_dir : direction_t) (delta_time : float) (g : Ghost.t) :
  current_state_ g = CAUGHT -> (home_distance g <? 5.0)%float = true ->
  get_x (update rand maze pacman_x pacman_y pacman_dir delta_time g) = home_x_ g /\
  get_y (update rand maze pacman_x pacman_y pacman_dir delta_time g) = home_y_ g /\
  get_direction (update rand maze pacman_x pacman_y pacman_dir delta_time g)
  = get_direction g /\
  cooldown_timer_ (update rand maze pacman_x pacman_y pacman_dir delta_time g)
  = 0.0%float.
Proof.
  intros St Hd. unfold update. cbv zeta. unfold update_scared_timer.
  change (current_state_ (set_target pacman_x pacman_y g)) with (current_state_ g).
  rewrite St. cbn [GhostState_eqb].
  change (current_state_ (set_target pacman_x pacman_y g)) with (current_state_ g).
  rewrite St. unfold move_towards_home. cbv zeta.
  change (PrimFloat.sqrt _) with (home_distance g). rewrite Hd.
  unfold update_animation.
  destruct (ANIMATION_DURATION <? _)%float; repeat split; reflexivity.
Qed.

Lemma cooldown_waits (rand : Z) (maze : Maze.t) (pacman_x pacman_y : float)
      (pacman_dir : direction_t) (delta_time : float) (g : Ghost.t) :
  current_state_ g = COOLDOWN ->
  base (update rand maze pacman_x pacman_y pacman_dir delta_time g) = base g /\
  if (COOLDOWN_DURATION <=? cooldown_timer_ g + delta_time)%float
  then cooldown_timer_ (update rand maze pacman_x pacman_y pacman_dir delta_time g)
       = 0.0%float /\
       scared_timer_ (update rand maze pacman_x pacman_y pacman_dir delta_time g)
       = 0.0%float /\
       flash_timer_ (update rand maze pacman_x pacman_y pacman_dir delta_time g)
       = 0.0%float
  else cooldown_timer_ (update rand maze pacman_x pacman_y pacman_dir delta_time g)
       = (cooldown_timer_ g + delta_time)%float.
Proof.
  intros St. unfold update. cbv zeta. unfold update_scared_timer.
  change (current_state_ (set_target pacman_x pacman_y g)) with (current_state_ g).
  rewrite St. cbn [GhostState_eqb].
  change (current_state_ (set_target pacman_x pacman_y g)) with (current_state_ g).
  rewrite St. unfold update_cooldown. cbv zeta.
  change (cooldown_timer_ (set_target pacman_x pacman_y g)) with (cooldown_timer_ g).
  unfold update_animation.
  destruct (COOLDOWN_DURATION <=? cooldown_timer_ g + delta_time)%float;
    destruct (ANIMATION_DURATION <? _)%float; repeat split; reflexivity.
Qed.

(** X13. A caught ghost within 5 pixels of home is put exactly on its home
    position by the update, keeps its direction and starts the cooldown
    timer at zero.  A ghost in cooldown does not move or turn, whatever
    the maze and the player do: its timer grows by the frame time until
    it reaches 3 s, and then all three timers are reset. *)
Theorem caught_ghost_arrives_and_waits
        (rand : Z) (maze : Maze.t) (pacman_x pacman_y : float)
        (pacman_dir : direction_t) (delta_time : float) :
  (forall g : Ghost.t,
      current_state_ g = CAUGHT -> (home_distance g <? 5.0)%float = true ->
      get_x (update rand maze pacman_x pacman_y pacman_dir delta_time g) = home_x_ g /\
      get_y (update rand maze pacman_x pacman_y pacman_dir delta_time g) = home_y_ g /\
      get_direction (update rand maze pacman_x pacman_y pacman_dir delta_time g)
      = get_direction g /\
      cooldown_timer_ (update rand maze pacman_x pacman_y pacman_dir delta_time g)
      = 0.0%float) /\
  (forall g : Ghost.t,
      current_state_ g = COOLDOWN ->
      base (update rand maze pacman_x pacman_y pacman_dir delta_time g) = base g /\
      if (COOLDOWN_DURATION <=? cooldown_timer_ g + delta_time)%float
      then cooldown_timer_ (update rand maze pacman_x pacman_y pacman_dir delta_time g)
           = 0.0%float /\
           scared_timer_ (update rand maze pacman_x pacman_y pacman_dir delta_time g)
           = 0.0%float /\
           flash_timer_ (update rand maze pacman_x pacman_y pacman_dir delta_time g)
           = 0.0%float
      else cooldown_timer_ (update rand maze pacman_x pacman_y pacman_dir delta_time g)
           = (cooldown_timer_ g + delta_time)%float).
Proof.
  split.
  - intros g. apply caught_arrival.
  - intros g. apply cooldown_waits.
Qed.

Lemma caught_ghost_arrives_and_waits_witness :
  (current_state_ GhostAIScenario.caught_near_home = CAUGHT /\
   (home_distance GhostAIScenario.caught_near_home <? 5.0)%float = true /\
   get_x (GhostAIScenario.frame 0 GhostAIScenario.caught_near_home) = 500%float /\
   get_y (GhostAIScenario.frame 0 GhostAIScenario.caught_near_home) = 260%float) /\
  (current_state_ GameScenario.cooling_far = COOLDOWN /\
   base (GhostAIScenario.frame 0 GameScenario.cooling_far)
   = base GameScenario.cooling_far).
Proof.
  split.
  - split; [reflexivity|]. split; [vm_compute; reflexivity|].
    destruct (proj1 (caught_ghost_arrives_and_waits 0 Scenario.maze 460 340 DIR_LEFT
                       0.015625) GhostAIScenario.caught_near_home)
      as (X & Y & _); [reflexivity|vm_compute; reflexivity|].
    split; [exact X|exact Y].
  - split; [reflexivity|].
    exact (proj1 (proj2 (caught_ghost_arrives_and_waits 0 Scenario.maze 460 340 DIR_LEFT
                           0.015625) GameScenario.cooling_far eq_refl)).
Defined.

(** *** The distance a ghost covers in one update *)

Lemma attempt_movement_advances (current_speed : float) (maze : Maze.t)
      (center_x center_y delta_time : float) (e : Entity.t) :
  match Entity.dir_ (Entity.attempt_movement current_speed maze center_x center_y
                       delta_time e) with
  | DIR_LEFT =>
      Entity.dir_ e = DIR_LEFT /\
      Entity.x_ (Entity.attempt_movement current_speed maze center_x center_y
                   delta_time e)
      = (Entity.x_ e - current_speed * delta_time)%float
  | DIR_RIGHT =>
      Entity.dir_ e = DIR_RIGHT /\
      Entity.x_ (Entity.attempt_movement current_speed maze center_x center_y
                   delta_time e)
      = (Entity.x_ e + current_speed * delta_time)%float
  | DIR_UP =>
      Entity.dir_ e = DIR_UP /\
      Entity.y_ (Entity.attempt_movement current_speed maze center_x center_y
                   delta_time e)
      = (Entity.y_ e - current_speed * delta_time)%float
  | DIR_DOWN =>
      Entity.dir_ e = DIR_DOWN /\
      Entity.y_ (Entity.attempt_movement current_speed maze center_x center_y
                   delta_time e)
      = (Entity.y_ e + current_speed * delta_time)%float
  | DIR_NONE => True
  end.
Proof.
  unfold Entity.attempt_movement, Entity.get_next_position, Entity.snap_to_grid_if_close,
    Entity.is_horizontal, Entity.is_vertical.
  destruct e as [x y dir ddir pal sp].
  cbn [Entity.dir_ Entity.desired_dir_ Entity.x_ Entity.y_ Entity.set_position
       Entity.set_dir_].
  destruct dir; cbn [direction_eqb]; [exact I| | | |];
    destruct (Maze.can_move_to maze _ _);
    cbn [Entity.dir_ Entity.x_ Entity.y_ Entity.set_position Entity.set_dir_ andb];
    try exact I;
    repeat (match goal with
            | |- context [if (?a <? ?b)%float then _ else _] => destruct (a <? b)%float
            end;
            cbn [Entity.dir_ Entity.x_ Entity.y_ Entity.set_position andb]);
    split; reflexivity.
Qed.

Lemma attempt_direction_change_keeps (maze : Maze.t) (row col : Z)
      (center_x center_y : float) (e : Entity.t) :
  match Entity.dir_ (Entity.attempt_direction_change maze row col center_x center_y e) with
  | DIR_LEFT | DIR_RIGHT =>
      Entity.x_ (Entity.attempt_direction_change maze row col center_x center_y e)
      = Entity.x_ e
  | DIR_UP | DIR_DOWN =>
      Entity.y_ (Entity.attempt_direction_change maze row col center_x center_y e)
      = Entity.y_ e
  | DIR_NONE => True
  end.
Proof.
  unfold Entity.attempt_direction_change, Entity.align_to_grid.
  destruct (Entity.get_next_cell _ _ _) as [next_row next_col].
  destruct (_ && _).
  - destruct e as [x y dir ddir pal sp].
    cbn [Entity.dir_ Entity.desired_dir_ Entity.set_dir_].
    destruct ddir; cbn; try reflexivity; exact I.
  - destruct (Entity.dir_ e); try reflexivity; exact I.
Qed.

Lemma entity_update_advances (current_speed : float) (maze : Maze.t)
      (delta_time : float) (e : Entity.t) :
  match Entity.dir_ (Entity.update current_speed maze delta_time e) with
  | DIR_LEFT =>
      Entity.x_ (Entity.update current_speed maze delta_time e)
      = (Entity.x_ e - current_speed * delta_time)%float
  | DIR_RIGHT =>
      Entity.x_ (Entity.update current_speed maze delta_time e)
      = (Entity.x_ e + current_speed * delta_time)%float
  | DIR_UP =>
      Entity.y_ (Entity.update current_speed maze delta_time e)
      = (Entity.y_ e - current_speed * delta_time)%float
  | DIR_DOWN =>
      Entity.y_ (Entity.update current_speed maze delta_time e)
      = (Entity.y_ e + current_speed * delta_time)%float
  | DIR_NONE => True
  end.
Proof.
  unfold Entity.update, Entity.move_in_direction. cbv zeta.
  match goal with
  | |- context [Entity.attempt_movement current_speed maze ?cx ?cy delta_time ?e0] =>
      set (e1 := e0);
      pose proof (attempt_movement_advances current_speed maze cx cy delta_time e1) as A
  end.
  assert (K : match Entity.dir_ e1 with
              | DIR_LEFT | DIR_RIGHT => Entity.x_ e1 = Entity.x_ e
              | DIR_UP | DIR_DOWN => Entity.y_ e1 = Entity.y_ e
              | DIR_NONE => True
              end).
  { subst e1. destruct (_ && _).
    - apply attempt_direction_change_keeps.
    - destruct (Entity.dir_ e); try reflexivity; exact I. }
  destruct (Entity.dir_ (Entity.attempt_movement _ _ _ _ _ e1));
    [exact I| | | |]; destruct A as [D A]; rewrite D in K; rewrite A, K; reflexivity.
Qed.

(** Steering turns the ghost's wish only: it neither moves nor turns the
    ghost, nor changes its speed. *)
Lemma motion_towards (maze : Maze.t) (g : Ghost.t) :
  motion (choose_direction_towards_target maze g) = motion g.
Proof.
  destruct (choose_direction_towards_target_outcome maze g) as [E _].
  rewrite E. reflexivity.
Qed.

Lemma motion_ambush (maze : Maze.t) (pacman_dir : direction_t) (g : Ghost.t) :
  motion (choose_direction_ambush maze pacman_dir g) = motion g.
Proof.
  destruct (choose_direction_ambush_outcome maze pacman_dir g) as [E _].
  rewrite E. reflexivity.
Qed.

Lemma motion_patrol (rand : Z) (maze : Maze.t) (g : Ghost.t) :
  motion (choose_direction_random_patrol rand maze g) = motion g.
Proof.
  rewrite (choose_direction_random_patrol_frame rand maze g). reflexivity.
Qed.

Lemma motion_away (maze : Maze.t) (g : Ghost.t) :
  motion (choose_direction_away_from_target maze g) = motion g.
Proof.
  destruct (choose_direction_away_from_target_outcome maze g) as [E _].
  rewrite E, (find_escape_target_frame maze g). reflexivity.
Qed.

Lemma force_movement_moving (distance delta_time : float) (g : Ghost.t) :
  get_direction (force_movement distance delta_time g) = get_direction g /\
  (get_direction g <> DIR_NONE -> force_movement distance delta_time g = g).
Proof.
  unfold force_movement. split.
  - repeat match goal with
           | |- context [if ?c then _ else _] => destruct c
           end; reflexivity.
  - intros H. destruct (get_direction g); [contradiction| | | |];
      cbn [direction_eqb]; rewrite andb_false_r; reflexivity.
Qed.

(** The movement of the CHASING and SCARED branches, after the steering:
    [Entity::update], the forced step of a stopped ghost (or none), the
    tunnel. *)
Lemma movement_advances (maze : Maze.t) (delta_time : float) (g g1 h : Ghost.t) :
  motion g1 = motion g ->
  h = entity_update maze delta_time g1 \/
  (exists distance, h = force_movement distance delta_time
                          (entity_update maze delta_time g1)) ->
  advanced_by (get_current_speed g * delta_time)%float g
              (handle_tunnel_wrapping maze h).
Proof.
  intros Hm Hh. unfold motion in Hm. injection Hm as Hx Hy Hd Hs.
  pose proof (entity_update_advances (get_current_speed g1) maze delta_time (base g1))
    as A.
  change (Entity.update (get_current_speed g1) maze delta_time (base g1))
    with (base (entity_update maze delta_time g1)) in A.
  change (Entity.x_ (base g1)) with (get_x g1) in A.
  change (Entity.y_ (base g1)) with (get_y g1) in A.
  set (g2 := entity_update maze delta_time g1) in *.
  change (Entity.dir_ (base g2)) with (get_direction g2) in A.
  change (Entity.x_ (base g2)) with (get_x g2) in A.
  change (Entity.y_ (base g2)) with (get_y g2) in A.
  rewrite Hs, Hx, Hy in A.
  assert (Dh : get_direction h = get_direction g2).
  { destruct Hh as [->|[distance ->]]; [reflexivity|].
    apply force_movement_moving. }
  assert (Eh : get_direction g2 <> DIR_NONE -> h = g2).
  { destruct Hh as [->|[distance ->]]; [reflexivity|].
    apply force_movement_moving. }
  assert (Dw : get_direction (handle_tunnel_wrapping maze h) = get_direction h).
  { destruct (ghost_wrap_cases maze h) as [[E _]|[E|E]]; rewrite E; reflexivity. }
  assert (Yw : get_y (handle_tunnel_wrapping maze h) = get_y h).
  { destruct (ghost_wrap_cases maze h) as [[E _]|[E|E]]; rewrite E; reflexivity. }
  unfold advanced_by. rewrite Dw, Dh.
  destruct (get_direction g2) eqn:D; [exact I| | | |];
    rewrite (Eh ltac:(discriminate)) in *.
  - intros In. rewrite ghost_wrap_inside; [exact A|]. rewrite A. exact In.
  - intros In. rewrite ghost_wrap_inside; [exact A|]. rewrite A. exact In.
  - rewrite Yw. exact A.
  - rewrite Yw. exact A.
Qed.

Lemma update_chasing_advances (rand : Z) (maze : Maze.t) (pacman_dir : direction_t)
      (delta_time : float) (g : Ghost.t) :
  advanced_by (get_current_speed g * delta_time)%float g
              (update_chasing rand maze pacman_dir delta_time g).
Proof.
  unfold update_chasing. cbv zeta.
  eapply movement_advances; [|right; eexists; reflexivity].
  destruct (should_recalculate_direction maze g); [|reflexivity].
  destruct (ai_type_ g); destruct (distance_to_target g <? LOCK_ON_DISTANCE)%float;
    auto using motion_towards, motion_patrol, motion_ambush.
Qed.

Lemma update_scared_advances (rand : Z) (maze : Maze.t) (delta_time : float)
      (g : Ghost.t) :
  advanced_by (get_current_speed g * delta_time)%float g
              (update_scared rand maze delta_time g).
Proof.
  unfold update_scared. cbv zeta.
  eapply movement_advances; [|left; reflexivity].
  destruct (should_recalculate_direction maze g); [|reflexivity].
  destruct (distance_to_target g <? ESCAPE_DISTANCE)%float;
    auto using motion_away, motion_patrol.
Qed.

Lemma advanced_by_same_body (step : float) (g g0 h h0 : Ghost.t) :
  base h = base h0 -> get_x g = get_x g0 -> get_y g = get_y g0 ->
  advanced_by step g0 h0 -> advanced_by step g h.
Proof.
  unfold advanced_by, get_direction, get_x, get_y.
  intros -> -> ->. exact (fun H => H).
Qed.

Lemma advanced_by_cases (step : float) (g g' : Ghost.t) :
  advanced_by step g g' ->
  (get_direction g' = DIR_DOWN -> get_y g' = (get_y g + step)%float) /\
  (get_direction g' = DIR_UP -> get_y g' = (get_y g - step)%float) /\
  (get_direction g' = DIR_RIGHT ->
   0 <= floor_col (get_x g + step) < MAZE_COLS -> get_x g' = (get_x g + step)%float) /\
  (get_direction g' = DIR_LEFT ->
   0 <= floor_col (get_x g - step) < MAZE_COLS -> get_x g' = (get_x g - step)%float).
Proof.
  unfold advanced_by. intros A.
  repeat split; intros D; rewrite D in A; exact A.
Qed.

Lemma update_animation_base (delta_time : float) (h : Ghost.t) :
  base (update_animation delta_time h) = base h.
Proof.
  unfold update_animation. cbv zeta.
  destruct (ANIMATION_DURATION <? _)%float; reflexivity.
Qed.

Lemma direction_eqb_refl (d : direction_t) : direction_eqb d d = true.
Proof. destruct d; reflexivity. Qed.

(** An entity that runs on, with no turn wanted and a free position ahead,
    keeps its direction. *)
Lemma entity_update_runs_on (current_speed : float) (maze : Maze.t)
      (delta_time : float) (e : Entity.t) :
  Entity.dir_ e <> DIR_NONE ->
  Entity.desired_dir_ e = Entity.dir_ e ->
  Maze.can_move_to maze
    (fst (Entity.get_next_position current_speed e (Entity.dir_ e) delta_time))
    (snd (Entity.get_next_position current_speed e (Entity.dir_ e) delta_time)) = true ->
  Entity.dir_ (Entity.update current_speed maze delta_time e) = Entity.dir_ e.
Proof.
  intros Hn Hd Hf.
  unfold Entity.update, Entity.move_in_direction. cbv zeta.
  rewrite Hd, direction_eqb_refl. cbn [negb andb]. rewrite andb_false_r.
  unfold Entity.attempt_movement.
  destruct (Entity.get_next_position current_speed e (Entity.dir_ e) delta_time)
    as [test_x test_y].
  cbn [fst snd] in Hf. rewrite Hf.
  destruct (direction_eqb (Entity.dir_ e) DIR_NONE) eqn:E.
  - destruct (Entity.dir_ e); try discriminate E. contradiction.
  - unfold Entity.snap_to_grid_if_close.
    repeat match goal with
           | |- context [if ?c then _ else _] => destruct c
           end; reflexivity.
Qed.

Lemma should_recalculate_direction_base (maze : Maze.t) (g h : Ghost.t) :
  base h = base g ->
  should_recalculate_direction maze h = should_recalculate_direction maze g.
Proof.
  intros B. unfold should_recalculate_direction, is_at_intersection,
    can_move_in_direction, get_direction, get_x, get_y.
  rewrite B. reflexivity.
Qed.

Lemma wrap_direction (maze : Maze.t) (h : Ghost.t) :
  get_direction (handle_tunnel_wrapping maze h) = get_direction h.
Proof.
  destruct (ghost_wrap_cases maze h) as [[E _]|[E|E]]; rewrite E; reflexivity.
Qed.

Lemma entity_update_ghost_runs_on (maze : Maze.t) (delta_time : float) (g : Ghost.t) :
  get_direction g <> DIR_NONE ->
  get_desired_direction g = get_direction g ->
  Maze.can_move_to maze
    (fst (Entity.get_next_position (get_current_speed g) (base g) (get_direction g)
                                   delta_time))
    (snd (Entity.get_next_position (get_current_speed g) (base g) (get_direction g)
                                   delta_time)) = true ->
  get_direction (entity_update maze delta_time g) = get_direction g.
Proof.
  intros Hn Hd Hf. unfold entity_update, get_direction, Entity.get_direction.
  cbn [set_base base].
  apply entity_update_runs_on; assumption.
Qed.

Lemma update_runs_on (rand : Z) (maze : Maze.t) (pacman_x pacman_y : float)
      (pacman_dir : direction_t) (delta_time : float) (g : Ghost.t) :
  current_state_ g = CHASING \/ current_state_ g = SCARED ->
  should_recalculate_direction maze g = false ->
  get_desired_direction g = get_direction g ->
  Maze.can_move_to maze
    (fst (Entity.get_next_position (get_current_speed g) (base g) (get_direction g)
                                   delta_time))
    (snd (Entity.get_next_position (get_current_speed g) (base g) (get_direction g)
                                   delta_time)) = true ->
  get_direction g <> DIR_NONE /\
  get_direction (update rand maze pacman_x pacman_y pacman_dir delta_time g)
  = get_direction g.
Proof.
  intros Hs Hr Hd Hf.
  assert (Hn : get_direction g <> DIR_NONE).
  { intros E. unfold should_recalculate_direction in Hr. cbv zeta in Hr.
    rewrite E in Hr. cbn [direction_eqb orb] in Hr. discriminate Hr. }
  split; [exact Hn|].
  unfold update. cbv zeta.
  set (g1 := update_scared_timer delta_time (set_target pacman_x pacman_y g)).
  assert (B1 : base g1 = base g).
  { subst g1. unfold update_scared_timer. cbv zeta.
    repeat match goal with
           | |- context [if ?c then _ else _] => destruct c
           end; reflexivity. }
  assert (S1 : current_state_ g1 = CHASING \/ current_state_ g1 = SCARED).
  { subst g1. unfold update_scared_timer. cbv zeta.
    change (current_state_ (set_target pacman_x pacman_y g)) with (current_state_ g).
    destruct Hs as [Hs|Hs]; rewrite Hs; cbn [GhostState_eqb].
    - left. exact Hs.
    - destruct (_ <=? _)%float; [left|right]; reflexivity. }
  assert (Sp1 : get_current_speed g1 = get_current_speed g).
  { unfold get_current_speed. rewrite B1.
    destruct Hs as [Hs|Hs]; destruct S1 as [S1|S1]; rewrite Hs, S1; reflexivity. }
  assert (R1 : should_recalculate_direction maze g1 = false).
  { rewrite (should_recalculate_direction_base maze g g1 B1). exact Hr. }
  assert (E1 : get_direction (entity_update maze delta_time g1) = get_direction g).
  { transitivity (get_direction g1); [|unfold get_direction; rewrite B1; reflexivity].
    apply entity_update_ghost_runs_on.
    - unfold get_direction. rewrite B1. exact Hn.
    - unfold get_desired_direction, get_direction. rewrite B1. exact Hd.
    - rewrite Sp1. unfold get_direction. rewrite B1. exact Hf. }
  unfold get_direction at 1. rewrite update_animation_base.
  fold (get_direction
          (match current_state_ g1 with
           | CHASING => update_chasing rand maze pacman_dir delta_time g1
           | SCARED => update_scared rand maze delta_time g1
           | CAUGHT => move_towards_home maze g1
           | COOLDOWN => update_cooldown delta_time g1
           end)).
  destruct S1 as [S1|S1]; rewrite S1.
  - unfold update_chasing. cbv zeta. rewrite R1, wrap_direction.
    rewrite (proj1 (force_movement_moving _ _ _)). exact E1.
  - unfold update_scared. cbv zeta. rewrite R1, wrap_direction. exact E1.
Qed.

(** C9 (amended). With speed multiplier 2.0 the effective speed of a
    CHASING or SCARED ghost is exactly 240 px/s, and it is the speed of
    its movement: a ghost that is moving after an update of [delta_time]
    seconds is exactly [240 * delta_time] pixels further along its
    direction than before the update (a horizontal step that leaves the
    columns of the maze is wrapped by the tunnel instead); and a ghost
    that runs on, with no steering due, no turn wanted and a free
    position [240 * delta_time] pixels ahead, keeps its direction and so
    covers that distance.  The speed of a CAUGHT ghost is exactly 360,
    1.5 times the multiplied base, but its way home does not use the
    frame time: an update puts the ghost on its home when that is less
    than 5 pixels away, and otherwise moves it 360 / 60 = 6 pixels along
    the straight line to its home, whatever [delta_time] is; that is
    360 px/s only at 60 updates per second. *)
Theorem crazy_ghost_speeds
        (rand : Z) (maze : Maze.t) (pacman_x pacman_y : float)
        (pacman_dir : direction_t) (delta_time : float) (g : Ghost.t) :
  Entity.speed_multiplier_ (base g) = 2.0%float ->
  (current_state_ g = CHASING \/ current_state_ g = SCARED ->
   get_current_speed g = 240%float /\
   advanced_by (240 * delta_time)%float g
     (update rand maze pacman_x pacman_y pacman_dir delta_time g) /\
   (should_recalculate_direction maze g = false ->
    get_desired_direction g = get_direction g ->
    Maze.can_move_to maze
      (fst (Entity.get_next_position 240 (base g) (get_direction g) delta_time))
      (snd (Entity.get_next_position 240 (base g) (get_direction g) delta_time))
    = true ->
    get_direction g <> DIR_NONE /\
    get_direction (update rand maze pacman_x pacman_y pacman_dir delta_time g)
    = get_direction g)) /\
  (current_state_ g = CAUGHT ->
   get_current_speed g = 360%float /\
   if (home_distance g <? 5.0)%float
   then get_x (update rand maze pacman_x pacman_y pacman_dir delta_time g) = home_x_ g /\
        get_y (update rand maze pacman_x pacman_y pacman_dir delta_time g) = home_y_ g
   else get_x (update rand maze pacman_x pacman_y pacman_dir delta_time g)
        = (get_x g + (home_x_ g - get_x g) / home_distance g * 6)%float /\
        get_y (update rand maze pacman_x pacman_y pacman_dir delta_time g)
        = (get_y g + (home_y_ g - get_y g) / home_distance g * 6)%float).
Proof.
  intros Hm. split.
  - intros Hs.
    assert (Hsp : get_current_speed g = 240%float).
    { unfold get_current_speed. rewrite Hm.
      destruct Hs as [Hs|Hs]; rewrite Hs; reflexivity. }
    split; [exact Hsp|].
    split; [|rewrite <- Hsp; apply update_runs_on; exact Hs].
    unfold update. cbv zeta.
    set (g1 := update_scared_timer delta_time (set_target pacman_x pacman_y g)).
    assert (B1 : base g1 = base g).
    { subst g1. unfold update_scared_timer. cbv zeta.
      repeat match goal with
             | |- context [if ?c then _ else _] => destruct c
             end; reflexivity. }
    assert (S1 : current_state_ g1 = CHASING \/ current_state_ g1 = SCARED).
    { subst g1. unfold update_scared_timer. cbv zeta.
      change (current_state_ (set_target pacman_x pacman_y g)) with (current_state_ g).
      destruct Hs as [Hs|Hs]; rewrite Hs; cbn [GhostState_eqb].
      - left. exact Hs.
      - destruct (_ <=? _)%float; [left|right]; reflexivity. }
    assert (Sp1 : get_current_speed g1 = 240%float).
    { unfold get_current_speed. rewrite B1, Hm.
      destruct S1 as [S1|S1]; rewrite S1; reflexivity. }
    apply (advanced_by_same_body _ g g1 _
             (match current_state_ g1 with
              | CHASING => update_chasing rand maze pacman_dir delta_time g1
              | SCARED => update_scared rand maze delta_time g1
              | CAUGHT => move_towards_home maze g1
              | COOLDOWN => update_cooldown delta_time g1
              end)).
    + apply update_animation_base.
    + unfold get_x. rewrite B1. reflexivity.
    + unfold get_y. rewrite B1. reflexivity.
    + rewrite <- Sp1.
      destruct S1 as [S1|S1]; rewrite S1;
        [apply update_chasing_advances|apply update_scared_advances].
  - intros Hs.
    assert (Hsp : get_current_speed g = 360%float).
    { unfold get_current_speed. rewrite Hm, Hs. reflexivity. }
    split; [exact Hsp|].
    unfold update. cbv zeta. unfold update_scared_timer.
    change (current_state_ (set_target pacman_x pacman_y g)) with (current_state_ g).
    rewrite Hs. cbn [GhostState_eqb].
    change (current_state_ (set_target pacman_x pacman_y g)) with (current_state_ g).
    rewrite Hs. unfold get_x, get_y. rewrite !update_animation_base.
    unfold move_towards_home. cbv zeta.
    change (get_current_speed (set_target pacman_x pacman_y g))
      with (get_current_speed g).
    rewrite Hsp.
    change (PrimFloat.sqrt _) with (home_distance g).
    change (360 / 60.0)%float with 6%float.
    destruct (home_distance g <? 5.0)%float; split; reflexivity.
Qed.

Lemma crazy_ghost_speeds_witness :
  (get_current_speed GhostScenario.crazy_chaser = 240%float /\
   get_direction (update 0 Scenario.maze 460 340 DIR_LEFT 0.03125
                         GhostScenario.crazy_chaser) = DIR_DOWN /\
   get_y (update 0 Scenario.maze 460 340 DIR_LEFT 0.03125 GhostScenario.crazy_chaser)
   = 107.5%float) /\
  (get_direction (update 0 Scenario.maze 460 340 DIR_LEFT 0.03125
                         GhostAIScenario.crazy_runner) = DIR_RIGHT /\
   get_x (update 0 Scenario.maze 460 340 DIR_LEFT 0.03125 GhostAIScenario.crazy_runner)
   = 107.5%float) /\
  (get_current_speed GhostScenario.crazy_caught = 360%float /\
   get_x (update 0 Scenario.maze 460 340 DIR_LEFT 0.03125 GhostScenario.crazy_caught)
   = 446%float /\
   get_y (update 0 Scenario.maze 460 340 DIR_LEFT 0.03125 GhostScenario.crazy_caught)
   = 260%float).
Proof.
  split; [|split].
  - destruct (proj1 (crazy_ghost_speeds 0 Scenario.maze 460 340 DIR_LEFT 0.03125
                       GhostScenario.crazy_chaser eq_refl) (or_introl eq_refl))
      as (S & A & _).
    assert (D : get_direction (update 0 Scenario.maze 460 340 DIR_LEFT 0.03125
                                      GhostScenario.crazy_chaser) = DIR_DOWN)
      by (vm_compute; reflexivity).
    split; [exact S|]. split; [exact D|].
    rewrite (proj1 (advanced_by_cases _ _ _ A) D). vm_compute. reflexivity.
  - destruct (proj1 (crazy_ghost_speeds 0 Scenario.maze 460 340 DIR_LEFT 0.03125
                       GhostAIScenario.crazy_runner eq_refl) (or_introl eq_refl))
      as (_ & A & R).
    destruct R as [_ D];
      [vm_compute; reflexivity|reflexivity|vm_compute; reflexivity|].
    split; [exact D|].
    rewrite (proj1 (proj2 (proj2 (advanced_by_cases _ _ _ A))) D);
      [vm_compute; reflexivity|].
    split; [vm_compute; discriminate|vm_compute; reflexivity].
  - destruct (proj2 (crazy_ghost_speeds 0 Scenario.maze 460 340 DIR_LEFT 0.03125
                       GhostScenario.crazy_caught eq_refl) eq_refl) as [S A].
    assert (F : (home_distance GhostScenario.crazy_caught <? 5.0)%float = false)
      by (vm_compute; reflexivity).
    rewrite F in A. destruct A as [X Y].
    split; [exact S|].
    split; [rewrite X|rewrite Y]; vm_compute; reflexivity.
Defined.

(** C9 as stated fails for the CAUGHT ghost: its speed of 360 px/s is not
    what it covers in an update.  At speed multiplier 2.0 an update of
    1/32 s moves it 6 pixels toward its home, where 360 px/s would give
    11.25, and an update of 1/64 s moves it the same 6 pixels, where
    360 px/s would give 5.625; in the update of 1/32 s the chasing ghost,
    at 240 px/s, covers 7.5 pixels, more than the caught one. *)
Lemma caught_ghost_step_ignores_frame_time :
  Entity.speed_multiplier_ (base GhostScenario.crazy_caught) = 2.0%float /\
  current_state_ GhostScenario.crazy_caught = CAUGHT /\
  get_current_speed GhostScenario.crazy_caught = 360%float /\
  get_x GhostScenario.crazy_caught = 440%float /\
  get_x (update 0 Scenario.maze 460 340 DIR_LEFT 0.03125 GhostScenario.crazy_caught)
  = 446%float /\
  (360 * 0.03125)%float = 11.25%float /\
  get_x (update 0 Scenario.maze 460 340 DIR_LEFT 0.015625 GhostScenario.crazy_caught)
  = 446%float /\
  (360 * 0.015625)%float = 5.625%float /\
  get_y GhostScenario.crazy_chaser = 100%float /\
  get_y (update 0 Scenario.maze 460 340 DIR_LEFT 0.03125 GhostScenario.crazy_chaser)
  = 107.5%float.
Proof. vm_compute. repeat split. Qed.

(** The ghost model on the built-in maze: the first ghost starts on cell
    (2, 11), whose left and right neighbours are walls. *)
Example ghost_frames_on_fallback_maze :
  GhostAIScenario.observe (GhostAIScenario.frame 0 GhostScenario.first_ghost)
  = (460, 101.875, DIR_DOWN, DIR_DOWN, CHASING)%float /\
  GhostAIScenario.observe (GhostAIScenario.frame 1 GhostScenario.first_ghost)
  = (460, 98.125, DIR_UP, DIR_UP, CHASING)%float /\
  GhostAIScenario.observe
    (Nat.iter 64 (GhostAIScenario.frame 0) GhostScenario.first_ghost)
  = (460, 220, DIR_DOWN, DIR_DOWN, CHASING)%float /\
  get_desired_direction
    (choose_direction_towards_target Scenario.maze
       (set_target 60 60 GhostScenario.first_ghost)) = DIR_UP /\
  get_desired_direction
    (choose_direction_away_from_target Scenario.maze
       (set_target 60 60 GhostScenario.first_ghost)) = DIR_DOWN /\
  current_state_ (Nat.iter 191 (GhostAIScenario.frame 0) GameScenario.cooling_far)
  = COOLDOWN /\
  current_state_ (Nat.iter 192 (GhostAIScenario.frame 0) GameScenario.cooling_far)
  = CHASING.
Proof. vm_compute. repeat split. Qed.

End GhostBehaviour.

(** ** The bonus fruit *)

Section FruitProperties.
Import Fruit FruitSpec.
Local Open Scope Z_scope.

Lemma drawn_cell_is_open (maze : Maze.t) (rand_cell : Z) :
  empty_cells maze <> [] ->
  Maze.is_empty maze
    (fst (nth (Z.to_nat (rand_cell mod Z.of_nat (List.length (empty_cells maze))))
              (empty_cells maze) (0, 0)))
    (snd (nth (Z.to_nat (rand_cell mod Z.of_nat (List.length (empty_cells maze))))
              (empty_cells maze) (0, 0))) = true.
Proof.
  intros Hne.
  assert (Hin : In (nth (Z.to_nat (rand_cell mod Z.of_nat (List.length (empty_cells maze))))
                        (empty_cells maze) (0, 0)) (empty_cells maze)).
  { apply nth_In. destruct (empty_cells maze) as [|c l]; [congruence|].
    pose proof (Z.mod_pos_bound rand_cell (Z.of_nat (List.length (c :: l)))) as B.
    cbn [List.length] in *. lia. }
  unfold empty_cells in Hin at 3. apply filter_In in Hin as [_ H]. exact H.
Qed.

Lemma fruit_ok_new (maze : Maze.t) (sheet : bool) : fruit_ok maze (Fruit.new sheet).
Proof. split; [cbn; lia|]. cbn. discriminate. Qed.

Lemma fruit_ok_spawn (maze : Maze.t) (rand_type rand_cell : Z) (f : Fruit.t) :
  0 <= rand_type -> show_score_popup_ f = false -> is_active_ f = false ->
  fruit_ok maze (spawn_fruit rand_type rand_cell maze f) /\
  show_score_popup_ (spawn_fruit rand_type rand_cell maze f) = false.
Proof.
  intros Hr Hp Ha. unfold spawn_fruit. cbv zeta.
  assert (Ht : 0 <= Z.rem rand_type 4 <= 3).
  { pose proof (Z.rem_bound_pos rand_type 4 Hr). lia. }
  destruct (empty_cells maze) as [|c l] eqn:E.
  - split; [|exact Hp]. split; [exact Ht|]. cbn [is_active_]. congruence.
  - split; [|exact Hp]. split; [exact Ht|]. intros _. split; [exact Hp|].
    rewrite <- E.
    exists (fst (nth (Z.to_nat (rand_cell mod Z.of_nat (List.length (empty_cells maze))))
                     (empty_cells maze) (0, 0))),
           (snd (nth (Z.to_nat (rand_cell mod Z.of_nat (List.length (empty_cells maze))))
                     (empty_cells maze) (0, 0))).
    split; [|split; reflexivity].
    apply drawn_cell_is_open. rewrite E. discriminate.
Qed.

Lemma fruit_ok_update (maze : Maze.t) (rand_type rand_cell : Z) (delta_time : float)
      (f : Fruit.t) :
  0 <= rand_type -> fruit_ok maze f ->
  fruit_ok maze (Fruit.update rand_type rand_cell delta_time maze f).
Proof.
  intros Hr [Ht Ha]. unfold Fruit.update. cbv zeta.
  destruct (is_active_ f) eqn:A.
  - destruct (Ha eq_refl) as [Hp Hcell]. rewrite Hp. rewrite A.
    destruct (VISIBLE_DURATION <=? _)%float.
    + split; [exact Ht|]. cbn. discriminate.
    + split; [exact Ht|]. intros _. split; [exact Hp|exact Hcell].
  - assert (A1 : is_active_
                   (if show_score_popup_ f
                    then if (POPUP_DURATION <=? popup_timer_ f + delta_time)%float
                         then set_popup false 0.0 f
                         else set_popup true (popup_timer_ f + delta_time) f
                    else f) = false).
    { destruct (show_score_popup_ f); [destruct (_ <=? _)%float|]; exact A. }
    assert (T1 : fruit_type_
                   (if show_score_popup_ f
                    then if (POPUP_DURATION <=? popup_timer_ f + delta_time)%float
                         then set_popup false 0.0 f
                         else set_popup true (popup_timer_ f + delta_time) f
                    else f) = fruit_type_ f).
    { destruct (show_score_popup_ f); [destruct (_ <=? _)%float|]; reflexivity. }
    rewrite A1.
    match goal with
    | |- fruit_ok maze (if negb (show_score_popup_ ?f1) then _ else _) =>
        destruct (show_score_popup_ f1) eqn:P1; cbn [negb]
    end.
    + split; [rewrite T1; exact Ht|]. rewrite A1. discriminate.
    + destruct (_ <=? 0.0)%float.
      * match goal with
        | |- fruit_ok maze (set_timers _ _ _ (spawn_fruit _ _ _ ?f2)) =>
            destruct (fruit_ok_spawn maze rand_type rand_cell f2 Hr) as [[St Sa] Sp];
              [exact P1|reflexivity|]
        end.
        split; [exact St|]. intros Hact. cbn [is_active_ set_timers] in Hact.
        destruct (Sa Hact) as [Sp' Sc]. split; [exact Sp|]. exact Sc.
      * split; [cbn [fruit_type_ set_timers]; rewrite T1; exact Ht|].
        cbn [is_active_ set_timers]. discriminate.
Qed.

Lemma fruit_ok_check (maze : Maze.t) (pacman_x pacman_y : float) (f : Fruit.t) :
  fruit_ok maze f -> fruit_ok maze (fst (check_collision pacman_x pacman_y f)).
Proof.
  intros [Ht Ha]. unfold check_collision. cbv zeta.
  destruct (is_active_ f) eqn:A; cbn [negb].
  - destruct (_ <=? COLLISION_DISTANCE)%float; cbn [fst].
    + split; [exact Ht|]. cbn. discriminate.
    + split; [exact Ht|]. intros _. apply Ha. reflexivity.
  - cbn [fst]. split; [exact Ht|]. intros H. congruence.
Qed.

(** X14. In every state a level's fruit can reach, its sprite type is
    0..3, and while it is active it lies on the center of an open cell of
    the maze and no score popup is showing. *)
Theorem fruit_spawns_on_open_cell (maze : Maze.t) (f : Fruit.t) :
  reachable maze f ->
  0 <= fruit_type_ f <= 3 /\
  (is_active_ f = true -> show_score_popup_ f = false /\ on_open_cell maze f).
Proof.
  intros R. change (fruit_ok maze f).
  induction R as [sheet|rand_type rand_cell delta_time f Hr _ _ IH|px py f _ IH].
  - apply fruit_ok_new.
  - apply fruit_ok_update; assumption.
  - apply fruit_ok_check; assumption.
Qed.

Lemma fruit_spawns_on_open_cell_witness :
  reachable Scenario.maze first_fruit /\
  is_active_ first_fruit = true /\
  fruit_type_ first_fruit = 2 /\
  on_open_cell Scenario.maze first_fruit.
Proof.
  assert (R : reachable Scenario.maze first_fruit).
  { apply reach_update; [lia|lia|apply reach_new]. }
  split; [exact R|]. split; [vm_compute; reflexivity|]. split; [vm_compute; reflexivity|].
  apply (proj2 (fruit_spawns_on_open_cell Scenario.maze first_fruit R)).
  vm_compute. reflexivity.
Defined.

(** X15. [Fruit::check_collision] collects a fruit at most once: a second
    check at the same position returns false and changes nothing.  When
    it returns true the fruit was active and now is not, the popup shows
    at the fruit's position with its timer at zero, and the spawn timer
    is back at 30 s; when it returns false the fruit is unchanged. *)
Theorem fruit_is_collected_once (pacman_x pacman_y : float) (f : Fruit.t) :
  check_collision pacman_x pacman_y (fst (check_collision pacman_x pacman_y f))
  = (fst (check_collision pacman_x pacman_y f), false) /\
  if snd (check_collision pacman_x pacman_y f)
  then is_active_ f = true /\
       is_active_ (fst (check_collision pacman_x pacman_y f)) = false /\
       show_score_popup_ (fst (check_collision pacman_x pacman_y f)) = true /\
       popup_timer_ (fst (check_collision pacman_x pacman_y f)) = 0.0%float /\
       popup_x_ (fst (check_collision pacman_x pacman_y f)) = x_ f /\
       popup_y_ (fst (check_collision pacman_x pacman_y f)) = y_ f /\
       spawn_timer_ (fst (check_collision pacman_x pacman_y f)) = SPAWN_INTERVAL
  else fst (check_collision pacman_x pacman_y f) = f.
Proof.
  unfold check_collision. cbv zeta.
  destruct (is_active_ f) eqn:A; cbn [negb].
  - destruct (_ <=? COLLISION_DISTANCE)%float eqn:D; cbn [fst snd].
    + cbn [is_active_ negb]. repeat split; reflexivity.
    + rewrite A. cbn [negb]. rewrite D. split; reflexivity.
  - cbn [fst snd]. rewrite A. cbn [negb]. split; reflexivity.
Qed.

End FruitProperties.

(** ** The sound manager *)

Section SoundProperties.
Import SoundManager SoundSpec.
Local Open Scope Z_scope.

Ltac sound_cases s :=
  destruct s as [chase current blue start dot path];
  destruct chase, current, blue, start.

(** X16. [update_background_audio] settles in one call: called again
    with the same mode and pellet percentage, as the game does on every
    frame, it makes no audio call and leaves the sound state unchanged. *)
Theorem background_audio_settles
        (game_mode : GameMode) (pellet_percentage : float) (s : SoundManager.t) :
  update_background_audio game_mode pellet_percentage
    (fst (update_background_audio game_mode pellet_percentage s))
  = (fst (update_background_audio game_mode pellet_percentage s), []).
Proof.
  unfold update_background_audio, update_for_mode, stop_all_background_sounds,
    stop_current_chase_sound, stop_blue_if_playing, stop_start_if_playing, andthen.
  remember (get_chase_sound_for_percentage pellet_percentage) as required.
  destruct game_mode; sound_cases s; cbn;
    try reflexivity;
    try (rewrite String.eqb_refl; reflexivity);
    destruct (String.eqb s required) eqn:E; cbn;
    rewrite ?String.eqb_refl, ?E; reflexivity.
Qed.

Lemma consistent_cases (s : SoundManager.t) :
  consistent s ->
  (ghost_chase_sound_playing_ s = false /\ current_ghost_chase_sound_ s = None) \/
  (ghost_chase_sound_playing_ s = true /\
   exists name, current_ghost_chase_sound_ s = Some name).
Proof.
  unfold consistent. intros [H1 H2].
  destruct (ghost_chase_sound_playing_ s), (current_ghost_chase_sound_ s) as [name|].
  - right. split; [reflexivity|]. exists name. reflexivity.
  - exfalso. apply (H1 eq_refl). reflexivity.
  - assert (false = true) by (apply H2; discriminate). discriminate.
  - left. split; reflexivity.
Qed.

(** X17. From a state in which the chase flag agrees with the chase
    pointer, [update_background_audio] leaves such a state, in which the
    power-mode loop plays exactly in POWER_MODE, the start sound is marked
    playing exactly in STARTING, and the chase loop is the one required by
    the pellet percentage in NORMAL, untouched in STARTING and stopped in
    every other mode. *)
Theorem background_audio_follows_mode
        (game_mode : GameMode) (pellet_percentage : float) (s : SoundManager.t) :
  consistent s ->
  consistent (fst (update_background_audio game_mode pellet_percentage s)) /\
  ghost_blue_sound_playing_ (fst (update_background_audio game_mode pellet_percentage s))
  = GameMode_eqb game_mode POWER_MODE /\
  start_sound_playing_ (fst (update_background_audio game_mode pellet_percentage s))
  = GameMode_eqb game_mode STARTING /\
  current_ghost_chase_sound_ (fst (update_background_audio game_mode pellet_percentage s))
  = match game_mode with
    | NORMAL => Some (get_chase_sound_for_percentage pellet_percentage)
    | STARTING => current_ghost_chase_sound_ s
    | _ => None
    end.
Proof.
  intros C.
  assert (K : forall b n, consistent (mk b n false false true ""%string) ->
                          forall b1 b2 d p, consistent (mk b n b1 b2 d p)).
  { intros b n H b1 b2 d p. exact H. }
  destruct (consistent_cases s C) as [[P N]|[P [name N]]];
    destruct s as [chase current blue start dot path];
    cbn [ghost_chase_sound_playing_ current_ghost_chase_sound_] in P, N; subst;
    unfold update_background_audio, update_for_mode, stop_all_background_sounds,
      stop_current_chase_sound, stop_blue_if_playing, stop_start_if_playing, andthen;
    remember (get_chase_sound_for_percentage pellet_percentage) as required;
    destruct game_mode, blue, start; cbn;
    try destruct (String.eqb name required) eqn:E; cbn;
    (split; [unfold consistent; cbn; split; intros; try discriminate; try congruence
            |repeat split; try reflexivity;
             try (apply String.eqb_eq in E; congruence)]).
Qed.

Lemma background_audio_follows_mode_witness :
  consistent SoundManager.new /\
  fst (update_background_audio NORMAL 80.0 SoundManager.new)
  = mk true (Some GHOST_CHASE_SOUND_NAME) false false true BASE_SOUND_PATH /\
  current_ghost_chase_sound_ (fst (update_background_audio NORMAL 80.0 SoundManager.new))
  = Some (get_chase_sound_for_percentage 80.0).
Proof.
  assert (C : consistent SoundManager.new).
  { unfold consistent. cbn. split; intros H; [discriminate|congruence]. }
  split; [exact C|]. split; [vm_compute; reflexivity|].
  exact (proj2 (proj2 (proj2 (background_audio_follows_mode NORMAL 80.0
                                SoundManager.new C)))).
Defined.

(** X18. The pellet sound alternates: two [play_dot_collection_sound]
    calls in a row play the two dot sounds, one each, and bring the sound
    state back to what it was. *)
Theorem dot_sound_alternates (s : SoundManager.t) :
  fst (play_dot_collection_sound (fst (play_dot_collection_sound s))) = s /\
  (snd (play_dot_collection_sound s)
   ++ snd (play_dot_collection_sound (fst (play_dot_collection_sound s)))
   = if use_dot1_sound_ s
     then [PlayOnce DOT1_SOUND_NAME; PlayOnce DOT2_SOUND_NAME]
     else [PlayOnce DOT2_SOUND_NAME; PlayOnce DOT1_SOUND_NAME]).
Proof.
  destruct s as [chase current blue start dot path].
  unfold play_dot_collection_sound. cbn [fst snd use_dot1_sound_ ghost_chase_sound_playing_
    current_ghost_chase_sound_ ghost_blue_sound_playing_ start_sound_playing_
    sound_base_path_ app].
  rewrite negb_involutive. destruct dot; split; reflexivity.
Qed.

Lemma stop_all_frees_nothing (s : SoundManager.t) :
  freed_names (snd (stop_all_sounds s)) = [].
Proof.
  unfold stop_all_sounds, stop_all_background_sounds, stop_current_chase_sound,
    stop_blue_if_playing, stop_start_if_playing, andthen.
  sound_cases s; reflexivity.
Qed.

Lemma freed_names_app (xs ys : list AudioCall) :
  freed_names (xs ++ ys) = freed_names xs ++ freed_names ys.
Proof. unfold freed_names. apply flat_map_app. Qed.

Lemma never_freed (has_sound_effect : string -> bool) (name : string)
      (names : list string) :
  existsb (String.eqb name) names = false ->
  existsb (String.eqb name)
          (freed_names (flat_map (fun n => if has_sound_effect n
                                           then [FreeSoundEffect n] else []) names))
  = false.
Proof.
  induction names as [|n names IH]; intros H; [reflexivity|].
  cbn [existsb] in H. apply orb_false_iff in H as [Hn Hrest].
  cbn [flat_map]. rewrite freed_names_app, existsb_app, (IH Hrest), orb_false_r.
  destruct (has_sound_effect n); [|reflexivity].
  cbn. rewrite Hn. reflexivity.
Qed.

(** X19. [unload_all_sounds] does not undo [initialize]: with every
    sound loaded it frees the sounds [initialize] loads, in the same
    order, except the last one, the fruit sound, which it never frees
    whatever the audio library answers. *)
Theorem unload_leaves_fruit_sound
        (has_sound_effect : string -> bool) (s s' : SoundManager.t) :
  loaded_names (snd (fst (initialize s)))
  = freed_names (snd (unload_all_sounds (fun _ => true) s')) ++ [FRUIT_SOUND_NAME] /\
  existsb (String.eqb FRUIT_SOUND_NAME)
          (freed_names (snd (unload_all_sounds has_sound_effect s'))) = false.
Proof.
  unfold unload_all_sounds, andthen.
  pose proof (stop_all_frees_nothing s') as F.
  destruct (stop_all_sounds s') as [s1 calls1]. cbn [snd] in *.
  rewrite !freed_names_app, F. cbn [app]. split; [reflexivity|].
  apply never_freed. vm_compute. reflexivity.
Qed.

Lemma back_append_slash (p : string) : back (p ++ "/") = Some slash.
Proof.
  induction p as [|c p IH]; [reflexivity|].
  cbn [append back]. destruct (p ++ "/")%string eqn:E; [|exact IH].
  destruct p; discriminate.
Qed.

Lemma back_nonempty (p : string) : forall c, back (String c p) <> None.
Proof.
  induction p as [|c' p IH]; intros c; [discriminate|].
  change (back (String c (String c' p))) with (back (String c' p)). apply IH.
Qed.

(** X20. After [set_sound_base_path] the base path is the given path,
    with a '/' added if it was missing: unless empty it ends in '/', and
    setting the resulting path again changes nothing. *)
Theorem sound_base_path_ends_with_slash (base_path : string) (s : SoundManager.t) :
  (sound_base_path_ (set_sound_base_path base_path s) = base_path \/
   sound_base_path_ (set_sound_base_path base_path s) = (base_path ++ "/")%string) /\
  (base_path = ""%string \/
   back (sound_base_path_ (set_sound_base_path base_path s)) = Some slash) /\
  set_sound_base_path (sound_base_path_ (set_sound_base_path base_path s))
                      (set_sound_base_path base_path s)
  = set_sound_base_path base_path s.
Proof.
  unfold set_sound_base_path.
  cbn [sound_base_path_ ghost_chase_sound_playing_ current_ghost_chase_sound_
       ghost_blue_sound_playing_ start_sound_playing_ use_dot1_sound_].
  destruct (back base_path) as [c|] eqn:B.
  - destruct (Ascii.eqb c slash) eqn:E.
    + apply Ascii.eqb_eq in E. subst c.
      split; [left; reflexivity|]. split; [right; exact B|].
      rewrite B, Ascii.eqb_refl. reflexivity.
    + split; [right; reflexivity|]. split; [right; apply back_append_slash|].
      rewrite back_append_slash, Ascii.eqb_refl. reflexivity.
  - split; [left; reflexivity|]. split; [left|rewrite B; reflexivity].
    destruct base_path as [|c p]; [reflexivity|].
    exfalso. exact (back_nonempty p c B).
Qed.

End SoundProperties.

(** ** The whole tick *)

Section TickProperties.
Import Game GameTick TickSpec.
Local Open Scope Z_scope.

Ltac tick_fields :=
  cbn [game fruit_ maze_ pacman_ ghost1_ ghost2_ game_state_ menu_ running_
       game_initialized_ current_game_mode_ previous_game_mode_ current_level_
       previous_power_pellets trace emit set_pacman set_ghost1 set_ghost2 set_game_state
       set_menu set_game_initialized set_modes set_previous_power_pellets] in *.

Lemma tens_above_refl (a : Z) : tens_above a a.
Proof. exists 0. lia. Qed.

Lemma tens_above_trans (a b c : Z) : tens_above a b -> tens_above b c -> tens_above a c.
Proof. intros (k & Hk & ->) (l & Hl & ->). exists (k + l). lia. Qed.

Lemma tens_above_add (a n : Z) : 0 <= n -> tens_above a (a + 10 * n).
Proof. intros H. exists n. lia. Qed.

Lemma token_loop_tens (x y : float) (ts : list Token.t) :
  forall score collected any just,
    tens_above score
      (fst (fst (snd (GameState.token_loop x y ts score collected any just)))).
Proof.
  induction ts as [|a ts IH]; intros score collected any just;
    cbn [GameState.token_loop].
  - apply tens_above_refl.
  - destruct (negb (Token.is_collected a) && _).
    + specialize (IH (score + MazeConfig.TOKEN_POINTS) (collected + 1) true true).
      destruct (GameState.token_loop x y ts _ _ _ _) as [rest' r]. cbn [fst snd] in *.
      apply tens_above_trans with (2 := IH). apply (tens_above_add score 1). lia.
    + specialize (IH score collected any just).
      destruct (GameState.token_loop x y ts _ _ _ _) as [rest' r]. exact IH.
Qed.

Lemma power_pellet_loop_tens (x y : float) (ps : list PowerPellet.t) :
  forall score any,
    tens_above score (fst (snd (GameState.power_pellet_loop x y ps score any))).
Proof.
  induction ps as [|a ps IH]; intros score any; cbn [GameState.power_pellet_loop].
  - apply tens_above_refl.
  - destruct (negb (PowerPellet.is_collected a) && _).
    + specialize (IH (score + MazeConfig.POWER_PELLET_POINTS) true).
      destruct (GameState.power_pellet_loop x y ps _ _) as [rest' r]. cbn [fst snd] in *.
      apply tens_above_trans with (2 := IH). apply (tens_above_add score 5). lia.
    + specialize (IH score any).
      destruct (GameState.power_pellet_loop x y ps _ _) as [rest' r]. exact IH.
Qed.

Lemma check_token_collection_tens (x y : float) (s : GameState.t) :
  tens_above (GameState.score_ s)
             (GameState.score_ (fst (GameState.check_token_collection x y s))).
Proof.
  unfold GameState.check_token_collection.
  pose proof (token_loop_tens x y (GameState.tokens_ s) (GameState.score_ s)
                (GameState.tokens_collected_ s) false
                (GameState.token_just_collected_ s)) as H.
  destruct (GameState.token_loop _ _ _ _ _ _ _) as [ts [[score collected] [any just]]].
  exact H.
Qed.

Lemma check_power_pellet_collection_tens (x y : float) (s : GameState.t) :
  tens_above (GameState.score_ s)
             (GameState.score_ (fst (GameState.check_power_pellet_collection x y s))).
Proof.
  unfold GameState.check_power_pellet_collection.
  pose proof (power_pellet_loop_tens x y (GameState.power_pellets_ s)
                (GameState.score_ s) false) as H.
  destruct (GameState.power_pellet_loop _ _ _ _ _) as [ps [score any]].
  exact H.
Qed.

Lemma scare_keeps_game_state (n : Z) (g : Game.t) :
  game_state_ (scare_ghosts_on_power_pellet n g) = game_state_ g.
Proof.
  unfold scare_ghosts_on_power_pellet.
  repeat match goal with
         | |- context [if ?c then _ else _] => destruct c
         end; reflexivity.
Qed.

Lemma pacman_update_game_state (maze : Maze.t) (gs : GameState.t) (delta_time : float)
      (p : Pacman.t) :
  exists x y,
    snd (Pacman.update maze gs delta_time p)
    = fst (GameState.check_power_pellet_collection x y
             (fst (GameState.check_token_collection x y gs))).
Proof. unfold Pacman.update. eexists. eexists. reflexivity. Qed.

Lemma player_phase_tens (delta_time : float) (g : Game.t) :
  tens_above (GameState.score_ (game_state_ g))
             (GameState.score_ (game_state_ (update_player_and_power_pellets delta_time g))).
Proof.
  unfold update_player_and_power_pellets.
  destruct (pacman_update_game_state (maze_ g) (game_state_ g) delta_time (pacman_ g))
    as (x & y & E).
  destruct (Pacman.update (maze_ g) (game_state_ g) delta_time (pacman_ g)) as [p gs].
  cbn [snd] in E. subst gs. rewrite scare_keeps_game_state. tick_fields.
  apply tens_above_trans
    with (b := GameState.score_
                 (fst (GameState.check_power_pellet_collection x y
                         (fst (GameState.check_token_collection x y (game_state_ g)))))).
  - eapply tens_above_trans; [apply check_token_collection_tens|].
    apply check_power_pellet_collection_tens.
  - destruct (GameState.was_token_just_collected _); tick_fields; apply tens_above_refl.
Qed.

Lemma ghost_phase_keeps_game_state (inp : Inputs) (delta_time : float) (g : Game.t) :
  game_state_ (update_ghosts inp delta_time g) = game_state_ g.
Proof. reflexivity. Qed.

Lemma fruit_phase_tens (inp : Inputs) (delta_time : float) (w : GameTick.t) :
  tens_above (score_of w) (score_of (update_fruit inp delta_time w)).
Proof.
  unfold update_fruit, score_of. cbv zeta.
  destruct (Fruit.check_collision _ _ _) as [f2 hit].
  destruct hit; tick_fields; [|apply tens_above_refl].
  cbn [GameState.add_score GameState.score_ Fruit.get_points].
  apply (tens_above_add _ 20). lia.
Qed.

Lemma game_over_sequence_keeps_score (g : Game.t) :
  GameState.score_ (game_state_ (game_over_sequence g)) = GameState.score_ (game_state_ g).
Proof.
  unfold game_over_sequence. cbv zeta. destruct (Menu.is_endless_mode _); reflexivity.
Qed.

Lemma ghost2_collision_tens (g : Game.t) :
  tens_above (GameState.score_ (game_state_ g))
             (GameState.score_ (game_state_ (handle_ghost2_collision g))).
Proof.
  unfold handle_ghost2_collision.
  destruct (collides _ _); [|apply tens_above_refl].
  destruct (Ghost.is_scared _).
  - tick_fields. cbn [GameState.add_score GameState.score_].
    apply (tens_above_add _ 40). lia.
  - destruct (negb _); [|apply tens_above_refl].
    rewrite game_over_sequence_keeps_score. apply tens_above_refl.
Qed.

Lemma ghost_collisions_tens (g : Game.t) :
  tens_above (GameState.score_ (game_state_ g))
             (GameState.score_ (game_state_ (handle_ghost_collisions g))).
Proof.
  unfold handle_ghost_collisions.
  destruct (collides _ (ghost1_ g)); [|apply ghost2_collision_tens].
  destruct (Ghost.is_scared (ghost1_ g)).
  - eapply tens_above_trans; [|apply ghost2_collision_tens].
    tick_fields. cbn [GameState.add_score GameState.score_].
    apply (tens_above_add _ 40). lia.
  - destruct (negb _); [|apply ghost2_collision_tens].
    rewrite game_over_sequence_keeps_score. apply tens_above_refl.
Qed.

Lemma initialize_tokens_keeps_score (m : Maze.t) (spawn_row spawn_col : Z)
      (s : GameState.t) :
  GameState.score_ (MazeInit.initialize_tokens m spawn_row spawn_col s)
  = GameState.score_ s.
Proof.
  unfold MazeInit.initialize_tokens.
  apply (fold_left_preserves (fun s' => GameState.score_ s' = GameState.score_ s));
    [|reflexivity].
  intros a r Ha.
  apply (fold_left_preserves (fun s' => GameState.score_ s' = GameState.score_ s));
    [|exact Ha].
  intros a' c Ha'.
  destruct (Maze.is_empty m r c); [|exact Ha'].
  destruct (_ && _); exact Ha'.
Qed.

Lemma initialize_power_pellets_keeps_score (m : Maze.t) (s : GameState.t) :
  GameState.score_ (MazeInit.initialize_power_pellets m s) = GameState.score_ s.
Proof.
  unfold MazeInit.initialize_power_pellets.
  apply (fold_left_preserves (fun s' => GameState.score_ s' = GameState.score_ s));
    [|reflexivity].
  intros a pos Ha. destruct (Maze.is_empty m _ _); exact Ha.
Qed.

Lemma advance_keeps_score (load : Z -> Maze.t) (w : GameTick.t) :
  score_of (advance_to_next_level load w) = score_of w.
Proof.
  unfold advance_to_next_level, score_of. cbv zeta.
  destruct (negb (Menu.is_endless_mode _)); [reflexivity|].
  tick_fields. cbn [GameState.add_score GameState.score_ GameState.get_score].
  rewrite initialize_power_pellets_keeps_score, initialize_tokens_keeps_score.
  reflexivity.
Qed.

Lemma finish_tick_keeps_score (inp : Inputs) (w : GameTick.t) :
  score_of (finish_tick inp w) = score_of w.
Proof.
  unfold finish_tick. cbv zeta.
  destruct (check_win_condition (game w)); [|reflexivity].
  rewrite advance_keeps_score. reflexivity.
Qed.

Lemma tick_tens (inp : Inputs) (delta_time : float) (w : GameTick.t) :
  tens_above (score_of w) (score_of (GameTick.update inp delta_time w)).
Proof.
  unfold GameTick.update. cbv zeta.
  destruct (update_game_mode_keeps (start_sound_playing inp)
              (emit [UpdateBackgroundAudio (current_game_mode_ (game w))
                                           (calculate_pellet_percentage (game w))]
                    (game w))) as (_ & _ & Hgs & _).
  destruct (GameMode_eqb _ STARTING).
  - unfold score_of. tick_fields. rewrite Hgs. apply tens_above_refl.
  - rewrite finish_tick_keeps_score. unfold score_of at 2. tick_fields.
    eapply tens_above_trans; [|apply ghost_collisions_tens].
    eapply tens_above_trans; [|apply (fruit_phase_tens inp delta_time)].
    unfold score_of. tick_fields. rewrite ghost_phase_keeps_game_state.
    eapply tens_above_trans; [|apply player_phase_tens].
    rewrite Hgs. apply tens_above_refl.
Qed.

(** Wrapping after every addition and wrapping the sum are the same. *)
Lemma as_int_add (a b : Z) : as_int (as_int a + b) = as_int (a + b).
Proof.
  unfold as_int.
  replace ((a + 2 ^ 31) mod 2 ^ 32 - 2 ^ 31 + b + 2 ^ 31)
    with ((a + 2 ^ 31) mod 2 ^ 32 + b) by lia.
  replace (a + b + 2 ^ 31) with (a + 2 ^ 31 + b) by lia.
  rewrite Z.add_mod_idemp_l by lia. reflexivity.
Qed.

(** [score_ += points] on the machine, seen through [as_int]. *)
Lemma add_score_as_int (points : Z) (s : GameState.t) :
  as_int (GameState.score_ (GameState.add_score points s))
  = as_int (as_int (GameState.score_ s) + points).
Proof. cbn [GameState.add_score GameState.score_]. symmetry. apply as_int_add. Qed.

Lemma as_int_in_range (z : Z) : INT_MIN <= z <= INT_MAX -> as_int z = z.
Proof.
  unfold as_int, INT_MIN, INT_MAX. intros H.
  rewrite Z.mod_small by lia. lia.
Qed.

(** X21. As long as the score stays within the range of the [int] that
    holds it, whatever happens in a tick of [Game::update] (pellets, power
    pellets, fruit, captured ghosts, a fatal collision, a won level, the
    change to the next level), the score never goes down and it changes
    by a multiple of ten.  The hypotheses say that the score before the
    tick is an [int] and that the points of the tick do not take it
    above [INT_MAX]. *)
Theorem score_grows_by_tens (inp : Inputs) (delta_time : float) (w : GameTick.t) :
  INT_MIN <= score_of w ->
  score_of (GameTick.update inp delta_time w) <= INT_MAX ->
  exists k, 0 <= k /\
            int_score_of (GameTick.update inp delta_time w) = int_score_of w + 10 * k.
Proof.
  intros Hlo Hhi.
  destruct (tick_tens inp delta_time w) as (k & Hk & E).
  exists k. split; [exact Hk|].
  unfold int_score_of.
  rewrite (as_int_in_range (score_of w)) by lia.
  rewrite (as_int_in_range (score_of (GameTick.update inp delta_time w))) by lia.
  exact E.
Qed.

Lemma score_grows_by_tens_witness :
  INT_MIN <= score_of ghost_in_reach /\
  score_of (GameTick.update start_sound_over Scenario.frame ghost_in_reach) <= INT_MAX /\
  int_score_of ghost_in_reach = 0 /\
  int_score_of (GameTick.update start_sound_over Scenario.frame ghost_in_reach) = 60 /\
  exists k, 0 <= k /\
            int_score_of (GameTick.update start_sound_over Scenario.frame ghost_in_reach)
            = int_score_of ghost_in_reach + 10 * k.
Proof.
  assert (Hlo : INT_MIN <= score_of ghost_in_reach) by (vm_compute; discriminate).
  assert (Hhi : score_of (GameTick.update start_sound_over Scenario.frame ghost_in_reach)
                <= INT_MAX) by (vm_compute; discriminate).
  split; [exact Hlo|]. split; [exact Hhi|].
  split; [vm_compute; reflexivity|]. split; [vm_compute; reflexivity|].
  exact (score_grows_by_tens start_sound_over Scenario.frame ghost_in_reach Hlo Hhi).
Defined.

(** Above the range the [int] wraps: with 2147483640 points, the pellet
    under the player takes the model's score to 2147483650, and the
    [int] holds -2147483646, less than before the tick. *)
Example score_wraps_above_int_max :
  int_score_of near_int_max = 2147483640 /\
  score_of (GameTick.update start_sound_over Scenario.frame near_int_max) = 2147483650 /\
  int_score_of (GameTick.update start_sound_over Scenario.frame near_int_max)
  = -2147483646.
Proof. vm_compute. repeat split. Qed.

(** X22. While the game mode is STARTING and the start sound is still
    playing, a tick moves nothing: the ghosts, the pellets and score, the
    fruit, the maze and the player's position and direction are unchanged,
    the mode stays STARTING, and the only call made is the background
    audio update. *)
Theorem starting_tick_moves_nothing (inp : Inputs) (delta_time : float) (w : GameTick.t) :
  current_game_mode_ (game w) = STARTING -> start_sound_playing inp = true ->
  fruit_ (GameTick.update inp delta_time w) = fruit_ w /\
  ghost1_ (game (GameTick.update inp delta_time w)) = ghost1_ (game w) /\
  ghost2_ (game (GameTick.update inp delta_time w)) = ghost2_ (game w) /\
  game_state_ (game (GameTick.update inp delta_time w)) = game_state_ (game w) /\
  maze_ (game (GameTick.update inp delta_time w)) = maze_ (game w) /\
  Pacman.base (pacman_ (game (GameTick.update inp delta_time w)))
  = Pacman.base (pacman_ (game w)) /\
  current_game_mode_ (game (GameTick.update inp delta_time w)) = STARTING /\
  trace (game (GameTick.update inp delta_time w))
  = trace (game w) ++ [UpdateBackgroundAudio STARTING
                                             (calculate_pellet_percentage (game w))].
Proof.
  intros Hm Hs. unfold GameTick.update. cbv zeta.
  unfold update_game_mode. tick_fields. rewrite Hm, Hs. cbn [GameMode_eqb negb].
  tick_fields. cbn [GameMode_eqb]. tick_fields.
  repeat split; reflexivity.
Qed.

Lemma starting_tick_moves_nothing_witness :
  current_game_mode_ (game starting_level) = STARTING /\
  start_sound_playing sound_still_playing = true /\
  ghost1_ (game (GameTick.update sound_still_playing 0.015625 starting_level))
  = ghost1_ (game starting_level) /\
  fruit_ (GameTick.update sound_still_playing 0.015625 starting_level)
  = fruit_ starting_level.
Proof.
  split; [reflexivity|]. split; [reflexivity|].
  destruct (starting_tick_moves_nothing sound_still_playing 0.015625 starting_level
              eq_refl eq_refl) as (F & G1 & _).
  split; [exact G1|exact F].
Defined.

Lemma initialized_fresh (s : GameState.t) :
  Pellets.initialized s ->
  GameState.tokens_collected_ s = 0 /\ GameState.score_ s = 0 /\
  Forall (fun t => Token.is_collected t = false) (GameState.tokens_ s) /\
  Forall (fun p => PowerPellet.is_collected p = false) (GameState.power_pellets_ s).
Proof.
  induction 1 as [|s row col _ (C & S & T & P)|s row col _ (C & S & T & P)].
  - repeat split; constructor.
  - cbn [GameState.add_token GameState.tokens_collected_ GameState.score_
         GameState.tokens_ GameState.power_pellets_].
    repeat split; try assumption.
    apply Forall_app. split; [exact T|]. constructor; [reflexivity|constructor].
  - cbn [GameState.add_power_pellet GameState.tokens_collected_ GameState.score_
         GameState.tokens_ GameState.power_pellets_].
    repeat split; try assumption.
    apply Forall_app. split; [exact P|]. constructor; [reflexivity|constructor].
Qed.

(** X23. [advance_to_next_level] in endless mode resets part of the game
    and carries the rest over.  New are the level number (it follows
    1, 2, 3, 4, 5, 1 and never exceeds 5), the maze loaded for it, the
    pellets and power pellets, all uncollected, the fruit, and the modes,
    both STARTING; the player and the ghosts are put on the centres of
    their spawn cells of the new maze, and the ghosts are set to CHASING
    with their scared, flash and cooldown timers at zero.  Carried over
    are the score and every other member: of the player its direction,
    desired direction, power mode, animation, palette and speed
    multiplier; of each ghost its direction, desired direction, targets,
    home position, actual scared duration, AI type, patrol heading,
    animation and score popup; of the game the menu, the running and
    initialised flags, the last sample of the collected power pellets and
    the calls made so far.  In single-level mode the game goes back to the
    main menu with the player, the ghosts, the maze, the pellets, the
    score, the level and the fruit untouched. *)
Theorem next_level_resets_and_carries_over (load : Z -> Maze.t) :
  (forall w : GameTick.t,
      let g := game w in
      let g' := game (advance_to_next_level load w) in
      Menu.is_endless_mode (menu_ g) = true ->
      (current_level_ g'
       = (if current_level_ g + 1 >? 5 then 1 else current_level_ g + 1) /\
       current_level_ g' <= 5 /\
       maze_ g' = load (current_level_ g') /\
       GameState.tokens_collected_ (game_state_ g') = 0 /\
       Forall (fun t => Token.is_collected t = false)
              (GameState.tokens_ (game_state_ g')) /\
       Forall (fun p => PowerPellet.is_collected p = false)
              (GameState.power_pellets_ (game_state_ g')) /\
       fruit_ (advance_to_next_level load w) = Fruit.new true /\
       current_game_mode_ g' = STARTING /\
       previous_game_mode_ g' = STARTING) /\
      (centre_of (spawn_of (maze_ g') pacman_target)
                 (Pacman.get_x (pacman_ g')) (Pacman.get_y (pacman_ g')) /\
       centre_of (spawn_of (maze_ g') ghost1_target)
                 (Ghost.get_x (ghost1_ g')) (Ghost.get_y (ghost1_ g')) /\
       centre_of (spawn_of (maze_ g') ghost2_target)
                 (Ghost.get_x (ghost2_ g')) (Ghost.get_y (ghost2_ g')) /\
       chasing_afresh (ghost1_ g') /\
       chasing_afresh (ghost2_ g')) /\
      (GameState.score_ (game_state_ g') = GameState.score_ (game_state_ g) /\
       player_carried (pacman_ g') = player_carried (pacman_ g) /\
       ghost_carried (ghost1_ g') = ghost_carried (ghost1_ g) /\
       ghost_carried (ghost2_ g') = ghost_carried (ghost2_ g) /\
       game_carried g' = game_carried g)) /\
  (forall w : GameTick.t,
      let g := game w in
      let g' := game (advance_to_next_level load w) in
      Menu.is_endless_mode (menu_ g) = false ->
      (pacman_ g', ghost1_ g', ghost2_ g', maze_ g', game_state_ g', current_level_ g',
       fruit_ (advance_to_next_level load w))
      = (pacman_ g, ghost1_ g, ghost2_ g, maze_ g, game_state_ g, current_level_ g,
         fruit_ w) /\
      Menu.get_state (menu_ g') = MAIN_MENU /\
      game_initialized_ g' = false /\
      current_game_mode_ g' = VICTORY).
Proof.
  split; intros w g g' He; subst g g'.
  - split; [|split].
    + unfold advance_to_next_level. cbv zeta. rewrite He. cbn [negb]. tick_fields.
      split; [reflexivity|].
      split; [destruct (current_level_ (game w) + 1 >? 5) eqn:E; [lia|];
              rewrite Z.gtb_ltb in E; apply Z.ltb_ge in E; exact E|].
      split; [reflexivity|].
      match goal with
      | |- context [GameState.add_score ?n (MazeInit.initialize_power_pellets ?m
                      (MazeInit.initialize_tokens ?m ?r ?c GameState.new))] =>
          destruct (initialized_fresh _
                      (level_initialisation_initialized m r c GameState.new
                         Pellets.init_new)) as (C & _ & T & P)
      end.
      cbn [GameState.add_score GameState.tokens_collected_ GameState.tokens_
           GameState.power_pellets_].
      repeat split; try assumption; reflexivity.
    + unfold advance_to_next_level. cbv zeta. rewrite He. cbn [negb]. tick_fields.
      unfold centre_of, chasing_afresh. repeat split; reflexivity.
    + split; [apply advance_keeps_score|].
      unfold advance_to_next_level. cbv zeta. rewrite He. cbn [negb]. tick_fields.
      repeat split; reflexivity.
  - unfold advance_to_next_level. cbv zeta. rewrite He. cbn [negb]. tick_fields.
    repeat split; reflexivity.
Qed.

Lemma next_level_resets_and_carries_over_witness :
  (Menu.is_endless_mode (menu_ (game (won_level endless_menu))) = true /\
   score_of (advance_to_next_level Maze.fallback (won_level endless_menu)) = 1230 /\
   current_level_ (game (advance_to_next_level Maze.fallback (won_level endless_menu)))
   = 1 /\
   Pacman.get_direction
     (pacman_ (game (advance_to_next_level Maze.fallback (won_level endless_menu))))
   = DIR_LEFT /\
   Pacman.is_in_power_mode_
     (pacman_ (game (advance_to_next_level Maze.fallback (won_level endless_menu))))
   = true /\
   Ghost.show_score_popup_
     (ghost1_ (game (advance_to_next_level Maze.fallback (won_level endless_menu))))
   = true /\
   previous_power_pellets
     (game (advance_to_next_level Maze.fallback (won_level endless_menu))) = 2) /\
  (Menu.is_endless_mode (menu_ (game (won_level single_level_menu))) = false /\
   Menu.get_state
     (menu_ (game (advance_to_next_level Maze.fallback (won_level single_level_menu))))
   = MAIN_MENU).
Proof.
  split.
  - split; [reflexivity|].
    destruct (proj1 (next_level_resets_and_carries_over Maze.fallback)
                    (won_level endless_menu) eq_refl)
      as ((L & _) & _ & (S & P & G1 & _ & G)).
    split; [unfold score_of; rewrite S; reflexivity|].
    split; [rewrite L; reflexivity|].
    split; [exact (f_equal (fun '(d, _, _, _, _, _, _, _) => d) P)|].
    split; [exact (f_equal (fun '(_, _, _, _, _, _, _, m) => m) P)|].
    split; [exact (f_equal (fun '(_, _, _, _, _, _, _, _, _, _, _, _, _, _, _, _, _,
                                  popup, _, _, _) => popup) G1)
           |exact (f_equal (fun '(_, _, _, sample, _) => sample) G)].
  - split; [reflexivity|].
    destruct (proj2 (next_level_resets_and_carries_over Maze.fallback)
                    (won_level single_level_menu) eq_refl) as (_ & M & _).
    exact M.
Defined.

(** *** A fatal collision in the whole tick *)

Lemma update_past_starting (inp : Inputs) (delta_time : float) (w : GameTick.t) :
  skips_entities inp w = false ->
  GameTick.update inp delta_time w
  = finish_tick inp
      (GameTick.mk
         (handle_ghost_collisions (game (update_until_collisions inp delta_time w)))
         (fruit_ (update_until_collisions inp delta_time w))).
Proof.
  unfold skips_entities, GameTick.update, update_until_collisions. cbv zeta.
  intros H. rewrite H. reflexivity.
Qed.

Lemma update_game_mode_frame (start_sound_playing : bool) (g : Game.t) :
  menu_ (update_game_mode start_sound_playing g) = menu_ g /\
  running_ (update_game_mode start_sound_playing g) = running_ g.
Proof.
  unfold update_game_mode. tick_fields.
  destruct (GameMode_eqb (current_game_mode_ g) STARTING);
    [destruct (negb start_sound_playing)|]; tick_fields; split; reflexivity.
Qed.

Lemma player_phase_frame (delta_time : float) (g : Game.t) :
  menu_ (update_player_and_power_pellets delta_time g) = menu_ g /\
  running_ (update_player_and_power_pellets delta_time g) = running_ g.
Proof.
  unfold update_player_and_power_pellets, scare_ghosts_on_power_pellet.
  destruct (Pacman.update (maze_ g) (game_state_ g) delta_time (pacman_ g)) as [p gs].
  repeat match goal with
         | |- context [if ?c then _ else _] => destruct c
         end; split; reflexivity.
Qed.

Lemma ghost_phase_frame (inp : Inputs) (delta_time : float) (g : Game.t) :
  menu_ (update_ghosts inp delta_time g) = menu_ g /\
  running_ (update_ghosts inp delta_time g) = running_ g.
Proof. split; reflexivity. Qed.

Lemma fruit_phase_frame (inp : Inputs) (delta_time : float) (g : Game.t) (f : Fruit.t) :
  menu_ (game (update_fruit inp delta_time (GameTick.mk g f))) = menu_ g /\
  running_ (game (update_fruit inp delta_time (GameTick.mk g f))) = running_ g.
Proof.
  unfold update_fruit. cbv zeta. cbn [game fruit_].
  destruct (Fruit.check_collision _ _ _) as [f2 hit].
  destruct hit; split; reflexivity.
Qed.

Lemma until_collisions_frame (inp : Inputs) (delta_time : float) (w : GameTick.t) :
  menu_ (game (update_until_collisions inp delta_time w)) = menu_ (game w) /\
  running_ (game (update_until_collisions inp delta_time w)) = running_ (game w).
Proof.
  unfold update_until_collisions. cbv zeta.
  match goal with
  | |- context [update_fruit inp delta_time (GameTick.mk ?g3 ?f)] =>
      destruct (fruit_phase_frame inp delta_time g3 f) as [M3 R3]
  end.
  match goal with
  | |- context [update_ghosts inp delta_time ?g2] =>
      destruct (ghost_phase_frame inp delta_time g2) as [M2 R2]
  end.
  match goal with
  | |- context [update_player_and_power_pellets delta_time ?g1] =>
      destruct (player_phase_frame delta_time g1) as [M1 R1]
  end.
  match goal with
  | |- context [update_game_mode (start_sound_playing inp) ?g0] =>
      destruct (update_game_mode_frame (start_sound_playing inp) g0) as [M0 R0]
  end.
  rewrite M3, R3, M2, R2, M1, R1, M0, R0. split; reflexivity.
Qed.

(** The fatal branch followed by the win test and what it starts. *)
Lemma game_over_then_win_test (inp : Inputs) (f : Fruit.t) (g0 : Game.t) :
  running_ (game (finish_tick inp (GameTick.mk (game_over_sequence g0) f)))
  = running_ g0 /\
  game_initialized_ (game (finish_tick inp (GameTick.mk (game_over_sequence g0) f)))
  = false /\
  current_game_mode_ (game (finish_tick inp (GameTick.mk (game_over_sequence g0) f)))
  = (if GameState.all_tokens_collected (game_state_ g0)
     then if Menu.is_endless_mode (menu_ g0) then STARTING else VICTORY
     else GAME_OVER) /\
  Menu.get_state (menu_ (game (finish_tick inp (GameTick.mk (game_over_sequence g0) f))))
  = (if Menu.is_endless_mode (menu_ g0) then NAME_ENTRY else MAIN_MENU).
Proof.
  unfold finish_tick, check_win_condition, advance_to_next_level, game_over_sequence.
  cbv zeta. tick_fields.
  destruct (Menu.is_endless_mode (menu_ g0)) eqn:E; tick_fields;
    destruct (GameState.all_tokens_collected (game_state_ g0)); tick_fields;
    unfold Menu.is_endless_mode in *;
    cbn [Menu.start_name_entry Menu.set_state Menu.reset_game_start_flag
         Menu.endless_mode_ Menu.get_state Menu.current_state_];
    rewrite ?E; cbn [negb]; tick_fields; repeat split; reflexivity.
Qed.

(** C2 (amended). Take a tick of [Game::update] that gets past the
    STARTING return.  When, at the moment collisions are resolved, a ghost
    that can interact and is neither SCARED nor CAUGHT is within 20 pixels
    of the player, the collision resolution sets the game mode to
    GAME_OVER, marks the game as not initialised and hands over to the
    menu (name entry in endless mode, main menu otherwise), and it leaves
    the running flag as it was.  At the end of the tick the game is still
    marked as not initialised, the menu still has control and the running
    flag is the one the tick started with; the mode is still GAME_OVER
    unless every pellet has been collected by then: the win test that
    follows the resolution then replaces it by STARTING (endless mode, the
    next level being loaded) or VICTORY (single-level mode).  Whenever the
    running flag is false, the derived game mode is GAME_OVER. *)
Theorem fatal_collision_is_game_over :
  (forall (inp : Inputs) (delta_time : float) (w : GameTick.t) (gh : Ghost.t),
      let before := game (update_until_collisions inp delta_time w) in
      let after := game (GameTick.update inp delta_time w) in
      skips_entities inp w = false ->
      gh = ghost1_ before \/ gh = ghost2_ before ->
      (distance_to (pacman_ before) gh <=? GameConfig.COLLISION_DISTANCE)%float = true ->
      Ghost.can_interact gh = true ->
      Ghost.current_state_ gh <> SCARED ->
      Ghost.current_state_ gh <> CAUGHT ->
      GameSpec.game_over_outcome before (handle_ghost_collisions before) /\
      running_ after = running_ (game w) /\
      game_initialized_ after = false /\
      current_game_mode_ after
      = (if check_win_condition before
         then if Menu.is_endless_mode (menu_ (game w)) then STARTING else VICTORY
         else GAME_OVER) /\
      Menu.get_state (menu_ after)
      = (if Menu.is_endless_mode (menu_ (game w)) then NAME_ENTRY else MAIN_MENU)) /\
  (forall g : Game.t,
      running_ g = false -> determine_current_game_mode g = GAME_OVER).
Proof.
  split.
  - intros inp delta_time w gh before after Hskip Hgh Hd Hi Hs Hk.
    split; [apply (collision_resolution_game_over before gh); assumption|].
    destruct (until_collisions_frame inp delta_time w) as [M R].
    fold before in M, R.
    destruct (fatal_collision_sequence before gh Hgh Hd Hi Hs Hk)
      as (g0 & E & M0 & R0 & T0).
    subst after. rewrite (update_past_starting inp delta_time w Hskip).
    fold before. rewrite E.
    destruct (game_over_then_win_test inp
                (fruit_ (update_until_collisions inp delta_time w)) g0)
      as (A & B & C & D).
    unfold check_win_condition.
    rewrite A, B, C, D, T0, M0, M, R0, R. repeat split; reflexivity.
  - intros g Hr. unfold determine_current_game_mode. rewrite Hr. reflexivity.
Qed.

Lemma fatal_collision_is_game_over_witness :
  (current_game_mode_
     (game (GameTick.update start_sound_over Scenario.frame ghost_in_reach)) = GAME_OVER /\
   running_ (game (GameTick.update start_sound_over Scenario.frame ghost_in_reach))
   = true /\
   game_initialized_
     (game (GameTick.update start_sound_over Scenario.frame ghost_in_reach)) = false /\
   Menu.get_state
     (menu_ (game (GameTick.update start_sound_over Scenario.frame ghost_in_reach)))
   = NAME_ENTRY) /\
  current_game_mode_
    (game (GameTick.update start_sound_over Scenario.frame ghost_in_reach_on_last_pellet))
  = STARTING /\
  determine_current_game_mode GameScenario.constructed = GAME_OVER.
Proof.
  assert (near : forall w : GameTick.t,
             (distance_to
                (pacman_ (game (update_until_collisions start_sound_over Scenario.frame w)))
                (ghost1_ (game (update_until_collisions start_sound_over Scenario.frame w)))
              <=? GameConfig.COLLISION_DISTANCE)%float = true ->
             Ghost.current_state_
               (ghost1_ (game (update_until_collisions start_sound_over Scenario.frame w)))
             = CHASING ->
             skips_entities start_sound_over w = false ->
             running_ (game (GameTick.update start_sound_over Scenario.frame w))
             = running_ (game w) /\
             game_initialized_ (game (GameTick.update start_sound_over Scenario.frame w))
             = false /\
             current_game_mode_ (game (GameTick.update start_sound_over Scenario.frame w))
             = (if check_win_condition
                     (game (update_until_collisions start_sound_over Scenario.frame w))
                then if Menu.is_endless_mode (menu_ (game w)) then STARTING else VICTORY
                else GAME_OVER) /\
             Menu.get_state
               (menu_ (game (GameTick.update start_sound_over Scenario.frame w)))
             = (if Menu.is_endless_mode (menu_ (game w)) then NAME_ENTRY else MAIN_MENU)).
  { intros w Hd Hst Hskip.
    apply (proj1 fatal_collision_is_game_over start_sound_over Scenario.frame w
                 (ghost1_ (game (update_until_collisions start_sound_over
                                                         Scenario.frame w)))).
    - exact Hskip.
    - left. reflexivity.
    - exact Hd.
    - unfold Ghost.can_interact. rewrite Hst. reflexivity.
    - rewrite Hst. discriminate.
    - rewrite Hst. discriminate. }
  split; [|split].
  - destruct (near ghost_in_reach) as (R & I & M & N);
      [vm_compute; reflexivity|vm_compute; reflexivity|vm_compute; reflexivity|].
    split; [exact M|]. split; [exact R|]. split; [exact I|exact N].
  - destruct (near ghost_in_reach_on_last_pellet) as (_ & _ & M & _);
      [vm_compute; reflexivity|vm_compute; reflexivity|vm_compute; reflexivity|].
    exact M.
  - apply (proj2 fatal_collision_is_game_over GameScenario.constructed). reflexivity.
Defined.

End TickProperties.

(** ** Sprites *)

Section SpriteProperties.
Import SpriteSheet SpriteSpec.
Local Open Scope Z_scope.

(** X24. For sprite indices inside the palette cell (six sprites down,
    ten across), [get_sprite_pixel_coords] gives a 16 x 16 frame that lies
    inside the 176 x 186 cell of the palette, whatever the palette name;
    two different sprites of one palette are at least 17 pixels apart
    along one axis, so their frames do not overlap. *)
Theorem sprite_frames_stay_in_their_cell
        (palette_name : string) (local_col local_row local_col' local_row' : Z) :
  0 <= local_col < SPRITES_Y -> 0 <= local_row < SPRITES_X ->
  0 <= local_col' < SPRITES_Y -> 0 <= local_row' < SPRITES_X ->
  (cell_origin_x palette_name
   <= fst (get_sprite_pixel_coords palette_name local_col local_row) /\
   fst (get_sprite_pixel_coords palette_name local_col local_row) + SPRITE_W
   <= cell_origin_x palette_name + PALETTE_CELL_W /\
   cell_origin_y palette_name
   <= snd (get_sprite_pixel_coords palette_name local_col local_row) /\
   snd (get_sprite_pixel_coords palette_name local_col local_row) + SPRITE_H
   <= cell_origin_y palette_name + PALETTE_CELL_H) /\
  ((local_col, local_row) = (local_col', local_row') \/
   SPRITE_W < Z.abs (fst (get_sprite_pixel_coords palette_name local_col local_row)
                     - fst (get_sprite_pixel_coords palette_name local_col' local_row')) \/
   SPRITE_H < Z.abs (snd (get_sprite_pixel_coords palette_name local_col local_row)
                     - snd (get_sprite_pixel_coords palette_name local_col' local_row'))).
Proof.
  unfold get_sprite_pixel_coords, SPRITE_W, SPRITE_H, SPRITES_X, SPRITES_Y,
    PALETTE_CELL_W, PALETTE_CELL_H, SPRITE_OFFSET_X, SPRITE_OFFSET_Y, TILES_X, TILES_Y,
    TILE_W, TILE_H, BORDER_Y, SPRITES_X, SPRITES_Y, SPRITE_W, SPRITE_H.
  cbn [fst snd]. intros Hc Hr Hc' Hr'.
  split; [lia|].
  destruct (Z.eq_dec local_col local_col') as [->|Nc];
    destruct (Z.eq_dec local_row local_row') as [->|Nr]; [left; reflexivity| | |];
    right; lia.
Qed.

Lemma sprite_frames_stay_in_their_cell_witness :
  get_sprite_pixel_coords "PINK_BLUE_WHTE" 5 1 = (218, 168) /\
  cell_origin_x "PINK_BLUE_WHTE"
  <= fst (get_sprite_pixel_coords "PINK_BLUE_WHTE" 5 1) /\
  snd (get_sprite_pixel_coords "PINK_BLUE_WHTE" 5 1) + SPRITE_H
  <= cell_origin_y "PINK_BLUE_WHTE" + PALETTE_CELL_H.
Proof.
  split; [vm_compute; reflexivity|].
  assert (Hc : 0 <= 5 < SPRITES_Y) by (unfold SPRITES_Y; lia).
  assert (Hr : 0 <= 1 < SPRITES_X) by (unfold SPRITES_X; lia).
  assert (Hc' : 0 <= 0 < SPRITES_Y) by (unfold SPRITES_Y; lia).
  assert (Hr' : 0 <= 7 < SPRITES_X) by (unfold SPRITES_X; lia).
  destruct (sprite_frames_stay_in_their_cell "PINK_BLUE_WHTE" 5 1 0 7 Hc Hr Hc' Hr')
    as [(A & _ & _ & D) _].
  split; [exact A|exact D].
Defined.

(** X25. Every sprite the game draws is a sprite of the sheet: the draw
    calls of a ghost in any state, of the player in any state and of a
    fruit with a sprite type in 0..3 carry sprite indices inside the
    palette cell (six sprites down, ten across). *)
Theorem drawn_sprites_are_in_the_sheet :
  (forall g : Ghost.t, Forall in_sheet (Ghost.draw g)) /\
  (forall p : Pacman.t, Forall in_sheet (PacmanSprite.draw p)) /\
  (forall f : Fruit.t,
      0 <= Fruit.fruit_type_ f <= 3 -> Forall in_sheet (Fruit.draw f)).
Proof.
  unfold in_sheet, SPRITES_X, SPRITES_Y.
  split; [|split].
  - intros g. unfold Ghost.draw, Ghost.get_sprite_info, GhostSprites.SCARED_1_COL,
      GhostSprites.SCARED_1_ROW, GhostSprites.SCARED_2_COL, GhostSprites.SCARED_2_ROW.
    destruct (negb (Ghost.sheet_ g)); [constructor|].
    destruct (GhostState_eqb (Ghost.current_state_ g) SCARED), (Ghost.anim_state_ g),
      (Ghost.get_direction g), (Ghost.show_score_popup_ g);
      repeat constructor; cbn; lia.
  - intros p. unfold PacmanSprite.draw, PacmanSprite.get_sprite_info,
      PacmanSprite.anim_frame.
    destruct (negb (Pacman.sheet_ p)); [constructor|].
    destruct (Pacman.anim_state_ p), (Pacman.get_direction p);
      repeat constructor; cbn; lia.
  - intros f Ht. unfold Fruit.draw.
    destruct (negb (Fruit.sheet_ f)); [constructor|].
    destruct (Fruit.is_active_ f), (Fruit.show_score_popup_ f);
      repeat constructor; cbn; lia.
Qed.

Lemma drawn_sprites_are_in_the_sheet_witness :
  0 <= Fruit.fruit_type_ FruitSpec.first_fruit <= 3 /\
  List.length (Fruit.draw FruitSpec.first_fruit) = 1%nat /\
  Forall in_sheet (Fruit.draw FruitSpec.first_fruit).
Proof.
  assert (H : 0 <= Fruit.fruit_type_ FruitSpec.first_fruit <= 3)
    by (vm_compute; split; discriminate).
  split; [exact H|]. split; [vm_compute; reflexivity|].
  exact (proj2 (proj2 drawn_sprites_are_in_the_sheet) FruitSpec.first_fruit H).
Defined.

End SpriteProperties.

(** ** The menu *)

Section MenuProperties.
Import MenuInput MenuSpec.
Local Open Scope Z_scope.

Lemma menu_ok_handled (input_time : float) (r : MenuInput.t * list MenuCall) :
  menu_ok (fst r) -> menu_ok (fst (handled input_time r)).
Proof. intros H. exact H. Qed.

Lemma set_nth_length (n : nat) (v : Z) (letters : list Z) :
  List.length (set_nth n v letters) = List.length letters.
Proof.
  revert n. induction letters as [|c rest IH]; intros n; [destruct n; reflexivity|].
  destruct n; cbn [set_nth List.length]; [reflexivity|]. rewrite IH. reflexivity.
Qed.

Lemma set_nth_Forall (P : Z -> Prop) (n : nat) (v : Z) (letters : list Z) :
  P v -> Forall P letters -> Forall P (set_nth n v letters).
Proof.
  intros Hv. revert n. induction letters as [|c rest IH]; intros n H;
    [destruct n; constructor|].
  inversion H; subst. destruct n; cbn [set_nth]; constructor; auto.
Qed.

Lemma letter_at_range (i : Z) (letters : list Z) :
  0 <= i <= 2 -> List.length letters = 3%nat ->
  Forall (fun c => letter_A <= c <= letter_Z) letters ->
  letter_A <= letter_at i letters <= letter_Z.
Proof.
  intros Hi Hl Hf. unfold letter_at.
  rewrite Forall_forall in Hf. apply Hf. apply nth_In. lia.
Qed.

Ltac menu_ok_fields :=
  unfold menu_ok;
  cbn [fst snd handled selected_option_ selected_palette_index_ difficulty_level_
       selected_difficulty_option_ selected_level_ name_cursor_position_ name_letters_
       set_current_state set_selected_option set_should_start_game set_last_input_time
       set_selected_palette_index set_velentina_mode set_difficulty_level
       set_selected_difficulty_option set_endless_mode set_selected_level
       set_name_entry_complete set_pending_score set_name_letters
       set_name_cursor_position set_high_scores].

Lemma menu_ok_name_entry (keys : Keys) (input_time : float) (m : MenuInput.t) :
  menu_ok m -> menu_ok (fst (handle_name_entry_input keys input_time m)).
Proof.
  intros (O & P & D & DO & L & C & Len & F).
  pose proof (letter_at_range _ _ C Len F) as R.
  unfold handle_name_entry_input, add_high_score, letter_A, letter_Z,
    set_letter_at in *. cbv zeta.
  destruct (up_key keys); [|destruct (down_key keys); [|destruct (right_key keys);
    [|destruct (left_key keys); [|destruct (space_key keys || return_key keys)]]]];
    menu_ok_fields; repeat split; try assumption; try lia.
  - destruct (0 <=? name_cursor_position_ m); [|assumption].
    rewrite set_nth_length. exact Len.
  - destruct (0 <=? name_cursor_position_ m); [|assumption].
    apply set_nth_Forall; [|exact F].
    unfold letter_A, letter_Z.
    destruct (letter_at (name_cursor_position_ m) (name_letters_ m) + 1 >? 90) eqn:E; lia.
  - destruct (0 <=? name_cursor_position_ m); [|assumption].
    rewrite set_nth_length. exact Len.
  - destruct (0 <=? name_cursor_position_ m); [|assumption].
    apply set_nth_Forall; [|exact F].
    unfold letter_A, letter_Z.
    destruct (letter_at (name_cursor_position_ m) (name_letters_ m) - 1 <? 65) eqn:E; lia.
  - destruct (name_cursor_position_ m + 1 >? 2); lia.
  - destruct (name_cursor_position_ m + 1 >? 2) eqn:E; lia.
  - destruct (name_cursor_position_ m - 1 <? 0) eqn:E; lia.
  - destruct (name_cursor_position_ m - 1 <? 0); lia.
Qed.

Lemma menu_ok_handle_input (keys : Keys) (current_time input_time : float)
      (m : MenuInput.t) :
  menu_ok m -> menu_ok (fst (handle_input keys current_time input_time m)).
Proof.
  intros H. unfold handle_input.
  destruct (_ <? INPUT_COOLDOWN)%float; [exact H|].
  destruct (current_state_ m); try exact H;
    try (apply menu_ok_name_entry; exact H);
    destruct H as (O & P & D & DO & L & C & Len & F).
  - unfold handle_main_menu_input, MAIN_MENU_COUNT. cbv zeta.
    destruct (up_key keys); [|destruct (down_key keys); [|destruct (space_key keys)]].
    + menu_ok_fields; repeat split; try assumption; try lia;
        destruct (selected_option_ m - 1 <? 0) eqn:E; lia.
    + menu_ok_fields; repeat split; try assumption; try lia;
        destruct (selected_option_ m + 1 >=? 5) eqn:E; lia.
    + assert (Cases : selected_option_ m = 0 \/ selected_option_ m = 1 \/
                      selected_option_ m = 2 \/ selected_option_ m = 3 \/
                      selected_option_ m = 4) by lia.
      destruct Cases as [E|[E|[E|[E|E]]]]; rewrite E;
        menu_ok_fields; repeat split; try assumption; lia.
    + menu_ok_fields; repeat split; try assumption; lia.
  - unfold handle_level_select_input, PLAY_LEVEL_SELECT. cbv zeta.
    destruct (up_key keys); [|destruct (down_key keys); [|destruct (space_key keys);
      [|destruct (escape_key keys)]]];
      menu_ok_fields; repeat split; try assumption; try lia;
      try (destruct (selected_option_ m - 1 <? 0) eqn:E; lia);
      try (destruct (selected_option_ m + 1 >=? 5) eqn:E; lia).
  - unfold handle_difficulty_input, DIFFICULTY_COUNT, OPTION_DIFFICULTY. cbv zeta.
    destruct (up_key keys); [|destruct (down_key keys); [|destruct (space_key keys);
      [|destruct (escape_key keys)]]];
      menu_ok_fields; repeat split; try assumption; try lia;
      try (destruct (selected_difficulty_option_ m - 1 <? 0) eqn:E; lia);
      try (destruct (selected_difficulty_option_ m + 1 >=? 4) eqn:E; lia).
  - unfold handle_high_scores_input, OPTION_HIGH_SCORES.
    destruct (space_key keys || escape_key keys);
      menu_ok_fields; repeat split; try assumption; lia.
  - unfold handle_settings_input, num_palettes, OPTION_SETTINGS. cbv zeta.
    destruct (left_key keys); [|destruct (right_key keys);
      [|destruct (up_key keys || down_key keys);
        [|destruct (space_key keys || escape_key keys)]]];
      menu_ok_fields; repeat split; try assumption; try lia;
      try (destruct (selected_palette_index_ m - 1 <? 0) eqn:E; lia);
      try (destruct (selected_palette_index_ m + 1 >=? 9) eqn:E; lia).
Qed.

Lemma reachable_menu_ok (m : MenuInput.t) : reachable m -> menu_ok m.
Proof.
  induction 1 as [parsed|keys ct it m _ IH|score m _ IH|state m _ IH|m _ IH|m _ IH
                 |sheet m _ IH|sm m _ IH]; try exact IH.
  - unfold menu_ok, letter_A, letter_Z. cbn. repeat split; try lia.
    repeat (apply Forall_cons; [lia|]). apply Forall_nil.
  - apply menu_ok_handle_input. exact IH.
  - destruct IH as (O & P & D & DO & L & C & Len & F).
    unfold start_name_entry. menu_ok_fields. unfold letter_A, letter_Z.
    repeat split; try assumption; try lia.
    repeat (apply Forall_cons; [lia|]). apply Forall_nil.
Qed.

(** X26. In every menu the program can reach, whatever keys are typed,
    every index is inside its table: the selected option is 0..4, the
    palette index 0..8 (so [get_selected_pacman_palette] reads one of its
    nine names), the difficulty 0..3, the level 1..5, the name cursor
    0..2, and the name being entered is three letters from 'A' to 'Z'. *)
Theorem menu_indices_stay_in_range (m : MenuInput.t) :
  reachable m ->
  menu_ok m /\
  exists palette, get_selected_pacman_palette m = Some palette /\
                  In palette pacman_palettes.
Proof.
  intros R. pose proof (reachable_menu_ok m R) as H. split; [exact H|].
  destruct H as (_ & P & _). unfold get_selected_pacman_palette, num_palettes.
  assert (E : (0 <=? selected_palette_index_ m) && (selected_palette_index_ m <? 9) = true).
  { apply andb_true_intro. split; [apply Z.leb_le|apply Z.ltb_lt]; lia. }
  rewrite E.
  destruct (nth_error pacman_palettes (Z.to_nat (selected_palette_index_ m)))
    as [palette|] eqn:N.
  - exists palette. split; [reflexivity|]. eapply nth_error_In. exact N.
  - apply nth_error_None in N. cbn [List.length pacman_palettes] in N. lia.
Qed.

Lemma menu_indices_stay_in_range_witness :
  reachable entering_name /\
  name_letters_ entering_name = [65; 65; 65] /\
  menu_ok entering_name.
Proof.
  assert (R : reachable entering_name).
  { apply reach_start_name_entry. apply reach_new. }
  split; [exact R|]. split; [reflexivity|].
  exact (proj1 (menu_indices_stay_in_range entering_name R)).
Defined.

Lemma insert_by_score_In (e x : HighScoreEntry) (l : list HighScoreEntry) :
  In x (insert_by_score e l) <-> x = e \/ In x l.
Proof.
  induction l as [|b l IH]; cbn [insert_by_score].
  - cbn. intuition.
  - destruct (entry_score b <? entry_score e); cbn [In]; [intuition|].
    rewrite IH. intuition.
Qed.

Lemma insert_by_score_length (e : HighScoreEntry) (l : list HighScoreEntry) :
  List.length (insert_by_score e l) = S (List.length l).
Proof.
  induction l as [|b l IH]; cbn [insert_by_score]; [reflexivity|].
  destruct (entry_score b <? entry_score e); cbn [List.length]; [reflexivity|].
  rewrite IH. reflexivity.
Qed.

Lemma insert_by_score_sorted (e : HighScoreEntry) (l : list HighScoreEntry) :
  StronglySorted best_first l -> StronglySorted best_first (insert_by_score e l).
Proof.
  induction 1 as [|b l Hs IH Hb]; cbn [insert_by_score].
  - repeat constructor.
  - destruct (entry_score b <? entry_score e) eqn:E.
    + apply Z.ltb_lt in E. constructor; [constructor; assumption|].
      constructor; [unfold best_first; lia|].
      rewrite Forall_forall in *. intros x Hx. specialize (Hb x Hx).
      unfold best_first in *. lia.
    + apply Z.ltb_ge in E. constructor; [exact IH|].
      rewrite Forall_forall in *. intros x Hx.
      apply insert_by_score_In in Hx as [->|Hx]; [unfold best_first; lia|auto].
Qed.

Lemma sort_by_score_fold (l : list HighScoreEntry) : forall acc,
  StronglySorted best_first acc ->
  StronglySorted best_first
    (fold_left (fun sorted e => insert_by_score e sorted) l acc) /\
  List.length (fold_left (fun sorted e => insert_by_score e sorted) l acc)
  = (List.length l + List.length acc)%nat /\
  forall x, In x (fold_left (fun sorted e => insert_by_score e sorted) l acc)
            <-> In x l \/ In x acc.
Proof.
  induction l as [|e l IH]; intros acc Hacc; cbn [fold_left].
  - split; [exact Hacc|]. split; [reflexivity|]. cbn. intuition.
  - destruct (IH (insert_by_score e acc) (insert_by_score_sorted e acc Hacc))
      as (S1 & L1 & I1).
    split; [exact S1|]. split.
    + rewrite L1, insert_by_score_length. cbn [List.length]. lia.
    + intros x. rewrite I1, insert_by_score_In. cbn [In]. intuition.
Qed.

Lemma sort_by_score_spec (l : list HighScoreEntry) :
  StronglySorted best_first (sort_by_score l) /\
  List.length (sort_by_score l) = List.length l /\
  forall x, In x (sort_by_score l) <-> In x l.
Proof.
  destruct (sort_by_score_fold l [] (SSorted_nil _)) as (S1 & L1 & I1).
  unfold sort_by_score.
  split; [exact S1|]. split; [rewrite L1; cbn; lia|].
  intros x. rewrite I1. cbn. intuition.
Qed.

Lemma sorted_firstn (n : nat) (l : list HighScoreEntry) :
  StronglySorted best_first l ->
  StronglySorted best_first (firstn n l) /\
  forall k e, In k (firstn n l) -> In e (skipn n l) -> best_first k e.
Proof.
  intros H. rewrite <- (firstn_skipn n l) in H at 1.
  revert H. generalize (firstn n l) (skipn n l). intros xs ys.
  induction xs as [|x xs IH]; cbn [app]; intros H.
  - split; [constructor|]. intros k e [].
  - inversion H as [|? ? Hs Hx]; subst. destruct (IH Hs) as [S1 B1].
    split.
    + constructor; [exact S1|]. rewrite Forall_forall in *. intros y Hy.
      apply Hx. apply in_or_app. left. exact Hy.
    + intros k e [<-|Hk] He.
      * rewrite Forall_forall in Hx. apply Hx. apply in_or_app. right. exact He.
      * apply B1; assumption.
Qed.

(** X27. [add_high_score] leaves the table sorted by score, highest
    first, whatever it held before, with one entry more but never more
    than ten; every entry it holds is the new one or an old one, and an
    entry that is dropped has a score no higher than any entry kept.  The
    table it saves is the table it keeps. *)
Theorem add_high_score_keeps_the_best (name : string) (score : Z) (m : MenuInput.t) :
  StronglySorted best_first (high_scores_ (fst (add_high_score name score m))) /\
  List.length (high_scores_ (fst (add_high_score name score m)))
  = Nat.min (List.length (high_scores_ m) + 1) 10 /\
  (forall e, In e (high_scores_ (fst (add_high_score name score m))) ->
             e = mkEntry name score \/ In e (high_scores_ m)) /\
  (forall e k, e = mkEntry name score \/ In e (high_scores_ m) ->
               In k (high_scores_ (fst (add_high_score name score m))) ->
               In e (high_scores_ (fst (add_high_score name score m))) \/
               best_first k e) /\
  snd (add_high_score name score m)
  = [SaveHighScores (high_scores_ (fst (add_high_score name score m)))].
Proof.
  unfold add_high_score, save_high_scores. cbv zeta.
  cbn [fst snd high_scores_ set_high_scores].
  destruct (sort_by_score_spec (high_scores_ m ++ [mkEntry name score]))
    as (S1 & L1 & I1).
  rewrite length_app in L1. cbn [List.length] in L1.
  assert (Hin : forall e, In e (sort_by_score (high_scores_ m ++ [mkEntry name score]))
                          <-> e = mkEntry name score \/ In e (high_scores_ m)).
  { intros e. rewrite I1, in_app_iff. cbn [In]. intuition. }
  destruct (Z.of_nat (List.length (sort_by_score
                                     (high_scores_ m ++ [mkEntry name score]))) >? 10)
    eqn:E.
  - destruct (sorted_firstn 10 _ S1) as [S2 B2].
    split; [exact S2|]. split; [rewrite length_firstn; lia|].
    split; [intros e He; apply Hin;
            rewrite <- (firstn_skipn 10
                          (sort_by_score (high_scores_ m ++ [mkEntry name score])));
            apply in_or_app; left; exact He|].
    split; [|reflexivity].
    intros e k He Hk. apply Hin in He.
    rewrite <- (firstn_skipn 10) in He. apply in_app_or in He as [He|He].
    + left. exact He.
    + right. apply B2; assumption.
  - split; [exact S1|]. split; [lia|].
    split; [intros e He; apply Hin; exact He|].
    split; [|reflexivity].
    intros e k He _. left. apply Hin. exact He.
Qed.

Lemma nth_set_nth (n : nat) (v d : Z) (l : list Z) :
  (n < List.length l)%nat -> nth n (set_nth n v l) d = v.
Proof.
  revert n. induction l as [|c l IH]; intros n H; cbn [List.length] in H; [lia|].
  destruct n; cbn [set_nth nth]; [reflexivity|]. apply IH. lia.
Qed.

Lemma set_nth_twice (n : nat) (v w : Z) (l : list Z) :
  set_nth n v (set_nth n w l) = set_nth n v l.
Proof.
  revert n. induction l as [|c l IH]; intros n; [destruct n; reflexivity|].
  destruct n; cbn [set_nth]; [reflexivity|]. rewrite IH. reflexivity.
Qed.

Lemma set_nth_same (n : nat) (d : Z) (l : list Z) :
  (n < List.length l)%nat -> set_nth n (nth n l d) l = l.
Proof.
  revert n. induction l as [|c l IH]; intros n H; cbn [List.length] in H; [lia|].
  destruct n; cbn [set_nth nth]; [reflexivity|]. rewrite IH; [reflexivity|lia].
Qed.

Lemma letter_keys_undo (i : Z) (letters : list Z) :
  0 <= i <= 2 -> List.length letters = 3%nat ->
  letter_A <= letter_at i letters <= letter_Z ->
  set_letter_at i
    (if letter_at i
          (set_letter_at i
             (if letter_at i letters + 1 >? letter_Z then letter_A
              else letter_at i letters + 1) letters) - 1 <? letter_A
     then letter_Z
     else letter_at i
            (set_letter_at i
               (if letter_at i letters + 1 >? letter_Z then letter_A
                else letter_at i letters + 1) letters) - 1)
    (set_letter_at i
       (if letter_at i letters + 1 >? letter_Z then letter_A
        else letter_at i letters + 1) letters)
  = letters /\
  set_letter_at i
    (if letter_at i
          (set_letter_at i
             (if letter_at i letters - 1 <? letter_A then letter_Z
              else letter_at i letters - 1) letters) + 1 >? letter_Z
     then letter_A
     else letter_at i
            (set_letter_at i
               (if letter_at i letters - 1 <? letter_A then letter_Z
                else letter_at i letters - 1) letters) + 1)
    (set_letter_at i
       (if letter_at i letters - 1 <? letter_A then letter_Z
        else letter_at i letters - 1) letters)
  = letters.
Proof.
  intros Hi Hl Hr. unfold set_letter_at, letter_at in *.
  assert (E : (0 <=? i) = true) by (apply Z.leb_le; lia). rewrite E.
  assert (Hn : (Z.to_nat i < List.length letters)%nat) by lia.
  rewrite !nth_set_nth, !set_nth_twice by exact Hn.
  unfold letter_A, letter_Z in *.
  split.
  - etransitivity; [|apply (set_nth_same (Z.to_nat i) 0 letters Hn)]. f_equal.
    destruct (nth (Z.to_nat i) letters 0 + 1 >? 90) eqn:E1;
      [rewrite Z.gtb_ltb in E1; apply Z.ltb_lt in E1
      |rewrite Z.gtb_ltb in E1; apply Z.ltb_ge in E1].
    + destruct (65 - 1 <? 65) eqn:E2; [lia|apply Z.ltb_ge in E2; lia].
    + destruct (nth (Z.to_nat i) letters 0 + 1 - 1 <? 65) eqn:E2;
        [apply Z.ltb_lt in E2; lia|lia].
  - etransitivity; [|apply (set_nth_same (Z.to_nat i) 0 letters Hn)]. f_equal.
    destruct (nth (Z.to_nat i) letters 0 - 1 <? 65) eqn:E1;
      [apply Z.ltb_lt in E1|apply Z.ltb_ge in E1].
    + destruct (90 + 1 >? 90) eqn:E2; [lia|rewrite Z.gtb_ltb in E2;
                                            apply Z.ltb_ge in E2; lia].
    + destruct (nth (Z.to_nat i) letters 0 - 1 + 1 >? 90) eqn:E2;
        [rewrite Z.gtb_ltb in E2; apply Z.ltb_lt in E2; lia|lia].
Qed.

(** X28. On the name entry screen the keys undo each other: UP then DOWN
    and DOWN then UP give back the three letters, RIGHT then LEFT and
    LEFT then RIGHT give back the cursor position, and none of the four
    keys changes the pending score, the high-score table or the screen. *)
Theorem name_entry_keys_undo_each_other (input_time input_time' : float)
        (m : MenuInput.t) :
  menu_ok m ->
  name_letters_
    (fst (handle_name_entry_input press_down input_time'
            (fst (handle_name_entry_input press_up input_time m))))
  = name_letters_ m /\
  name_letters_
    (fst (handle_name_entry_input press_up input_time'
            (fst (handle_name_entry_input press_down input_time m))))
  = name_letters_ m /\
  name_cursor_position_
    (fst (handle_name_entry_input press_left input_time'
            (fst (handle_name_entry_input press_right input_time m))))
  = name_cursor_position_ m /\
  name_cursor_position_
    (fst (handle_name_entry_input press_right input_time'
            (fst (handle_name_entry_input press_left input_time m))))
  = name_cursor_position_ m /\
  (forall keys, In keys [press_up; press_down; press_left; press_right] ->
     pending_score_ (fst (handle_name_entry_input keys input_time m))
     = pending_score_ m /\
     high_scores_ (fst (handle_name_entry_input keys input_time m))
     = high_scores_ m /\
     current_state_ (fst (handle_name_entry_input keys input_time m))
     = current_state_ m).
Proof.
  intros (_ & _ & _ & _ & _ & C & Len & F).
  pose proof (letter_at_range _ _ C Len F) as R.
  destruct (letter_keys_undo _ _ C Len R) as [UD DU].
  assert (Rest : forall keys, In keys [press_up; press_down; press_left; press_right] ->
     pending_score_ (fst (handle_name_entry_input keys input_time m))
     = pending_score_ m /\
     high_scores_ (fst (handle_name_entry_input keys input_time m))
     = high_scores_ m /\
     current_state_ (fst (handle_name_entry_input keys input_time m))
     = current_state_ m).
  { intros keys [<- | [<- | [<- | [<- | []]]]]; repeat split; reflexivity. }
  unfold handle_name_entry_input, press_up, press_down, press_left, press_right, handled.
  cbn [up_key down_key left_key right_key fst snd name_letters_ name_cursor_position_
       set_name_letters set_name_cursor_position set_last_input_time].
  split; [exact UD|]. split; [exact DU|].
  split; [|split; [|exact Rest]].
  - destruct (name_cursor_position_ m + 1 >? 2) eqn:E1;
      [rewrite Z.gtb_ltb in E1; apply Z.ltb_lt in E1
      |rewrite Z.gtb_ltb in E1; apply Z.ltb_ge in E1].
    + destruct (0 - 1 <? 0) eqn:E2; [lia|apply Z.ltb_ge in E2; lia].
    + destruct (name_cursor_position_ m + 1 - 1 <? 0) eqn:E2;
        [apply Z.ltb_lt in E2; lia|lia].
  - destruct (name_cursor_position_ m - 1 <? 0) eqn:E1;
      [apply Z.ltb_lt in E1|apply Z.ltb_ge in E1].
    + destruct (2 + 1 >? 2) eqn:E2; [lia|rewrite Z.gtb_ltb in E2;
                                          apply Z.ltb_ge in E2; lia].
    + destruct (name_cursor_position_ m - 1 + 1 >? 2) eqn:E2;
        [rewrite Z.gtb_ltb in E2; apply Z.ltb_lt in E2; lia|lia].
Qed.

Lemma name_entry_keys_undo_each_other_witness :
  menu_ok entering_name /\
  name_letters_ (fst (handle_name_entry_input press_down 2.0 entering_name))
  = [90; 65; 65] /\
  name_letters_
    (fst (handle_name_entry_input press_up 3.0
            (fst (handle_name_entry_input press_down 2.0 entering_name))))
  = name_letters_ entering_name.
Proof.
  assert (H : menu_ok entering_name).
  { apply reachable_menu_ok. apply reach_start_name_entry. apply reach_new. }
  split; [exact H|]. split; [reflexivity|].
  exact (proj1 (proj2 (name_entry_keys_undo_each_other 2.0 3.0 entering_name H))).
Defined.

(** The menu model on an example: a name is entered and saved. *)
Example name_entry_saves_the_score :
  map entry_name
      (high_scores_ (fst (handle_name_entry_input press_space 4.0
                            (fst (handle_name_entry_input press_up 3.0 entering_name)))))
  = ["AMY"; "BAA"; "BOB"]%string /\
  map entry_score
      (high_scores_ (fst (handle_name_entry_input press_space 4.0
                            (fst (handle_name_entry_input press_up 3.0 entering_name)))))
  = [2000; 1230; 500].
Proof. vm_compute. split; reflexivity. Qed.

End MenuProperties.

(** ** Power pellet placement and harmless collisions *)

Section PowerPelletPlacement.
Import GameState PelletSpec.
Local Open Scope Z_scope.

Lemma add_power_pellets_fold (m : Maze.t) (positions : list (Z * Z)) : forall gs,
  power_pellets_
    (fold_left (fun gs pos => if Maze.is_empty m (fst pos) (snd pos)
                              then add_power_pellet (fst pos) (snd pos) gs else gs)
               positions gs)
  = power_pellets_ gs
    ++ map (fun pos => PowerPellet.new (fst pos) (snd pos))
           (filter (fun pos => Maze.is_empty m (fst pos) (snd pos)) positions) /\
  tokens_
    (fold_left (fun gs pos => if Maze.is_empty m (fst pos) (snd pos)
                              then add_power_pellet (fst pos) (snd pos) gs else gs)
               positions gs)
  = tokens_ gs.
Proof.
  induction positions as [|pos positions IH]; intros gs; cbn [fold_left filter].
  - rewrite app_nil_r. split; reflexivity.
  - destruct (Maze.is_empty m (fst pos) (snd pos)).
    + destruct (IH (add_power_pellet (fst pos) (snd pos) gs)) as [P T].
      rewrite P, T. cbn [add_power_pellet power_pellets_ tokens_ map].
      rewrite <- app_assoc. split; reflexivity.
    + apply IH.
Qed.

Lemma initialize_power_pellets_fields (m : Maze.t) (gs : GameState.t) :
  power_pellets_ (MazeInit.initialize_power_pellets m gs)
  = power_pellets_ gs
    ++ map (fun pos => PowerPellet.new (fst pos) (snd pos))
           (filter (fun pos => Maze.is_empty m (fst pos) (snd pos))
                   MazeInit.power_pellet_positions) /\
  tokens_ (MazeInit.initialize_power_pellets m gs) = tokens_ gs.
Proof. exact (add_power_pellets_fold m MazeInit.power_pellet_positions gs). Qed.

Lemma initialize_tokens_power_pellets (m : Maze.t) (spawn_row spawn_col : Z)
      (gs : GameState.t) :
  power_pellets_ (MazeInit.initialize_tokens m spawn_row spawn_col gs)
  = power_pellets_ gs.
Proof.
  rewrite initialize_tokens_is_filter.
  destruct (add_tokens_fields
              (filter (gets_token m spawn_row spawn_col)
                      (list_prod MazeInit.rows MazeInit.cols)) gs) as (_ & _ & _ & _ & P).
  exact P.
Qed.

Lemma open_cell_gets_token (m : Maze.t) (spawn_row spawn_col row col : Z) :
  Maze.is_empty m row col = true ->
  In (row, col) (token_cells (MazeInit.initialize_tokens m spawn_row spawn_col
                                                          GameState.new)) \/
  (Z.abs (row - spawn_row) <= 1 /\ Z.abs (col - spawn_col) <= 1).
Proof.
  intros He. rewrite initialize_tokens_is_filter.
  destruct (add_tokens_fields
              (filter (gets_token m spawn_row spawn_col)
                      (list_prod MazeInit.rows MazeInit.cols)) GameState.new)
    as (A & _).
  unfold token_cells. rewrite A. cbn [GameState.new tokens_ app]. rewrite map_map.
  cbn [Token.new Token.row_ Token.col_].
  destruct (Z.abs (row - spawn_row) <=? 1) eqn:E1;
    [destruct (Z.abs (col - spawn_col) <=? 1) eqn:E2|].
  - right. apply Z.leb_le in E1. apply Z.leb_le in E2. split; assumption.
  - left. apply in_map_iff. exists (row, col). split; [reflexivity|].
    apply filter_In. split.
    + apply is_empty_inside in He. apply in_prod_iff.
      split; [apply grid_rows_In|apply grid_cols_In]; lia.
    + unfold gets_token. cbn [fst snd]. rewrite He, E1, E2. reflexivity.
  - left. apply in_map_iff. exists (row, col). split; [reflexivity|].
    apply filter_In. split.
    + apply is_empty_inside in He. apply in_prod_iff.
      split; [apply grid_rows_In|apply grid_cols_In]; lia.
    + unfold gets_token. cbn [fst snd]. rewrite He, E1. reflexivity.
Qed.

(** X29. After the level is initialised the power pellets are exactly the
    open cells among the four corners (1,1), (1,23), (11,1), (11,23), one
    uncollected power pellet each; placing them leaves the pellets alone,
    and each power pellet shares its cell with an ordinary pellet unless
    the cell is in the 3 x 3 area around the spawn cell. *)
Theorem power_pellets_sit_on_open_corners (m : Maze.t) (spawn_row spawn_col : Z) :
  (forall row col,
      In (row, col)
         (power_cells (MazeInit.initialize_power_pellets m
                         (MazeInit.initialize_tokens m spawn_row spawn_col GameState.new)))
      <-> In (row, col) [(1, 1); (1, 23); (11, 1); (11, 23)] /\
          Maze.is_empty m row col = true) /\
  NoDup (power_cells (MazeInit.initialize_power_pellets m
                        (MazeInit.initialize_tokens m spawn_row spawn_col GameState.new))) /\
  Forall (fun p => PowerPellet.is_collected p = false)
         (power_pellets_ (MazeInit.initialize_power_pellets m
                            (MazeInit.initialize_tokens m spawn_row spawn_col
                                                        GameState.new))) /\
  tokens_ (MazeInit.initialize_power_pellets m
             (MazeInit.initialize_tokens m spawn_row spawn_col GameState.new))
  = tokens_ (MazeInit.initialize_tokens m spawn_row spawn_col GameState.new) /\
  (forall row col,
      In (row, col)
         (power_cells (MazeInit.initialize_power_pellets m
                         (MazeInit.initialize_tokens m spawn_row spawn_col GameState.new))) ->
      In (row, col)
         (token_cells (MazeInit.initialize_power_pellets m
                         (MazeInit.initialize_tokens m spawn_row spawn_col GameState.new)))
      \/ (Z.abs (row - spawn_row) <= 1 /\ Z.abs (col - spawn_col) <= 1)).
Proof.
  destruct (initialize_power_pellets_fields m
              (MazeInit.initialize_tokens m spawn_row spawn_col GameState.new))
    as [P T].
  rewrite initialize_tokens_power_pellets in P. cbn [GameState.new power_pellets_ app] in P.
  assert (Hcells :
            power_cells
              (MazeInit.initialize_power_pellets m
                 (MazeInit.initialize_tokens m spawn_row spawn_col GameState.new))
            = filter (fun pos => Maze.is_empty m (fst pos) (snd pos))
                     MazeInit.power_pellet_positions).
  { unfold power_cells. rewrite P, map_map.
    cbn [PowerPellet.new PowerPellet.row_ PowerPellet.col_].
    rewrite <- (map_id (filter _ _)) at 2. apply map_ext. intros [r c]. reflexivity. }
  assert (Hin : forall row col,
             In (row, col) (filter (fun pos => Maze.is_empty m (fst pos) (snd pos))
                                   MazeInit.power_pellet_positions)
             <-> In (row, col) [(1, 1); (1, 23); (11, 1); (11, 23)] /\
                 Maze.is_empty m row col = true).
  { intros row col. rewrite filter_In. cbn [fst snd]. reflexivity. }
  assert (TC : token_cells
                 (MazeInit.initialize_power_pellets m
                    (MazeInit.initialize_tokens m spawn_row spawn_col GameState.new))
               = token_cells
                   (MazeInit.initialize_tokens m spawn_row spawn_col GameState.new)).
  { unfold token_cells. rewrite T. reflexivity. }
  rewrite Hcells, P, T, TC.
  split; [exact Hin|].
  split; [apply NoDup_filter; repeat constructor; cbn; intuition congruence|].
  split.
  - apply Forall_forall. intros p Hp. apply in_map_iff in Hp as (pos & <- & _).
    reflexivity.
  - split; [reflexivity|].
    intros row col H. apply Hin in H as [_ He].
    apply open_cell_gets_token. exact He.
Qed.

End PowerPelletPlacement.

Section HarmlessCollisions.
Import Game TickSpec.

Lemma retreating_ghost_is_passed (p : Pacman.t) (gh : Ghost.t) :
  retreating gh ->
  collides p gh = false \/
  (Ghost.is_scared gh = false /\ negb (Ghost.is_caught gh) = false).
Proof.
  unfold retreating, collides, Ghost.can_interact, Ghost.is_scared, Ghost.is_caught.
  intros [E|E]; rewrite E; cbn [GhostState_eqb negb].
  - right. split; reflexivity.
  - left. apply andb_false_r.
Qed.

(** X30. [handle_ghost_collisions] leaves the game exactly as it is, with
    no score, no sound and no game over, when neither ghost is both in
    reach and able to interact, and also when both ghosts are retreating
    (CAUGHT or COOLDOWN), however close the player is to them. *)
Theorem harmless_ghosts_change_nothing :
  (forall g : Game.t,
      collides (pacman_ g) (ghost1_ g) = false ->
      collides (pacman_ g) (ghost2_ g) = false ->
      handle_ghost_collisions g = g) /\
  (forall g : Game.t,
      retreating (ghost1_ g) -> retreating (ghost2_ g) ->
      handle_ghost_collisions g = g).
Proof.
  split.
  - intros g C1 C2. unfold handle_ghost_collisions, handle_ghost2_collision.
    rewrite C1, C2. reflexivity.
  - intros g R1 R2. unfold handle_ghost_collisions, handle_ghost2_collision.
    destruct (retreating_ghost_is_passed (pacman_ g) _ R1) as [C1|[S1 K1]];
      destruct (retreating_ghost_is_passed (pacman_ g) _ R2) as [C2|[S2 K2]];
      rewrite ?C1, ?C2, ?S1, ?K1, ?S2, ?K2;
      repeat match goal with
             | |- context [if ?c then _ else _] => destruct c
             end; reflexivity.
Qed.

Lemma harmless_ghosts_change_nothing_witness :
  retreating (ghost1_ among_retreating_ghosts) /\
  retreating (ghost2_ among_retreating_ghosts) /\
  (distance_to (pacman_ among_retreating_ghosts) (ghost1_ among_retreating_ghosts)
   <=? GameConfig.COLLISION_DISTANCE)%float = true /\
  handle_ghost_collisions among_retreating_ghosts = among_retreating_ghosts.
Proof.
  assert (R1 : retreating (ghost1_ among_retreating_ghosts)) by (left; reflexivity).
  assert (R2 : retreating (ghost2_ among_retreating_ghosts)) by (right; reflexivity).
  split; [exact R1|]. split; [exact R2|]. split; [vm_compute; reflexivity|].
  exact (proj2 harmless_ghosts_change_nothing among_retreating_ghosts R1 R2).
Defined.

End HarmlessCollisions.

